(** * Blood bank record keeping: inventory ledger, request lifecycle, migration

    A shallow embedding of [main.go].  The SQLite database behind the
    handlers is modelled as a record of tables, each table a list of rows in
    insertion order; the SQL statements of the source become list
    operations ([find] for [QueryRow], a [map] for [UPDATE ... WHERE], an
    append for [INSERT]).

    Integer columns are [Z].  A Go [int] and an INTEGER cell of SQLite hold
    64 bits, and SQLite leaves the integer domain (for REAL) when [units + ?]
    or [units - ?] overflows; after that [Scan] into a Go [int] fails.  The
    model has no REAL cell: it is the program as long as every count stored
    in the inventory fits 64 bits ([fits], [inRange]); a statement that
    depends on it carries that bound as a hypothesis.  A numeric form
    field is the integer [strconv.Atoi] returns for it, [0] for a malformed
    one: the handlers drop the parse error.

    Strings are byte strings.  [Text.TrimSpace] and [Text.ToUpper] are
    [strings.TrimSpace] and [strings.ToUpper] on the ASCII strings
    ([Text.isASCII]); on a string with a byte above 127 the functions of Go
    also trim the Unicode white space (U+0085, U+00A0, ...) and fold the
    Unicode letters, which the functions here leave alone.  A statement
    that selects a branch or names a stored text through these functions
    carries the ASCII hypothesis.

    The store is deterministic: a statement fails only on a constraint it
    can violate (a foreign key, a missing table).  The branches a handler
    takes when the driver fails for another reason are not part of the
    model. *)

From Stdlib Require Import ZArith List String Ascii Bool Lia.
Import ListNotations.

Local Open Scope string_scope.
Local Open Scope list_scope.
Local Open Scope Z_scope.

(** ** Strings: [strings.TrimSpace], [strings.ToUpper], SQL [TRIM] and [UPPER] *)

Module Text.

(** The strings of bytes below 128.  On these [TrimSpace] and [ToUpper]
    below are the functions of Go; Go takes the same fast path on them. *)
Fixpoint isASCII (s : string) : bool :=
  match s with
  | EmptyString => true
  | String c r => (nat_of_ascii c <? 128)%nat && isASCII r
  end.

(** White space of [strings.TrimSpace] on the ASCII range:
    tab, line feed, vertical tab, form feed, carriage return, space. *)
Definition isSpace (c : ascii) : bool :=
  let n := nat_of_ascii c in
  ((9 <=? n)%nat && (n <=? 13)%nat) || (n =? 32)%nat.

(** SQL [TRIM(x)] with one argument removes spaces (0x20) only. *)
Definition isBlank (c : ascii) : bool := (nat_of_ascii c =? 32)%nat.

Fixpoint trimLeft (p : ascii -> bool) (s : string) : string :=
  match s with
  | EmptyString => EmptyString
  | String c r => if p c then trimLeft p r else s
  end.

Fixpoint trimRight (p : ascii -> bool) (s : string) : string :=
  match s with
  | EmptyString => EmptyString
  | String c r =>
      match trimRight p r with
      | EmptyString => if p c then EmptyString else String c EmptyString
      | r' => String c r'
      end
  end.

(** [strings.TrimSpace] on an ASCII string.  On other strings Go also trims
    the white space of Unicode (U+0085, U+00A0, U+2000 and the like). *)
Definition TrimSpace (s : string) : string := trimRight isSpace (trimLeft isSpace s).

Definition sqlTrim (s : string) : string := trimRight isBlank (trimLeft isBlank s).

Definition upperChar (c : ascii) : ascii :=
  let n := nat_of_ascii c in
  if ((97 <=? n)%nat && (n <=? 122)%nat)%bool then ascii_of_nat (n - 32) else c.

(** [strings.ToUpper] on an ASCII string.  On other strings Go also maps
    the lower-case letters of Unicode. *)
Fixpoint ToUpper (s : string) : string :=
  match s with
  | EmptyString => EmptyString
  | String c r => String (upperChar c) (ToUpper r)
  end.

(** [UPPER(x)] of SQLite folds the ASCII letters, as [ToUpper] does here. *)
Definition sqlUpper (s : string) : string := ToUpper s.

Definition isEmpty (s : string) : bool :=
  match s with EmptyString => true | _ => false end.

End Text.

(** [normalizeBloodType]: [strings.ToUpper(strings.TrimSpace(value))], on an
    ASCII [value]. *)
Definition normalizeBloodType (value : string) : string :=
  Text.ToUpper (Text.TrimSpace value).

(** ** Rows of the normalized schema *)

(** [blood_types(id, type UNIQUE)]. *)
Record BloodTypeRow := mkBloodType {
  bt_id : Z;
  bt_type : string
}.

(** [donors(id, name, blood_type_id, phone, city, created_at, deleted_at)]. *)
Record DonorRow := mkDonor {
  dn_id : Z;
  dn_name : string;
  dn_blood_type_id : Z;
  dn_phone : option string;
  dn_city : option string;
  dn_created_at : string;
  dn_deleted_at : option string
}.

(** [recipients(id, name, blood_type_id, phone, hospital, created_at, deleted_at)]. *)
Record RecipientRow := mkRecipient {
  rc_id : Z;
  rc_name : string;
  rc_blood_type_id : Z;
  rc_phone : option string;
  rc_hospital : option string;
  rc_created_at : string;
  rc_deleted_at : option string
}.

(** [donations(id, donor_id, units, donation_date, expiry_date, deleted_at)]. *)
Record DonationRow := mkDonation {
  da_id : Z;
  da_donor_id : Z;
  da_units : Z;
  da_donation_date : string;
  da_expiry_date : string;
  da_deleted_at : option string
}.

(** [inventory(id, blood_type_id UNIQUE, units, deleted_at)]. *)
Record InventoryRow := mkInventory {
  iv_id : Z;
  iv_blood_type_id : Z;
  iv_units : Z;
  iv_deleted_at : option string
}.

(** [requests(id, recipient_id, units, status, request_date, deleted_at)]. *)
Record RequestRow := mkRequest {
  rq_id : Z;
  rq_recipient_id : Z;
  rq_units : Z;
  rq_status : string;
  rq_request_date : string;
  rq_deleted_at : option string
}.

(** [deleted_at IS NULL]. *)
Definition isNull {A} (o : option A) : bool :=
  match o with None => true | Some _ => false end.

(** The rowid an [INTEGER PRIMARY KEY AUTOINCREMENT] column gives the next
    inserted row: one more than the largest id used so far.  No statement of
    the handlers removes a row, so the largest id ever used is the largest
    id present. *)
Definition nextID (ids : list Z) : Z := 1 + fold_right Z.max 0 ids.

(** The database as the handlers see it after [initDB]. *)
Record Store := mkStore {
  blood_types : list BloodTypeRow;
  donors : list DonorRow;
  recipients : list RecipientRow;
  donations : list DonationRow;
  inventory : list InventoryRow;
  requests : list RequestRow
}.

Definition emptyStore : Store := mkStore [] [] [] [] [] [].

Definition setBloodTypes (s : Store) (l : list BloodTypeRow) : Store :=
  mkStore l (donors s) (recipients s) (donations s) (inventory s) (requests s).
Definition setDonors (s : Store) (l : list DonorRow) : Store :=
  mkStore (blood_types s) l (recipients s) (donations s) (inventory s) (requests s).
Definition setRecipients (s : Store) (l : list RecipientRow) : Store :=
  mkStore (blood_types s) (donors s) l (donations s) (inventory s) (requests s).
Definition setDonations (s : Store) (l : list DonationRow) : Store :=
  mkStore (blood_types s) (donors s) (recipients s) l (inventory s) (requests s).
Definition setInventory (s : Store) (l : list InventoryRow) : Store :=
  mkStore (blood_types s) (donors s) (recipients s) (donations s) l (requests s).
Definition setRequests (s : Store) (l : list RequestRow) : Store :=
  mkStore (blood_types s) (donors s) (recipients s) (donations s) (inventory s) l.

(** What a Go function returns in its [error] result. *)
Inductive GoError :=
| ErrNoRows                       (* sql.ErrNoRows *)
| ErrText (msg : string)          (* fmt.Errorf(msg) *)
| ErrSQL (msg : string).          (* an error of the SQLite driver *)

(** ** The inventory ledger *)

(** [SELECT units FROM inventory WHERE blood_type_id = ? AND deleted_at IS NULL]:
    the balance the debit reads, [None] for [sql.ErrNoRows]. *)
Definition activeBalance (s : Store) (bloodTypeID : Z) : option Z :=
  option_map iv_units
    (find (fun r => (iv_blood_type_id r =? bloodTypeID) && isNull (iv_deleted_at r))
          (inventory s)).

(** The units stored in the row of a blood type, soft-deleted or not. *)
Definition storedUnits (s : Store) (bloodTypeID : Z) : option Z :=
  option_map iv_units (find (fun r => iv_blood_type_id r =? bloodTypeID) (inventory s)).

(** [UPDATE inventory SET units = units + ?, deleted_at = NULL WHERE blood_type_id = ?]. *)
Definition creditRow (bloodTypeID units : Z) (r : InventoryRow) : InventoryRow :=
  if iv_blood_type_id r =? bloodTypeID
  then mkInventory (iv_id r) (iv_blood_type_id r) (iv_units r + units) None
  else r.

(** [UPDATE inventory SET units = units - ? WHERE blood_type_id = ?]. *)
Definition debitRow (bloodTypeID units : Z) (r : InventoryRow) : InventoryRow :=
  if iv_blood_type_id r =? bloodTypeID
  then mkInventory (iv_id r) (iv_blood_type_id r) (iv_units r - units) (iv_deleted_at r)
  else r.

(** [res.RowsAffected()] of an update on [blood_type_id = ?]. *)
Definition rowsAffected (s : Store) (bloodTypeID : Z) : nat :=
  List.length (filter (fun r => iv_blood_type_id r =? bloodTypeID) (inventory s)).

(** [FOREIGN KEY(blood_type_id) REFERENCES blood_types(id)]. *)
Definition validRef (s : Store) (bloodTypeID : Z) : bool :=
  existsb (fun b => bt_id b =? bloodTypeID) (blood_types s).

(** [upsertInventoryByTypeID]: the credit.  [units + ?] is the sum of SQLite
    as long as it fits 64 bits ([int64]); past that SQLite stores a REAL,
    which the store of the model does not hold. *)
Definition upsertInventoryByTypeID (s : Store) (bloodTypeID units : Z)
  : option GoError * Store :=
  match rowsAffected s bloodTypeID with
  | O =>
      if validRef s bloodTypeID
      then (None,
            setInventory s
              (inventory s ++
               [mkInventory (nextID (map iv_id (inventory s))) bloodTypeID units None]))
      else (Some (ErrSQL "FOREIGN KEY constraint failed"), s)
  | S _ => (None, setInventory s (map (creditRow bloodTypeID units) (inventory s)))
  end.

(** [consumeInventoryByTypeID]: the debit, on a store of INTEGER cells.
    [units - ?] is the difference of SQLite as long as it fits 64 bits
    ([int64]).  The [(false, err)] the source returns when the balance it
    scans is not an integer, or when the driver fails, has no counterpart:
    the cells of the model are integers. *)
Definition consumeInventoryByTypeID (s : Store) (bloodTypeID units : Z)
  : bool * Store :=
  match activeBalance s bloodTypeID with
  | None => (false, s)
  | Some current =>
      if current <? units then (false, s)
      else (true, setInventory s (map (debitRow bloodTypeID units) (inventory s)))
  end.

(** ** The lookup registry *)

Inductive result (A : Type) :=
| Ok (a : A)
| Err (e : GoError).
Arguments Ok {A} a.
Arguments Err {A} e.

(** [SELECT id FROM blood_types WHERE type = ?]. *)
Definition lookupBloodType (s : Store) (label : string) : option Z :=
  option_map bt_id (find (fun b => String.eqb (bt_type b) label) (blood_types s)).

(** [getOrCreateBloodTypeID]. *)
Definition getOrCreateBloodTypeID (s : Store) (bloodType : string)
  : result Z * Store :=
  let bloodType := normalizeBloodType bloodType in
  if Text.isEmpty bloodType then (Err (ErrText "blood type required"), s)
  else
    match lookupBloodType s bloodType with
    | Some id => (Ok id, s)
    | None =>
        let lastID := nextID (map bt_id (blood_types s)) in
        (Ok lastID, setBloodTypes s (blood_types s ++ [mkBloodType lastID bloodType]))
    end.

(** [getDonorBloodTypeID]. *)
Definition getDonorBloodTypeID (s : Store) (donorID : Z) : result Z :=
  match find (fun d => (dn_id d =? donorID) && isNull (dn_deleted_at d)) (donors s) with
  | None => Err ErrNoRows
  | Some d =>
      if dn_blood_type_id d =? 0 then Err (ErrText "missing blood type")
      else Ok (dn_blood_type_id d)
  end.

(** [getRecipientBloodTypeID]. *)
Definition getRecipientBloodTypeID (s : Store) (recipientID : Z) : result Z :=
  match find (fun r => (rc_id r =? recipientID) && isNull (rc_deleted_at r))
             (recipients s) with
  | None => Err ErrNoRows
  | Some r =>
      if rc_blood_type_id r =? 0 then Err (ErrText "missing blood type")
      else Ok (rc_blood_type_id r)
  end.

(** The join [requests r JOIN recipients ON recipients.id = r.recipient_id]
    restricted to the request rows that pass [keep], projected on
    [(recipients.blood_type_id, r.units)]. *)
Definition requestJoin (s : Store) (keep : RequestRow -> bool) : list (Z * Z) :=
  flat_map
    (fun r =>
       if keep r
       then map (fun c => (rc_blood_type_id c, rq_units r))
                (filter (fun c => rc_id c =? rq_recipient_id r) (recipients s))
       else [])
    (requests s).

(** The join [donations d JOIN donors ON donors.id = d.donor_id] restricted
    to the donation rows that pass [keep], projected on
    [(donors.blood_type_id, d.units)]. *)
Definition donationJoin (s : Store) (keep : DonationRow -> bool) : list (Z * Z) :=
  flat_map
    (fun d =>
       if keep d
       then map (fun n => (dn_blood_type_id n, da_units d))
                (filter (fun n => dn_id n =? da_donor_id d) (donors s))
       else [])
    (donations s).

(** [getRequestBloodTypeID]. *)
Definition getRequestBloodTypeID (s : Store) (requestID : Z) : result Z :=
  match requestJoin s (fun r => (rq_id r =? requestID) && isNull (rq_deleted_at r)) with
  | [] => Err ErrNoRows
  | (id, _) :: _ =>
      if id =? 0 then Err (ErrText "missing blood type") else Ok id
  end.

(** ** The handlers *)

(** A POST with its form fields; numeric fields after [strconv.Atoi]. *)
Inductive Post :=
| PostDonors (name blood_type phone city : string)
| PostRecipients (name blood_type phone hospital : string)
| PostDonations (donor_id units : Z) (expiry_date : string)
| PostDonationsDelete (id : Z)
| PostRequests (recipient_id units : Z)
| PostDonorsUpdate (id : Z) (name blood_type phone city : string)
| PostDonorsDelete (id : Z)
| PostRecipientsUpdate (id : Z) (name blood_type phone hospital : string)
| PostRecipientsDelete (id : Z)
| PostFulfill (id : Z)
| PostRequestsUpdate (id units : Z) (status : string)
| PostRequestsDelete (id : Z).

(** What the handler answers: [http.Redirect] to the page, or the page
    rendered with a flash message ([renderWithMessage]). *)
Inductive Response :=
| Redirect
| Render (msg : string).

(** [POST /donors]. *)
Definition handleDonors (today : string) (name blood_type phone city : string)
  (s : Store) : Response * Store :=
  let name := Text.TrimSpace name in
  let bloodType := normalizeBloodType blood_type in
  let phone := Text.TrimSpace phone in
  let city := Text.TrimSpace city in
  if Text.isEmpty name || Text.isEmpty bloodType
  then (Render "Donor name and blood type are required.", s)
  else
    match getOrCreateBloodTypeID s bloodType with
    | (Err _, s1) => (Render "Could not add donor.", s1)
    | (Ok bloodTypeID, s1) =>
        (Redirect,
         setDonors s1
           (donors s1 ++
            [mkDonor (nextID (map dn_id (donors s1))) name bloodTypeID
                     (Some phone) (Some city) today None]))
    end.

(** [POST /recipients]. *)
Definition handleRecipients (today : string) (name blood_type phone hospital : string)
  (s : Store) : Response * Store :=
  let name := Text.TrimSpace name in
  let bloodType := normalizeBloodType blood_type in
  let phone := Text.TrimSpace phone in
  let hospital := Text.TrimSpace hospital in
  if Text.isEmpty name || Text.isEmpty bloodType
  then (Render "Recipient name and blood type are required.", s)
  else
    match getOrCreateBloodTypeID s bloodType with
    | (Err _, s1) => (Render "Could not add recipient.", s1)
    | (Ok bloodTypeID, s1) =>
        (Redirect,
         setRecipients s1
           (recipients s1 ++
            [mkRecipient (nextID (map rc_id (recipients s1))) name bloodTypeID
                         (Some phone) (Some hospital) today None]))
    end.

(** [POST /donations]: record a donation, then credit the ledger. *)
Definition handleDonations (today : string) (donorID units : Z) (expiry_date : string)
  (s : Store) : Response * Store :=
  let expiry := Text.TrimSpace expiry_date in
  if (donorID =? 0) || (units <=? 0) || Text.isEmpty expiry
  then (Render "Donation requires donor, units, and expiry date.", s)
  else
    match getDonorBloodTypeID s donorID with
    | Err _ => (Render "Donation requires a valid donor with blood type.", s)
    | Ok bloodTypeID =>
        let s1 :=
          setDonations s
            (donations s ++
             [mkDonation (nextID (map da_id (donations s))) donorID units today expiry None]) in
        match upsertInventoryByTypeID s1 bloodTypeID units with
        | (Some _, s2) => (Render "Donation saved, but inventory update failed.", s2)
        | (None, s2) => (Redirect, s2)
        end
    end.

(** [UPDATE donations SET deleted_at = ? WHERE id = ?]. *)
Definition retireRow (today : string) (id : Z) (d : DonationRow) : DonationRow :=
  if da_id d =? id
  then mkDonation (da_id d) (da_donor_id d) (da_units d) (da_donation_date d)
                  (da_expiry_date d) (Some today)
  else d.

(** [POST /donations/delete]: retire a donation. *)
Definition handleDonationsDelete (today : string) (id : Z) (s : Store)
  : Response * Store :=
  if id =? 0 then (Redirect, s)
  else
    match donationJoin s (fun d => (da_id d =? id) && isNull (da_deleted_at d)) with
    | [] => (Render "Donation not found.", s)
    | (bloodTypeID, units) :: _ =>
        match consumeInventoryByTypeID s bloodTypeID units with
        | (false, s1) =>
            (Render "Cannot delete donation because inventory is already used.", s1)
        | (true, s1) =>
            (Redirect, setDonations s1 (map (retireRow today id) (donations s1)))
        end
    end.

(** [POST /requests]: create a request, Pending. *)
Definition handleRequests (today : string) (recipientID units : Z) (s : Store)
  : Response * Store :=
  if (recipientID =? 0) || (units <=? 0)
  then (Render "Request requires recipient and units.", s)
  else
    match getRecipientBloodTypeID s recipientID with
    | Err _ => (Render "Request requires a valid recipient with blood type.", s)
    | Ok _ =>
        (Redirect,
         setRequests s
           (requests s ++
            [mkRequest (nextID (map rq_id (requests s))) recipientID units
                       "Pending" today None]))
    end.

(** [UPDATE donors SET name = ?, blood_type_id = ?, phone = ?, city = ? WHERE id = ?]. *)
Definition updateDonorRow (id : Z) (name : string) (bloodTypeID : Z)
  (phone city : string) (d : DonorRow) : DonorRow :=
  if dn_id d =? id
  then mkDonor (dn_id d) name bloodTypeID (Some phone) (Some city)
               (dn_created_at d) (dn_deleted_at d)
  else d.

(** [POST /donors/update]. *)
Definition handleDonorsUpdate (id : Z) (name blood_type phone city : string)
  (s : Store) : Response * Store :=
  let name := Text.TrimSpace name in
  let bloodType := normalizeBloodType blood_type in
  let phone := Text.TrimSpace phone in
  let city := Text.TrimSpace city in
  if (id =? 0) || Text.isEmpty name || Text.isEmpty bloodType
  then (Render "Donor update requires id, name, and blood type.", s)
  else
    match getOrCreateBloodTypeID s bloodType with
    | (Err _, s1) => (Render "Could not update donor.", s1)
    | (Ok bloodTypeID, s1) =>
        (Redirect,
         setDonors s1 (map (updateDonorRow id name bloodTypeID phone city) (donors s1)))
    end.

(** [UPDATE donors SET deleted_at = ? WHERE id = ?]. *)
Definition deleteDonorRow (today : string) (id : Z) (d : DonorRow) : DonorRow :=
  if dn_id d =? id
  then mkDonor (dn_id d) (dn_name d) (dn_blood_type_id d) (dn_phone d) (dn_city d)
               (dn_created_at d) (Some today)
  else d.

(** [POST /donors/delete]. *)
Definition handleDonorsDelete (today : string) (id : Z) (s : Store)
  : Response * Store :=
  if id =? 0 then (Redirect, s)
  else (Redirect, setDonors s (map (deleteDonorRow today id) (donors s))).

(** [UPDATE recipients SET name = ?, blood_type_id = ?, phone = ?, hospital = ? WHERE id = ?]. *)
Definition updateRecipientRow (id : Z) (name : string) (bloodTypeID : Z)
  (phone hospital : string) (r : RecipientRow) : RecipientRow :=
  if rc_id r =? id
  then mkRecipient (rc_id r) name bloodTypeID (Some phone) (Some hospital)
                   (rc_created_at r) (rc_deleted_at r)
  else r.

(** [POST /recipients/update]. *)
Definition handleRecipientsUpdate (id : Z) (name blood_type phone hospital : string)
  (s : Store) : Response * Store :=
  let name := Text.TrimSpace name in
  let bloodType := normalizeBloodType blood_type in
  let phone := Text.TrimSpace phone in
  let hospital := Text.TrimSpace hospital in
  if (id =? 0) || Text.isEmpty name || Text.isEmpty bloodType
  then (Render "Recipient update requires id, name, and blood type.", s)
  else
    match getOrCreateBloodTypeID s bloodType with
    | (Err _, s1) => (Render "Could not update recipient.", s1)
    | (Ok bloodTypeID, s1) =>
        (Redirect,
         setRecipients s1
           (map (updateRecipientRow id name bloodTypeID phone hospital) (recipients s1)))
    end.

(** [UPDATE recipients SET deleted_at = ? WHERE id = ?]. *)
Definition deleteRecipientRow (today : string) (id : Z) (r : RecipientRow)
  : RecipientRow :=
  if rc_id r =? id
  then mkRecipient (rc_id r) (rc_name r) (rc_blood_type_id r) (rc_phone r)
                   (rc_hospital r) (rc_created_at r) (Some today)
  else r.

(** [POST /recipients/delete]. *)
Definition handleRecipientsDelete (today : string) (id : Z) (s : Store)
  : Response * Store :=
  if id =? 0 then (Redirect, s)
  else (Redirect, setRecipients s (map (deleteRecipientRow today id) (recipients s))).

(** [UPDATE requests SET status = ? WHERE id = ?]. *)
Definition setStatusRow (id : Z) (status : string) (r : RequestRow) : RequestRow :=
  if rq_id r =? id
  then mkRequest (rq_id r) (rq_recipient_id r) (rq_units r) status
                 (rq_request_date r) (rq_deleted_at r)
  else r.

(** [POST /fulfill]. *)
Definition handleFulfill (id : Z) (s : Store) : Response * Store :=
  if id =? 0 then (Redirect, s)
  else
    match requestJoin s (fun r => rq_id r =? id) with
    | [] => (Render "Request not found.", s)
    | (bloodTypeID, units) :: _ =>
        match consumeInventoryByTypeID s bloodTypeID units with
        | (false, s1) => (Render "Not enough inventory to fulfill request.", s1)
        | (true, s1) =>
            (Redirect, setRequests s1 (map (setStatusRow id "Fulfilled") (requests s1)))
        end
    end.

(** [UPDATE requests SET units = ?, status = ? WHERE id = ?]. *)
Definition amendRow (id units : Z) (status : string) (r : RequestRow) : RequestRow :=
  if rq_id r =? id
  then mkRequest (rq_id r) (rq_recipient_id r) units status
                 (rq_request_date r) (rq_deleted_at r)
  else r.

(** [SELECT units, status FROM requests WHERE id = ? AND deleted_at IS NULL]. *)
Definition activeRequest (s : Store) (id : Z) : option RequestRow :=
  find (fun r => (rq_id r =? id) && isNull (rq_deleted_at r)) (requests s).

(** [POST /requests/update]: amend a request. *)
Definition handleRequestsUpdate (id units : Z) (status : string) (s : Store)
  : Response * Store :=
  let status := Text.TrimSpace status in
  if (id =? 0) || (units <=? 0) || Text.isEmpty status
  then (Render "Request update requires id, units, and status.", s)
  else
    match activeRequest s id with
    | None => (Render "Request not found.", s)
    | Some old =>
        let oldUnits := rq_units old in
        let oldStatus := rq_status old in
        if String.eqb oldStatus "Fulfilled" &&
           (negb (String.eqb status "Fulfilled") || negb (oldUnits =? units))
        then (Render "Cannot modify a fulfilled request.", s)
        else
          let write (s1 : Store) :=
            (Redirect, setRequests s1 (map (amendRow id units status) (requests s1))) in
          if negb (String.eqb oldStatus "Fulfilled") && String.eqb status "Fulfilled"
          then
            match getRequestBloodTypeID s id with
            | Err _ => (Render "Request is missing blood type.", s)
            | Ok bloodTypeID =>
                match consumeInventoryByTypeID s bloodTypeID units with
                | (false, s1) => (Render "Not enough inventory to fulfill request.", s1)
                | (true, s1) => write s1
                end
            end
          else write s
    end.

(** [UPDATE requests SET status = 'Cancelled', deleted_at = ? WHERE id = ?]. *)
Definition cancelRow (today : string) (id : Z) (r : RequestRow) : RequestRow :=
  if rq_id r =? id
  then mkRequest (rq_id r) (rq_recipient_id r) (rq_units r) "Cancelled"
                 (rq_request_date r) (Some today)
  else r.

(** [POST /requests/delete]: cancel a request. *)
Definition handleRequestsDelete (today : string) (id : Z) (s : Store)
  : Response * Store :=
  if id =? 0 then (Redirect, s)
  else
    match activeRequest s id with
    | None => (Render "Request not found.", s)
    | Some r =>
        if String.eqb (rq_status r) "Fulfilled"
        then (Render "Cannot delete a fulfilled request.", s)
        else (Redirect, setRequests s (map (cancelRow today id) (requests s)))
    end.

(** The routes of the mux; [today] is [time.Now().Format("2006-01-02")]. *)
Definition serve (today : string) (p : Post) (s : Store) : Response * Store :=
  match p with
  | PostDonors n b ph c => handleDonors today n b ph c s
  | PostRecipients n b ph h => handleRecipients today n b ph h s
  | PostDonations d u e => handleDonations today d u e s
  | PostDonationsDelete id => handleDonationsDelete today id s
  | PostRequests r u => handleRequests today r u s
  | PostDonorsUpdate id n b ph c => handleDonorsUpdate id n b ph c s
  | PostDonorsDelete id => handleDonorsDelete today id s
  | PostRecipientsUpdate id n b ph h => handleRecipientsUpdate id n b ph h s
  | PostRecipientsDelete id => handleRecipientsDelete today id s
  | PostFulfill id => handleFulfill id s
  | PostRequestsUpdate id u st => handleRequestsUpdate id u st s
  | PostRequestsDelete id => handleRequestsDelete today id s
  end.

(** A session: the posts served one after the other, each on its day. *)
Fixpoint run (posts : list (string * Post)) (s : Store) : Store :=
  match posts with
  | [] => s
  | (today, p) :: rest => run rest (snd (serve today p s))
  end.

(** ** The range of the model

    A Go [int] and an INTEGER cell hold 64 bits. *)

Definition maxInt64 : Z := 9223372036854775807.
Definition minInt64 : Z := -9223372036854775808.

Definition int64 (z : Z) : bool := (minInt64 <=? z) && (z <=? maxInt64).

(** Every count of the inventory is one an INTEGER cell holds.  A store
    that does not fit stands for no database: where the model computes a
    count past 64 bits, SQLite has stored a REAL. *)
Definition fits (s : Store) : bool :=
  forallb (fun r => int64 (iv_units r)) (inventory s).

(** The texts of the form are ASCII. *)
Definition asciiPost (p : Post) : bool :=
  match p with
  | PostDonors n b ph c =>
      Text.isASCII n && Text.isASCII b && Text.isASCII ph && Text.isASCII c
  | PostRecipients n b ph h =>
      Text.isASCII n && Text.isASCII b && Text.isASCII ph && Text.isASCII h
  | PostDonations _ _ e => Text.isASCII e
  | PostDonorsUpdate _ n b ph c =>
      Text.isASCII n && Text.isASCII b && Text.isASCII ph && Text.isASCII c
  | PostRecipientsUpdate _ n b ph h =>
      Text.isASCII n && Text.isASCII b && Text.isASCII ph && Text.isASCII h
  | PostRequestsUpdate _ _ st => Text.isASCII st
  | PostDonationsDelete _ | PostRequests _ _ | PostDonorsDelete _
  | PostRecipientsDelete _ | PostFulfill _ | PostRequestsDelete _ => true
  end.

Definition asciiPosts (posts : list (string * Post)) : bool :=
  forallb (fun tp => asciiPost (snd tp)) posts.

(** The numbers of the form are Go [int]s, as [strconv.Atoi] returns them. *)
Definition intPost (p : Post) : bool :=
  match p with
  | PostDonors _ _ _ _ | PostRecipients _ _ _ _ => true
  | PostDonations d u _ => int64 d && int64 u
  | PostRequests r u => int64 r && int64 u
  | PostRequestsUpdate id u _ => int64 id && int64 u
  | PostDonationsDelete id | PostDonorsUpdate id _ _ _ _ | PostDonorsDelete id
  | PostRecipientsUpdate id _ _ _ _ | PostRecipientsDelete id | PostFulfill id
  | PostRequestsDelete id => int64 id
  end.

(** The sessions the model follows step by step: each form is ASCII with Go
    [int]s, and the store each post leaves fits.  A handler does at most
    one [units + ?] or [units - ?], on the inventory row of one blood type,
    so the store it leaves fits exactly when that result stayed an
    integer. *)
Fixpoint inRange (posts : list (string * Post)) (s : Store) : bool :=
  match posts with
  | [] => true
  | (today, p) :: rest =>
      asciiPost p && intPost p && fits (snd (serve today p s)) &&
      inRange rest (snd (serve today p s))
  end.

(** [POST /fulfill] checks no status (the slip of the ledger invariant).
    The posts that stay clear of it: a fulfil is aimed at a request that is
    Pending, or at none. *)
Definition fulfilsPending (s : Store) (p : Post) : bool :=
  match p with
  | PostFulfill id =>
      match find (fun r => rq_id r =? id) (requests s) with
      | Some r => String.eqb (rq_status r) "Pending"
      | None => true
      end
  | _ => true
  end.

(** The error kinds of the design, and the kind each flash message reports. *)
Inductive ErrorKind :=
| InvalidArgument
| NotFound
| InsufficientInventory
| ImmutableFulfilledRequest
| StorageFailure.

Definition invalidArgumentMessages : list string :=
  [ "Donor name and blood type are required.";
    "Recipient name and blood type are required.";
    "Donation requires donor, units, and expiry date.";
    "Request requires recipient and units.";
    "Donor update requires id, name, and blood type.";
    "Recipient update requires id, name, and blood type.";
    "Request update requires id, units, and status." ].

Definition notFoundMessages : list string :=
  [ "Donation requires a valid donor with blood type.";
    "Donation not found.";
    "Request requires a valid recipient with blood type.";
    "Request not found.";
    "Request is missing blood type." ].

Definition insufficientInventoryMessages : list string :=
  [ "Not enough inventory to fulfill request.";
    "Cannot delete donation because inventory is already used." ].

Definition immutableFulfilledMessages : list string :=
  [ "Cannot modify a fulfilled request.";
    "Cannot delete a fulfilled request." ].

Definition mem (msg : string) (l : list string) : bool := existsb (String.eqb msg) l.

Definition errorKind (msg : string) : ErrorKind :=
  if mem msg invalidArgumentMessages then InvalidArgument
  else if mem msg notFoundMessages then NotFound
  else if mem msg insufficientInventoryMessages then InsufficientInventory
  else if mem msg immutableFulfilledMessages then ImmutableFulfilledRequest
  else StorageFailure.

(** A response that reports a business-rule rejection. *)
Definition isRejection (r : Response) : bool :=
  match r with
  | Redirect => false
  | Render msg =>
      match errorKind msg with
      | StorageFailure => false
      | _ => true
      end
  end.

(** ** The migration to the normalized schema

    [migrateTo3NF] works on a database that may still have the legacy
    schema, in which the entity tables carry the blood type as text.  A
    table of the database is absent, in its legacy shape or in its
    normalized shape; the [_new] tables exist only while a migration is
    under way (or after one was interrupted). *)

Module Migration.

(** Legacy [donors(id, name, blood_type, phone, city, created_at, deleted_at)]. *)
Record LegacyDonorRow := mkLegacyDonor {
  ldn_id : Z;
  ldn_name : string;
  ldn_blood_type : option string;
  ldn_phone : option string;
  ldn_city : option string;
  ldn_created_at : string;
  ldn_deleted_at : option string
}.

(** Legacy [recipients(id, name, blood_type, phone, hospital, created_at, deleted_at)]. *)
Record LegacyRecipientRow := mkLegacyRecipient {
  lrc_id : Z;
  lrc_name : string;
  lrc_blood_type : option string;
  lrc_phone : option string;
  lrc_hospital : option string;
  lrc_created_at : string;
  lrc_deleted_at : option string
}.

(** Legacy [donations(id, donor_id, blood_type, units, donation_date, expiry_date, deleted_at)]. *)
Record LegacyDonationRow := mkLegacyDonation {
  lda_id : Z;
  lda_donor_id : Z;
  lda_blood_type : option string;
  lda_units : Z;
  lda_donation_date : string;
  lda_expiry_date : string;
  lda_deleted_at : option string
}.

(** Legacy [inventory(id, blood_type UNIQUE, units, deleted_at)]. *)
Record LegacyInventoryRow := mkLegacyInventory {
  liv_id : Z;
  liv_blood_type : option string;
  liv_units : Z;
  liv_deleted_at : option string
}.

(** Legacy [requests(id, recipient_id, blood_type, units, status, request_date, deleted_at)]. *)
Record LegacyRequestRow := mkLegacyRequest {
  lrq_id : Z;
  lrq_recipient_id : Z;
  lrq_blood_type : option string;
  lrq_units : Z;
  lrq_status : string;
  lrq_request_date : string;
  lrq_deleted_at : option string
}.

Inductive DonorsTable :=
| LegacyDonors (rows : list LegacyDonorRow)
| NormalDonors (rows : list DonorRow).

Inductive RecipientsTable :=
| LegacyRecipients (rows : list LegacyRecipientRow)
| NormalRecipients (rows : list RecipientRow).

Inductive DonationsTable :=
| LegacyDonations (rows : list LegacyDonationRow)
| NormalDonations (rows : list DonationRow).

Inductive RequestsTable :=
| LegacyRequests (rows : list LegacyRequestRow)
| NormalRequests (rows : list RequestRow).

Inductive InventoryTable :=
| LegacyInventory (rows : list LegacyInventoryRow)
| NormalInventory (rows : list InventoryRow).

Record Database := mkDatabase {
  foreign_keys : bool;
  tbl_blood_types : option (list BloodTypeRow);
  tbl_donors : option DonorsTable;
  tbl_recipients : option RecipientsTable;
  tbl_donations : option DonationsTable;
  tbl_requests : option RequestsTable;
  tbl_inventory : option InventoryTable;
  tbl_donors_new : option (list DonorRow);
  tbl_recipients_new : option (list RecipientRow);
  tbl_donations_new : option (list DonationRow);
  tbl_requests_new : option (list RequestRow);
  tbl_inventory_new : option (list InventoryRow)
}.

Definition withForeignKeys (d : Database) (b : bool) : Database :=
  mkDatabase b (tbl_blood_types d) (tbl_donors d) (tbl_recipients d)
    (tbl_donations d) (tbl_requests d) (tbl_inventory d) (tbl_donors_new d)
    (tbl_recipients_new d) (tbl_donations_new d) (tbl_requests_new d)
    (tbl_inventory_new d).
Definition withBloodTypes (d : Database) (t : option (list BloodTypeRow)) : Database :=
  mkDatabase (foreign_keys d) t (tbl_donors d) (tbl_recipients d)
    (tbl_donations d) (tbl_requests d) (tbl_inventory d) (tbl_donors_new d)
    (tbl_recipients_new d) (tbl_donations_new d) (tbl_requests_new d)
    (tbl_inventory_new d).
Definition withDonors (d : Database) (t : option DonorsTable) : Database :=
  mkDatabase (foreign_keys d) (tbl_blood_types d) t (tbl_recipients d)
    (tbl_donations d) (tbl_requests d) (tbl_inventory d) (tbl_donors_new d)
    (tbl_recipients_new d) (tbl_donations_new d) (tbl_requests_new d)
    (tbl_inventory_new d).
Definition withRecipients (d : Database) (t : option RecipientsTable) : Database :=
  mkDatabase (foreign_keys d) (tbl_blood_types d) (tbl_donors d) t
    (tbl_donations d) (tbl_requests d) (tbl_inventory d) (tbl_donors_new d)
    (tbl_recipients_new d) (tbl_donations_new d) (tbl_requests_new d)
    (tbl_inventory_new d).
Definition withDonations (d : Database) (t : option DonationsTable) : Database :=
  mkDatabase (foreign_keys d) (tbl_blood_types d) (tbl_donors d) (tbl_recipients d)
    t (tbl_requests d) (tbl_inventory d) (tbl_donors_new d)
    (tbl_recipients_new d) (tbl_donations_new d) (tbl_requests_new d)
    (tbl_inventory_new d).
Definition withRequests (d : Database) (t : option RequestsTable) : Database :=
  mkDatabase (foreign_keys d) (tbl_blood_types d) (tbl_donors d) (tbl_recipients d)
    (tbl_donations d) t (tbl_inventory d) (tbl_donors_new d)
    (tbl_recipients_new d) (tbl_donations_new d) (tbl_requests_new d)
    (tbl_inventory_new d).
Definition withInventory (d : Database) (t : option InventoryTable) : Database :=
  mkDatabase (foreign_keys d) (tbl_blood_types d) (tbl_donors d) (tbl_recipients d)
    (tbl_donations d) (tbl_requests d) t (tbl_donors_new d)
    (tbl_recipients_new d) (tbl_donations_new d) (tbl_requests_new d)
    (tbl_inventory_new d).
Definition withDonorsNew (d : Database) (t : option (list DonorRow)) : Database :=
  mkDatabase (foreign_keys d) (tbl_blood_types d) (tbl_donors d) (tbl_recipients d)
    (tbl_donations d) (tbl_requests d) (tbl_inventory d) t
    (tbl_recipients_new d) (tbl_donations_new d) (tbl_requests_new d)
    (tbl_inventory_new d).
Definition withRecipientsNew (d : Database) (t : option (list RecipientRow)) : Database :=
  mkDatabase (foreign_keys d) (tbl_blood_types d) (tbl_donors d) (tbl_recipients d)
    (tbl_donations d) (tbl_requests d) (tbl_inventory d) (tbl_donors_new d)
    t (tbl_donations_new d) (tbl_requests_new d) (tbl_inventory_new d).
Definition withDonationsNew (d : Database) (t : option (list DonationRow)) : Database :=
  mkDatabase (foreign_keys d) (tbl_blood_types d) (tbl_donors d) (tbl_recipients d)
    (tbl_donations d) (tbl_requests d) (tbl_inventory d) (tbl_donors_new d)
    (tbl_recipients_new d) t (tbl_requests_new d) (tbl_inventory_new d).
Definition withRequestsNew (d : Database) (t : option (list RequestRow)) : Database :=
  mkDatabase (foreign_keys d) (tbl_blood_types d) (tbl_donors d) (tbl_recipients d)
    (tbl_donations d) (tbl_requests d) (tbl_inventory d) (tbl_donors_new d)
    (tbl_recipients_new d) (tbl_donations_new d) t (tbl_inventory_new d).
Definition withInventoryNew (d : Database) (t : option (list InventoryRow)) : Database :=
  mkDatabase (foreign_keys d) (tbl_blood_types d) (tbl_donors d) (tbl_recipients d)
    (tbl_donations d) (tbl_requests d) (tbl_inventory d) (tbl_donors_new d)
    (tbl_recipients_new d) (tbl_donations_new d) (tbl_requests_new d) t.

(** *** [PRAGMA table_info] and [tableHasColumn] *)

Definition legacyDonorColumns : list string :=
  ["id"; "name"; "blood_type"; "phone"; "city"; "created_at"; "deleted_at"].
Definition donorColumns : list string :=
  ["id"; "name"; "blood_type_id"; "phone"; "city"; "created_at"; "deleted_at"].
Definition legacyRecipientColumns : list string :=
  ["id"; "name"; "blood_type"; "phone"; "hospital"; "created_at"; "deleted_at"].
Definition recipientColumns : list string :=
  ["id"; "name"; "blood_type_id"; "phone"; "hospital"; "created_at"; "deleted_at"].
Definition legacyDonationColumns : list string :=
  ["id"; "donor_id"; "blood_type"; "units"; "donation_date"; "expiry_date"; "deleted_at"].
Definition donationColumns : list string :=
  ["id"; "donor_id"; "units"; "donation_date"; "expiry_date"; "deleted_at"].
Definition legacyRequestColumns : list string :=
  ["id"; "recipient_id"; "blood_type"; "units"; "status"; "request_date"; "deleted_at"].
Definition requestColumns : list string :=
  ["id"; "recipient_id"; "units"; "status"; "request_date"; "deleted_at"].
Definition legacyInventoryColumns : list string :=
  ["id"; "blood_type"; "units"; "deleted_at"].
Definition inventoryColumns : list string :=
  ["id"; "blood_type_id"; "units"; "deleted_at"].

Definition ifPresent {A} (t : option A) (cols : list string) : list string :=
  match t with Some _ => cols | None => [] end.

(** The column names [PRAGMA table_info(table)] lists; no row for a table
    that does not exist. *)
Definition tableInfo (d : Database) (table : string) : list string :=
  if String.eqb table "blood_types" then ifPresent (tbl_blood_types d) ["id"; "type"]
  else if String.eqb table "donors" then
    match tbl_donors d with
    | Some (LegacyDonors _) => legacyDonorColumns
    | Some (NormalDonors _) => donorColumns
    | None => []
    end
  else if String.eqb table "recipients" then
    match tbl_recipients d with
    | Some (LegacyRecipients _) => legacyRecipientColumns
    | Some (NormalRecipients _) => recipientColumns
    | None => []
    end
  else if String.eqb table "donations" then
    match tbl_donations d with
    | Some (LegacyDonations _) => legacyDonationColumns
    | Some (NormalDonations _) => donationColumns
    | None => []
    end
  else if String.eqb table "requests" then
    match tbl_requests d with
    | Some (LegacyRequests _) => legacyRequestColumns
    | Some (NormalRequests _) => requestColumns
    | None => []
    end
  else if String.eqb table "inventory" then
    match tbl_inventory d with
    | Some (LegacyInventory _) => legacyInventoryColumns
    | Some (NormalInventory _) => inventoryColumns
    | None => []
    end
  else if String.eqb table "donors_new" then ifPresent (tbl_donors_new d) donorColumns
  else if String.eqb table "recipients_new" then
    ifPresent (tbl_recipients_new d) recipientColumns
  else if String.eqb table "donations_new" then
    ifPresent (tbl_donations_new d) donationColumns
  else if String.eqb table "requests_new" then
    ifPresent (tbl_requests_new d) requestColumns
  else if String.eqb table "inventory_new" then
    ifPresent (tbl_inventory_new d) inventoryColumns
  else [].

(** [tableHasColumn]: the loop over the rows of [PRAGMA table_info]. *)
Fixpoint scanColumns (names : list string) (column : string) : bool :=
  match names with
  | [] => false
  | name :: rest => if String.eqb name column then true else scanColumns rest column
  end.

Definition tableHasColumn (d : Database) (table column : string) : bool :=
  scanColumns (tableInfo d table) column.

(** *** The statements of [migrateTo3NF]

    A statement either fails, and leaves the database as it was, or
    yields the database after it. *)
Definition Statement := Database -> result Database.

(** [PRAGMA foreign_keys = OFF] and [= ON]. *)
Definition pragmaForeignKeys (b : bool) : Statement :=
  fun d => Ok (withForeignKeys d b).

(** [CREATE TABLE IF NOT EXISTS blood_types (...)]. *)
Definition createBloodTypes : Statement :=
  fun d =>
    match tbl_blood_types d with
    | Some _ => Ok d
    | None => Ok (withBloodTypes d (Some []))
    end.

(** [UPPER(TRIM(blood_type))]. *)
Definition sqlLabel (blood_type : string) : string :=
  Text.sqlUpper (Text.sqlTrim blood_type).

(** [SELECT DISTINCT UPPER(TRIM(blood_type)) FROM t
     WHERE blood_type IS NOT NULL AND TRIM(blood_type) <> ''],
    on the [blood_type] cells of [t]. *)
Fixpoint selectLabels (cells : list (option string)) : list string :=
  match cells with
  | [] => []
  | None :: rest => selectLabels rest
  | Some blood_type :: rest =>
      if Text.isEmpty (Text.sqlTrim blood_type) then selectLabels rest
      else sqlLabel blood_type :: selectLabels rest
  end.

(** The labels selected, each once.  The order SQLite yields them in is not
    the order here ([nodup] keeps the last occurrence of a label); it shows
    only in the ids the new labels get, which no statement names. *)
Definition distinctLabels (cells : list (option string)) : list string :=
  nodup string_dec (selectLabels cells).

Definition hasLabel (types : list BloodTypeRow) (label : string) : bool :=
  existsb (fun b => String.eqb (bt_type b) label) types.

(** One row of [INSERT OR IGNORE INTO blood_types (type)]: skipped when the
    label is there already ([type] is [UNIQUE]).  A new label gets an id
    that is not in the table.  Which one is not modelled: the id here is the
    next after the largest, where [AUTOINCREMENT] gives the next of its
    sequence, which a skipped row advances too.  The statements about the
    migration speak of the reference a label has in the registry and name no
    id. *)
Definition insertOrIgnore (types : list BloodTypeRow) (label : string)
  : list BloodTypeRow :=
  if hasLabel types label then types
  else types ++ [mkBloodType (nextID (map bt_id types)) label].

Definition insertLabels (labels : list string) (types : list BloodTypeRow)
  : list BloodTypeRow :=
  fold_left insertOrIgnore labels types.

(** The [blood_type] cells of a legacy table; an error when the table is
    missing or has no such column. *)
Inductive Source := FromDonors | FromRecipients | FromInventory.

Definition bloodTypeCells (src : Source) (d : Database)
  : result (list (option string)) :=
  match src with
  | FromDonors =>
      match tbl_donors d with
      | Some (LegacyDonors rows) => Ok (map ldn_blood_type rows)
      | Some (NormalDonors _) => Err (ErrSQL "no such column: blood_type")
      | None => Err (ErrSQL "no such table: donors")
      end
  | FromRecipients =>
      match tbl_recipients d with
      | Some (LegacyRecipients rows) => Ok (map lrc_blood_type rows)
      | Some (NormalRecipients _) => Err (ErrSQL "no such column: blood_type")
      | None => Err (ErrSQL "no such table: recipients")
      end
  | FromInventory =>
      match tbl_inventory d with
      | Some (LegacyInventory rows) => Ok (map liv_blood_type rows)
      | Some (NormalInventory _) => Err (ErrSQL "no such column: blood_type")
      | None => Err (ErrSQL "no such table: inventory")
      end
  end.

(** [INSERT OR IGNORE INTO blood_types (type) SELECT DISTINCT ... FROM src ...]. *)
Definition insertLabelsFrom (src : Source) : Statement :=
  fun d =>
    match tbl_blood_types d with
    | None => Err (ErrSQL "no such table: blood_types")
    | Some types =>
        match bloodTypeCells src d with
        | Err e => Err e
        | Ok cells =>
            Ok (withBloodTypes d (Some (insertLabels (distinctLabels cells) types)))
        end
    end.

(** [INSERT OR IGNORE INTO blood_types (type) VALUES ('UNKNOWN')]. *)
Definition insertUnknown : Statement :=
  fun d =>
    match tbl_blood_types d with
    | None => Err (ErrSQL "no such table: blood_types")
    | Some types => Ok (withBloodTypes d (Some (insertOrIgnore types "UNKNOWN")))
    end.

(** [CREATE TABLE donors_new (...)] and the four like it: an error when the
    table exists. *)
Definition createDonorsNew : Statement :=
  fun d =>
    match tbl_donors_new d with
    | Some _ => Err (ErrSQL "table donors_new already exists")
    | None => Ok (withDonorsNew d (Some []))
    end.
Definition createRecipientsNew : Statement :=
  fun d =>
    match tbl_recipients_new d with
    | Some _ => Err (ErrSQL "table recipients_new already exists")
    | None => Ok (withRecipientsNew d (Some []))
    end.
Definition createDonationsNew : Statement :=
  fun d =>
    match tbl_donations_new d with
    | Some _ => Err (ErrSQL "table donations_new already exists")
    | None => Ok (withDonationsNew d (Some []))
    end.
Definition createRequestsNew : Statement :=
  fun d =>
    match tbl_requests_new d with
    | Some _ => Err (ErrSQL "table requests_new already exists")
    | None => Ok (withRequestsNew d (Some []))
    end.
Definition createInventoryNew : Statement :=
  fun d =>
    match tbl_inventory_new d with
    | Some _ => Err (ErrSQL "table inventory_new already exists")
    | None => Ok (withInventoryNew d (Some []))
    end.

(** [(SELECT id FROM blood_types WHERE type = x)], [NULL] when no row
    matches and when [x] is [NULL]. *)
Definition typeID (types : list BloodTypeRow) (label : option string) : option Z :=
  match label with
  | None => None
  | Some l => option_map bt_id (find (fun b => String.eqb (bt_type b) l) types)
  end.

(** [COALESCE((SELECT id ... WHERE type = UPPER(TRIM(blood_type))),
              (SELECT id ... WHERE type = 'UNKNOWN'))]. *)
Definition resolveLabel (types : list BloodTypeRow) (blood_type : option string)
  : option Z :=
  match typeID types (option_map sqlLabel blood_type) with
  | Some id => Some id
  | None => typeID types (Some "UNKNOWN")
  end.

(** Every element of the list present, in order; [None] as soon as one is
    missing (a [NOT NULL] column would receive [NULL]). *)
Fixpoint allPresent {A} (l : list (option A)) : option (list A) :=
  match l with
  | [] => Some []
  | None :: _ => None
  | Some a :: rest => option_map (cons a) (allPresent rest)
  end.

(** No value twice: the check of a [PRIMARY KEY] or [UNIQUE] column. *)
Fixpoint distinct (l : list Z) : bool :=
  match l with
  | [] => true
  | x :: rest => negb (existsb (Z.eqb x) rest) && distinct rest
  end.

(** [INSERT INTO donors_new (...) SELECT id, name, COALESCE(...), phone,
    city, created_at, deleted_at FROM donors]. *)
Definition migrateDonor (types : list BloodTypeRow) (r : LegacyDonorRow)
  : option DonorRow :=
  option_map
    (fun id => mkDonor (ldn_id r) (ldn_name r) id (ldn_phone r) (ldn_city r)
                       (ldn_created_at r) (ldn_deleted_at r))
    (resolveLabel types (ldn_blood_type r)).

Definition copyDonors : Statement :=
  fun d =>
    match tbl_donors_new d, tbl_blood_types d, tbl_donors d with
    | None, _, _ => Err (ErrSQL "no such table: donors_new")
    | _, None, _ => Err (ErrSQL "no such table: blood_types")
    | _, _, None => Err (ErrSQL "no such table: donors")
    | _, _, Some (NormalDonors _) => Err (ErrSQL "no such column: blood_type")
    | Some present, Some types, Some (LegacyDonors rows) =>
        match allPresent (map (migrateDonor types) rows) with
        | None => Err (ErrSQL "NOT NULL constraint failed: donors_new.blood_type_id")
        | Some copied =>
            if distinct (map dn_id (present ++ copied))
            then Ok (withDonorsNew d (Some (present ++ copied)))
            else Err (ErrSQL "UNIQUE constraint failed: donors_new.id")
        end
    end.

(** [INSERT INTO recipients_new (...) SELECT ... FROM recipients]. *)
Definition migrateRecipient (types : list BloodTypeRow) (r : LegacyRecipientRow)
  : option RecipientRow :=
  option_map
    (fun id => mkRecipient (lrc_id r) (lrc_name r) id (lrc_phone r) (lrc_hospital r)
                           (lrc_created_at r) (lrc_deleted_at r))
    (resolveLabel types (lrc_blood_type r)).

Definition copyRecipients : Statement :=
  fun d =>
    match tbl_recipients_new d, tbl_blood_types d, tbl_recipients d with
    | None, _, _ => Err (ErrSQL "no such table: recipients_new")
    | _, None, _ => Err (ErrSQL "no such table: blood_types")
    | _, _, None => Err (ErrSQL "no such table: recipients")
    | _, _, Some (NormalRecipients _) => Err (ErrSQL "no such column: blood_type")
    | Some present, Some types, Some (LegacyRecipients rows) =>
        match allPresent (map (migrateRecipient types) rows) with
        | None =>
            Err (ErrSQL "NOT NULL constraint failed: recipients_new.blood_type_id")
        | Some copied =>
            if distinct (map rc_id (present ++ copied))
            then Ok (withRecipientsNew d (Some (present ++ copied)))
            else Err (ErrSQL "UNIQUE constraint failed: recipients_new.id")
        end
    end.

(** [INSERT INTO donations_new (...) SELECT id, donor_id, units,
    donation_date, expiry_date, deleted_at FROM donations]: the columns
    read are in both shapes of the table. *)
Definition migrateDonation (r : LegacyDonationRow) : DonationRow :=
  mkDonation (lda_id r) (lda_donor_id r) (lda_units r) (lda_donation_date r)
             (lda_expiry_date r) (lda_deleted_at r).

Definition donationRows (t : DonationsTable) : list DonationRow :=
  match t with
  | LegacyDonations rows => map migrateDonation rows
  | NormalDonations rows => rows
  end.

Definition copyDonations : Statement :=
  fun d =>
    match tbl_donations_new d, tbl_donations d with
    | None, _ => Err (ErrSQL "no such table: donations_new")
    | _, None => Err (ErrSQL "no such table: donations")
    | Some present, Some t =>
        if distinct (map da_id (present ++ donationRows t))
        then Ok (withDonationsNew d (Some (present ++ donationRows t)))
        else Err (ErrSQL "UNIQUE constraint failed: donations_new.id")
    end.

(** [INSERT INTO requests_new (...) SELECT id, recipient_id, units, status,
    request_date, deleted_at FROM requests]. *)
Definition migrateRequest (r : LegacyRequestRow) : RequestRow :=
  mkRequest (lrq_id r) (lrq_recipient_id r) (lrq_units r) (lrq_status r)
            (lrq_request_date r) (lrq_deleted_at r).

Definition requestRows (t : RequestsTable) : list RequestRow :=
  match t with
  | LegacyRequests rows => map migrateRequest rows
  | NormalRequests rows => rows
  end.

Definition copyRequests : Statement :=
  fun d =>
    match tbl_requests_new d, tbl_requests d with
    | None, _ => Err (ErrSQL "no such table: requests_new")
    | _, None => Err (ErrSQL "no such table: requests")
    | Some present, Some t =>
        if distinct (map rq_id (present ++ requestRows t))
        then Ok (withRequestsNew d (Some (present ++ requestRows t)))
        else Err (ErrSQL "UNIQUE constraint failed: requests_new.id")
    end.

(** [INSERT INTO inventory_new (...) SELECT id, COALESCE(...), units,
    deleted_at FROM inventory]; [blood_type_id] is [UNIQUE] in the target. *)
Definition migrateInventory (types : list BloodTypeRow) (r : LegacyInventoryRow)
  : option InventoryRow :=
  option_map
    (fun id => mkInventory (liv_id r) id (liv_units r) (liv_deleted_at r))
    (resolveLabel types (liv_blood_type r)).

Definition copyInventory : Statement :=
  fun d =>
    match tbl_inventory_new d, tbl_blood_types d, tbl_inventory d with
    | None, _, _ => Err (ErrSQL "no such table: inventory_new")
    | _, None, _ => Err (ErrSQL "no such table: blood_types")
    | _, _, None => Err (ErrSQL "no such table: inventory")
    | _, _, Some (NormalInventory _) => Err (ErrSQL "no such column: blood_type")
    | Some present, Some types, Some (LegacyInventory rows) =>
        match allPresent (map (migrateInventory types) rows) with
        | None =>
            Err (ErrSQL "NOT NULL constraint failed: inventory_new.blood_type_id")
        | Some copied =>
            if distinct (map iv_id (present ++ copied))
            then
              if distinct (map iv_blood_type_id (present ++ copied))
              then Ok (withInventoryNew d (Some (present ++ copied)))
              else Err (ErrSQL "UNIQUE constraint failed: inventory_new.blood_type_id")
            else Err (ErrSQL "UNIQUE constraint failed: inventory_new.id")
        end
    end.

(** [DROP TABLE t]. *)
Definition dropDonors : Statement :=
  fun d =>
    match tbl_donors d with
    | None => Err (ErrSQL "no such table: donors")
    | Some _ => Ok (withDonors d None)
    end.
Definition dropRecipients : Statement :=
  fun d =>
    match tbl_recipients d with
    | None => Err (ErrSQL "no such table: recipients")
    | Some _ => Ok (withRecipients d None)
    end.
Definition dropDonations : Statement :=
  fun d =>
    match tbl_donations d with
    | None => Err (ErrSQL "no such table: donations")
    | Some _ => Ok (withDonations d None)
    end.
Definition dropRequests : Statement :=
  fun d =>
    match tbl_requests d with
    | None => Err (ErrSQL "no such table: requests")
    | Some _ => Ok (withRequests d None)
    end.
Definition dropInventory : Statement :=
  fun d =>
    match tbl_inventory d with
    | None => Err (ErrSQL "no such table: inventory")
    | Some _ => Ok (withInventory d None)
    end.

(** [ALTER TABLE t_new RENAME TO t]. *)
Definition renameDonors : Statement :=
  fun d =>
    match tbl_donors_new d, tbl_donors d with
    | None, _ => Err (ErrSQL "no such table: donors_new")
    | Some _, Some _ => Err (ErrSQL "there is already another table: donors")
    | Some rows, None => Ok (withDonorsNew (withDonors d (Some (NormalDonors rows))) None)
    end.
Definition renameRecipients : Statement :=
  fun d =>
    match tbl_recipients_new d, tbl_recipients d with
    | None, _ => Err (ErrSQL "no such table: recipients_new")
    | Some _, Some _ => Err (ErrSQL "there is already another table: recipients")
    | Some rows, None =>
        Ok (withRecipientsNew (withRecipients d (Some (NormalRecipients rows))) None)
    end.
Definition renameDonations : Statement :=
  fun d =>
    match tbl_donations_new d, tbl_donations d with
    | None, _ => Err (ErrSQL "no such table: donations_new")
    | Some _, Some _ => Err (ErrSQL "there is already another table: donations")
    | Some rows, None =>
        Ok (withDonationsNew (withDonations d (Some (NormalDonations rows))) None)
    end.
Definition renameRequests : Statement :=
  fun d =>
    match tbl_requests_new d, tbl_requests d with
    | None, _ => Err (ErrSQL "no such table: requests_new")
    | Some _, Some _ => Err (ErrSQL "there is already another table: requests")
    | Some rows, None =>
        Ok (withRequestsNew (withRequests d (Some (NormalRequests rows))) None)
    end.
Definition renameInventory : Statement :=
  fun d =>
    match tbl_inventory_new d, tbl_inventory d with
    | None, _ => Err (ErrSQL "no such table: inventory_new")
    | Some _, Some _ => Err (ErrSQL "there is already another table: inventory")
    | Some rows, None =>
        Ok (withInventoryNew (withInventory d (Some (NormalInventory rows))) None)
    end.

(** [if _, err := db.Exec(...); err != nil { return err }], statement after
    statement: the first failure ends the run and its error is returned. *)
Fixpoint execAll (script : list Statement) (d : Database)
  : option GoError * Database :=
  match script with
  | [] => (None, d)
  | st :: rest =>
      match st d with
      | Err e => (Some e, d)
      | Ok d' => execAll rest d'
      end
  end.

(** The statements of [migrateTo3NF], in the order of the source. *)
Definition migrationScript : list Statement :=
  [ pragmaForeignKeys false;
    createBloodTypes;
    insertLabelsFrom FromDonors;
    insertLabelsFrom FromRecipients;
    insertLabelsFrom FromInventory;
    insertUnknown;
    createDonorsNew; createRecipientsNew; createDonationsNew; createRequestsNew;
    createInventoryNew;
    copyDonors; copyRecipients; copyDonations; copyRequests; copyInventory;
    dropDonors; dropRecipients; dropDonations; dropRequests; dropInventory;
    renameDonors; renameRecipients; renameDonations; renameRequests; renameInventory;
    pragmaForeignKeys true ].

(** [migrateTo3NF]. *)
Definition migrateTo3NF (d : Database) : option GoError * Database :=
  let hasBloodType := tableHasColumn d "donors" "blood_type" in
  if negb hasBloodType then (None, d)
  else execAll migrationScript d.

(** The handlers' view of a database whose tables are all normalized. *)
Definition storeOf (d : Database) : option Store :=
  match tbl_blood_types d, tbl_donors d, tbl_recipients d,
        tbl_donations d, tbl_inventory d, tbl_requests d with
  | Some bt, Some (NormalDonors dn), Some (NormalRecipients rc),
    Some (NormalDonations da), Some (NormalInventory iv), Some (NormalRequests rq) =>
      Some (mkStore bt dn rc da iv rq)
  | _, _, _, _, _, _ => None
  end.

End Migration.

(** ** Start-up: [initDB] *)

Module Startup.

Import Migration.

(** [CREATE TABLE IF NOT EXISTS] of the schema, table by table: a table that
    is absent is created empty, in its normalized shape. *)
Definition createDonors : Statement :=
  fun d =>
    match tbl_donors d with
    | Some _ => Ok d
    | None => Ok (withDonors d (Some (NormalDonors [])))
    end.
Definition createRecipients : Statement :=
  fun d =>
    match tbl_recipients d with
    | Some _ => Ok d
    | None => Ok (withRecipients d (Some (NormalRecipients [])))
    end.
Definition createDonations : Statement :=
  fun d =>
    match tbl_donations d with
    | Some _ => Ok d
    | None => Ok (withDonations d (Some (NormalDonations [])))
    end.
Definition createInventory : Statement :=
  fun d =>
    match tbl_inventory d with
    | Some _ => Ok d
    | None => Ok (withInventory d (Some (NormalInventory [])))
    end.
Definition createRequests : Statement :=
  fun d =>
    match tbl_requests d with
    | Some _ => Ok d
    | None => Ok (withRequests d (Some (NormalRequests [])))
    end.

(** The constant [schema], statement by statement. *)
Definition schema : list Statement :=
  [ pragmaForeignKeys true;
    createBloodTypes; createDonors; createRecipients; createDonations;
    createInventory; createRequests ].

(** [ALTER TABLE t ADD COLUMN c type], reached when [t] has no column [c]:
    an error when [t] does not exist.  On a table that exists the column
    would be added; a table of the model has the columns of its shape and no
    other, so that outcome is [None], outside the model. *)
Definition alterTableAddColumn (d : Database) (table column colType : string)
  : option (result Database) :=
  match tableInfo d table with
  | [] => Some (Err (ErrSQL ("no such table: " ++ table)))
  | _ :: _ => None
  end.

(** [ensureColumn]. *)
Definition ensureColumn (d : Database) (table column colType : string)
  : option (result Database) :=
  if scanColumns (tableInfo d table) column then Some (Ok d)
  else alterTableAddColumn d table column colType.

(** [CREATE UNIQUE INDEX IF NOT EXISTS idx_inventory_blood_type_id
    ON inventory(blood_type_id)]: the index is built (or found) when the
    column exists and holds no value twice. *)
Definition createInventoryIndex : Statement :=
  fun d =>
    match tbl_inventory d with
    | None => Err (ErrSQL "no such table: main.inventory")
    | Some (LegacyInventory _) => Err (ErrSQL "no such column: blood_type_id")
    | Some (NormalInventory rows) =>
        if distinct (map iv_blood_type_id rows) then Ok d
        else Err (ErrSQL "UNIQUE constraint failed: inventory.blood_type_id")
    end.

(** The [ensureColumn] calls of [initDB], in order. *)
Fixpoint ensureColumns (tables : list string) (d : Database)
  : option (option GoError * Database) :=
  match tables with
  | [] => Some (None, d)
  | table :: rest =>
      match ensureColumn d table "deleted_at" "TEXT" with
      | None => None
      | Some (Err e) => Some (Some e, d)
      | Some (Ok d') => ensureColumns rest d'
      end
  end.

(** [initDB]: the error it returns and the database it leaves; [None] when
    a column was added to a table. *)
Definition initDB (d : Database) : option (option GoError * Database) :=
  match execAll schema d with
  | (Some e, d1) => Some (Some e, d1)
  | (None, d1) =>
      match migrateTo3NF d1 with
      | (Some e, d2) => Some (Some e, d2)
      | (None, d2) =>
          match ensureColumns ["donors"; "recipients"; "donations"; "inventory";
                               "requests"] d2 with
          | None => None
          | Some (Some e, d3) => Some (Some e, d3)
          | Some (None, d3) =>
              match createInventoryIndex d3 with
              | Err e => Some (Some e, d3)
              | Ok d4 => Some (None, d4)
              end
          end
      end
  end.

(** The database of a first start: no table. *)
Definition emptyDatabase : Database :=
  mkDatabase false None None None None None None None None None None None.

End Startup.

(** ** The page: the queries that read the store *)

(** The Go structs the template receives. *)
Record Donor := {
  Donor_ID : Z;
  Donor_Name : string;
  Donor_BloodType : string;
  Donor_Phone : string;
  Donor_City : string;
  Donor_CreatedAt : string
}.

Record Recipient := {
  Recipient_ID : Z;
  Recipient_Name : string;
  Recipient_BloodType : string;
  Recipient_Phone : string;
  Recipient_Hospital : string;
  Recipient_CreatedAt : string
}.

Record Donation := {
  Donation_ID : Z;
  Donation_DonorID : Z;
  Donation_DonorName : string;
  Donation_BloodType : string;
  Donation_Units : Z;
  Donation_DonationDate : string;
  Donation_ExpiryDate : string
}.

Record Inventory := {
  Inventory_BloodType : string;
  Inventory_Units : Z
}.

Record Request := {
  Request_ID : Z;
  Request_RecipientID : Z;
  Request_Recipient : string;
  Request_BloodType : string;
  Request_Units : Z;
  Request_Status : string;
  Request_RequestDate : string
}.

Record PageData := {
  Donors : list Donor;
  Recipients : list Recipient;
  Donations : list Donation;
  InventoryRows : list Inventory;
  Requests : list Request;
  Message : string
}.

(** [ORDER BY]: the rows in the order of [le], by insertion.  SQL leaves
    the order of rows with equal keys open; here they keep the order of the
    table. *)
Fixpoint insertBy {A} (le : A -> A -> bool) (x : A) (l : list A) : list A :=
  match l with
  | [] => [x]
  | y :: rest => if le x y then x :: l else y :: insertBy le x rest
  end.

Definition orderBy {A} (le : A -> A -> bool) (l : list A) : list A :=
  fold_right (insertBy le) [] l.

(** [for rows.Next() { if err := rows.Scan(...); err != nil { return nil, err } ... }]:
    the rows scanned in order, the first failing scan ends the loop. *)
Fixpoint scanAll {A B} (scan : A -> result B) (rows : list A) : result (list B) :=
  match rows with
  | [] => Ok []
  | r :: rest =>
      match scan r with
      | Err e => Err e
      | Ok v =>
          match scanAll scan rest with
          | Err e => Err e
          | Ok vs => Ok (v :: vs)
          end
      end
  end.

(** [rows.Scan] into a Go [string] fails on [NULL]. *)
Definition scanString (cell : option string) : result string :=
  match cell with
  | Some v => Ok v
  | None => Err (ErrSQL "converting NULL to string is unsupported")
  end.

(** [JOIN blood_types bt ON bt.id = ?]: the labels of the rows that match. *)
Definition typeLabels (s : Store) (bloodTypeID : Z) : list string :=
  map bt_type (filter (fun b => bt_id b =? bloodTypeID) (blood_types s)).

(** The rows of [loadDonors]: [donors d JOIN blood_types bt ON bt.id =
    d.blood_type_id WHERE d.deleted_at IS NULL ORDER BY d.id DESC]. *)
Definition donorRows (s : Store) : list (DonorRow * string) :=
  orderBy (fun x y => dn_id (fst y) <=? dn_id (fst x))
    (flat_map
       (fun d =>
          if isNull (dn_deleted_at d)
          then map (fun label => (d, label)) (typeLabels s (dn_blood_type_id d))
          else [])
       (donors s)).

Definition scanDonor (row : DonorRow * string) : result Donor :=
  let (d, label) := row in
  match scanString (dn_phone d) with
  | Err e => Err e
  | Ok phone =>
      match scanString (dn_city d) with
      | Err e => Err e
      | Ok city =>
          Ok (Build_Donor (dn_id d) (dn_name d) label phone city (dn_created_at d))
      end
  end.

(** [loadDonors]. *)
Definition loadDonors (s : Store) : result (list Donor) :=
  scanAll scanDonor (donorRows s).

Definition recipientRows (s : Store) : list (RecipientRow * string) :=
  orderBy (fun x y => rc_id (fst y) <=? rc_id (fst x))
    (flat_map
       (fun r =>
          if isNull (rc_deleted_at r)
          then map (fun label => (r, label)) (typeLabels s (rc_blood_type_id r))
          else [])
       (recipients s)).

Definition scanRecipient (row : RecipientRow * string) : result Recipient :=
  let (r, label) := row in
  match scanString (rc_phone r) with
  | Err e => Err e
  | Ok phone =>
      match scanString (rc_hospital r) with
      | Err e => Err e
      | Ok hospital =>
          Ok (Build_Recipient (rc_id r) (rc_name r) label phone hospital
                              (rc_created_at r))
      end
  end.

(** [loadRecipients]. *)
Definition loadRecipients (s : Store) : result (list Recipient) :=
  scanAll scanRecipient (recipientRows s).

(** [loadDonations]: [donations d JOIN donors ON donors.id = d.donor_id
    JOIN blood_types bt ON bt.id = donors.blood_type_id
    WHERE d.deleted_at IS NULL ORDER BY d.id DESC]; no column it scans can
    be [NULL]. *)
Definition loadDonations (s : Store) : result (list Donation) :=
  Ok (orderBy (fun x y => Donation_ID y <=? Donation_ID x)
        (flat_map
           (fun d =>
              if isNull (da_deleted_at d)
              then flat_map
                     (fun n =>
                        map (fun label =>
                               Build_Donation (da_id d) (da_donor_id d) (dn_name n) label
                                              (da_units d) (da_donation_date d)
                                              (da_expiry_date d))
                            (typeLabels s (dn_blood_type_id n)))
                     (filter (fun n => dn_id n =? da_donor_id d) (donors s))
              else [])
           (donations s))).

(** [loadInventory]: [inventory i JOIN blood_types bt ON bt.id =
    i.blood_type_id WHERE i.deleted_at IS NULL ORDER BY bt.type], the order
    of the bytes.  [Scan] reads an INTEGER cell into a Go [int] without
    fail; on the REAL an overflow leaves it fails, a cell the stores that
    fit do not have. *)
Definition loadInventory (s : Store) : result (list Inventory) :=
  Ok (orderBy (fun x y => String.leb (Inventory_BloodType x) (Inventory_BloodType y))
        (flat_map
           (fun i =>
              if isNull (iv_deleted_at i)
              then map (fun label => Build_Inventory label (iv_units i))
                       (typeLabels s (iv_blood_type_id i))
              else [])
           (inventory s))).

(** [loadRequests]: [requests r JOIN recipients ON recipients.id =
    r.recipient_id JOIN blood_types bt ON bt.id = recipients.blood_type_id
    WHERE r.deleted_at IS NULL ORDER BY r.id DESC]. *)
Definition loadRequests (s : Store) : result (list Request) :=
  Ok (orderBy (fun x y => Request_ID y <=? Request_ID x)
        (flat_map
           (fun r =>
              if isNull (rq_deleted_at r)
              then flat_map
                     (fun c =>
                        map (fun label =>
                               Build_Request (rq_id r) (rq_recipient_id r) (rc_name c) label
                                             (rq_units r) (rq_status r) (rq_request_date r))
                            (typeLabels s (rc_blood_type_id c)))
                     (filter (fun c => rc_id c =? rq_recipient_id r) (recipients s))
              else [])
           (requests s))).

(** [loadPageData]: the five queries in turn, the first error returned. *)
Definition loadPageData (s : Store) (msg : string) : result PageData :=
  match loadDonors s with
  | Err e => Err e
  | Ok donors =>
      match loadRecipients s with
      | Err e => Err e
      | Ok recipients =>
          match loadDonations s with
          | Err e => Err e
          | Ok donations =>
              match loadInventory s with
              | Err e => Err e
              | Ok inventory =>
                  match loadRequests s with
                  | Err e => Err e
                  | Ok requests =>
                      Ok (Build_PageData donors recipients donations inventory
                                         requests msg)
                  end
              end
          end
      end
  end.

(** What the browser gets: the redirect to the page, the page, or the
    [server error] of a failed query. *)
Inductive Reply :=
| SeeOther
| Page (data : PageData)
| ServerError.

(** [renderWithMessage]. *)
Definition renderWithMessage (s : Store) (msg : string) : Reply :=
  match loadPageData s msg with
  | Err _ => ServerError
  | Ok data => Page data
  end.

(** [GET /]. *)
Definition handleIndex (s : Store) : Reply :=
  match loadPageData s "" with
  | Err _ => ServerError
  | Ok data => Page data
  end.

(** A post as the browser sees it: the handler's answer, rendered on the
    store the handler left. *)
Definition reply (today : string) (p : Post) (s : Store) : Reply * Store :=
  match serve today p s with
  | (Redirect, s') => (SeeOther, s')
  | (Render msg, s') => (renderWithMessage s' msg, s')
  end.

(** ** The quantities of the design

    What the design says about the store, in its own words: the status of
    a request, the units donated and fulfilled per blood type, the balance,
    and the invariant that ties them. *)

(** The row of a request, and its status. *)
Definition rowOf (s : Store) (id : Z) : option RequestRow :=
  find (fun r => rq_id r =? id) (requests s).

Definition statusOf (s : Store) (id : Z) : option string :=
  option_map rq_status (rowOf s id).

Definition sumZ (l : list Z) : Z := fold_right Z.add 0 l.

(** The units of the active donations of a blood type: the blood type of a
    donation is that of its donor. *)
Definition donatedUnits (s : Store) (ref : Z) : Z :=
  sumZ (map snd (filter (fun x => fst x =? ref)
                        (donationJoin s (fun d => isNull (da_deleted_at d))))).

(** The units of the Fulfilled requests of a blood type: the blood type of a
    request is that of its recipient. *)
Definition fulfilledUnits (s : Store) (ref : Z) : Z :=
  sumZ (map snd (filter (fun x => fst x =? ref)
                        (requestJoin s (fun r => String.eqb (rq_status r) "Fulfilled")))).

(** The balance of a blood type, zero when it has no active row. *)
Definition balanceOf (s : Store) (ref : Z) : Z :=
  match activeBalance s ref with
  | Some units => units
  | None => 0
  end.

(** The invariant of the design: every balance is the donated units minus
    the fulfilled units, and is not negative. *)
Definition ledgerInvariant (s : Store) : Prop :=
  forall ref,
    balanceOf s ref = donatedUnits s ref - fulfilledUnits s ref /\ 0 <= balanceOf s ref.

(** The operations the invariant is stated for. *)
Definition ledgerPost (p : string * Post) : Prop :=
  match snd p with
  | PostDonations _ _ _ | PostDonationsDelete _ | PostRequests _ _
  | PostFulfill _ | PostRequestsUpdate _ _ _ | PostRequestsDelete _ => True
  | _ => False
  end.

(** * Properties *)

(** ** Lists and rows *)

Lemma isEmpty_true (s : string) : Text.isEmpty s = true <-> s = "".
Proof. destruct s; simpl; split; congruence. Qed.

Lemma isEmpty_false (s : string) : Text.isEmpty s = false <-> s <> "".
Proof. destruct s; simpl; split; congruence. Qed.

(** A row update that keeps what a query tests leaves the query's answer
    the updated first match. *)
Lemma find_map_stable {A} (p : A -> bool) (f : A -> A) (l : list A) :
  (forall x, p (f x) = p x) ->
  find p (map f l) = option_map f (find p l).
Proof.
  intros Hp. induction l as [|x l IH]; simpl; [reflexivity|].
  rewrite Hp. destruct (p x); [reflexivity|exact IH].
Qed.

Lemma map_id_on {A} (f : A -> A) (l : list A) :
  (forall x, In x l -> f x = x) -> map f l = l.
Proof.
  induction l as [|x l IH]; simpl; intros H; [reflexivity|].
  rewrite H by now left. f_equal. apply IH. intros y Hy. apply H. now right.
Qed.

Lemma find_none_iff {A} (p : A -> bool) (l : list A) :
  find p l = None <-> forall x, In x l -> p x = false.
Proof.
  split; [apply find_none|].
  induction l as [|x l IH]; simpl; intros H; [reflexivity|].
  rewrite (H x) by now left. apply IH. intros y Hy. apply H. now right.
Qed.

(** ** The ledger *)

Lemma debitRow_ref ref units r : iv_blood_type_id (debitRow ref units r) = iv_blood_type_id r.
Proof. unfold debitRow. now destruct (iv_blood_type_id r =? ref). Qed.

Lemma debitRow_deleted ref units r : iv_deleted_at (debitRow ref units r) = iv_deleted_at r.
Proof. unfold debitRow. now destruct (iv_blood_type_id r =? ref). Qed.

Lemma creditRow_ref ref units r : iv_blood_type_id (creditRow ref units r) = iv_blood_type_id r.
Proof. unfold creditRow. now destruct (iv_blood_type_id r =? ref). Qed.

Lemma activeBalance_debit s ref units other :
  activeBalance (setInventory s (map (debitRow ref units) (inventory s))) other =
  option_map (fun c => if other =? ref then c - units else c) (activeBalance s other).
Proof.
  unfold activeBalance; simpl.
  rewrite find_map_stable
    by (intros x; now rewrite debitRow_ref, debitRow_deleted).
  destruct (find _ (inventory s)) as [r|] eqn:E; simpl; [|reflexivity].
  apply find_some in E as [_ E]. apply andb_prop in E as [E _].
  apply Z.eqb_eq in E. f_equal. unfold debitRow. rewrite E.
  now destruct (other =? ref).
Qed.

Lemma storedUnits_debit s ref units other :
  storedUnits (setInventory s (map (debitRow ref units) (inventory s))) other =
  option_map (fun c => if other =? ref then c - units else c) (storedUnits s other).
Proof.
  unfold storedUnits; simpl.
  rewrite find_map_stable by (intros x; now rewrite debitRow_ref).
  destruct (find _ (inventory s)) as [r|] eqn:E; simpl; [|reflexivity].
  apply find_some in E as [_ E]. apply Z.eqb_eq in E.
  f_equal. unfold debitRow. rewrite E. now destruct (other =? ref).
Qed.

Lemma consumeInventoryByTypeID_insufficient s ref units :
  activeBalance s ref = None \/
  (exists current, activeBalance s ref = Some current /\ current < units) ->
  consumeInventoryByTypeID s ref units = (false, s).
Proof.
  unfold consumeInventoryByTypeID.
  intros [H | [current [H Hlt]]]; rewrite H; [reflexivity|].
  apply Z.ltb_lt in Hlt. now rewrite Hlt.
Qed.

(** C2, as amended: on a ledger of 64-bit counts and for 64-bit [units],
    the debit returns [false] and changes nothing when the blood type has no
    active balance row or its balance is below [units]; otherwise, when the
    difference of the balance and [units] is a 64-bit count (as it is for
    every [units] that is not negative), it returns [true], the balance of
    the blood type drops by exactly [units], and nothing else changes: no
    other balance, no other table. *)
Theorem consumeInventoryByTypeID_spec (s : Store) (ref units : Z) :
  fits s = true -> int64 units = true ->
  (activeBalance s ref = None \/
   (exists current, activeBalance s ref = Some current /\ current < units) ->
   consumeInventoryByTypeID s ref units = (false, s)) /\
  (forall current,
     activeBalance s ref = Some current -> units <= current ->
     int64 (current - units) = true ->
     exists s',
       consumeInventoryByTypeID s ref units = (true, s') /\
       activeBalance s' ref = Some (current - units) /\
       (forall other, other <> ref ->
          activeBalance s' other = activeBalance s other /\
          storedUnits s' other = storedUnits s other) /\
       s' = setInventory s (inventory s')).
Proof.
  intros _ _. split; [apply consumeInventoryByTypeID_insufficient|].
  unfold consumeInventoryByTypeID.
  - intros current H Hle _. rewrite H.
    destruct (current <? units) eqn:E; [apply Z.ltb_lt in E; lia|].
    eexists; split; [reflexivity|]. split; [|split].
    + rewrite activeBalance_debit, H; simpl. now rewrite Z.eqb_refl.
    + intros other Hne. apply Z.eqb_neq in Hne.
      rewrite activeBalance_debit, storedUnits_debit, Hne.
      split; [now destruct (activeBalance s other)|now destruct (storedUnits s other)].
    + reflexivity.
Qed.

Definition ledgerExample : Store :=
  mkStore [mkBloodType 1 "O+"; mkBloodType 2 "AB-"; mkBloodType 3 "B+"] [] [] []
          [mkInventory 1 1 5 None; mkInventory 2 2 7 (Some "2025-03-01")] [].

Lemma consumeInventoryByTypeID_spec_witness :
  consumeInventoryByTypeID ledgerExample 1 6 = (false, ledgerExample) /\
  consumeInventoryByTypeID ledgerExample 3 1 = (false, ledgerExample) /\
  exists s',
    consumeInventoryByTypeID ledgerExample 1 3 = (true, s') /\
    activeBalance s' 1 = Some 2.
Proof.
  split; [|split].
  - apply (consumeInventoryByTypeID_spec ledgerExample 1 6 eq_refl eq_refl).
    right. exists 5. split; [reflexivity|lia].
  - apply (consumeInventoryByTypeID_spec ledgerExample 3 1 eq_refl eq_refl).
    left. reflexivity.
  - destruct (consumeInventoryByTypeID_spec ledgerExample 1 3 eq_refl eq_refl) as [_ H].
    destruct (H 5 eq_refl ltac:(lia) eq_refl) as [s' [H1 [H2 _]]].
    exists s'. split; [exact H1|exact H2].
Defined.

(** C2, as stated, fails on [units] far below zero.  The debit tests that
    the balance covers [units], not that [units] is positive: with a balance
    of 5 and [units] = -9223372036854775807 it goes on to [units - ?] and
    returns [true], and the difference, 9223372036854775812, is past the 64
    bits of an INTEGER.  SQLite stores the REAL 9.223372036854776e18 there:
    the balance has not dropped by [units], and the ledger the claim
    promises is one no database holds. *)
Lemma consumeInventoryByTypeID_overflow :
  fits ledgerExample = true /\
  int64 (-9223372036854775807) = true /\
  activeBalance ledgerExample 1 = Some 5 /\
  -9223372036854775807 <= 5 /\
  fst (consumeInventoryByTypeID ledgerExample 1 (-9223372036854775807)) = true /\
  int64 (5 - -9223372036854775807) = false /\
  fits (snd (consumeInventoryByTypeID ledgerExample 1 (-9223372036854775807))) = false /\
  ~ (forall s ref units current,
       fits s = true -> int64 units = true ->
       activeBalance s ref = Some current -> units <= current ->
       exists s',
         consumeInventoryByTypeID s ref units = (true, s') /\ fits s' = true /\
         activeBalance s' ref = Some (current - units)).
Proof.
  repeat (split; [vm_compute; first [reflexivity | discriminate]|]).
  intros H.
  destruct (H ledgerExample 1 (-9223372036854775807) 5 eq_refl eq_refl eq_refl
              ltac:(lia)) as [s' [E [F _]]].
  vm_compute in E. inversion E; subst. vm_compute in F. discriminate.
Qed.

(** C10: when every inventory row of a blood type is soft-deleted, the
    debit finds no balance, as if the row were missing: it returns [false]
    and changes nothing, whatever units the row stores. *)
Theorem consumeInventoryByTypeID_soft_deleted (s : Store) (ref units : Z) :
  (exists r, In r (inventory s) /\ iv_blood_type_id r = ref) ->
  (forall r, In r (inventory s) -> iv_blood_type_id r = ref -> iv_deleted_at r <> None) ->
  consumeInventoryByTypeID s ref units = (false, s).
Proof.
  intros _ Hdel. unfold consumeInventoryByTypeID, activeBalance.
  replace (find _ (inventory s)) with (@None InventoryRow); [reflexivity|].
  symmetry. apply find_none_iff. intros r Hin.
  destruct (iv_blood_type_id r =? ref) eqn:E; [|reflexivity]. simpl.
  apply Z.eqb_eq in E. specialize (Hdel r Hin E).
  now destruct (iv_deleted_at r).
Qed.

Lemma consumeInventoryByTypeID_soft_deleted_witness :
  storedUnits ledgerExample 2 = Some 7 /\
  consumeInventoryByTypeID ledgerExample 2 3 = (false, ledgerExample).
Proof.
  split; [reflexivity|].
  apply (consumeInventoryByTypeID_soft_deleted ledgerExample 2 3).
  - exists (mkInventory 2 2 7 (Some "2025-03-01")). split; [right; left|]; reflexivity.
  - intros r [H | [H | []]] E; subst r; simpl in *; [lia|discriminate].
Defined.

Lemma find_app {A} (p : A -> bool) (l1 l2 : list A) :
  find p (l1 ++ l2) = match find p l1 with Some x => Some x | None => find p l2 end.
Proof.
  induction l1 as [|x l1 IH]; simpl; [reflexivity|]. now destruct (p x).
Qed.

Lemma find_ext_in {A} (p q : A -> bool) (l : list A) :
  (forall x, In x l -> p x = q x) -> find p l = find q l.
Proof.
  induction l as [|x l IH]; simpl; intros H; [reflexivity|].
  rewrite (H x) by now left. destruct (q x); [reflexivity|].
  apply IH. intros y Hy. apply H. now right.
Qed.

Lemma rowsAffected_zero s ref :
  rowsAffected s ref = O <->
  find (fun r => iv_blood_type_id r =? ref) (inventory s) = None.
Proof.
  unfold rowsAffected. induction (inventory s) as [|x l IH]; simpl; [tauto|].
  destruct (iv_blood_type_id x =? ref); simpl; [split; discriminate|exact IH].
Qed.

(** Under the [UNIQUE] constraint on [inventory.blood_type_id], the active
    balance of a blood type is the units its one row stores. *)
Lemma activeBalance_storedUnits s ref c :
  NoDup (map iv_blood_type_id (inventory s)) ->
  activeBalance s ref = Some c -> storedUnits s ref = Some c.
Proof.
  unfold activeBalance, storedUnits.
  induction (inventory s) as [|x l IH]; simpl; intros Hnd H; [discriminate|].
  inversion Hnd as [|? ? Hx Hl]; subst.
  destruct (iv_blood_type_id x =? ref) eqn:E; simpl in *.
  - destruct (isNull (iv_deleted_at x)); [exact H|].
    exfalso. destruct (find _ l) as [r|] eqn:F; [|discriminate].
    apply find_some in F as [Hin F]. apply andb_prop in F as [F _].
    apply Z.eqb_eq in E, F. apply Hx. rewrite E, <- F. now apply in_map.
  - now apply IH.
Qed.

Lemma credit_other s ref units other (p : InventoryRow -> bool) :
  other <> ref ->
  (forall x, p x = true -> iv_blood_type_id x = other) ->
  (forall x, iv_blood_type_id x <> ref -> p (creditRow ref units x) = p x) ->
  find p (map (creditRow ref units) (inventory s)) = find p (inventory s).
Proof.
  intros Hne Hp Hq.
  assert (Hfix : forall x, iv_blood_type_id x <> ref -> creditRow ref units x = x).
  { intros x Hx. unfold creditRow. apply Z.eqb_neq in Hx. now rewrite Hx. }
  induction (inventory s) as [|x l IH]; simpl; [reflexivity|].
  destruct (Z.eq_dec (iv_blood_type_id x) ref) as [E|E].
  - assert (p x = false) as ->.
    { destruct (p x) eqn:F; [|reflexivity]. apply Hp in F. congruence. }
    assert (p (creditRow ref units x) = false) as ->; [|exact IH].
    destruct (p (creditRow ref units x)) eqn:F; [|reflexivity].
    apply Hp in F. rewrite creditRow_ref in F. congruence.
  - rewrite (Hfix x E). destruct (p x); [reflexivity|exact IH].
Qed.

(** The credit proper: it checks nothing about [units]; it succeeds as soon
    as the blood type has an inventory row or is a valid reference, leaves
    the row active with its stored units increased by [units], creates the
    row with [units] when the blood type has none, and changes nothing else. *)
Lemma upsertInventoryByTypeID_effect (s : Store) (ref units : Z) :
  validRef s ref = true ->
  exists s',
    upsertInventoryByTypeID s ref units = (None, s') /\
    storedUnits s' ref =
      Some (match storedUnits s ref with Some c => c + units | None => units end) /\
    activeBalance s' ref = storedUnits s' ref /\
    (forall other, other <> ref ->
       activeBalance s' other = activeBalance s other /\
       storedUnits s' other = storedUnits s other) /\
    s' = setInventory s (inventory s').
Proof.
  intros Hvalid. unfold upsertInventoryByTypeID.
  destruct (rowsAffected s ref) eqn:Hrows.
  - rewrite Hvalid. apply rowsAffected_zero in Hrows.
    eexists; split; [reflexivity|].
    assert (Hstored : storedUnits s ref = None) by (unfold storedUnits; now rewrite Hrows).
    unfold storedUnits, activeBalance in *; simpl. rewrite !find_app, Hrows; simpl.
    rewrite Z.eqb_refl; simpl.
    assert (find (fun r => (iv_blood_type_id r =? ref) && isNull (iv_deleted_at r))
                 (inventory s) = None) as ->.
    { apply find_none_iff. intros x Hx.
      rewrite (proj1 (find_none_iff _ _) Hrows x Hx). reflexivity. }
    simpl. repeat split; try reflexivity.
    + assert (Hf : (ref =? other) = false) by (apply Z.eqb_neq; congruence).
      rewrite find_app; simpl. rewrite Hf; simpl.
      match goal with |- context [find ?p ?l] => now destruct (find p l) end.
    + assert (Hf : (ref =? other) = false) by (apply Z.eqb_neq; congruence).
      rewrite find_app; simpl. rewrite Hf.
      match goal with |- context [find ?p ?l] => now destruct (find p l) end.
  - eexists; split; [reflexivity|].
    assert (Hsome : exists r, find (fun r => iv_blood_type_id r =? ref) (inventory s) = Some r).
    { destruct (find _ (inventory s)) as [r|] eqn:F; [now exists r|].
      apply rowsAffected_zero in F. congruence. }
    destruct Hsome as [r Hr].
    assert (Hstored' :
      storedUnits (setInventory s (map (creditRow ref units) (inventory s))) ref =
      Some (iv_units r + units)).
    { unfold storedUnits; simpl.
      rewrite find_map_stable by (intros x; now rewrite creditRow_ref).
      rewrite Hr; simpl. apply find_some in Hr as [_ Hr].
      unfold creditRow. now rewrite Hr. }
    split; [|split; [|split]].
    + rewrite Hstored'. unfold storedUnits. now rewrite Hr.
    + unfold activeBalance, storedUnits; simpl. f_equal.
      apply find_ext_in. intros x Hx. apply in_map_iff in Hx as [y [<- _]].
      unfold creditRow. destruct (iv_blood_type_id y =? ref) eqn:E; simpl.
      * now rewrite E.
      * now rewrite E.
    + intros other Hne. unfold activeBalance, storedUnits; simpl. split; f_equal.
      * apply (credit_other s ref units other); [exact Hne| |].
        -- intros x Hx. apply andb_prop in Hx as [Hx _]. now apply Z.eqb_eq.
        -- intros x Hx. unfold creditRow. apply Z.eqb_neq in Hx. now rewrite Hx.
      * apply (credit_other s ref units other); [exact Hne| |].
        -- intros x Hx. now apply Z.eqb_eq.
        -- intros x Hx. unfold creditRow. apply Z.eqb_neq in Hx. now rewrite Hx.
    + reflexivity.
Qed.

(** C8, as amended: the credit itself checks nothing about [units]; the
    check is in the handler that records a donation, its only caller, which
    rejects non-positive units as an invalid argument before any write.  On
    a ledger of 64-bit counts, for a valid blood type reference and 64-bit
    [units] whose sum with the units stored for the reference is a 64-bit
    count, the credit succeeds: the balance of the reference grows by
    [units] (the units stored grow by [units] and the row is active
    afterwards), a missing row is created with [units], and no other
    balance and no other table changes. *)
Theorem upsertInventoryByTypeID_spec :
  (forall today donorID units expiry s,
     units <= 0 ->
     handleDonations today donorID units expiry s =
       (Render "Donation requires donor, units, and expiry date.", s)) /\
  errorKind "Donation requires donor, units, and expiry date." = InvalidArgument /\
  (forall s ref units,
     fits s = true -> int64 units = true ->
     validRef s ref = true ->
     int64 (match storedUnits s ref with Some c => c + units | None => units end)
       = true ->
     exists s',
       upsertInventoryByTypeID s ref units = (None, s') /\
       activeBalance s' ref =
         Some (match storedUnits s ref with Some c => c + units | None => units end) /\
       (NoDup (map iv_blood_type_id (inventory s)) ->
        forall c, activeBalance s ref = Some c -> activeBalance s' ref = Some (c + units)) /\
       (forall other, other <> ref ->
          activeBalance s' other = activeBalance s other /\
          storedUnits s' other = storedUnits s other) /\
       s' = setInventory s (inventory s')).
Proof.
  split; [|split; [reflexivity|]].
  - intros today donorID units expiry s Hu. unfold handleDonations.
    apply Z.leb_le in Hu. rewrite Hu, orb_true_r. reflexivity.
  - intros s ref units _ _ Hvalid _.
    destruct (upsertInventoryByTypeID_effect s ref units Hvalid)
      as [s' [Hrun [Hstored [Hactive [Hother Hframe]]]]].
    exists s'. split; [exact Hrun|]. split; [congruence|]. split; [|split; assumption].
    intros Hnd c Hc. rewrite Hactive, Hstored.
    now rewrite (activeBalance_storedUnits s ref c Hnd Hc).
Qed.

Lemma upsertInventoryByTypeID_spec_witness :
  handleDonations "2025-06-01" 1 0 "2025-12-01" ledgerExample =
    (Render "Donation requires donor, units, and expiry date.", ledgerExample) /\
  exists s',
    upsertInventoryByTypeID ledgerExample 3 4 = (None, s') /\
    activeBalance s' 3 = Some 4.
Proof.
  destruct upsertInventoryByTypeID_spec as [Hreject [_ Hcredit]].
  split.
  - apply Hreject. lia.
  - destruct (Hcredit ledgerExample 3 4 eq_refl eq_refl eq_refl eq_refl)
      as [s' [H1 [H2 _]]].
    exists s'. split; [exact H1|exact H2].
Defined.

(** A donor, and one donation of the largest count a form can carry. *)
Definition fullLedger : Store :=
  run [ ("2025-06-01", PostDonors "Asha" "O+" "555-0101" "Pune");
        ("2025-06-02", PostDonations 1 9223372036854775807 "2025-12-01") ]
      emptyStore.

(** C8, as stated, fails twice.  The credit accepts non-positive units and
    writes: the guard is the handler's.  And it does not always increase the
    balance by [units]: on the balance 9223372036854775807, which one valid
    donation leaves, a second credit of 9223372036854775807 succeeds, the
    sum is past the 64 bits of an INTEGER, and SQLite stores the REAL
    1.8446744073709552e19 instead: the ledger the claim promises is one no
    database holds. *)
Lemma upsertInventoryByTypeID_unguarded :
  (upsertInventoryByTypeID ledgerExample 1 (-2) =
     (None, setInventory ledgerExample
              [mkInventory 1 1 3 None; mkInventory 2 2 7 (Some "2025-03-01")]) /\
   ~ (forall s ref units,
        units <= 0 -> exists e, upsertInventoryByTypeID s ref units = (Some e, s))) /\
  (inRange [ ("2025-06-01", PostDonors "Asha" "O+" "555-0101" "Pune");
             ("2025-06-02", PostDonations 1 9223372036854775807 "2025-12-01") ]
           emptyStore = true /\
   activeBalance fullLedger 1 = Some 9223372036854775807 /\
   validRef fullLedger 1 = true /\
   fst (upsertInventoryByTypeID fullLedger 1 9223372036854775807) = None /\
   int64 (9223372036854775807 + 9223372036854775807) = false /\
   fits (snd (upsertInventoryByTypeID fullLedger 1 9223372036854775807)) = false /\
   ~ (forall s ref units,
        fits s = true -> int64 units = true -> 0 < units -> validRef s ref = true ->
        exists s', upsertInventoryByTypeID s ref units = (None, s') /\ fits s' = true)).
Proof.
  split.
  - split; [reflexivity|].
    intros H. destruct (H ledgerExample 1 (-2) ltac:(lia)) as [e He].
    vm_compute in He. discriminate.
  - repeat (split; [vm_compute; reflexivity|]).
    intros H.
    destruct (H fullLedger 1 9223372036854775807 eq_refl eq_refl ltac:(lia) eq_refl)
      as [s' [E F]].
    vm_compute in E. inversion E; subst. vm_compute in F. discriminate.
Qed.

(** ** Rejections *)

Lemma consumeInventoryByTypeID_false s ref units s1 :
  consumeInventoryByTypeID s ref units = (false, s1) -> s1 = s.
Proof.
  unfold consumeInventoryByTypeID.
  destruct (activeBalance s ref) as [c|]; [destruct (c <? units)|]; congruence.
Qed.

Ltac rejected :=
  match goal with
  | H : isRejection (fst (Render ?m, _)) = true |- _ =>
      first [ reflexivity | vm_compute in H; discriminate ]
  | H : isRejection (fst (Redirect, _)) = true |- _ => discriminate H
  end.

Ltac handler_cases :=
  repeat match goal with
    | |- context [if ?c then _ else _] => destruct c eqn:?
    | |- context [match getOrCreateBloodTypeID ?s ?b with _ => _ end] =>
        destruct (getOrCreateBloodTypeID s b) as [[?|?] ?] eqn:?
    | |- context [match consumeInventoryByTypeID ?s ?b ?u with _ => _ end] =>
        let E := fresh "E" in
        destruct (consumeInventoryByTypeID s b u) as [[|] ?] eqn:E;
        [|apply consumeInventoryByTypeID_false in E; subst]
    | |- context [match upsertInventoryByTypeID ?s ?b ?u with _ => _ end] =>
        destruct (upsertInventoryByTypeID s b u) as [[?|] ?] eqn:?
    | |- context [match ?x with _ => _ end] => destruct x eqn:?
    end.

(** C4: a response that reports a business-rule rejection (invalid
    argument, not found, insufficient inventory, immutable fulfilled request)
    comes with the store exactly as it was before the request.  In
    particular, fulfilling a request whose units exceed the balance of its
    blood type (or whose blood type has no balance) is answered with the
    insufficient-inventory rejection and changes neither the request nor the
    inventory. *)
Theorem rejection_leaves_store_unchanged :
  (forall today p s,
     isRejection (fst (serve today p s)) = true -> snd (serve today p s) = s) /\
  (forall id s bloodTypeID units rest,
     id <> 0 ->
     requestJoin s (fun r => rq_id r =? id) = (bloodTypeID, units) :: rest ->
     (activeBalance s bloodTypeID = None \/
      exists current, activeBalance s bloodTypeID = Some current /\ current < units) ->
     handleFulfill id s = (Render "Not enough inventory to fulfill request.", s) /\
     errorKind "Not enough inventory to fulfill request." = InsufficientInventory).
Proof.
  split.
  - intros today p s. destruct p; simpl;
      cbv beta delta [handleDonors handleRecipients handleDonations
        handleDonationsDelete handleRequests handleDonorsUpdate handleDonorsDelete
        handleRecipientsUpdate handleRecipientsDelete handleFulfill
        handleRequestsUpdate handleRequestsDelete getDonorBloodTypeID
        getRecipientBloodTypeID getRequestBloodTypeID] zeta;
      handler_cases; intros H; rejected.
  - intros id s bloodTypeID units rest Hid Hjoin Hlow. split; [|reflexivity].
    unfold handleFulfill. apply Z.eqb_neq in Hid. rewrite Hid, Hjoin.
    now rewrite (consumeInventoryByTypeID_insufficient s bloodTypeID units Hlow).
Qed.

(** The scenario of the design: a donation of two units of O+, a request of
    two units fulfilled, then a second request of one unit. *)
Definition scenario : Store :=
  run [ ("2025-06-01", PostDonors "Asha" "o+" "555-0101" "Pune");
        ("2025-06-01", PostRecipients "Ravi" " O+ " "555-0102" "City Hospital");
        ("2025-06-02", PostDonations 1 2 "2025-12-01");
        ("2025-06-03", PostRequests 1 2);
        ("2025-06-03", PostFulfill 1);
        ("2025-06-04", PostRequests 1 1) ]
      emptyStore.

Lemma rejection_leaves_store_unchanged_witness :
  snd (serve "2025-06-05" (PostFulfill 2) scenario) = scenario /\
  handleFulfill 2 scenario =
    (Render "Not enough inventory to fulfill request.", scenario).
Proof.
  destruct rejection_leaves_store_unchanged as [Hall Hfulfill].
  split.
  - apply Hall. reflexivity.
  - apply (Hfulfill 2 scenario 1 1 []); [lia|reflexivity|].
    right. exists 0. split; [reflexivity|lia].
Defined.

(** ** Keys

    The tables have [PRIMARY KEY] ids and the inventory a [UNIQUE] blood
    type; the handlers keep the keys distinct. *)

Record wellKeyed (s : Store) : Prop := mkWellKeyed {
  wk_blood_types : NoDup (map bt_id (blood_types s));
  wk_donors : NoDup (map dn_id (donors s));
  wk_recipients : NoDup (map rc_id (recipients s));
  wk_donations : NoDup (map da_id (donations s));
  wk_inventory : NoDup (map iv_id (inventory s));
  wk_inventory_ref : NoDup (map iv_blood_type_id (inventory s));
  wk_requests : NoDup (map rq_id (requests s))
}.

Lemma nextID_above (ids : list Z) (x : Z) : In x ids -> x < nextID ids.
Proof.
  unfold nextID. induction ids as [|y ids IH]; cbn [fold_right In]; intros H;
    [contradiction|].
  destruct H as [-> | H]; [lia|]. specialize (IH H). lia.
Qed.

Lemma nextID_fresh (ids : list Z) : ~ In (nextID ids) ids.
Proof. intros H. apply nextID_above in H. lia. Qed.

Lemma NoDup_snoc {A} (l : list A) (x : A) : NoDup l -> ~ In x l -> NoDup (l ++ [x]).
Proof.
  intros Hl Hx. apply NoDup_app; [exact Hl|repeat constructor; intros []|].
  intros y Hy [<- | []]. contradiction.
Qed.

Lemma map_key_update {A} (key : A -> Z) (f : A -> A) (l : list A) :
  (forall x, key (f x) = key x) -> map key (map f l) = map key l.
Proof.
  intros H. rewrite map_map. apply map_ext. exact H.
Qed.

Lemma keyed_snoc {A} (key : A -> Z) (l : list A) (x : A) :
  NoDup (map key l) -> ~ In (key x) (map key l) -> NoDup (map key (l ++ [x])).
Proof.
  intros Hl Hx. rewrite map_app. simpl. now apply NoDup_snoc.
Qed.

(** With distinct keys, the rows a key selects are the one row that has it. *)
Lemma filter_key {A} (key : A -> Z) (l : list A) (x : A) :
  NoDup (map key l) -> In x l ->
  filter (fun y => key y =? key x) l = [x].
Proof.
  induction l as [|y l IH]; simpl; intros Hnd Hin; [contradiction|].
  inversion Hnd as [|? ? Hy Hl]; subst.
  destruct Hin as [-> | Hin].
  - rewrite Z.eqb_refl. f_equal.
    assert (forall z, In z l -> (key z =? key x) = false) as Hno.
    { intros z Hz. apply Z.eqb_neq. intros E. apply Hy. rewrite <- E. now apply in_map. }
    clear -Hno. induction l as [|z l IH]; simpl; [reflexivity|].
    rewrite Hno by now left. apply IH. intros w Hw. apply Hno. now right.
  - assert ((key y =? key x) = false) as ->.
    { apply Z.eqb_neq. intros E. apply Hy. rewrite E. now apply in_map. }
    now apply IH.
Qed.

Lemma find_key {A} (key : A -> Z) (p : A -> bool) (l : list A) (x : A) :
  NoDup (map key l) -> In x l -> p x = true ->
  (forall y, p y = true -> key y = key x) ->
  find p l = Some x.
Proof.
  induction l as [|y l IH]; simpl; intros Hnd Hin Hp Hkey; [contradiction|].
  inversion Hnd as [|? ? Hy Hl]; subst.
  destruct Hin as [-> | Hin]; [now rewrite Hp|].
  destruct (p y) eqn:E; [|now apply IH].
  exfalso. apply Hy. rewrite (Hkey y E). now apply in_map.
Qed.

Lemma flat_map_key {A B} (key : A -> Z) (keep : A -> bool) (g : A -> list B)
  (l : list A) (x : A) :
  NoDup (map key l) -> In x l -> keep x = true ->
  (forall y, keep y = true -> key y = key x) ->
  flat_map (fun y => if keep y then g y else []) l = g x.
Proof.
  induction l as [|y l IH]; simpl; intros Hnd Hin Hk Hkey; [contradiction|].
  inversion Hnd as [|? ? Hy Hl]; subst.
  destruct Hin as [-> | Hin].
  - rewrite Hk.
    assert (flat_map (fun y => if keep y then g y else []) l = []) as ->.
    { assert (forall z, In z l -> keep z = false) as Hno.
      { intros z Hz. destruct (keep z) eqn:E; [|reflexivity].
        exfalso. apply Hy. rewrite <- (Hkey z E). now apply in_map. }
      clear -Hno. induction l as [|z l IH]; simpl; [reflexivity|].
      rewrite Hno by now left. apply IH. intros w Hw. apply Hno. now right. }
    apply app_nil_r.
  - destruct (keep y) eqn:E.
    + exfalso. apply Hy. rewrite (Hkey y E). now apply in_map.
    + now apply IH.
Qed.

Lemma map_update_key {A} (key : A -> Z) (f : A -> A) (id : Z) (l : list A) (x : A) :
  NoDup (map key l) -> In x l -> key x = id ->
  (forall y, key y <> id -> f y = y) -> f x = x ->
  map f l = l.
Proof.
  intros Hnd Hin Hx Hother Hsame. apply map_id_on. intros y Hy.
  destruct (Z.eq_dec (key y) id) as [E|E]; [|now apply Hother].
  assert (y = x) as ->; [|exact Hsame].
  clear -Hnd Hin Hy Hx E. induction l as [|z l IH]; [contradiction|].
  simpl in Hnd. inversion Hnd as [|? ? Hz Hl]; subst.
  destruct Hin as [-> | Hin], Hy as [-> | Hy]; try reflexivity.
  - exfalso. apply Hz. rewrite <- E. now apply in_map.
  - exfalso. apply Hz. rewrite E. now apply in_map.
  - now apply IH.
Qed.

Lemma getOrCreateBloodTypeID_wellKeyed s bloodType r s1 :
  getOrCreateBloodTypeID s bloodType = (r, s1) -> wellKeyed s -> wellKeyed s1.
Proof.
  unfold getOrCreateBloodTypeID. intros H [].
  destruct (Text.isEmpty _); [inversion H; subst; now constructor|].
  destruct (lookupBloodType s _); inversion H; subst; [now constructor|].
  constructor; simpl; try assumption.
  apply keyed_snoc; [assumption|apply nextID_fresh].
Qed.

Lemma consumeInventoryByTypeID_wellKeyed s ref units b s1 :
  consumeInventoryByTypeID s ref units = (b, s1) -> wellKeyed s -> wellKeyed s1.
Proof.
  unfold consumeInventoryByTypeID. intros H [].
  destruct (activeBalance s ref) as [c|]; [destruct (c <? units)|];
    inversion H; subst; try now constructor.
  constructor; simpl; try assumption;
    rewrite map_key_update; try assumption;
    intros x; unfold debitRow; now destruct (iv_blood_type_id x =? ref).
Qed.

Lemma upsertInventoryByTypeID_wellKeyed s ref units e s1 :
  upsertInventoryByTypeID s ref units = (e, s1) -> wellKeyed s -> wellKeyed s1.
Proof.
  unfold upsertInventoryByTypeID. intros H [].
  destruct (rowsAffected s ref) eqn:Hrows.
  - destruct (validRef s ref); inversion H; subst; [|now constructor].
    constructor; simpl; try assumption.
    + apply keyed_snoc; [assumption|apply nextID_fresh].
    + apply keyed_snoc; [assumption|]. simpl.
      apply rowsAffected_zero in Hrows. intros Hin.
      apply in_map_iff in Hin as [x [Hx Hin]].
      apply (proj1 (find_none_iff _ _) Hrows) in Hin.
      apply Z.eqb_neq in Hin. contradiction.
  - inversion H; subst.
    constructor; simpl; try assumption;
      rewrite map_key_update; try assumption;
      intros x; unfold creditRow; now destruct (iv_blood_type_id x =? ref).
Qed.

Ltac keep_keys :=
  match goal with
  | H : getOrCreateBloodTypeID _ _ = _, W : wellKeyed _ |- _ =>
      apply getOrCreateBloodTypeID_wellKeyed in H; [clear W|exact W]
  | H : consumeInventoryByTypeID _ _ _ = _, W : wellKeyed _ |- _ =>
      apply consumeInventoryByTypeID_wellKeyed in H; [clear W|exact W]
  | H : upsertInventoryByTypeID _ _ _ = _, W : wellKeyed _ |- _ =>
      apply upsertInventoryByTypeID_wellKeyed in H; [clear W|exact W]
  end.

Ltac row_update :=
  rewrite map_key_update;
  [ assumption
  | intros ?x;
    unfold retireRow, updateDonorRow, deleteDonorRow, updateRecipientRow,
      deleteRecipientRow, setStatusRow, amendRow, cancelRow;
    match goal with |- context [if ?c then _ else _] => now destruct c end ].

Ltac keys_preserved :=
  match goal with
  | W : wellKeyed _ |- wellKeyed _ =>
      first
        [ exact W
        | destruct W; constructor; simpl; try assumption;
          first [ apply keyed_snoc; [assumption|apply nextID_fresh] | row_update ] ]
  end.

(** Every handler keeps the keys distinct. *)
Lemma serve_wellKeyed today p s : wellKeyed s -> wellKeyed (snd (serve today p s)).
Proof.
  intros W. destruct p; simpl;
    cbv beta delta [handleDonors handleRecipients handleDonations
      handleDonationsDelete handleRequests handleDonorsUpdate handleDonorsDelete
      handleRecipientsUpdate handleRecipientsDelete handleFulfill
      handleRequestsUpdate handleRequestsDelete getDonorBloodTypeID
      getRecipientBloodTypeID getRequestBloodTypeID] zeta;
    repeat match goal with
      | |- context [if ?c then _ else _] => destruct c eqn:?
      | |- context [match getOrCreateBloodTypeID ?s ?b with _ => _ end] =>
          destruct (getOrCreateBloodTypeID s b) as [[?|?] ?] eqn:?
      | |- context [match consumeInventoryByTypeID ?s ?b ?u with _ => _ end] =>
          destruct (consumeInventoryByTypeID s b u) as [[|] ?] eqn:?
      | |- context [match upsertInventoryByTypeID ?s ?b ?u with _ => _ end] =>
          destruct (upsertInventoryByTypeID s b u) as [[?|] ?] eqn:?
      | |- context [match ?x with _ => _ end] => destruct x eqn:?
      end;
    simpl;
    try match goal with
      | H : upsertInventoryByTypeID (setDonations ?s1 ?l) _ _ = _, W : wellKeyed ?s1 |- _ =>
          assert (W' : wellKeyed (setDonations s1 l)) by (clear H; keys_preserved);
          clear W
      end;
    try keep_keys; try keys_preserved.
Qed.

Lemma emptyStore_wellKeyed : wellKeyed emptyStore.
Proof. constructor; simpl; constructor. Qed.

Lemma run_wellKeyed posts s : wellKeyed s -> wellKeyed (run posts s).
Proof.
  revert s. induction posts as [|[today p] posts IH]; simpl; intros s W; [exact W|].
  apply IH. now apply serve_wellKeyed.
Qed.

(** ** Retiring a donation *)

(** The row the retire handler reads: the blood type of the donor and the
    units of the donation. *)
Lemma donationJoin_active s id d n :
  NoDup (map da_id (donations s)) -> NoDup (map dn_id (donors s)) ->
  In d (donations s) -> da_id d = id -> da_deleted_at d = None ->
  In n (donors s) -> dn_id n = da_donor_id d ->
  donationJoin s (fun d => (da_id d =? id) && isNull (da_deleted_at d)) =
    [(dn_blood_type_id n, da_units d)].
Proof.
  intros Hda Hdn Hd Hid Hactive Hn Hdonor. unfold donationJoin.
  rewrite (flat_map_key da_id _ _ (donations s) d Hda Hd).
  - rewrite <- Hdonor. now rewrite (filter_key dn_id (donors s) n Hdn Hn).
  - now rewrite Hid, Z.eqb_refl, Hactive.
  - intros y Hy. apply andb_prop in Hy as [Hy _]. apply Z.eqb_eq in Hy. congruence.
Qed.

(** C6: retiring an active donation first debits the ledger, for the blood
    type of the donation's donor and by the donation's units.  When the
    debit returns [false] the answer is the conflict message and the store
    is as before (the donation active, the inventory untouched); when it
    returns [true] the donation gets its deletion date, on the store the
    debit left.  So the donation is soft-deleted only if the debit succeeded. *)
Theorem handleDonationsDelete_spec (today : string) (id : Z) (s : Store)
  (d : DonationRow) (n : DonorRow) :
  id <> 0 ->
  NoDup (map da_id (donations s)) -> NoDup (map dn_id (donors s)) ->
  In d (donations s) -> da_id d = id -> da_deleted_at d = None ->
  In n (donors s) -> dn_id n = da_donor_id d ->
  let debit := consumeInventoryByTypeID s (dn_blood_type_id n) (da_units d) in
  let answer := handleDonationsDelete today id s in
  (fst debit = false ->
     answer = (Render "Cannot delete donation because inventory is already used.", s)) /\
  (fst debit = true ->
     answer = (Redirect,
               setDonations (snd debit) (map (retireRow today id) (donations s))) /\
     In (retireRow today id d) (donations (snd answer)) /\
     da_deleted_at (retireRow today id d) = Some today) /\
  (forall d', In d' (donations (snd answer)) -> da_id d' = id ->
     da_deleted_at d' <> None -> fst debit = true) /\
  errorKind "Cannot delete donation because inventory is already used."
    = InsufficientInventory.
Proof.
  intros Hid Hda Hdn Hd Hdid Hactive Hn Hdonor debit answer.
  assert (Hanswer : answer =
    match debit with
    | (false, s1) =>
        (Render "Cannot delete donation because inventory is already used.", s1)
    | (true, s1) => (Redirect, setDonations s1 (map (retireRow today id) (donations s1)))
    end).
  { unfold answer, handleDonationsDelete. apply Z.eqb_neq in Hid. rewrite Hid.
    now rewrite (donationJoin_active s id d n Hda Hdn Hd Hdid Hactive Hn Hdonor). }
  assert (Hdonations : donations (snd debit) = donations s).
  { unfold debit, consumeInventoryByTypeID.
    destruct (activeBalance s _) as [c|]; [destruct (c <? _)|]; reflexivity. }
  assert (Hretired : da_deleted_at (retireRow today id d) = Some today).
  { unfold retireRow. now rewrite Hdid, Z.eqb_refl. }
  destruct debit as [[|] s1] eqn:Hdebit; simpl in *.
  - repeat split; try congruence.
    rewrite Hanswer; simpl. rewrite Hdonations. now apply in_map.
  - apply consumeInventoryByTypeID_false in Hdebit. subst s1.
    repeat split; try congruence; try discriminate.
    intros d' Hd' Hid' Hdeleted. exfalso. apply Hdeleted.
    rewrite Hanswer in Hd'. simpl in Hd'.
    assert (d' = d) as ->; [|exact Hactive].
    assert (find (fun x => da_id x =? id) (donations s) = Some d') as F1.
    { apply (find_key da_id); try assumption; [now apply Z.eqb_eq|].
      intros y Hy. apply Z.eqb_eq in Hy. congruence. }
    assert (find (fun x => da_id x =? id) (donations s) = Some d) as F2.
    { apply (find_key da_id); try assumption; [now apply Z.eqb_eq|].
      intros y Hy. apply Z.eqb_eq in Hy. congruence. }
    congruence.
Qed.

(** The keys of a concrete table are distinct: by evaluation. *)
Ltac distinct_keys :=
  simpl; repeat (apply NoDup_cons; [simpl; intuition lia|]); apply NoDup_nil.

(** Three units of O+ donated and two of them used by a fulfilled request:
    the donation can no longer be retired. *)
Definition usedDonation : Store :=
  run [ ("2025-06-01", PostDonors "Asha" "O+" "555-0101" "Pune");
        ("2025-06-01", PostRecipients "Ravi" "O+" "555-0102" "City Hospital");
        ("2025-06-02", PostDonations 1 3 "2025-12-01");
        ("2025-06-03", PostRequests 1 2);
        ("2025-06-03", PostFulfill 1) ]
      emptyStore.

Lemma handleDonationsDelete_spec_witness :
  handleDonationsDelete "2025-06-04" 1 usedDonation =
    (Render "Cannot delete donation because inventory is already used.", usedDonation).
Proof.
  refine (proj1 (handleDonationsDelete_spec "2025-06-04" 1 usedDonation
            (mkDonation 1 1 3 "2025-06-02" "2025-12-01" None)
            (mkDonor 1 "Asha" 1 (Some "555-0101") (Some "Pune") "2025-06-01" None)
            _ _ _ _ _ _ _ _) _).
  - lia.
  - distinct_keys.
  - distinct_keys.
  - left. reflexivity.
  - reflexivity.
  - reflexivity.
  - left. reflexivity.
  - reflexivity.
  - reflexivity.
Defined.

(** ** Amending a fulfilled request *)

Lemma keyed_row_unique {A} (key : A -> Z) (l : list A) (x y : A) :
  NoDup (map key l) -> In x l -> In y l -> key x = key y -> x = y.
Proof.
  induction l as [|z l IH]; simpl; intros Hnd Hx Hy E; [contradiction|].
  inversion Hnd as [|? ? Hz Hl]; subst.
  destruct Hx as [-> | Hx], Hy as [-> | Hy]; try reflexivity.
  - exfalso. apply Hz. rewrite E. now apply in_map.
  - exfalso. apply Hz. rewrite <- E. now apply in_map.
  - now apply IH.
Qed.

Lemma setRequests_same s : setRequests s (requests s) = s.
Proof. now destruct s. Qed.

Lemma activeRequest_found s id r :
  NoDup (map rq_id (requests s)) -> In r (requests s) -> rq_id r = id ->
  forall old, activeRequest s id = Some old -> old = r.
Proof.
  intros Hnd Hr Hid old H. apply find_some in H as [Hin H].
  apply andb_prop in H as [H _]. apply Z.eqb_eq in H.
  apply (keyed_row_unique rq_id (requests s)); congruence.
Qed.

Lemma amend_fulfilled (id units : Z) (status : string) (s : Store) (r : RequestRow) :
  NoDup (map rq_id (requests s)) ->
  In r (requests s) -> rq_id r = id -> rq_status r = "Fulfilled" ->
  let answer := handleRequestsUpdate id units status s in
  snd answer = s /\
  (fst answer = Redirect ->
     units = rq_units r /\ Text.TrimSpace status = "Fulfilled") /\
  (rq_deleted_at r = None -> id <> 0 -> 0 < units -> Text.TrimSpace status <> "" ->
     units <> rq_units r \/ Text.TrimSpace status <> "Fulfilled" ->
     fst answer = Render "Cannot modify a fulfilled request.") /\
  (rq_deleted_at r = None -> id <> 0 -> 0 < units ->
     units = rq_units r -> Text.TrimSpace status = "Fulfilled" ->
     fst answer = Redirect) /\
  errorKind "Cannot modify a fulfilled request." = ImmutableFulfilledRequest.
Proof.
  intros Hnd Hr Hid Hstatus answer. unfold answer, handleRequestsUpdate.
  set (st := Text.TrimSpace status).
  assert (Hactive : rq_deleted_at r = None -> activeRequest s id = Some r).
  { intros Hdel. apply (find_key rq_id); try assumption.
    - now rewrite Hid, Z.eqb_refl, Hdel.
    - intros y Hy. apply andb_prop in Hy as [Hy _]. apply Z.eqb_eq in Hy. congruence. }
  assert (Hnoop : units = rq_units r -> st = "Fulfilled" ->
                  setRequests s (map (amendRow id units st) (requests s)) = s).
  { intros -> ->. rewrite (map_update_key rq_id _ id (requests s) r);
      try assumption; [apply setRequests_same| |].
    - intros y Hy. unfold amendRow. apply Z.eqb_neq in Hy. now rewrite Hy.
    - unfold amendRow. rewrite Hid, Z.eqb_refl, <- Hstatus, <- Hid. now destruct r. }
  destruct ((id =? 0) || (units <=? 0) || Text.isEmpty st) eqn:Hvalid.
  - simpl. repeat split; try discriminate; intros; exfalso.
    + apply orb_prop in Hvalid as [Hvalid | Hvalid];
        [apply orb_prop in Hvalid as [Hvalid | Hvalid]|].
      * apply Z.eqb_eq in Hvalid. contradiction.
      * apply Z.leb_le in Hvalid. lia.
      * apply isEmpty_true in Hvalid. contradiction.
    + apply orb_prop in Hvalid as [Hvalid | Hvalid];
        [apply orb_prop in Hvalid as [Hvalid | Hvalid]|].
      * apply Z.eqb_eq in Hvalid. contradiction.
      * apply Z.leb_le in Hvalid. lia.
      * apply isEmpty_true in Hvalid. unfold st in *. congruence.
  - destruct (activeRequest s id) as [old|] eqn:Hfind.
    + assert (old = r) as -> by (now apply (activeRequest_found s id r Hnd Hr Hid)).
      rewrite Hstatus. change (String.eqb "Fulfilled" "Fulfilled") with true.
      cbn [negb andb].
      destruct (String.eqb st "Fulfilled") eqn:Est;
        [apply String.eqb_eq in Est|apply String.eqb_neq in Est];
        (destruct (rq_units r =? units) eqn:Eu;
         [apply Z.eqb_eq in Eu|apply Z.eqb_neq in Eu]); cbn [negb orb fst snd].
      * rewrite Hnoop by congruence.
        repeat split; try reflexivity; try congruence.
        intros _ _ _ _ [H | H]; congruence.
      * repeat split; try reflexivity; try discriminate; intros; congruence.
      * repeat split; try reflexivity; try discriminate; intros; congruence.
      * repeat split; try reflexivity; try discriminate; intros; congruence.
    + simpl. repeat split; try discriminate; intros Hdel; specialize (Hactive Hdel);
        discriminate.
Qed.

Lemma activeRequest_deleted s id r :
  NoDup (map rq_id (requests s)) -> In r (requests s) -> rq_id r = id ->
  rq_deleted_at r <> None -> activeRequest s id = None.
Proof.
  intros Hnd Hr Hid Hdel. destruct (activeRequest s id) as [old|] eqn:F; [|reflexivity].
  pose proof (activeRequest_found s id r Hnd Hr Hid old F) as ->.
  apply find_some in F as [_ F]. apply andb_prop in F as [_ F].
  destruct (rq_deleted_at r); [discriminate|contradiction].
Qed.

(** C7, as amended: an amendment aimed at a request whose status is
    Fulfilled never changes the store, and is accepted only when it is a
    no-op, the units and the (trimmed) status it carries being the current
    ones.  An amendment that would change the units or the status is
    rejected, with the rejection of the first test it fails: the invalid
    argument when the form is ill-formed (no id, units not positive, a blank
    status), not found when the request is soft-deleted, and the
    immutable-request rejection otherwise.  The status of the form is ASCII,
    where [Text.TrimSpace] is the function of Go. *)
Theorem handleRequestsUpdate_fulfilled (id units : Z) (status : string)
  (s : Store) (r : RequestRow) :
  Text.isASCII status = true ->
  NoDup (map rq_id (requests s)) ->
  In r (requests s) -> rq_id r = id -> rq_status r = "Fulfilled" ->
  let answer := handleRequestsUpdate id units status s in
  snd answer = s /\
  (fst answer = Redirect ->
     units = rq_units r /\ Text.TrimSpace status = "Fulfilled") /\
  (rq_deleted_at r = None -> id <> 0 -> 0 < units -> Text.TrimSpace status <> "" ->
     units <> rq_units r \/ Text.TrimSpace status <> "Fulfilled" ->
     fst answer = Render "Cannot modify a fulfilled request.") /\
  (rq_deleted_at r = None -> id <> 0 -> 0 < units ->
     units = rq_units r -> Text.TrimSpace status = "Fulfilled" ->
     fst answer = Redirect) /\
  errorKind "Cannot modify a fulfilled request." = ImmutableFulfilledRequest /\
  (id = 0 \/ units <= 0 \/ Text.TrimSpace status = "" ->
     fst answer = Render "Request update requires id, units, and status.") /\
  errorKind "Request update requires id, units, and status." = InvalidArgument /\
  (rq_deleted_at r <> None -> id <> 0 -> 0 < units -> Text.TrimSpace status <> "" ->
     fst answer = Render "Request not found.") /\
  errorKind "Request not found." = NotFound.
Proof.
  intros _ Hnd Hr Hid Hstatus answer.
  destruct (amend_fulfilled id units status s r Hnd Hr Hid Hstatus)
    as [H1 [H2 [H3 [H4 H5]]]].
  fold answer in H1, H2, H3, H4.
  repeat (split; [assumption|]).
  split; [|split; [reflexivity|split; [|reflexivity]]].
  - intros Hbad. unfold answer, handleRequestsUpdate.
    assert ((id =? 0) || (units <=? 0) || Text.isEmpty (Text.TrimSpace status) = true)
      as ->; [|reflexivity].
    destruct Hbad as [-> | [Hu | ->]].
    + reflexivity.
    + apply Z.leb_le in Hu. rewrite Hu. now rewrite orb_true_r.
    + now rewrite orb_true_r.
  - intros Hdel Hid0 Hu Hst. unfold answer, handleRequestsUpdate.
    apply Z.eqb_neq in Hid0. rewrite Hid0.
    assert ((units <=? 0) = false) as -> by (apply Z.leb_gt; lia).
    apply isEmpty_false in Hst. rewrite Hst. cbn [orb].
    now rewrite (activeRequest_deleted s id r Hnd Hr Hid Hdel).
Qed.

Lemma handleRequestsUpdate_fulfilled_witness :
  snd (handleRequestsUpdate 1 5 "Pending" usedDonation) = usedDonation /\
  fst (handleRequestsUpdate 1 5 "Pending" usedDonation) =
    Render "Cannot modify a fulfilled request." /\
  fst (handleRequestsUpdate 1 2 " Fulfilled " usedDonation) = Redirect.
Proof.
  assert (Hkeys : NoDup (map rq_id (requests usedDonation))) by distinct_keys.
  pose proof (handleRequestsUpdate_fulfilled 1 5 "Pending" usedDonation
                (mkRequest 1 1 2 "Fulfilled" "2025-06-03" None)
                eq_refl Hkeys (or_introl eq_refl) eq_refl eq_refl) as [H1 [_ [H2 _]]].
  pose proof (handleRequestsUpdate_fulfilled 1 2 " Fulfilled " usedDonation
                (mkRequest 1 1 2 "Fulfilled" "2025-06-03" None)
                eq_refl Hkeys (or_introl eq_refl) eq_refl eq_refl) as [_ [_ [_ [H3 _]]]].
  split; [exact H1|]. split.
  - apply H2; [reflexivity|lia|lia|discriminate|left; simpl; lia].
  - apply H3; [reflexivity|lia|lia|reflexivity|reflexivity].
Defined.

(** A request cancelled, then fulfilled all the same: Fulfilled and
    soft-deleted. *)
Definition cancelledThenFulfilled : Store :=
  run [ ("2025-06-01", PostDonors "Asha" "O+" "555-0101" "Pune");
        ("2025-06-01", PostRecipients "Ravi" "O+" "555-0102" "City Hospital");
        ("2025-06-02", PostDonations 1 3 "2025-12-01");
        ("2025-06-03", PostRequests 1 2);
        ("2025-06-04", PostRequestsDelete 1);
        ("2025-06-05", PostFulfill 1) ]
      emptyStore.

(** C7, as stated, fails: an amendment that would change a Fulfilled request
    is not always answered with the immutable-request rejection.  The
    handler validates the form first, then looks the request up among the
    active ones, and only then tests the status.  On the Fulfilled request
    of 2 units, an amendment to 0 units is the invalid argument; on a
    Fulfilled request that is soft-deleted, an amendment to 5 units is not
    found.  The request is unchanged both times. *)
Lemma handleRequestsUpdate_fulfilled_other_rejections :
  (find (fun r => rq_id r =? 1) (requests usedDonation) =
     Some (mkRequest 1 1 2 "Fulfilled" "2025-06-03" None) /\
   handleRequestsUpdate 1 0 "Pending" usedDonation =
     (Render "Request update requires id, units, and status.", usedDonation) /\
   errorKind "Request update requires id, units, and status." = InvalidArgument) /\
  (find (fun r => rq_id r =? 1) (requests cancelledThenFulfilled) =
     Some (mkRequest 1 1 2 "Fulfilled" "2025-06-03" (Some "2025-06-04")) /\
   handleRequestsUpdate 1 5 "Pending" cancelledThenFulfilled =
     (Render "Request not found.", cancelledThenFulfilled) /\
   errorKind "Request not found." = NotFound) /\
  ~ (forall id units status s r,
       In r (requests s) -> rq_id r = id -> rq_status r = "Fulfilled" ->
       units <> rq_units r \/ Text.TrimSpace status <> "Fulfilled" ->
       exists msg,
         fst (handleRequestsUpdate id units status s) = Render msg /\
         errorKind msg = ImmutableFulfilledRequest).
Proof.
  split; [repeat split|split; [repeat split|]].
  intros H.
  destruct (H 1 0 "Pending" usedDonation
              (mkRequest 1 1 2 "Fulfilled" "2025-06-03" None)
              (or_introl eq_refl) eq_refl eq_refl ltac:(left; discriminate))
    as [msg [E K]].
  vm_compute in E. inversion E; subst. vm_compute in K. discriminate.
Qed.

(** ** The lookup registry *)

Example normalizeBloodType_example : normalizeBloodType "  ab- " = "AB-".
Proof. reflexivity. Qed.

Lemma lookupBloodType_grows s s' label id extra :
  blood_types s' = blood_types s ++ extra ->
  lookupBloodType s label = Some id -> lookupBloodType s' label = Some id.
Proof.
  unfold lookupBloodType. intros -> H. rewrite find_app.
  now destruct (find _ (blood_types s)).
Qed.

Lemma getOrCreateBloodTypeID_grows s bloodType :
  exists extra,
    blood_types (snd (getOrCreateBloodTypeID s bloodType)) = blood_types s ++ extra.
Proof.
  unfold getOrCreateBloodTypeID.
  destruct (Text.isEmpty _); [exists []; simpl; now rewrite app_nil_r|].
  destruct (lookupBloodType s _); [exists []; simpl; now rewrite app_nil_r|].
  eexists. reflexivity.
Qed.

Lemma consumeInventoryByTypeID_blood_types s ref units :
  blood_types (snd (consumeInventoryByTypeID s ref units)) = blood_types s.
Proof.
  unfold consumeInventoryByTypeID.
  destruct (activeBalance s ref) as [c|]; [destruct (c <? units)|]; reflexivity.
Qed.

Lemma upsertInventoryByTypeID_blood_types s ref units :
  blood_types (snd (upsertInventoryByTypeID s ref units)) = blood_types s.
Proof.
  unfold upsertInventoryByTypeID.
  destruct (rowsAffected s ref); [destruct (validRef s ref)|]; reflexivity.
Qed.

(** No handler removes or rewrites a row of [blood_types]: the table only
    grows at its end. *)
Lemma serve_blood_types today p s :
  exists extra, blood_types (snd (serve today p s)) = blood_types s ++ extra.
Proof.
  assert (Hsame : forall s', blood_types s' = blood_types s ->
                             exists extra, blood_types s' = blood_types s ++ extra).
  { intros s' ->. exists []. now rewrite app_nil_r. }
  destruct p; simpl;
    cbv beta delta [handleDonors handleRecipients handleDonations
      handleDonationsDelete handleRequests handleDonorsUpdate handleDonorsDelete
      handleRecipientsUpdate handleRecipientsDelete handleFulfill
      handleRequestsUpdate handleRequestsDelete getDonorBloodTypeID
      getRecipientBloodTypeID getRequestBloodTypeID] zeta;
    repeat match goal with
      | |- context [match getOrCreateBloodTypeID ?s ?b with _ => _ end] =>
          let G := fresh "G" in
          pose proof (getOrCreateBloodTypeID_grows s b) as G;
          destruct (getOrCreateBloodTypeID s b) as [[?|?] ?]
      | |- context [match consumeInventoryByTypeID ?s ?b ?u with _ => _ end] =>
          let G := fresh "G" in
          pose proof (consumeInventoryByTypeID_blood_types s b u) as G;
          destruct (consumeInventoryByTypeID s b u) as [[|] ?]
      | |- context [match upsertInventoryByTypeID ?s ?b ?u with _ => _ end] =>
          let G := fresh "G" in
          pose proof (upsertInventoryByTypeID_blood_types s b u) as G;
          destruct (upsertInventoryByTypeID s b u) as [[?|] ?]
      | |- context [if ?c then _ else _] => destruct c
      | |- context [match ?x with _ => _ end] => destruct x
      end;
    simpl in *; first [ assumption | now apply Hsame ].
Qed.

Lemma run_blood_types posts s :
  exists extra, blood_types (run posts s) = blood_types s ++ extra.
Proof.
  revert s. induction posts as [|[today p] posts IH]; simpl; intros s.
  - exists []. now rewrite app_nil_r.
  - destruct (serve_blood_types today p s) as [e1 H1].
    destruct (IH (snd (serve today p s))) as [e2 H2].
    exists (e1 ++ e2). now rewrite H2, H1, app_assoc.
Qed.

(** C9: the registry normalizes the label (white space trimmed, upper case)
    and keys on the normalized label.  Two labels with the same
    normalization get the same answer, whatever requests are served between
    the two calls: the later call returns the reference the earlier one
    returned, which for a new label is the reference then assigned.  The
    labels are ASCII, where [normalizeBloodType] is the function of Go. *)
Theorem getOrCreateBloodTypeID_stable :
  (forall s label1 label2 posts,
     Text.isASCII label1 = true -> Text.isASCII label2 = true ->
     normalizeBloodType label1 = normalizeBloodType label2 ->
     fst (getOrCreateBloodTypeID
            (run posts (snd (getOrCreateBloodTypeID s label1))) label2) =
     fst (getOrCreateBloodTypeID s label1)) /\
  (forall s label id s',
     Text.isASCII label = true ->
     getOrCreateBloodTypeID s label = (Ok id, s') ->
     lookupBloodType s' (Text.ToUpper (Text.TrimSpace label)) = Some id /\
     (forall id0, lookupBloodType s (Text.ToUpper (Text.TrimSpace label)) = Some id0 ->
        id = id0 /\ s' = s)).
Proof.
  split.
  - intros s label1 label2 posts _ _ Hnorm. unfold getOrCreateBloodTypeID.
    rewrite <- Hnorm. set (label := normalizeBloodType label1).
    destruct (Text.isEmpty label) eqn:Hempty; [reflexivity|].
    assert (Hkept : forall s1 id, lookupBloodType s1 label = Some id ->
      fst (match lookupBloodType (run posts s1) label with
           | Some id => (Ok id, run posts s1)
           | None =>
               (Ok (nextID (map bt_id (blood_types (run posts s1)))),
                setBloodTypes (run posts s1)
                  (blood_types (run posts s1) ++
                   [mkBloodType (nextID (map bt_id (blood_types (run posts s1)))) label]))
           end) = Ok id).
    { intros s1 id H. destruct (run_blood_types posts s1) as [extra Hextra].
      now rewrite (lookupBloodType_grows s1 _ label id extra Hextra H). }
    destruct (lookupBloodType s label) as [id|] eqn:Hfind; simpl.
    + now apply Hkept.
    + apply Hkept. unfold lookupBloodType in *. simpl. rewrite find_app.
      destruct (find _ (blood_types s)); [discriminate|].
      simpl. now rewrite String.eqb_refl.
  - intros s label id s' _. unfold getOrCreateBloodTypeID.
    change (normalizeBloodType label) with (Text.ToUpper (Text.TrimSpace label)).
    set (l := Text.ToUpper (Text.TrimSpace label)).
    destruct (Text.isEmpty l); [discriminate|].
    destruct (lookupBloodType s l) as [id1|] eqn:Hfind; intros H; inversion H; subst.
    + split; [exact Hfind|]. intros id0 H0. now inversion H0.
    + split; [|discriminate].
      unfold lookupBloodType in *. simpl. rewrite find_app.
      destruct (find _ (blood_types s)); [discriminate|].
      simpl. now rewrite String.eqb_refl.
Qed.

Lemma getOrCreateBloodTypeID_stable_witness :
  fst (getOrCreateBloodTypeID
         (run [("2025-06-07", PostDonors "Meera" "b-" "555-0103" "Nashik")]
              (snd (getOrCreateBloodTypeID scenario " ab+")))
         "AB+ ") = Ok 2.
Proof.
  rewrite (proj1 getOrCreateBloodTypeID_stable scenario " ab+" "AB+ " _
             eq_refl eq_refl eq_refl).
  reflexivity.
Defined.

(** ** The request lifecycle *)

(** What a request can do to the [requests] table. *)
Inductive requestsWrite (today : string) (s : Store) : Post -> list RequestRow -> Prop :=
| rw_none p : requestsWrite today s p (requests s)
| rw_insert recipientID units :
    requestsWrite today s (PostRequests recipientID units)
      (requests s ++
       [mkRequest (nextID (map rq_id (requests s))) recipientID units "Pending" today None])
| rw_fulfill id :
    requestsWrite today s (PostFulfill id)
      (map (setStatusRow id "Fulfilled") (requests s))
| rw_amend id units status old :
    activeRequest s id = Some old ->
    (rq_status old = "Fulfilled" ->
     Text.TrimSpace status = "Fulfilled" /\ units = rq_units old) ->
    Text.TrimSpace status <> "" ->
    requestsWrite today s (PostRequestsUpdate id units status)
      (map (amendRow id units (Text.TrimSpace status)) (requests s))
| rw_cancel id old :
    activeRequest s id = Some old ->
    rq_status old <> "Fulfilled" ->
    requestsWrite today s (PostRequestsDelete id)
      (map (cancelRow today id) (requests s)).

Lemma getOrCreateBloodTypeID_requests s bloodType :
  requests (snd (getOrCreateBloodTypeID s bloodType)) = requests s.
Proof.
  unfold getOrCreateBloodTypeID.
  destruct (Text.isEmpty _); [reflexivity|]. now destruct (lookupBloodType s _).
Qed.

Lemma consumeInventoryByTypeID_requests s ref units :
  requests (snd (consumeInventoryByTypeID s ref units)) = requests s.
Proof.
  unfold consumeInventoryByTypeID.
  destruct (activeBalance s ref) as [c|]; [destruct (c <? units)|]; reflexivity.
Qed.

Lemma upsertInventoryByTypeID_requests s ref units :
  requests (snd (upsertInventoryByTypeID s ref units)) = requests s.
Proof.
  unfold upsertInventoryByTypeID.
  destruct (rowsAffected s ref); [destruct (validRef s ref)|]; reflexivity.
Qed.

Lemma handleRequestsUpdate_requests today id units status s :
  requestsWrite today s (PostRequestsUpdate id units status)
    (requests (snd (handleRequestsUpdate id units status s))).
Proof.
  unfold handleRequestsUpdate. set (st := Text.TrimSpace status).
  destruct ((id =? 0) || (units <=? 0) || Text.isEmpty st) eqn:Hvalid;
    [apply rw_none|].
  apply orb_false_elim in Hvalid as [_ Hst]. apply isEmpty_false in Hst.
  destruct (activeRequest s id) as [old|] eqn:Hold; [|apply rw_none].
  destruct (String.eqb (rq_status old) "Fulfilled" &&
            (negb (String.eqb st "Fulfilled") || negb (rq_units old =? units)))
    eqn:Hfrozen; [apply rw_none|].
  assert (Hnoop : rq_status old = "Fulfilled" ->
                  st = "Fulfilled" /\ units = rq_units old).
  { intros E. apply String.eqb_eq in E. rewrite E in Hfrozen. simpl in Hfrozen.
    apply orb_false_elim in Hfrozen as [H1 H2].
    apply negb_false_iff in H1, H2.
    apply String.eqb_eq in H1. apply Z.eqb_eq in H2. now split. }
  destruct (negb (String.eqb (rq_status old) "Fulfilled") && String.eqb st "Fulfilled").
  - destruct (getRequestBloodTypeID s id); [|apply rw_none].
    pose proof (consumeInventoryByTypeID_requests s a units) as Hreq.
    destruct (consumeInventoryByTypeID s a units) as [[|] s1]; simpl in *.
    + rewrite Hreq. now apply (rw_amend today s id units status old).
    + rewrite Hreq. apply rw_none.
  - simpl. now apply (rw_amend today s id units status old).
Qed.

(** Every handler writes to [requests] in one of the five ways. *)
Lemma serve_requests today p s :
  requestsWrite today s p (requests (snd (serve today p s))).
Proof.
  destruct p; simpl; try apply handleRequestsUpdate_requests.
  all: cbv beta delta [handleDonors handleRecipients handleDonations
      handleDonationsDelete handleRequests handleDonorsUpdate handleDonorsDelete
      handleRecipientsUpdate handleRecipientsDelete handleFulfill
      handleRequestsDelete getDonorBloodTypeID getRecipientBloodTypeID] zeta.
  all: repeat match goal with
      | |- context [match getOrCreateBloodTypeID ?s ?b with _ => _ end] =>
          let G := fresh "G" in
          pose proof (getOrCreateBloodTypeID_requests s b) as G;
          destruct (getOrCreateBloodTypeID s b) as [[?|?] ?]
      | |- context [match consumeInventoryByTypeID ?s ?b ?u with _ => _ end] =>
          let G := fresh "G" in
          pose proof (consumeInventoryByTypeID_requests s b u) as G;
          destruct (consumeInventoryByTypeID s b u) as [[|] ?]
      | |- context [match upsertInventoryByTypeID ?s ?b ?u with _ => _ end] =>
          let G := fresh "G" in
          pose proof (upsertInventoryByTypeID_requests s b u) as G;
          destruct (upsertInventoryByTypeID s b u) as [[?|] ?]
      | |- context [if ?c then _ else _] => destruct c eqn:?
      | |- context [match ?x with _ => _ end] => destruct x eqn:?
      end.
  all: simpl in *;
    repeat match goal with G : requests _ = requests _ |- _ => rewrite G; clear G end.
  all: try apply rw_none; try apply rw_insert; try apply rw_fulfill.
  eapply rw_cancel; [eassumption|]. now apply String.eqb_neq.
Qed.

Lemma rowOf_update s id (f : RequestRow -> RequestRow) :
  (forall r, rq_id (f r) = rq_id r) ->
  find (fun r => rq_id r =? id) (map f (requests s)) = option_map f (rowOf s id).
Proof.
  intros Hkey. unfold rowOf. apply find_map_stable.
  intros r. now rewrite Hkey.
Qed.

Lemma rowOf_in s id r : rowOf s id = Some r -> In r (requests s) /\ rq_id r = id.
Proof.
  unfold rowOf. intros H. apply find_some in H as [Hin H].
  apply Z.eqb_eq in H. now split.
Qed.

Lemma setStatusRow_id id status r : rq_id (setStatusRow id status r) = rq_id r.
Proof. unfold setStatusRow. now destruct (rq_id r =? id). Qed.

Lemma amendRow_id id units status r : rq_id (amendRow id units status r) = rq_id r.
Proof. unfold amendRow. now destruct (rq_id r =? id). Qed.

Lemma cancelRow_id today id r : rq_id (cancelRow today id r) = rq_id r.
Proof. unfold cancelRow. now destruct (rq_id r =? id). Qed.

(** The row of a request after a handler has run, from the row before. *)
Lemma rowOf_serve today p s id r :
  NoDup (map rq_id (requests s)) ->
  rowOf s id = Some r ->
  rowOf (snd (serve today p s)) id = Some r \/
  (p = PostFulfill id /\
   rowOf (snd (serve today p s)) id = Some (setStatusRow id "Fulfilled" r)) \/
  (exists units status,
     p = PostRequestsUpdate id units status /\
     activeRequest s id = Some r /\
     (rq_status r = "Fulfilled" ->
      Text.TrimSpace status = "Fulfilled" /\ units = rq_units r) /\
     Text.TrimSpace status <> "" /\
     rowOf (snd (serve today p s)) id =
       Some (amendRow id units (Text.TrimSpace status) r)) \/
  (p = PostRequestsDelete id /\
   activeRequest s id = Some r /\
   rq_status r <> "Fulfilled" /\
   rowOf (snd (serve today p s)) id = Some (cancelRow today id r)).
Proof.
  intros Hnd Hrow. destruct (rowOf_in s id r Hrow) as [Hin Hid].
  unfold rowOf.
  generalize (serve_requests today p s).
  generalize (requests (snd (serve today p s))). intros rows W.
  destruct W as [p | rc u | id0 | id0 u st old Hold Hnoop Hst | id0 old Hold Hlive].
  - now left.
  - left. rewrite find_app. unfold rowOf in Hrow. now rewrite Hrow.
  - rewrite (rowOf_update s id _ (setStatusRow_id id0 "Fulfilled")), Hrow; simpl.
    destruct (Z.eq_dec id0 id) as [-> | Hne]; [right; left; now split|].
    left. unfold setStatusRow. rewrite Hid.
    assert ((id =? id0) = false) as -> by (apply Z.eqb_neq; congruence). reflexivity.
  - rewrite (rowOf_update s id _ (amendRow_id id0 u (Text.TrimSpace st))), Hrow; simpl.
    destruct (Z.eq_dec id0 id) as [-> | Hne].
    + right; right; left. exists u, st.
      assert (old = r) as -> by (now apply (activeRequest_found s id r Hnd Hin Hid)).
      repeat split; try assumption; now apply Hnoop.
    + left. unfold amendRow. rewrite Hid.
      assert ((id =? id0) = false) as -> by (apply Z.eqb_neq; congruence). reflexivity.
  - rewrite (rowOf_update s id _ (cancelRow_id today id0)), Hrow; simpl.
    destruct (Z.eq_dec id0 id) as [-> | Hne].
    + right; right; right.
      assert (old = r) as -> by (now apply (activeRequest_found s id r Hnd Hin Hid)).
      repeat split; assumption.
    + left. unfold cancelRow. rewrite Hid.
      assert ((id =? id0) = false) as -> by (apply Z.eqb_neq; congruence). reflexivity.
Qed.

(** C3, as amended, for a post with an ASCII form.  Fulfilled is terminal:
    no handler changes the row (status, units) of a request whose status is
    Fulfilled.  A change of status starts from a status other than
    Fulfilled and is made by the fulfil handler (from Pending to Fulfilled),
    by the amend handler on an active request (to the non-empty status of
    the form, which is free text), or by the cancel handler on an active
    request (to Cancelled).  The changes of status are those of the posts
    that stay clear of the slip of [POST /fulfill], which tests no status: a
    fulfil is aimed at a Pending request; what a fulfil does to another
    request is left out here. *)
Theorem request_status_changes (today : string) (p : Post) (s : Store) (id : Z) :
  NoDup (map rq_id (requests s)) ->
  asciiPost p = true ->
  (forall r, rowOf s id = Some r -> rq_status r = "Fulfilled" ->
     rowOf (snd (serve today p s)) id = Some r) /\
  (fulfilsPending s p = true ->
   forall a b,
     statusOf s id = Some a -> statusOf (snd (serve today p s)) id = Some b ->
     a <> b ->
     a <> "Fulfilled" /\
     ((p = PostFulfill id /\ a = "Pending" /\ b = "Fulfilled") \/
      (exists units status,
         p = PostRequestsUpdate id units status /\
         b = Text.TrimSpace status /\ b <> "" /\
         exists r, activeRequest s id = Some r) \/
      (p = PostRequestsDelete id /\ b = "Cancelled" /\
       exists r, activeRequest s id = Some r))).
Proof.
  intros Hnd _. split.
  - intros r Hrow Hstatus.
    destruct (rowOf_in s id r Hrow) as [_ Hid].
    destruct (rowOf_serve today p s id r Hnd Hrow)
      as [H | [[_ H] | [[u [st [_ [_ [Hnoop [_ H]]]]]] | [_ [_ [Hlive _]]]]]];
      [exact H| | |contradiction].
    + rewrite H. f_equal. unfold setStatusRow.
      rewrite <- Hid, Z.eqb_refl, <- Hstatus. now destruct r.
    + rewrite H. f_equal. destruct (Hnoop Hstatus) as [-> ->].
      unfold amendRow. rewrite <- Hid, Z.eqb_refl, <- Hstatus. now destruct r.
  - intros Hguard a b Ha Hb Hab. unfold statusOf in Ha, Hb.
    destruct (rowOf s id) as [r|] eqn:Hrow; [|discriminate].
    simpl in Ha. inversion Ha; subst a; clear Ha.
    destruct (rowOf_in s id r Hrow) as [_ Hid].
    destruct (rowOf_serve today p s id r Hnd Hrow)
      as [H | [[Hp H] | [[u [st [Hp [Hact [Hnoop [Hst H]]]]]] | [Hp [Hact [Hlive H]]]]]];
      rewrite H in Hb; simpl in Hb; inversion Hb; subst b; clear Hb.
    + contradiction.
    + assert (Hpending : rq_status r = "Pending").
      { rewrite Hp in Hguard. unfold rowOf in Hrow. simpl in Hguard.
        rewrite Hrow in Hguard. now apply String.eqb_eq. }
      unfold setStatusRow in *. rewrite Hid, Z.eqb_refl in *. simpl in *.
      split; [congruence|]. left. now repeat split.
    + unfold amendRow in *. rewrite Hid, Z.eqb_refl in *. simpl in *.
      split; [intros E; destruct (Hnoop E); congruence|].
      right; left. exists u, st. repeat split; try assumption. now exists r.
    + unfold cancelRow in *. rewrite Hid, Z.eqb_refl in *. simpl in *.
      split; [assumption|]. right; right. repeat split; try assumption. now exists r.
Qed.

(** A request amended to Cancelled: still active, its status only a text. *)
Definition amendedToCancelled : Store :=
  run [ ("2025-06-01", PostRecipients "Ravi" "O+" "555-0102" "City Hospital");
        ("2025-06-03", PostRequests 1 2);
        ("2025-06-04", PostRequestsUpdate 1 2 "Cancelled") ]
      emptyStore.

Lemma request_status_changes_witness :
  statusOf amendedToCancelled 1 = Some "Cancelled" /\
  statusOf (snd (serve "2025-06-05" (PostRequestsDelete 1) usedDonation)) 1
    = Some "Fulfilled" /\
  "Cancelled" <> "Fulfilled".
Proof.
  assert (Hused : NoDup (map rq_id (requests usedDonation))) by distinct_keys.
  assert (Hamended : NoDup (map rq_id (requests amendedToCancelled))) by distinct_keys.
  split; [reflexivity|]. split.
  - unfold statusOf.
    rewrite (proj1 (request_status_changes "2025-06-05" (PostRequestsDelete 1)
                      usedDonation 1 Hused eq_refl)
                   (mkRequest 1 1 2 "Fulfilled" "2025-06-03" None) eq_refl eq_refl).
    reflexivity.
  - refine (proj1 (proj2 (request_status_changes "2025-06-05"
                            (PostRequestsUpdate 1 2 "Pending") amendedToCancelled 1
                            Hamended eq_refl)
                         eq_refl "Cancelled" "Pending" eq_refl eq_refl _)).
    discriminate.
Defined.

(** A request amended to a status of the clerk's own. *)
Definition amendedToOnHold : Store :=
  run [ ("2025-06-01", PostRecipients "Ravi" "O+" "555-0102" "City Hospital");
        ("2025-06-03", PostRequests 1 2);
        ("2025-06-04", PostRequestsUpdate 1 2 "On hold") ]
      emptyStore.

(** C3, as stated, fails: the amend handler takes any status.  A request
    amended from Pending to Cancelled stays active and is amended back to
    Pending, a transition that starts from Cancelled.  And a request
    amended to a status of the clerk's own is cancelled from there: the
    cancel handler refuses Fulfilled only, so a cancellation need not start
    from Pending. *)
Lemma request_status_leaves_cancelled :
  statusOf amendedToCancelled 1 = Some "Cancelled" /\
  statusOf (snd (serve "2025-06-05" (PostRequestsUpdate 1 2 "Pending")
                       amendedToCancelled)) 1 = Some "Pending" /\
  statusOf amendedToOnHold 1 = Some "On hold" /\
  statusOf (snd (serve "2025-06-05" (PostRequestsDelete 1) amendedToOnHold)) 1 =
    Some "Cancelled" /\
  ~ (forall posts today p id a b,
       statusOf (run posts emptyStore) id = Some a ->
       statusOf (snd (serve today p (run posts emptyStore))) id = Some b ->
       a <> b ->
       a = "Pending" /\ (b = "Fulfilled" \/ b = "Cancelled")).
Proof.
  split; [reflexivity|]. split; [reflexivity|].
  split; [reflexivity|]. split; [reflexivity|].
  intros H.
  destruct (H [ ("2025-06-01", PostRecipients "Ravi" "O+" "555-0102" "City Hospital");
                ("2025-06-03", PostRequests 1 2);
                ("2025-06-04", PostRequestsUpdate 1 2 "Cancelled") ]
              "2025-06-05" (PostRequestsUpdate 1 2 "Pending") 1
              "Cancelled" "Pending" eq_refl eq_refl ltac:(discriminate)) as [E _].
  discriminate.
Qed.

(** ** The migration *)

Import Migration.

Lemma execAll_app (l1 l2 : list Statement) (d : Database) :
  execAll (l1 ++ l2) d =
  match execAll l1 d with
  | (None, d') => execAll l2 d'
  | (Some e, d') => (Some e, d')
  end.
Proof.
  revert d. induction l1 as [|st l1 IH]; simpl; intros d; [reflexivity|].
  destruct (st d) as [d'|e]; [apply IH|reflexivity].
Qed.

(** A property that every statement of a script keeps holds at the end of
    the run, finished or not. *)
Lemma execAll_preserves (P : Database -> Prop) (script : list Statement) :
  Forall (fun st => forall d d', P d -> st d = Ok d' -> P d') script ->
  forall d r d', P d -> execAll script d = (r, d') -> P d'.
Proof.
  induction 1 as [|st script Hst _ IH]; simpl; intros d r d' HP Hrun.
  - now inversion Hrun; subst.
  - destruct (st d) as [d1|e] eqn:E.
    + eapply IH; [|exact Hrun]. eapply Hst; eassumption.
    + now inversion Hrun; subst.
Qed.

(** *** [INSERT OR IGNORE] is absorbed by the labels already there *)

Lemma hasLabel_app types extra label :
  hasLabel (types ++ extra) label = hasLabel types label || hasLabel extra label.
Proof. unfold hasLabel. apply existsb_app. Qed.

Lemma hasLabel_insertOrIgnore_mono types other label :
  hasLabel types label = true -> hasLabel (insertOrIgnore types other) label = true.
Proof.
  intros H. unfold insertOrIgnore. destruct (hasLabel types other); [exact H|].
  now rewrite hasLabel_app, H.
Qed.

Lemma hasLabel_insertOrIgnore_self types label :
  hasLabel (insertOrIgnore types label) label = true.
Proof.
  unfold insertOrIgnore. destruct (hasLabel types label) eqn:E; [exact E|].
  rewrite hasLabel_app. simpl. now rewrite String.eqb_refl, orb_true_r.
Qed.

Lemma hasLabel_insertLabels_mono labels types label :
  hasLabel types label = true -> hasLabel (insertLabels labels types) label = true.
Proof.
  unfold insertLabels. revert types.
  induction labels as [|l labels IH]; simpl; intros types H; [exact H|].
  apply IH. now apply hasLabel_insertOrIgnore_mono.
Qed.

Lemma hasLabel_insertLabels_self labels types label :
  In label labels -> hasLabel (insertLabels labels types) label = true.
Proof.
  unfold insertLabels. revert types.
  induction labels as [|l labels IH]; simpl; intros types H; [contradiction|].
  destruct H as [-> | H]; [|now apply IH].
  apply (hasLabel_insertLabels_mono labels). apply hasLabel_insertOrIgnore_self.
Qed.

Lemma insertOrIgnore_absorbed types label :
  hasLabel types label = true -> insertOrIgnore types label = types.
Proof. unfold insertOrIgnore. now intros ->. Qed.

Lemma insertLabels_absorbed labels types :
  (forall l, In l labels -> hasLabel types l = true) ->
  insertLabels labels types = types.
Proof.
  unfold insertLabels.
  induction labels as [|l labels IH]; simpl; intros H; [reflexivity|].
  rewrite insertOrIgnore_absorbed by (apply H; now left).
  apply IH. intros l' Hl'. apply H. now right.
Qed.

(** *** The phases of the script *)

Definition prepareScript : list Statement :=
  [ pragmaForeignKeys false; createBloodTypes;
    insertLabelsFrom FromDonors; insertLabelsFrom FromRecipients;
    insertLabelsFrom FromInventory; insertUnknown ].

Definition buildScript : list Statement :=
  [ createRecipientsNew; createDonationsNew; createRequestsNew; createInventoryNew;
    copyDonors; copyRecipients; copyDonations; copyRequests; copyInventory ].

Definition swapScript : list Statement :=
  [ dropRecipients; dropDonations; dropRequests; dropInventory;
    renameDonors; renameRecipients; renameDonations; renameRequests; renameInventory;
    pragmaForeignKeys true ].

Lemma migrationScript_phases :
  migrationScript =
  prepareScript ++ createDonorsNew :: buildScript ++ dropDonors :: swapScript.
Proof. reflexivity. Qed.

(** The blood types hold every label the cells of a legacy table select. *)
Definition covers (types : list BloodTypeRow) (cells : list (option string)) : Prop :=
  forall l, In l (distinctLabels cells) -> hasLabel types l = true.

(** What the statements up to [INSERT ... VALUES ('UNKNOWN')] establish and
    the later ones, up to the first [DROP TABLE], keep: the legacy tables in
    place, their labels and the sentinel registered, foreign keys off. *)
Definition Prepared (d : Database) : Prop :=
  foreign_keys d = false /\
  exists types dn rc iv,
    tbl_blood_types d = Some types /\
    tbl_donors d = Some (LegacyDonors dn) /\
    tbl_recipients d = Some (LegacyRecipients rc) /\
    tbl_inventory d = Some (LegacyInventory iv) /\
    covers types (map ldn_blood_type dn) /\
    covers types (map lrc_blood_type rc) /\
    covers types (map liv_blood_type iv) /\
    hasLabel types "UNKNOWN" = true.

Lemma covers_insertLabels_self types cells :
  covers (insertLabels (distinctLabels cells) types) cells.
Proof. intros l Hl. now apply hasLabel_insertLabels_self. Qed.

Lemma covers_insertLabels_mono types labels cells :
  covers types cells -> covers (insertLabels labels types) cells.
Proof. intros H l Hl. apply hasLabel_insertLabels_mono. now apply H. Qed.

Lemma covers_insertOrIgnore_mono types label cells :
  covers types cells -> covers (insertOrIgnore types label) cells.
Proof. intros H l Hl. apply hasLabel_insertOrIgnore_mono. now apply H. Qed.

Lemma covers_absorbed types cells :
  covers types cells -> insertLabels (distinctLabels cells) types = types.
Proof. intros H. now apply insertLabels_absorbed. Qed.

(** On a prepared database the preparing statements change nothing. *)
Lemma Prepared_absorbed d : Prepared d -> execAll prepareScript d = (None, d).
Proof.
  intros [Hfk [types [dn [rc [iv [Ht [Hdn [Hrc [Hiv [Cdn [Crc [Civ Hu]]]]]]]]]]]].
  destruct d; simpl in *; subst.
  unfold prepareScript, execAll, pragmaForeignKeys, createBloodTypes, insertLabelsFrom,
    insertUnknown, withForeignKeys, withBloodTypes; simpl.
  rewrite (covers_absorbed types (map ldn_blood_type dn) Cdn).
  rewrite (covers_absorbed types (map lrc_blood_type rc) Crc).
  rewrite (covers_absorbed types (map liv_blood_type iv) Civ).
  now rewrite (insertOrIgnore_absorbed types "UNKNOWN" Hu).
Qed.

(** A run that re-executes statements the database absorbs and then meets a
    failing statement leaves the database as it found it. *)
Lemma execAll_absorbed_prefix (pre : list Statement) (st : Statement)
  (rest : list Statement) (d : Database) (e : GoError) :
  Forall (fun s => s d = Ok d) pre -> st d = Err e ->
  execAll (pre ++ st :: rest) d = (Some e, d).
Proof.
  induction 1 as [|s pre Hs _ IH]; simpl; intros Hst.
  - now rewrite Hst.
  - rewrite Hs. now apply IH.
Qed.

Lemma insertLabelsFrom_absorbed src d types cells :
  tbl_blood_types d = Some types -> bloodTypeCells src d = Ok cells ->
  covers types cells -> insertLabelsFrom src d = Ok d.
Proof.
  intros Ht Hc Hcov. unfold insertLabelsFrom. rewrite Ht, Hc.
  rewrite (covers_absorbed types cells Hcov). destruct d; simpl in *. now subst.
Qed.

(** The preparing statements on a database whose [donors] table is legacy:
    they end prepared, or stop at a statement that fails again, with the same
    error and no change, when the script is run on what they left. *)
Lemma prepare_outcome d dn r d' :
  tbl_donors d = Some (LegacyDonors dn) ->
  execAll prepareScript d = (r, d') ->
  tbl_donors d' = Some (LegacyDonors dn) /\
  match r with
  | None => Prepared d' /\ tbl_donors_new d' = tbl_donors_new d
  | Some e => forall rest, execAll (prepareScript ++ rest) d' = (Some e, d')
  end.
Proof.
  intros Hdn Hrun.
  destruct d as [fk bt dnt rct dat rqt ivt dnn rcn dan rqn ivn]; simpl in Hdn; subst dnt.
  set (B0 := match bt with Some t => t | None => [] end).
  set (B1 := insertLabels (distinctLabels (map ldn_blood_type dn)) B0).
  assert (C1 : covers B1 (map ldn_blood_type dn)) by apply covers_insertLabels_self.
  set (d3 := mkDatabase false (Some B1) (Some (LegacyDonors dn)) rct dat rqt ivt
                        dnn rcn dan rqn ivn).
  assert (E3 : execAll prepareScript
                 (mkDatabase fk bt (Some (LegacyDonors dn)) rct dat rqt ivt
                             dnn rcn dan rqn ivn) =
               execAll [insertLabelsFrom FromRecipients; insertLabelsFrom FromInventory;
                        insertUnknown] d3)
    by (destruct bt; reflexivity).
  rewrite E3 in Hrun. clear E3.
  assert (A1 : pragmaForeignKeys false d3 = Ok d3) by reflexivity.
  assert (A2 : createBloodTypes d3 = Ok d3) by reflexivity.
  assert (A3 : insertLabelsFrom FromDonors d3 = Ok d3)
    by (now apply (insertLabelsFrom_absorbed FromDonors d3 B1 (map ldn_blood_type dn))).
  destruct rct as [[rc|rc]|].
  2,3: simpl in Hrun; inversion Hrun; subst; split; [reflexivity|]; intros rest;
    apply (execAll_absorbed_prefix
             [pragmaForeignKeys false; createBloodTypes; insertLabelsFrom FromDonors]);
    [repeat constructor; assumption|reflexivity].
  clear A1 A2 A3.
  set (B2 := insertLabels (distinctLabels (map lrc_blood_type rc)) B1).
  assert (C2 : covers B2 (map lrc_blood_type rc)) by apply covers_insertLabels_self.
  assert (C1' : covers B2 (map ldn_blood_type dn)) by now apply covers_insertLabels_mono.
  set (d4 := mkDatabase false (Some B2) (Some (LegacyDonors dn))
                        (Some (LegacyRecipients rc)) dat rqt ivt dnn rcn dan rqn ivn).
  change (execAll [insertLabelsFrom FromInventory; insertUnknown] d4 = (r, d')) in Hrun.
  assert (A1 : pragmaForeignKeys false d4 = Ok d4) by reflexivity.
  assert (A2 : createBloodTypes d4 = Ok d4) by reflexivity.
  assert (A3 : insertLabelsFrom FromDonors d4 = Ok d4)
    by (now apply (insertLabelsFrom_absorbed FromDonors d4 B2 (map ldn_blood_type dn))).
  assert (A4 : insertLabelsFrom FromRecipients d4 = Ok d4)
    by (now apply (insertLabelsFrom_absorbed FromRecipients d4 B2 (map lrc_blood_type rc))).
  destruct ivt as [[iv|iv]|].
  2,3: simpl in Hrun; inversion Hrun; subst; split; [reflexivity|]; intros rest;
    apply (execAll_absorbed_prefix
             [pragmaForeignKeys false; createBloodTypes; insertLabelsFrom FromDonors;
              insertLabelsFrom FromRecipients]);
    [repeat constructor; assumption|reflexivity].
  clear A1 A2 A3 A4.
  set (B3 := insertLabels (distinctLabels (map liv_blood_type iv)) B2).
  set (B4 := insertOrIgnore B3 "UNKNOWN").
  change ((None, mkDatabase false (Some B4) (Some (LegacyDonors dn))
                   (Some (LegacyRecipients rc)) dat rqt (Some (LegacyInventory iv))
                   dnn rcn dan rqn ivn) = (r, d')) in Hrun.
  inversion Hrun; subst r d'; clear Hrun.
  split; [reflexivity|]. split; [|reflexivity].
  split; [reflexivity|]. exists B4, dn, rc, iv. simpl.
  repeat split.
  - now apply covers_insertOrIgnore_mono, covers_insertLabels_mono.
  - now apply covers_insertOrIgnore_mono, covers_insertLabels_mono.
  - apply covers_insertOrIgnore_mono, covers_insertLabels_self.
  - apply hasLabel_insertOrIgnore_self.
Qed.

(** The probe of [migrateTo3NF] answers whether [donors] is still legacy. *)
Lemma tableHasColumn_donors d :
  tableHasColumn d "donors" "blood_type" =
  match tbl_donors d with
  | Some (LegacyDonors _) => true
  | _ => false
  end.
Proof.
  unfold tableHasColumn, tableInfo.
  change (String.eqb "donors" "blood_types") with false.
  change (String.eqb "donors" "donors") with true.
  cbv iota. now destruct (tbl_donors d) as [[rows|rows]|].
Qed.

(** While the replacement tables are built: prepared, [donors_new] there. *)
Definition Building (d : Database) : Prop :=
  Prepared d /\ tbl_donors_new d <> None.

(** After [DROP TABLE donors]: no legacy [donors] table any more. *)
Definition Swapping (d : Database) : Prop :=
  forall rows, tbl_donors d <> Some (LegacyDonors rows).

Lemma Swapping_settled d : Swapping d -> migrateTo3NF d = (None, d).
Proof.
  intros H. unfold migrateTo3NF. rewrite tableHasColumn_donors.
  destruct (tbl_donors d) as [[rows|rows]|] eqn:E; try reflexivity.
  now destruct (H rows).
Qed.

Lemma Building_settled d : Building d -> exists e, migrateTo3NF d = (Some e, d).
Proof.
  intros [HP Hnew]. unfold migrateTo3NF. rewrite tableHasColumn_donors.
  pose proof HP as [_ [types [dn [rc [iv [_ [Hdn _]]]]]]]. rewrite Hdn. simpl negb. cbv iota.
  rewrite migrationScript_phases, execAll_app, (Prepared_absorbed d HP). simpl.
  unfold createDonorsNew. destruct (tbl_donors_new d); [eexists; reflexivity|].
  now destruct Hnew.
Qed.

Ltac each_statement :=
  repeat match goal with
    | |- Forall _ (_ :: _) => apply Forall_cons
    | |- Forall _ [] => apply Forall_nil
    end.

Ltac statement_cases H :=
  repeat match type of H with
    | context [match ?x with _ => _ end] => destruct x eqn:?
    | context [if ?c then _ else _] => destruct c eqn:?
    end;
  inversion H; subst; clear H.

Lemma buildScript_Building :
  Forall (fun st => forall d d', Building d -> st d = Ok d' -> Building d') buildScript.
Proof.
  unfold buildScript.
  each_statement; intros d d' HB Hst;
    unfold createRecipientsNew, createDonationsNew, createRequestsNew,
      createInventoryNew, copyDonors, copyRecipients, copyDonations, copyRequests,
      copyInventory in Hst;
    statement_cases Hst;
    destruct d; unfold Building, Prepared in *; simpl in *;
    first [ exact HB | split; [exact (proj1 HB)|discriminate] ].
Qed.

Lemma swapScript_Swapping :
  Forall (fun st => forall d d', Swapping d -> st d = Ok d' -> Swapping d') swapScript.
Proof.
  unfold swapScript.
  each_statement; intros d d' HS Hst;
    unfold dropRecipients, dropDonations, dropRequests, dropInventory, renameDonors,
      renameRecipients, renameDonations, renameRequests, renameInventory,
      pragmaForeignKeys in Hst;
    statement_cases Hst;
    destruct d; unfold Swapping in *; simpl in *;
    first [ exact HS | discriminate ].
Qed.

(** Whatever a run of the migration leaves, a second run leaves as it is. *)
Lemma migrateTo3NF_settles d :
  snd (migrateTo3NF (snd (migrateTo3NF d))) = snd (migrateTo3NF d).
Proof.
  unfold migrateTo3NF at 2 3. rewrite tableHasColumn_donors.
  destruct (tbl_donors d) as [[dn|dn]|] eqn:Hdn.
  2,3: simpl; rewrite Swapping_settled; [reflexivity|intros rows; congruence].
  simpl negb. cbv iota.
  rewrite migrationScript_phases, execAll_app.
  destruct (execAll prepareScript d) as [r1 d1] eqn:E1.
  destruct (prepare_outcome d dn r1 d1 Hdn E1) as [Hdn1 H1].
  destruct r1 as [e1|].
  { simpl. unfold migrateTo3NF. rewrite tableHasColumn_donors, Hdn1. simpl negb. cbv iota.
    rewrite migrationScript_phases. now rewrite H1. }
  destruct H1 as [HP1 _].
  cbn [execAll]. destruct (createDonorsNew d1) as [d2|e2] eqn:E2.
  2: { simpl. unfold createDonorsNew in E2.
       destruct (tbl_donors_new d1) eqn:Hnew; [|discriminate].
       destruct (Building_settled d1) as [e H]; [|now rewrite H].
       split; [exact HP1|congruence]. }
  assert (HB2 : Building d2).
  { unfold createDonorsNew in E2. destruct (tbl_donors_new d1); [discriminate|].
    inversion E2; subst. destruct d1; unfold Building, Prepared in *; simpl in *.
    split; [exact HP1|discriminate]. }
  rewrite execAll_app.
  destruct (execAll buildScript d2) as [r3 d3] eqn:E3.
  assert (HB3 : Building d3)
    by (exact (execAll_preserves Building buildScript buildScript_Building d2 r3 d3 HB2 E3)).
  destruct r3 as [e3|].
  { simpl. destruct (Building_settled d3 HB3) as [e H]. now rewrite H. }
  cbn [execAll]. destruct (dropDonors d3) as [d4|e4] eqn:E4.
  2: { simpl. destruct (Building_settled d3 HB3) as [e H]. now rewrite H. }
  assert (HS4 : Swapping d4).
  { unfold dropDonors in E4. destruct (tbl_donors d3); [|discriminate].
    inversion E4; subst. destruct d3; intros rows; simpl. discriminate. }
  destruct (execAll swapScript d4) as [r5 d5] eqn:E5.
  assert (HS5 : Swapping d5)
    by (exact (execAll_preserves Swapping swapScript swapScript_Swapping d4 r5 d5 HS4 E5)).
  simpl. now rewrite (Swapping_settled d5 HS5).
Qed.

(** C5: the migration is idempotent.  The database a run leaves (finished,
    or stopped by a failing statement) is left unchanged by a second run:
    same tables, same rows.  When [donors] has no legacy [blood_type] column
    a run reports no error and changes nothing; that is the case after every
    run that finished. *)
Theorem migrateTo3NF_idempotent :
  (forall d, snd (migrateTo3NF (snd (migrateTo3NF d))) = snd (migrateTo3NF d)) /\
  (forall d, tableHasColumn d "donors" "blood_type" = false ->
             migrateTo3NF d = (None, d)) /\
  (forall d d', migrateTo3NF d = (None, d') -> migrateTo3NF d' = (None, d')).
Proof.
  split; [exact migrateTo3NF_settles|]. split.
  - intros d H. unfold migrateTo3NF. now rewrite H.
  - intros d d' H. pose proof (migrateTo3NF_settles d) as Hs. rewrite H in Hs.
    simpl in Hs. destruct (migrateTo3NF d') as [r d''] eqn:E. simpl in Hs. subst d''.
    destruct r as [e|]; [|reflexivity]. exfalso.
    unfold migrateTo3NF in E. rewrite tableHasColumn_donors in E.
    destruct (tbl_donors d') as [[dn|dn]|] eqn:Hdn; try discriminate.
    unfold migrateTo3NF in H. rewrite tableHasColumn_donors in H.
    destruct (tbl_donors d) as [[dn0|dn0]|] eqn:Hdn0;
      try (simpl in H; inversion H; subst; congruence).
    simpl negb in H. cbv iota in H.
    rewrite migrationScript_phases, execAll_app in H.
    destruct (execAll prepareScript d) as [r1 d1] eqn:E1.
    destruct r1; [discriminate|]. cbn [execAll] in H.
    destruct (createDonorsNew d1) as [d2|]; [|discriminate].
    rewrite execAll_app in H.
    destruct (execAll buildScript d2) as [r3 d3] eqn:E3.
    destruct r3; [discriminate|]. cbn [execAll] in H.
    destruct (dropDonors d3) as [d4|] eqn:E4; [|discriminate].
    assert (HS4 : Swapping d4).
    { unfold dropDonors in E4. destruct (tbl_donors d3); [|discriminate].
      inversion E4; subst. destruct d3; intros rows; simpl. discriminate. }
    apply (execAll_preserves Swapping swapScript swapScript_Swapping d4 None d' HS4 H dn).
    exact Hdn.
Qed.

(** A legacy database: labels in mixed case and with spaces, one donor with
    a blank label. *)
Definition legacyDatabase : Database :=
  mkDatabase true (Some [])
    (Some (LegacyDonors
       [ mkLegacyDonor 1 "Asha" (Some " o+ ") (Some "555-0101") (Some "Pune")
                       "2024-11-02" None;
         mkLegacyDonor 2 "Kiran" (Some "  ") None None "2024-11-05" None ]))
    (Some (LegacyRecipients
       [ mkLegacyRecipient 1 "Ravi" (Some "ab-") None (Some "City Hospital")
                           "2024-11-03" None ]))
    (Some (LegacyDonations
       [ mkLegacyDonation 1 1 (Some "O+") 3 "2024-11-02" "2025-01-02" None ]))
    (Some (LegacyRequests
       [ mkLegacyRequest 1 1 (Some "AB-") 1 "Pending" "2024-11-04" None ]))
    (Some (LegacyInventory [ mkLegacyInventory 1 (Some "O+") 3 None ]))
    None None None None None.

(** The migration of [legacyDatabase]: the labels registered, and each row
    under the label its reference has in the registry. *)
Example migrateTo3NF_legacyDatabase :
  fst (migrateTo3NF legacyDatabase) = None /\
  exists s,
    storeOf (snd (migrateTo3NF legacyDatabase)) = Some s /\
    map bt_type (blood_types s) = ["O+"; "AB-"; "UNKNOWN"] /\
    map (fun n => (dn_id n, dn_name n, typeLabels s (dn_blood_type_id n))) (donors s) =
      [(1, "Asha", ["O+"]); (2, "Kiran", ["UNKNOWN"])] /\
    map (fun c => (rc_id c, rc_name c, typeLabels s (rc_blood_type_id c)))
        (recipients s) =
      [(1, "Ravi", ["AB-"])] /\
    donations s = [ mkDonation 1 1 3 "2024-11-02" "2025-01-02" None ] /\
    map (fun i => (iv_id i, typeLabels s (iv_blood_type_id i), iv_units i))
        (inventory s) =
      [(1, ["O+"], 3)] /\
    requests s = [ mkRequest 1 1 1 "Pending" "2024-11-04" None ].
Proof. split; [reflexivity|]. eexists. split; [reflexivity|]. repeat split. Qed.

Lemma migrateTo3NF_idempotent_witness :
  migrateTo3NF (snd (migrateTo3NF legacyDatabase)) =
    (None, snd (migrateTo3NF legacyDatabase)).
Proof.
  destruct migrateTo3NF_idempotent as [_ [Hnoop Hdone]].
  apply Hnoop. reflexivity.
Defined.

(** ** The inventory invariant *)

(** One donor and one recipient of blood type O+, nothing else. *)
Definition registered : Store :=
  run [ ("2025-06-01", PostDonors "Asha" "O+" "555-0101" "Pune");
        ("2025-06-01", PostRecipients "Ravi" "O+" "555-0102" "City Hospital") ]
      emptyStore.

(** Four units donated, a request of two units, fulfilled. *)
Definition fulfilledOnce : list (string * Post) :=
  [ ("2025-06-02", PostDonations 1 4 "2025-12-01");
    ("2025-06-03", PostRequests 1 2);
    ("2025-06-03", PostFulfill 1) ].

(** C1 at the failing input: the fulfil handler does not look at the status
    of the request.  Fulfilling the same request a second time is accepted
    and debits the ledger again: the balance of O+ is then 0, while the
    active donations of O+ sum to 4 and its Fulfilled requests to 2.  Every
    operation of the run is one of the listed ones, on a store that holds
    one registered donor and one registered recipient, and the invariant
    holds until the second fulfil. *)
Theorem ledgerInvariant_broken_by_second_fulfil :
  let once := run fulfilledOnce registered in
  let twice := snd (serve "2025-06-03" (PostFulfill 1) once) in
  (balanceOf once 1 = 2 /\ donatedUnits once 1 = 4 /\ fulfilledUnits once 1 = 2) /\
  statusOf once 1 = Some "Fulfilled" /\
  fst (serve "2025-06-03" (PostFulfill 1) once) = Redirect /\
  (balanceOf twice 1 = 0 /\ donatedUnits twice 1 = 4 /\ fulfilledUnits twice 1 = 2) /\
  ~ (forall posts, Forall ledgerPost posts -> ledgerInvariant (run posts registered)).
Proof.
  cbv zeta. repeat split; try reflexivity.
  intros H.
  specialize (H (fulfilledOnce ++ [("2025-06-03", PostFulfill 1)])).
  destruct (H ltac:(repeat constructor) 1) as [E _].
  vm_compute in E. discriminate.
Qed.

(** *** Sums over a join

    Both totals of the invariant are sums over a join of a child table
    (donations, requests) with its parent table (donors, recipients) on the
    parent's key.  With distinct parent keys the sum is a sum of one weight
    per child row. *)

Lemma sumZ_app l1 l2 : sumZ (l1 ++ l2) = sumZ l1 + sumZ l2.
Proof. unfold sumZ. induction l1 as [|x l1 IH]; simpl; lia. Qed.

Lemma sumZ_map_ext_in {A} (w w' : A -> Z) (l : list A) :
  (forall x, In x l -> w' x = w x) -> sumZ (map w' l) = sumZ (map w l).
Proof. intros H. f_equal. now apply map_ext_in. Qed.

(** Updating the one row that has a key moves the sum by the change of
    weight of that row. *)
Lemma sumZ_map_update {A} (key : A -> Z) (w w' : A -> Z) (f : A -> A) (id : Z)
  (l : list A) (x : A) :
  NoDup (map key l) -> In x l -> key x = id ->
  (forall y, In y l -> key y <> id -> w' (f y) = w y) ->
  sumZ (map w' (map f l)) = sumZ (map w l) + (w' (f x) - w x).
Proof.
  induction l as [|y l IH]; simpl; intros Hnd Hin Hx Hother; [contradiction|].
  inversion Hnd as [|? ? Hy Hl]; subst.
  destruct Hin as [-> | Hin].
  - assert (sumZ (map w' (map f l)) = sumZ (map w l)) as E.
    { rewrite map_map. apply sumZ_map_ext_in. intros z Hz. apply Hother; [now right|].
      intros E. apply Hy. rewrite <- E. now apply in_map. }
    unfold sumZ in *. simpl. lia.
  - assert (key y <> key x) as Hne.
    { intros E. apply Hy. rewrite E. now apply in_map. }
    pose proof (IH Hl Hin eq_refl (fun z Hz => Hother z (or_intror Hz))) as E.
    pose proof (Hother y (or_introl eq_refl) Hne) as Ey.
    unfold sumZ in *. simpl. lia.
Qed.

Lemma filter_find_key {A} (key : A -> Z) (k : Z) (l : list A) :
  NoDup (map key l) ->
  filter (fun y => key y =? k) l =
  match find (fun y => key y =? k) l with Some x => [x] | None => [] end.
Proof.
  induction l as [|y l IH]; simpl; intros Hnd; [reflexivity|].
  inversion Hnd as [|? ? Hy Hl]; subst.
  destruct (key y =? k) eqn:E; [|now apply IH].
  f_equal. apply Z.eqb_eq in E.
  assert (forall z, In z l -> (key z =? k) = false) as Hno.
  { intros z Hz. apply Z.eqb_neq. intros F. apply Hy. rewrite E, <- F. now apply in_map. }
  clear -Hno. induction l as [|z l IH]; simpl; [reflexivity|].
  rewrite Hno by now left. apply IH. intros w Hw. apply Hno. now right.
Qed.

Section Join.

Context {P C : Type}.
Variable pkey : P -> Z.      (* the parent's primary key *)
Variable ptype : P -> Z.     (* the parent's blood type *)
Variable cref : C -> Z.      (* the child's reference to its parent *)
Variable cunits : C -> Z.    (* the child's units *)

Definition join (ps : list P) (cs : list C) (keep : C -> bool) : list (Z * Z) :=
  flat_map
    (fun c =>
       if keep c
       then map (fun p => (ptype p, cunits c)) (filter (fun p => pkey p =? cref c) ps)
       else [])
    cs.

Definition typeOf (ps : list P) (k : Z) : option Z :=
  option_map ptype (find (fun p => pkey p =? k) ps).

Definition weight (ps : list P) (keep : C -> bool) (ref : Z) (c : C) : Z :=
  if keep c
  then match typeOf ps (cref c) with
       | Some t => if t =? ref then cunits c else 0
       | None => 0
       end
  else 0.

Definition total (ps : list P) (cs : list C) (keep : C -> bool) (ref : Z) : Z :=
  sumZ (map snd (filter (fun x => fst x =? ref) (join ps cs keep))).

Lemma total_weights ps cs keep ref :
  NoDup (map pkey ps) ->
  total ps cs keep ref = sumZ (map (weight ps keep ref) cs).
Proof.
  intros Hnd. unfold total, join.
  induction cs as [|c cs IH]; simpl; [reflexivity|].
  rewrite filter_app, map_app, sumZ_app, IH. clear IH.
  unfold sumZ at 3. simpl. fold (sumZ (map (weight ps keep ref) cs)).
  f_equal. unfold weight, typeOf.
  destruct (keep c); [|reflexivity].
  rewrite (filter_find_key pkey (cref c) ps Hnd).
  destruct (find _ ps) as [p|]; simpl; [|reflexivity].
  destruct (ptype p =? ref); simpl; lia.
Qed.

(** A row of the join comes from a kept child and its parent. *)
Lemma join_in ps cs keep t u :
  In (t, u) (join ps cs keep) ->
  exists c p, In c cs /\ keep c = true /\ In p ps /\ pkey p = cref c /\
              t = ptype p /\ u = cunits c.
Proof.
  unfold join. intros H. apply in_flat_map in H as [c [Hc H]].
  destruct (keep c) eqn:K; [|contradiction].
  apply in_map_iff in H as [p [E H]]. apply filter_In in H as [Hp H].
  apply Z.eqb_eq in H. inversion E; subst. now exists c, p.
Qed.

Lemma typeOf_app ps p k :
  typeOf ps k <> None -> typeOf (ps ++ [p]) k = typeOf ps k.
Proof.
  unfold typeOf. rewrite find_app.
  destruct (find _ ps); [reflexivity|]. simpl. congruence.
Qed.

Lemma typeOf_map (f : P -> P) ps k :
  (forall p, pkey (f p) = pkey p) -> (forall p, ptype (f p) = ptype p) ->
  typeOf (map f ps) k = typeOf ps k.
Proof.
  intros Hk Ht. unfold typeOf.
  rewrite find_map_stable by (intros p; now rewrite Hk).
  destruct (find _ ps); simpl; [now rewrite Ht|reflexivity].
Qed.

Lemma typeOf_found ps p :
  NoDup (map pkey ps) -> In p ps -> typeOf ps (pkey p) = Some (ptype p).
Proof.
  intros Hnd Hp. unfold typeOf.
  rewrite (find_key pkey _ ps p Hnd Hp); [reflexivity|apply Z.eqb_refl|].
  intros y Hy. now apply Z.eqb_eq.
Qed.

(** A new parent, when every child has its parent already. *)
Lemma total_parent_app ps p cs keep ref :
  NoDup (map pkey (ps ++ [p])) ->
  (forall c, In c cs -> typeOf ps (cref c) <> None) ->
  total (ps ++ [p]) cs keep ref = total ps cs keep ref.
Proof.
  intros Hnd Href.
  assert (Hps : NoDup (map pkey ps)).
  { rewrite map_app in Hnd. now apply NoDup_app_remove_r in Hnd. }
  rewrite !total_weights by assumption. apply sumZ_map_ext_in.
  intros c Hc. unfold weight. now rewrite typeOf_app by now apply Href.
Qed.

(** A parent update that keeps keys and blood types. *)
Lemma total_parent_map (f : P -> P) ps cs keep ref :
  NoDup (map pkey ps) ->
  (forall p, pkey (f p) = pkey p) -> (forall p, ptype (f p) = ptype p) ->
  total (map f ps) cs keep ref = total ps cs keep ref.
Proof.
  intros Hnd Hk Ht.
  rewrite !total_weights by (try rewrite map_key_update; assumption).
  apply sumZ_map_ext_in. intros c Hc. unfold weight. now rewrite typeOf_map.
Qed.

(** A new child. *)
Lemma total_child_app ps cs c keep ref :
  NoDup (map pkey ps) ->
  total ps (cs ++ [c]) keep ref = total ps cs keep ref + weight ps keep ref c.
Proof.
  intros Hnd. rewrite !total_weights by assumption.
  rewrite map_app, sumZ_app. unfold sumZ at 2. simpl. lia.
Qed.

(** An update of the one child that has a key. *)
Lemma total_child_update (ckey : C -> Z) (f : C -> C) (id : Z) ps cs c keep ref :
  NoDup (map pkey ps) -> NoDup (map ckey cs) ->
  In c cs -> ckey c = id -> (forall y, ckey y <> id -> f y = y) ->
  total ps (map f cs) keep ref =
  total ps cs keep ref + (weight ps keep ref (f c) - weight ps keep ref c).
Proof.
  intros Hps Hcs Hc Hid Hother. rewrite !total_weights by assumption.
  apply (sumZ_map_update ckey _ _ f id cs c Hcs Hc Hid).
  intros y _ Hy. now rewrite Hother.
Qed.

End Join.

(** *** The invariant on the stores the handlers reach *)

Definition donorType (s : Store) (k : Z) : option Z :=
  typeOf dn_id dn_blood_type_id (donors s) k.

Definition recipientType (s : Store) (k : Z) : option Z :=
  typeOf rc_id rc_blood_type_id (recipients s) k.

Definition isActive (d : DonationRow) : bool := isNull (da_deleted_at d).

Definition isFulfilled (r : RequestRow) : bool := String.eqb (rq_status r) "Fulfilled".

Lemma donatedUnits_total s ref :
  donatedUnits s ref =
  total dn_id dn_blood_type_id da_donor_id da_units (donors s) (donations s) isActive ref.
Proof. reflexivity. Qed.

Lemma fulfilledUnits_total s ref :
  fulfilledUnits s ref =
  total rc_id rc_blood_type_id rq_recipient_id rq_units (recipients s) (requests s)
        isFulfilled ref.
Proof. reflexivity. Qed.

(** What the handlers keep true of the store: distinct keys, every donation
    with its donor and every request with its recipient, no soft-deleted
    inventory row, donors of registered blood types, and the invariant of
    the ledger. *)
Record Consistent (s : Store) : Prop := mkConsistent {
  cs_keys : wellKeyed s;
  cs_donors : forall d, In d (donations s) -> donorType s (da_donor_id d) <> None;
  cs_recipients :
    forall r, In r (requests s) -> recipientType s (rq_recipient_id r) <> None;
  cs_active : forall i, In i (inventory s) -> iv_deleted_at i = None;
  cs_valid : forall n, In n (donors s) -> validRef s (dn_blood_type_id n) = true;
  cs_balance : forall ref, balanceOf s ref = donatedUnits s ref - fulfilledUnits s ref;
  cs_nonneg : forall ref, 0 <= balanceOf s ref
}.

Lemma emptyStore_Consistent : Consistent emptyStore.
Proof.
  constructor.
  - apply emptyStore_wellKeyed.
  - intros d [].
  - intros r [].
  - intros i [].
  - intros n [].
  - reflexivity.
  - intros ref. unfold balanceOf. simpl. lia.
Qed.

Lemma balanceOf_consume s t u s' :
  consumeInventoryByTypeID s t u = (true, s') ->
  s' = setInventory s (map (debitRow t u) (inventory s)) /\
  u <= balanceOf s t /\
  forall ref, balanceOf s' ref = balanceOf s ref - (if ref =? t then u else 0).
Proof.
  unfold consumeInventoryByTypeID.
  destruct (activeBalance s t) as [c|] eqn:Hc; [|discriminate].
  destruct (c <? u) eqn:Hlt; [discriminate|]. apply Z.ltb_ge in Hlt.
  intros H; inversion H; subst s'; clear H.
  split; [reflexivity|]. unfold balanceOf. rewrite Hc. split; [exact Hlt|].
  intros ref. rewrite activeBalance_debit.
  destruct (ref =? t) eqn:E.
  - apply Z.eqb_eq in E. subst ref. rewrite Hc. reflexivity.
  - destruct (activeBalance s ref); simpl; lia.
Qed.

Lemma storedUnits_active s ref :
  (forall i, In i (inventory s) -> iv_deleted_at i = None) ->
  storedUnits s ref = activeBalance s ref.
Proof.
  intros H. unfold storedUnits, activeBalance. f_equal. apply find_ext_in.
  intros i Hi. rewrite (H i Hi). simpl. now rewrite andb_true_r.
Qed.

Lemma balanceOf_upsert s t u :
  (forall i, In i (inventory s) -> iv_deleted_at i = None) ->
  validRef s t = true ->
  exists s',
    upsertInventoryByTypeID s t u = (None, s') /\
    s' = setInventory s (inventory s') /\
    (forall i, In i (inventory s') -> iv_deleted_at i = None) /\
    forall ref, balanceOf s' ref = balanceOf s ref + (if ref =? t then u else 0).
Proof.
  intros Hact Hvalid.
  destruct (upsertInventoryByTypeID_effect s t u Hvalid)
    as [s' [Hrun [Hstored [Hactive [Hother Hframe]]]]].
  exists s'. split; [exact Hrun|]. split; [exact Hframe|]. split.
  - clear -Hrun Hact. unfold upsertInventoryByTypeID in Hrun.
    destruct (rowsAffected s t); [destruct (validRef s t)|];
      inversion Hrun; subst; simpl; intros i Hi.
    + apply in_app_or in Hi as [Hi | [<- | []]]; [now apply Hact|reflexivity].
    + apply in_map_iff in Hi as [j [<- Hj]]. unfold creditRow.
      destruct (iv_blood_type_id j =? t); [reflexivity|now apply Hact].
  - intros ref. unfold balanceOf. destruct (ref =? t) eqn:E.
    + apply Z.eqb_eq in E. subst ref.
      rewrite Hactive, Hstored, (storedUnits_active s t Hact).
      destruct (activeBalance s t); lia.
    + apply Z.eqb_neq in E. destruct (Hother ref E) as [-> _].
      destruct (activeBalance s ref); lia.
Qed.

Lemma validRef_grows s extra ref :
  validRef s ref = true ->
  validRef (setBloodTypes s (blood_types s ++ extra)) ref = true.
Proof. unfold validRef. simpl. rewrite existsb_app. now intros ->. Qed.

Lemma getOrCreateBloodTypeID_Consistent s bloodType r s1 :
  getOrCreateBloodTypeID s bloodType = (r, s1) -> Consistent s ->
  Consistent s1 /\
  (forall id, r = Ok id -> validRef s1 id = true) /\
  donors s1 = donors s /\ recipients s1 = recipients s.
Proof.
  intros Hrun Hs.
  pose proof (getOrCreateBloodTypeID_wellKeyed s bloodType r s1 Hrun (cs_keys s Hs)) as Hk.
  unfold getOrCreateBloodTypeID in Hrun.
  destruct (Text.isEmpty _).
  { inversion Hrun; subst. split; [exact Hs|]. split; [discriminate|now split]. }
  destruct (lookupBloodType s _) as [id0|] eqn:Hfind; inversion Hrun; subst; clear Hrun.
  - split; [exact Hs|]. split; [|now split]. intros id E. inversion E; subst.
    unfold lookupBloodType in Hfind. unfold validRef.
    destruct (find _ (blood_types _)) as [b|] eqn:F; [|discriminate].
    simpl in Hfind. inversion Hfind; subst. apply find_some in F as [Hin _].
    apply existsb_exists. exists b. split; [exact Hin|apply Z.eqb_refl].
  - split; [|split; [|now split]].
    + destruct Hs. constructor; try assumption.
      intros n Hn. apply validRef_grows. now apply cs_valid0.
    + intros id E. inversion E; subst. unfold validRef. simpl.
      rewrite existsb_app. simpl. now rewrite Z.eqb_refl, orb_true_r.
Qed.

(** The quantities of the invariant read the tables they are about, and
    nothing else of the store. *)
Ltac frame s :=
  repeat match goal with
    | |- context [balanceOf ?s' ?r] =>
        progress change (balanceOf s' r) with (balanceOf s r)
    | |- context [donatedUnits ?s' ?r] =>
        progress change (donatedUnits s' r) with (donatedUnits s r)
    | |- context [fulfilledUnits ?s' ?r] =>
        progress change (fulfilledUnits s' r) with (fulfilledUnits s r)
    end.

Lemma Consistent_add_donor s n :
  Consistent s -> ~ In (dn_id n) (map dn_id (donors s)) ->
  validRef s (dn_blood_type_id n) = true ->
  Consistent (setDonors s (donors s ++ [n])).
Proof.
  intros Hs Hfresh Hvalid. destruct Hs as [Hk Hd Hr Ha Hv Hb Hn].
  assert (Hnd : NoDup (map dn_id (donors s ++ [n])))
    by (apply keyed_snoc; [apply Hk|exact Hfresh]).
  constructor; try assumption.
  - destruct Hk. constructor; assumption.
  - intros d Hin. unfold donorType in *. cbn [setDonors donors].
    rewrite typeOf_app; now apply Hd.
  - intros m Hm. apply in_app_or in Hm as [Hm | [<- | []]]; [now apply Hv|exact Hvalid].
  - intros ref. frame s. rewrite Hb. f_equal. rewrite !donatedUnits_total.
    symmetry. now apply total_parent_app.
Qed.

Lemma Consistent_add_recipient s c :
  Consistent s -> ~ In (rc_id c) (map rc_id (recipients s)) ->
  Consistent (setRecipients s (recipients s ++ [c])).
Proof.
  intros Hs Hfresh. destruct Hs as [Hk Hd Hr Ha Hv Hb Hn].
  assert (Hnd : NoDup (map rc_id (recipients s ++ [c])))
    by (apply keyed_snoc; [apply Hk|exact Hfresh]).
  constructor; try assumption.
  - destruct Hk. constructor; assumption.
  - intros r Hin. unfold recipientType in *. cbn [setRecipients recipients].
    rewrite typeOf_app; now apply Hr.
  - intros ref. frame s. rewrite Hb. f_equal. rewrite !fulfilledUnits_total.
    symmetry. now apply total_parent_app.
Qed.

Lemma handleDonors_Consistent today name blood_type phone city s :
  Consistent s -> Consistent (snd (handleDonors today name blood_type phone city s)).
Proof.
  intros Hs. unfold handleDonors.
  destruct (Text.isEmpty _ || Text.isEmpty _); [exact Hs|].
  destruct (getOrCreateBloodTypeID s _) as [[id|e] s1] eqn:E;
    destruct (getOrCreateBloodTypeID_Consistent _ _ _ _ E Hs) as [H1 [Hid _]];
    [|exact H1].
  apply Consistent_add_donor; [exact H1|apply nextID_fresh|now apply Hid].
Qed.

Lemma handleRecipients_Consistent today name blood_type phone hospital s :
  Consistent s ->
  Consistent (snd (handleRecipients today name blood_type phone hospital s)).
Proof.
  intros Hs. unfold handleRecipients.
  destruct (Text.isEmpty _ || Text.isEmpty _); [exact Hs|].
  destruct (getOrCreateBloodTypeID s _) as [[id|e] s1] eqn:E;
    destruct (getOrCreateBloodTypeID_Consistent _ _ _ _ E Hs) as [H1 _];
    [|exact H1].
  apply Consistent_add_recipient; [exact H1|apply nextID_fresh].
Qed.

Lemma handleDonorsDelete_Consistent today id s :
  Consistent s -> Consistent (snd (handleDonorsDelete today id s)).
Proof.
  intros Hs. unfold handleDonorsDelete. destruct (id =? 0); [exact Hs|].
  cbn [snd].
  assert (Hkey : forall n, dn_id (deleteDonorRow today id n) = dn_id n)
    by (intros n; unfold deleteDonorRow; now destruct (dn_id n =? id)).
  assert (Htype : forall n, dn_blood_type_id (deleteDonorRow today id n) = dn_blood_type_id n)
    by (intros n; unfold deleteDonorRow; now destruct (dn_id n =? id)).
  destruct Hs as [Hk Hd Hr Ha Hv Hb Hn].
  constructor; try assumption.
  - destruct Hk. constructor; try assumption.
    cbn [setDonors donors]. now rewrite map_key_update.
  - intros d Hin. unfold donorType in *. cbn [setDonors donors].
    rewrite typeOf_map by assumption. now apply Hd.
  - intros n Hin. apply in_map_iff in Hin as [m [<- Hm]]. rewrite Htype.
    now apply Hv.
  - intros ref. frame s. rewrite Hb. f_equal. rewrite !donatedUnits_total.
    symmetry. apply total_parent_map; try assumption. apply Hk.
Qed.

Lemma handleRecipientsDelete_Consistent today id s :
  Consistent s -> Consistent (snd (handleRecipientsDelete today id s)).
Proof.
  intros Hs. unfold handleRecipientsDelete. destruct (id =? 0); [exact Hs|].
  cbn [snd].
  assert (Hkey : forall c, rc_id (deleteRecipientRow today id c) = rc_id c)
    by (intros c; unfold deleteRecipientRow; now destruct (rc_id c =? id)).
  assert (Htype : forall c,
             rc_blood_type_id (deleteRecipientRow today id c) = rc_blood_type_id c)
    by (intros c; unfold deleteRecipientRow; now destruct (rc_id c =? id)).
  destruct Hs as [Hk Hd Hr Ha Hv Hb Hn].
  constructor; try assumption.
  - destruct Hk. constructor; try assumption.
    cbn [setRecipients recipients]. now rewrite map_key_update.
  - intros r Hin. unfold recipientType in *. cbn [setRecipients recipients].
    rewrite typeOf_map by assumption. now apply Hr.
  - intros ref. frame s. rewrite Hb. f_equal. rewrite !fulfilledUnits_total.
    symmetry. apply total_parent_map; try assumption. apply Hk.
Qed.

Lemma handleDonations_Consistent today donorID units expiry s :
  Consistent s -> Consistent (snd (handleDonations today donorID units expiry s)).
Proof.
  intros Hs. unfold handleDonations.
  destruct ((donorID =? 0) || (units <=? 0) || Text.isEmpty _) eqn:Hguard; [exact Hs|].
  apply orb_false_elim in Hguard as [Hguard _].
  apply orb_false_elim in Hguard as [_ Hunits]. apply Z.leb_gt in Hunits.
  unfold getDonorBloodTypeID.
  destruct (find _ (donors s)) as [n|] eqn:F; [|exact Hs].
  destruct (dn_blood_type_id n =? 0); [exact Hs|].
  apply find_some in F as [Hn F]. apply andb_prop in F as [F _]. apply Z.eqb_eq in F.
  set (t := dn_blood_type_id n).
  set (d := mkDonation (nextID (map da_id (donations s))) donorID units today
                       (Text.TrimSpace expiry) None).
  set (s1 := setDonations s (donations s ++ [d])).
  destruct Hs as [Hk Hd Hr Ha Hv Hb Hnn].
  assert (Hk1 : wellKeyed s1).
  { destruct Hk. constructor; try assumption.
    apply keyed_snoc; [assumption|apply nextID_fresh]. }
  assert (Htype : donorType s donorID = Some t).
  { unfold donorType. rewrite <- F. apply typeOf_found; [apply Hk|exact Hn]. }
  destruct (balanceOf_upsert s1 t units Ha (Hv n Hn))
    as [s2 [Hrun [Hframe [Hact2 Hbal2]]]].
  rewrite Hrun. cbn [snd].
  pose proof (upsertInventoryByTypeID_wellKeyed s1 t units None s2 Hrun Hk1) as Hk2.
  rewrite Hframe in *.
  assert (Hdonated : forall ref,
            donatedUnits s1 ref = donatedUnits s ref + (if t =? ref then units else 0)).
  { intros ref. rewrite !donatedUnits_total. unfold s1. cbn [setDonations donors donations].
    rewrite total_child_app by apply Hk. f_equal.
    unfold weight. fold (donorType s (da_donor_id d)). simpl. now rewrite Htype. }
  constructor; try assumption.
  - intros d' Hin. apply in_app_or in Hin as [Hin | [<- | []]]; [now apply Hd|].
    change (donorType s donorID <> None). congruence.
  - intros ref. rewrite Hbal2. frame s1. frame s. rewrite Hdonated, Hb, (Z.eqb_sym ref t).
    lia.
  - intros ref. rewrite Hbal2. frame s. specialize (Hnn ref).
    destruct (ref =? t); lia.
Qed.

Lemma debit_keeps_active s t u :
  (forall i, In i (inventory s) -> iv_deleted_at i = None) ->
  forall i, In i (map (debitRow t u) (inventory s)) -> iv_deleted_at i = None.
Proof.
  intros Ha i Hi. apply in_map_iff in Hi as [j [<- Hj]].
  rewrite debitRow_deleted. now apply Ha.
Qed.

Lemma handleDonationsDelete_Consistent today id s :
  Consistent s -> Consistent (snd (handleDonationsDelete today id s)).
Proof.
  intros Hs. unfold handleDonationsDelete. destruct (id =? 0); [exact Hs|].
  destruct (donationJoin s _) as [|[t u] rest] eqn:Hjoin; [exact Hs|].
  assert (Hrow : In (t, u) (donationJoin s
                   (fun d => (da_id d =? id) && isNull (da_deleted_at d))))
    by (rewrite Hjoin; now left).
  apply (join_in dn_id dn_blood_type_id da_donor_id da_units) in Hrow
    as [d [n [Hd [Hkeep [Hn [Hkey [-> ->]]]]]]].
  apply andb_prop in Hkeep as [Hid Hlive]. apply Z.eqb_eq in Hid.
  destruct (consumeInventoryByTypeID s (dn_blood_type_id n) (da_units d))
    as [[|] s1] eqn:E;
    [|apply consumeInventoryByTypeID_false in E; now subst].
  pose proof (consumeInventoryByTypeID_wellKeyed _ _ _ _ _ E (cs_keys s Hs)) as Hk1.
  apply balanceOf_consume in E as [-> [Hle Hbal]].
  destruct Hs as [Hk Hdn Hr Ha Hv Hb Hnn]. cbn [snd].
  cbn [setInventory donations] in *.
  set (t := dn_blood_type_id n) in *. set (u := da_units d) in *.
  assert (Hdonor : forall x, da_donor_id (retireRow today id x) = da_donor_id x)
    by (intros x; unfold retireRow; now destruct (da_id x =? id)).
  assert (Htype : donorType s (da_donor_id d) = Some t).
  { unfold donorType. rewrite <- Hkey. apply typeOf_found; [apply Hk|exact Hn]. }
  assert (Hdonated : forall ref,
    total dn_id dn_blood_type_id da_donor_id da_units (donors s)
          (map (retireRow today id) (donations s)) isActive ref =
    donatedUnits s ref - (if t =? ref then u else 0)).
  { intros ref. rewrite donatedUnits_total.
    rewrite (total_child_update dn_id dn_blood_type_id da_donor_id da_units da_id
               (retireRow today id) id (donors s) (donations s) d);
      try assumption; try apply Hk.
    - unfold weight, isActive. rewrite Hdonor. fold (donorType s (da_donor_id d)).
      rewrite Htype, Hlive. unfold retireRow at 1. rewrite Hid, Z.eqb_refl. simpl.
      fold u. lia.
    - intros y Hy. unfold retireRow. apply Z.eqb_neq in Hy. now rewrite Hy. }
  constructor; try assumption.
  - destruct Hk1. constructor; try assumption.
    unfold setDonations. cbn [donations]. rewrite map_key_update; [assumption|].
    intros x. unfold retireRow. now destruct (da_id x =? id).
  - intros x Hx. unfold setDonations in Hx. cbn [donations] in Hx.
    apply in_map_iff in Hx as [y [<- Hy]]. rewrite Hdonor. now apply Hdn.
  - now apply debit_keeps_active.
  - intros ref.
    change (balanceOf (setInventory s (map (debitRow t u) (inventory s))) ref =
            total dn_id dn_blood_type_id da_donor_id da_units (donors s)
                  (map (retireRow today id) (donations s)) isActive ref -
            fulfilledUnits s ref).
    rewrite Hbal, Hdonated, Hb, (Z.eqb_sym ref t). lia.
  - intros ref.
    change (0 <= balanceOf (setInventory s (map (debitRow t u) (inventory s))) ref).
    rewrite Hbal. specialize (Hnn ref). destruct (ref =? t) eqn:Eref; [|lia].
    apply Z.eqb_eq in Eref. subst ref. lia.
Qed.

Lemma handleRequests_Consistent today recipientID units s :
  Consistent s -> Consistent (snd (handleRequests today recipientID units s)).
Proof.
  intros Hs. unfold handleRequests.
  destruct ((recipientID =? 0) || (units <=? 0)); [exact Hs|].
  unfold getRecipientBloodTypeID.
  destruct (find _ (recipients s)) as [c|] eqn:F; [|exact Hs].
  destruct (rc_blood_type_id c =? 0); [exact Hs|].
  apply find_some in F as [Hc F]. apply andb_prop in F as [F _]. apply Z.eqb_eq in F.
  destruct Hs as [Hk Hd Hr Ha Hv Hb Hnn]. cbn [snd].
  constructor; try assumption.
  - destruct Hk. constructor; try assumption.
    apply keyed_snoc; [assumption|apply nextID_fresh].
  - intros r Hin. apply in_app_or in Hin as [Hin | [<- | []]]; [now apply Hr|].
    change (recipientType s recipientID <> None). unfold recipientType.
    rewrite <- F, (typeOf_found rc_id rc_blood_type_id (recipients s) c);
      [discriminate|apply Hk|exact Hc].
  - intros ref. frame s. rewrite Hb. f_equal. rewrite !fulfilledUnits_total.
    unfold setRequests. cbn [recipients requests].
    rewrite total_child_app by apply Hk. unfold weight, isFulfilled. simpl. lia.
Qed.

Definition requestWeight (s : Store) (ref : Z) (r : RequestRow) : Z :=
  weight rc_id rc_blood_type_id rq_recipient_id rq_units (recipients s) isFulfilled ref r.

(** A handler that rewrites the one request [id] and debits the ledger by
    as much as the rewrite adds to the fulfilled units keeps the invariant. *)
Lemma Consistent_rewrite_request s inv1 (f : RequestRow -> RequestRow) id old
  (delta : Z -> Z) :
  Consistent s ->
  wellKeyed (setInventory s inv1) ->
  (forall i, In i inv1 -> iv_deleted_at i = None) ->
  In old (requests s) -> rq_id old = id ->
  (forall y, rq_id y <> id -> f y = y) ->
  (forall y, rq_id (f y) = rq_id y) ->
  (forall y, rq_recipient_id (f y) = rq_recipient_id y) ->
  (forall ref, balanceOf (setInventory s inv1) ref = balanceOf s ref - delta ref) ->
  (forall ref, 0 <= balanceOf (setInventory s inv1) ref) ->
  (forall ref, requestWeight s ref (f old) - requestWeight s ref old = delta ref) ->
  Consistent (setRequests (setInventory s inv1) (map f (requests s))).
Proof.
  intros Hs Hk1 Ha1 Hold Hid Hother Hkey Hrec Hbal Hnn1 Hdelta.
  destruct Hs as [Hk Hd Hr Ha Hv Hb Hnn].
  constructor; try assumption.
  - destruct Hk1. constructor; try assumption.
    unfold setRequests. cbn [requests]. now rewrite map_key_update.
  - intros x Hx. unfold setRequests in Hx. cbn [requests] in Hx.
    apply in_map_iff in Hx as [y [<- Hy]].
    change (recipientType s (rq_recipient_id (f y)) <> None).
    rewrite Hrec. now apply Hr.
  - intros ref.
    change (balanceOf (setInventory s inv1) ref =
            donatedUnits s ref -
            total rc_id rc_blood_type_id rq_recipient_id rq_units (recipients s)
                  (map f (requests s)) isFulfilled ref).
    rewrite (total_child_update rc_id rc_blood_type_id rq_recipient_id rq_units rq_id
               f id (recipients s) (requests s) old);
      try assumption; try apply Hk.
    rewrite Hbal, Hb, <- (Hdelta ref), fulfilledUnits_total. unfold requestWeight. lia.
Qed.

Lemma requestJoin_row s keep t u :
  Consistent s -> In (t, u) (requestJoin s keep) ->
  exists r, In r (requests s) /\ keep r = true /\ u = rq_units r /\
            recipientType s (rq_recipient_id r) = Some t.
Proof.
  intros Hs Hin.
  apply (join_in rc_id rc_blood_type_id rq_recipient_id rq_units) in Hin
    as [r [c [Hr [Hkeep [Hc [Hkey [-> ->]]]]]]].
  exists r. repeat split; try assumption.
  unfold recipientType. rewrite <- Hkey. apply typeOf_found; [apply Hs|exact Hc].
Qed.

(** Fulfilling a request that is not Fulfilled yet keeps the invariant. *)
Lemma handleFulfill_Consistent id s :
  Consistent s ->
  (forall r, rowOf s id = Some r -> rq_status r <> "Fulfilled") ->
  Consistent (snd (handleFulfill id s)).
Proof.
  intros Hs Hguard. unfold handleFulfill. destruct (id =? 0); [exact Hs|].
  destruct (requestJoin s _) as [|[t u] rest] eqn:Hjoin; [exact Hs|].
  destruct (requestJoin_row s (fun r => rq_id r =? id) t u Hs) as [r [Hr [Hid [-> Ht]]]];
    [rewrite Hjoin; now left|].
  apply Z.eqb_eq in Hid.
  assert (Hrow : rowOf s id = Some r).
  { apply (find_key rq_id); [apply Hs|exact Hr|now apply Z.eqb_eq|].
    intros y Hy. apply Z.eqb_eq in Hy. congruence. }
  apply Hguard in Hrow. apply String.eqb_neq in Hrow.
  destruct (consumeInventoryByTypeID s t (rq_units r)) as [[|] s1] eqn:E;
    [|apply consumeInventoryByTypeID_false in E; now subst].
  pose proof (consumeInventoryByTypeID_wellKeyed _ _ _ _ _ E (cs_keys s Hs)) as Hk1.
  apply balanceOf_consume in E as [-> [Hle Hbal]]. cbn [snd].
  apply (Consistent_rewrite_request s _ _ id r
           (fun ref => if ref =? t then rq_units r else 0)); try assumption.
  - apply debit_keeps_active, Hs.
  - intros y Hy. unfold setStatusRow. apply Z.eqb_neq in Hy. now rewrite Hy.
  - apply setStatusRow_id.
  - intros y. unfold setStatusRow. now destruct (rq_id y =? id).
  - intros ref. rewrite Hbal. pose proof (cs_nonneg s Hs ref).
    destruct (ref =? t) eqn:Eref; [|lia]. apply Z.eqb_eq in Eref. subst ref. lia.
  - intros ref. unfold requestWeight, weight, isFulfilled.
    fold (recipientType s (rq_recipient_id (setStatusRow id "Fulfilled" r))).
    fold (recipientType s (rq_recipient_id r)).
    rewrite Hrow. unfold setStatusRow. rewrite Hid, Z.eqb_refl. simpl.
    rewrite Ht, (Z.eqb_sym ref t). lia.
Qed.

Lemma handleRequestsDelete_Consistent today id s :
  Consistent s -> Consistent (snd (handleRequestsDelete today id s)).
Proof.
  intros Hs. unfold handleRequestsDelete. destruct (id =? 0); [exact Hs|].
  destruct (activeRequest s id) as [old|] eqn:Hold; [|exact Hs].
  destruct (String.eqb (rq_status old) "Fulfilled") eqn:Hstatus; [exact Hs|].
  apply find_some in Hold as [Hin Hold]. apply andb_prop in Hold as [Hid _].
  apply Z.eqb_eq in Hid. cbn [snd].
  change (Consistent (setRequests (setInventory s (inventory s))
                                  (map (cancelRow today id) (requests s)))).
  apply (Consistent_rewrite_request s _ _ id old (fun _ => 0)); try assumption.
  - destruct Hs as [[] _ _ _ _ _ _]. now constructor.
  - apply Hs.
  - intros y Hy. unfold cancelRow. apply Z.eqb_neq in Hy. now rewrite Hy.
  - apply cancelRow_id.
  - intros y. unfold cancelRow. now destruct (rq_id y =? id).
  - intros ref. change (balanceOf s ref = balanceOf s ref - 0). lia.
  - intros ref. apply (cs_nonneg s Hs).
  - intros ref. unfold requestWeight, weight, isFulfilled. rewrite Hstatus.
    unfold cancelRow. rewrite Hid, Z.eqb_refl. simpl. lia.
Qed.

Lemma handleRequestsUpdate_Consistent id units status s :
  Consistent s -> Consistent (snd (handleRequestsUpdate id units status s)).
Proof.
  intros Hs. unfold handleRequestsUpdate. set (st := Text.TrimSpace status).
  destruct ((id =? 0) || (units <=? 0) || Text.isEmpty st); [exact Hs|].
  destruct (activeRequest s id) as [old|] eqn:Hold; [|exact Hs].
  destruct (String.eqb (rq_status old) "Fulfilled" && _) eqn:Hfrozen; [exact Hs|].
  apply find_some in Hold as [Hin Hold]. apply andb_prop in Hold as [Hid _].
  apply Z.eqb_eq in Hid.
  assert (Hother : forall y, rq_id y <> id -> amendRow id units st y = y).
  { intros y Hy. unfold amendRow. apply Z.eqb_neq in Hy. now rewrite Hy. }
  assert (Hrec : forall y, rq_recipient_id (amendRow id units st y) = rq_recipient_id y).
  { intros y. unfold amendRow. now destruct (rq_id y =? id). }
  assert (Hks : wellKeyed (setInventory s (inventory s))).
  { destruct Hs as [[] _ _ _ _ _ _]. now constructor. }
  destruct (String.eqb (rq_status old) "Fulfilled") eqn:Hstatus.
  - (* a fulfilled request: the amendment is the identity *)
    cbn [negb andb] in *. apply orb_false_elim in Hfrozen as [H1 H2].
    apply negb_false_iff in H1, H2.
    apply String.eqb_eq in H1, Hstatus. apply Z.eqb_eq in H2. cbn [snd].
    rewrite (map_update_key rq_id _ id (requests s) old);
      try assumption; [now rewrite setRequests_same|apply Hs|].
    unfold amendRow. rewrite Hid, Z.eqb_refl, <- H2, H1, <- Hstatus, <- Hid.
    now destruct old.
  - cbn [negb andb]. destruct (String.eqb st "Fulfilled") eqn:Hst.
    + (* the amendment fulfils the request, with the units of the form *)
      unfold getRequestBloodTypeID.
      destruct (requestJoin s _) as [|[t u] rest] eqn:Hjoin; [exact Hs|].
      destruct (t =? 0); [exact Hs|].
      destruct (requestJoin_row s
                  (fun r => (rq_id r =? id) && isNull (rq_deleted_at r)) t u Hs)
        as [r [Hr [Hkeep [_ Ht]]]]; [rewrite Hjoin; now left|].
      apply andb_prop in Hkeep as [Hrid _]. apply Z.eqb_eq in Hrid.
      assert (r = old) as ->
        by (apply (keyed_row_unique rq_id (requests s)); try assumption;
            [apply Hs|congruence]).
      destruct (consumeInventoryByTypeID s t units) as [[|] s1] eqn:E;
        [|apply consumeInventoryByTypeID_false in E; now subst].
      pose proof (consumeInventoryByTypeID_wellKeyed _ _ _ _ _ E (cs_keys s Hs)) as Hk1.
      apply balanceOf_consume in E as [-> [Hle Hbal]]. cbn [snd].
      apply (Consistent_rewrite_request s _ _ id old
               (fun ref => if ref =? t then units else 0)); try assumption.
      * apply debit_keeps_active, Hs.
      * apply amendRow_id.
      * intros ref. rewrite Hbal. pose proof (cs_nonneg s Hs ref).
        destruct (ref =? t) eqn:Eref; [|lia]. apply Z.eqb_eq in Eref. subst ref. lia.
      * intros ref. unfold requestWeight, weight, isFulfilled.
        rewrite Hrec. fold (recipientType s (rq_recipient_id old)).
        rewrite Hstatus, Ht. unfold amendRow. rewrite Hid, Z.eqb_refl. simpl.
        rewrite Hst, (Z.eqb_sym ref t). lia.
    + (* neither the old nor the new status is Fulfilled *)
      cbn [snd].
      change (Consistent (setRequests (setInventory s (inventory s))
                                      (map (amendRow id units st) (requests s)))).
      apply (Consistent_rewrite_request s _ _ id old (fun _ => 0)); try assumption.
      * apply Hs.
      * apply amendRow_id.
      * intros ref. change (balanceOf s ref = balanceOf s ref - 0). lia.
      * intros ref. apply (cs_nonneg s Hs).
      * intros ref. unfold requestWeight, weight, isFulfilled. rewrite Hstatus.
        unfold amendRow. rewrite Hid, Z.eqb_refl. simpl. rewrite Hst. lia.
Qed.

(** The posts the invariant is about: all but the two that rewrite the
    blood type of a donor or of a recipient, and but a fulfil aimed at a
    request that is Fulfilled already. *)
Definition keepsLedger (s : Store) (p : Post) : Prop :=
  match p with
  | PostDonorsUpdate _ _ _ _ _ | PostRecipientsUpdate _ _ _ _ _ => False
  | PostFulfill id => statusOf s id <> Some "Fulfilled"
  | _ => True
  end.

Inductive Reached : Store -> Prop :=
| reached_empty : Reached emptyStore
| reached_serve s today p :
    Reached s -> keepsLedger s p -> Reached (snd (serve today p s)).

Lemma serve_Consistent today p s :
  Consistent s -> keepsLedger s p -> Consistent (snd (serve today p s)).
Proof.
  intros Hs Hp. destruct p; simpl in *; try contradiction.
  - now apply handleDonors_Consistent.
  - now apply handleRecipients_Consistent.
  - now apply handleDonations_Consistent.
  - now apply handleDonationsDelete_Consistent.
  - now apply handleRequests_Consistent.
  - now apply handleDonorsDelete_Consistent.
  - now apply handleRecipientsDelete_Consistent.
  - apply handleFulfill_Consistent; [exact Hs|].
    intros r Hr E. apply Hp. unfold statusOf. rewrite Hr. simpl. now rewrite E.
  - now apply handleRequestsUpdate_Consistent.
  - now apply handleRequestsDelete_Consistent.
Qed.

(** The invariant of the ledger on every store reached without a second
    fulfil of a request and without a change of blood type: each balance is
    the active donations minus the Fulfilled requests of its blood type, and
    no balance is negative. *)
Lemma Reached_ledgerInvariant s : Reached s -> ledgerInvariant s.
Proof.
  intros H.
  assert (Hs : Consistent s).
  { induction H as [|s today p _ IH Hp]; [apply emptyStore_Consistent|].
    now apply serve_Consistent. }
  intros ref. split; [apply (cs_balance s Hs)|apply (cs_nonneg s Hs)].
Qed.

(** *** No balance is negative, whatever the posts *)

(** The inventory rows are active, one per blood type, with non-negative
    units. *)
Definition soundInventory (s : Store) : Prop :=
  NoDup (map iv_blood_type_id (inventory s)) /\
  forall i, In i (inventory s) -> iv_deleted_at i = None /\ 0 <= iv_units i.

Lemma consumeInventoryByTypeID_sound s t u b s1 :
  consumeInventoryByTypeID s t u = (b, s1) -> soundInventory s -> soundInventory s1.
Proof.
  unfold consumeInventoryByTypeID. intros H [Hnd Hrows].
  destruct (activeBalance s t) as [c|] eqn:Hc; [|inversion H; subst; now split].
  destruct (c <? u) eqn:Hlt; inversion H; subst; clear H; [now split|].
  apply Z.ltb_ge in Hlt. split; simpl.
  - rewrite map_key_update; [assumption|apply debitRow_ref].
  - intros i Hi. apply in_map_iff in Hi as [j [<- Hj]].
    rewrite debitRow_deleted. split; [now apply Hrows|].
    unfold debitRow. destruct (iv_blood_type_id j =? t) eqn:E; [|now apply Hrows].
    simpl. apply Z.eqb_eq in E.
    unfold activeBalance in Hc.
    rewrite (find_key iv_blood_type_id _ (inventory s) j Hnd Hj) in Hc.
    + simpl in Hc. inversion Hc. lia.
    + rewrite E, Z.eqb_refl. now rewrite (proj1 (Hrows j Hj)).
    + intros y Hy. apply andb_prop in Hy as [Hy _]. apply Z.eqb_eq in Hy. congruence.
Qed.

Lemma upsertInventoryByTypeID_sound s t u e s1 :
  0 < u ->
  upsertInventoryByTypeID s t u = (e, s1) -> soundInventory s -> soundInventory s1.
Proof.
  unfold upsertInventoryByTypeID. intros Hu H [Hnd Hrows].
  destruct (rowsAffected s t) eqn:Haff.
  - destruct (validRef s t); inversion H; subst; clear H; [|now split].
    split; simpl.
    + apply keyed_snoc; [assumption|]. simpl.
      apply rowsAffected_zero in Haff. intros Hin.
      apply in_map_iff in Hin as [x [Hx Hin]].
      apply (proj1 (find_none_iff _ _) Haff) in Hin.
      apply Z.eqb_neq in Hin. contradiction.
    + intros i Hi. apply in_app_or in Hi as [Hi | [<- | []]]; [now apply Hrows|].
      simpl. split; [reflexivity|lia].
  - inversion H; subst; clear H. split; simpl.
    + rewrite map_key_update; [assumption|apply creditRow_ref].
    + intros i Hi. apply in_map_iff in Hi as [j [<- Hj]].
      destruct (Hrows j Hj) as [Hd Hn]. unfold creditRow.
      destruct (iv_blood_type_id j =? t); simpl; split; try assumption; try reflexivity.
      lia.
Qed.

Lemma getOrCreateBloodTypeID_inventory s bloodType :
  inventory (snd (getOrCreateBloodTypeID s bloodType)) = inventory s.
Proof.
  unfold getOrCreateBloodTypeID.
  destruct (Text.isEmpty _); [reflexivity|]. now destruct (lookupBloodType s _).
Qed.

Lemma soundInventory_frame s s' :
  inventory s' = inventory s -> soundInventory s -> soundInventory s'.
Proof. unfold soundInventory. now intros ->. Qed.

Ltac framed s :=
  apply (soundInventory_frame s); [simpl; first [reflexivity|congruence]|assumption].

Lemma serve_soundInventory today p s :
  soundInventory s -> soundInventory (snd (serve today p s)).
Proof.
  intros Hs. destruct p; simpl.
  - unfold handleDonors. destruct (_ || _); [exact Hs|].
    pose proof (getOrCreateBloodTypeID_inventory s (normalizeBloodType blood_type)) as G.
    destruct (getOrCreateBloodTypeID s _) as [[?|?] s1]; simpl in *; framed s.
  - unfold handleRecipients. destruct (_ || _); [exact Hs|].
    pose proof (getOrCreateBloodTypeID_inventory s (normalizeBloodType blood_type)) as G.
    destruct (getOrCreateBloodTypeID s _) as [[?|?] s1]; simpl in *; framed s.
  - unfold handleDonations.
    destruct ((donor_id =? 0) || (units <=? 0) || _) eqn:G; [exact Hs|].
    apply orb_false_elim in G as [G _]. apply orb_false_elim in G as [_ G].
    apply Z.leb_gt in G.
    destruct (getDonorBloodTypeID s donor_id) as [t|e]; [|exact Hs].
    destruct (upsertInventoryByTypeID _ t units) as [[e|] s2] eqn:E;
      apply upsertInventoryByTypeID_sound in E; try assumption; framed s.
  - unfold handleDonationsDelete. destruct (id =? 0); [exact Hs|].
    destruct (donationJoin s _) as [|[t u] rest]; [exact Hs|].
    destruct (consumeInventoryByTypeID s t u) as [[|] s1] eqn:E;
      apply consumeInventoryByTypeID_sound in E; assumption.
  - unfold handleRequests. destruct (_ || _); [exact Hs|].
    destruct (getRecipientBloodTypeID s recipient_id); [|exact Hs]. simpl. framed s.
  - unfold handleDonorsUpdate. destruct (_ || _); [exact Hs|].
    pose proof (getOrCreateBloodTypeID_inventory s (normalizeBloodType blood_type)) as G.
    destruct (getOrCreateBloodTypeID s _) as [[?|?] s1]; simpl in *; framed s.
  - unfold handleDonorsDelete. destruct (id =? 0); [exact Hs|]. simpl. framed s.
  - unfold handleRecipientsUpdate. destruct (_ || _); [exact Hs|].
    pose proof (getOrCreateBloodTypeID_inventory s (normalizeBloodType blood_type)) as G.
    destruct (getOrCreateBloodTypeID s _) as [[?|?] s1]; simpl in *; framed s.
  - unfold handleRecipientsDelete. destruct (id =? 0); [exact Hs|]. simpl. framed s.
  - unfold handleFulfill. destruct (id =? 0); [exact Hs|].
    destruct (requestJoin s _) as [|[t u] rest]; [exact Hs|].
    destruct (consumeInventoryByTypeID s t u) as [[|] s1] eqn:E;
      apply consumeInventoryByTypeID_sound in E; assumption.
  - unfold handleRequestsUpdate. destruct (_ || _); [exact Hs|].
    destruct (activeRequest s id) as [old|]; [|exact Hs].
    destruct (String.eqb (rq_status old) "Fulfilled" && _); [exact Hs|].
    destruct (negb _ && _); [|simpl; framed s].
    destruct (getRequestBloodTypeID s id) as [t|e]; [|exact Hs].
    destruct (consumeInventoryByTypeID s t units) as [[|] s1] eqn:E;
      apply consumeInventoryByTypeID_sound in E; assumption.
  - unfold handleRequestsDelete. destruct (id =? 0); [exact Hs|].
    destruct (activeRequest s id) as [old|]; [|exact Hs].
    destruct (String.eqb _ _); [exact Hs|]. simpl. framed s.
Qed.

(** On every store a session reaches from the empty store, whatever its
    posts, no balance is negative. *)
Lemma run_balance_nonnegative posts ref : 0 <= balanceOf (run posts emptyStore) ref.
Proof.
  assert (Hs : soundInventory (run posts emptyStore)).
  { assert (H0 : soundInventory emptyStore) by (split; [constructor|intros i []]).
    revert H0. generalize emptyStore.
    induction posts as [|[today p] posts IH]; simpl; intros s Hs; [exact Hs|].
    apply IH. now apply serve_soundInventory. }
  unfold balanceOf, activeBalance.
  destruct (find _ (inventory (run posts emptyStore))) as [i|] eqn:F; simpl; [|lia].
  apply find_some in F as [Hi _]. now apply Hs.
Qed.

(** * Further properties *)

(** ** Normalizing a label *)

(** Every character of the string passes [p]. *)
Fixpoint allChars (p : ascii -> bool) (s : string) : bool :=
  match s with
  | EmptyString => true
  | String c rest => p c && allChars p rest
  end.

(** The string does not start with a character that passes [p]. *)
Definition noLead (p : ascii -> bool) (s : string) : Prop :=
  match s with
  | EmptyString => True
  | String c _ => p c = false
  end.

Lemma trimLeft_noLead p s : noLead p (Text.trimLeft p s).
Proof.
  induction s as [|c s IH]; simpl; [exact I|].
  destruct (p c) eqn:E; [exact IH|exact E].
Qed.

Lemma trimLeft_fixed p s : noLead p s -> Text.trimLeft p s = s.
Proof. destruct s as [|c s]; simpl; [reflexivity|]. now intros ->. Qed.

Lemma trimRight_noLead p s : noLead p s -> noLead p (Text.trimRight p s).
Proof.
  destruct s as [|c s]; simpl; [trivial|]. intros E.
  destruct (Text.trimRight p s); [now rewrite E|exact E].
Qed.

Lemma trimRight_idempotent p s :
  Text.trimRight p (Text.trimRight p s) = Text.trimRight p s.
Proof.
  induction s as [|c s IH]; simpl; [reflexivity|].
  destruct (Text.trimRight p s) as [|c' s'] eqn:E.
  - destruct (p c) eqn:Ec; simpl; [reflexivity|now rewrite Ec].
  - cbn [Text.trimRight] in *. now rewrite IH.
Qed.

Lemma trim_idempotent p s :
  Text.trimRight p (Text.trimLeft p (Text.trimRight p (Text.trimLeft p s))) =
  Text.trimRight p (Text.trimLeft p s).
Proof.
  rewrite (trimLeft_fixed p (Text.trimRight p (Text.trimLeft p s)))
    by apply trimRight_noLead, trimLeft_noLead.
  apply trimRight_idempotent.
Qed.

Lemma trimLeft_empty p s : Text.isEmpty (Text.trimLeft p s) = allChars p s.
Proof.
  induction s as [|c s IH]; simpl; [reflexivity|].
  destruct (p c); [exact IH|reflexivity].
Qed.

Lemma trimRight_empty p s :
  noLead p s -> Text.isEmpty (Text.trimRight p s) = Text.isEmpty s.
Proof.
  destruct s as [|c s]; simpl; [reflexivity|]. intros E.
  destruct (Text.trimRight p s); [now rewrite E|reflexivity].
Qed.

(** [TrimSpace] gives the empty string exactly on the strings of white
    space. *)
Lemma TrimSpace_empty s : Text.isEmpty (Text.TrimSpace s) = allChars Text.isSpace s.
Proof.
  unfold Text.TrimSpace. rewrite trimRight_empty by apply trimLeft_noLead.
  apply trimLeft_empty.
Qed.

Lemma upperChar_space c : Text.isSpace (Text.upperChar c) = Text.isSpace c.
Proof. destruct c as [[] [] [] [] [] [] [] []]; reflexivity. Qed.

Lemma upperChar_idempotent c : Text.upperChar (Text.upperChar c) = Text.upperChar c.
Proof. destruct c as [[] [] [] [] [] [] [] []]; reflexivity. Qed.

Lemma ToUpper_idempotent s : Text.ToUpper (Text.ToUpper s) = Text.ToUpper s.
Proof.
  induction s as [|c s IH]; simpl; [reflexivity|].
  now rewrite upperChar_idempotent, IH.
Qed.

Lemma ToUpper_empty s : Text.isEmpty (Text.ToUpper s) = Text.isEmpty s.
Proof. now destruct s. Qed.

Lemma ToUpper_trimLeft s :
  Text.trimLeft Text.isSpace (Text.ToUpper s) =
  Text.ToUpper (Text.trimLeft Text.isSpace s).
Proof.
  induction s as [|c s IH]; simpl; [reflexivity|].
  rewrite upperChar_space. now destruct (Text.isSpace c).
Qed.

Lemma ToUpper_trimRight s :
  Text.trimRight Text.isSpace (Text.ToUpper s) =
  Text.ToUpper (Text.trimRight Text.isSpace s).
Proof.
  induction s as [|c s IH]; simpl; [reflexivity|].
  rewrite IH, upperChar_space.
  destruct (Text.trimRight Text.isSpace s); simpl; [|reflexivity].
  now destruct (Text.isSpace c).
Qed.

Lemma ToUpper_TrimSpace s :
  Text.TrimSpace (Text.ToUpper s) = Text.ToUpper (Text.TrimSpace s).
Proof. unfold Text.TrimSpace. now rewrite ToUpper_trimLeft, ToUpper_trimRight. Qed.

Lemma normalizeBloodType_fixed value :
  normalizeBloodType (normalizeBloodType value) = normalizeBloodType value.
Proof.
  unfold normalizeBloodType.
  rewrite ToUpper_TrimSpace, ToUpper_idempotent. f_equal.
  unfold Text.TrimSpace. apply trim_idempotent.
Qed.

Lemma normalizeBloodType_empty value :
  Text.isEmpty (normalizeBloodType value) = allChars Text.isSpace value.
Proof. unfold normalizeBloodType. now rewrite ToUpper_empty, TrimSpace_empty. Qed.

Lemma upperChar_ascii c :
  (nat_of_ascii (Text.upperChar c) <? 128)%nat = (nat_of_ascii c <? 128)%nat.
Proof. destruct c as [[] [] [] [] [] [] [] []]; reflexivity. Qed.

Lemma ToUpper_ascii s : Text.isASCII (Text.ToUpper s) = Text.isASCII s.
Proof.
  induction s as [|c s IH]; simpl; [reflexivity|]. now rewrite upperChar_ascii, IH.
Qed.

Lemma trimLeft_ascii p s : Text.isASCII s = true -> Text.isASCII (Text.trimLeft p s) = true.
Proof.
  induction s as [|c s IH]; simpl; [reflexivity|]. intros H.
  destruct (p c); [|exact H]. apply andb_prop in H as [_ H]. now apply IH.
Qed.

Lemma trimRight_ascii p s : Text.isASCII s = true -> Text.isASCII (Text.trimRight p s) = true.
Proof.
  induction s as [|c s IH]; simpl; [reflexivity|]. intros H.
  apply andb_prop in H as [Hc H]. specialize (IH H).
  destruct (Text.trimRight p s) as [|c' s'].
  - destruct (p c); simpl; [reflexivity|now rewrite Hc].
  - cbn [Text.isASCII] in *. now rewrite Hc.
Qed.

Lemma normalizeBloodType_ascii value :
  Text.isASCII value = true -> Text.isASCII (normalizeBloodType value) = true.
Proof.
  intros H. unfold normalizeBloodType, Text.TrimSpace. rewrite ToUpper_ascii.
  now apply trimRight_ascii, trimLeft_ascii.
Qed.

(** X1: on the ASCII labels, where it is the function of Go, normalizing
    gives an ASCII label and is idempotent, so the registry gives the same
    answer, and leaves the same store, for a label and for its
    normalization: the handlers, which normalize the form field before they
    call the registry, lose nothing by it. *)
Theorem normalizeBloodType_idempotent (value : string) :
  Text.isASCII value = true ->
  Text.isASCII (normalizeBloodType value) = true /\
  normalizeBloodType (normalizeBloodType value) = normalizeBloodType value /\
  (forall s,
     getOrCreateBloodTypeID s (normalizeBloodType value) =
     getOrCreateBloodTypeID s value).
Proof.
  intros H. split; [now apply normalizeBloodType_ascii|].
  split; [apply normalizeBloodType_fixed|].
  intros s. unfold getOrCreateBloodTypeID. now rewrite normalizeBloodType_fixed.
Qed.

Lemma normalizeBloodType_idempotent_witness :
  normalizeBloodType (normalizeBloodType "  ab- ") = normalizeBloodType "  ab- ".
Proof. apply (normalizeBloodType_idempotent "  ab- "). reflexivity. Defined.

(** X2: on an ASCII label the registry fails exactly when the label is made
    of white space only (the empty label among them): the error is [blood
    type required] and the store is unchanged; every other ASCII label gets
    a reference. *)
Theorem getOrCreateBloodTypeID_blank (s : Store) (label : string) :
  Text.isASCII label = true ->
  (allChars Text.isSpace label = true ->
   getOrCreateBloodTypeID s label = (Err (ErrText "blood type required"), s)) /\
  (allChars Text.isSpace label = false ->
   exists id, fst (getOrCreateBloodTypeID s label) = Ok id).
Proof.
  intros _.
  unfold getOrCreateBloodTypeID. rewrite normalizeBloodType_empty. split; intros ->.
  - reflexivity.
  - destruct (lookupBloodType s _) as [id|]; eexists; reflexivity.
Qed.

Lemma getOrCreateBloodTypeID_blank_witness :
  getOrCreateBloodTypeID scenario "  " = (Err (ErrText "blood type required"), scenario) /\
  exists id, fst (getOrCreateBloodTypeID scenario " b- ") = Ok id.
Proof.
  split.
  - apply (getOrCreateBloodTypeID_blank scenario "  "); reflexivity.
  - apply (getOrCreateBloodTypeID_blank scenario " b- "); reflexivity.
Defined.

(** ** The registry on the stores a session reaches *)

Lemma nextID_above_zero (ids : list Z) : 0 < nextID ids.
Proof.
  unfold nextID. induction ids as [|y ids IH]; cbn [fold_right]; lia.
Qed.

(** What the handlers keep true of the registry and of its users: the
    references are positive, the labels normalized, not empty and pairwise
    distinct, and every donor and recipient has a registered blood type. *)
Record Registered (s : Store) : Prop := mkRegistered {
  rg_positive : forall b, In b (blood_types s) -> 0 < bt_id b;
  rg_normal : forall b, In b (blood_types s) ->
                normalizeBloodType (bt_type b) = bt_type b /\ bt_type b <> "";
  rg_labels : NoDup (map bt_type (blood_types s));
  rg_donors : forall n, In n (donors s) -> validRef s (dn_blood_type_id n) = true;
  rg_recipients : forall c, In c (recipients s) -> validRef s (rc_blood_type_id c) = true
}.

Lemma lookupBloodType_none s label :
  lookupBloodType s label = None -> ~ In label (map bt_type (blood_types s)).
Proof.
  unfold lookupBloodType. intros H Hin.
  destruct (find _ (blood_types s)) eqn:F; [discriminate|].
  apply in_map_iff in Hin as [b [<- Hb]].
  apply (proj1 (find_none_iff _ _) F) in Hb. now rewrite String.eqb_refl in Hb.
Qed.

Lemma lookupBloodType_some s label id :
  lookupBloodType s label = Some id ->
  exists b, In b (blood_types s) /\ bt_type b = label /\ bt_id b = id.
Proof.
  unfold lookupBloodType. intros H.
  destruct (find _ (blood_types s)) as [b|] eqn:F; [|discriminate].
  simpl in H. inversion H; subst. apply find_some in F as [Hb F].
  apply String.eqb_eq in F. now exists b.
Qed.

Lemma validRef_in s ref :
  validRef s ref = true <-> exists b, In b (blood_types s) /\ bt_id b = ref.
Proof.
  unfold validRef. rewrite existsb_exists. split; intros [b [Hb E]]; exists b;
    (split; [exact Hb|]); now apply Z.eqb_eq.
Qed.

Lemma getOrCreateBloodTypeID_Registered s bloodType r s1 :
  getOrCreateBloodTypeID s bloodType = (r, s1) -> Registered s ->
  Registered s1 /\
  donors s1 = donors s /\ recipients s1 = recipients s /\
  forall id, r = Ok id -> validRef s1 id = true.
Proof.
  intros Hrun Hs. unfold getOrCreateBloodTypeID in Hrun.
  destruct (Text.isEmpty (normalizeBloodType bloodType)) eqn:Hempty.
  { inversion Hrun; subst. split; [exact Hs|]. split; [reflexivity|].
    split; [reflexivity|]. intros id E. discriminate. }
  destruct (lookupBloodType s _) as [id0|] eqn:Hfind; inversion Hrun; subst; clear Hrun.
  - split; [exact Hs|]. split; [reflexivity|]. split; [reflexivity|].
    intros id E. inversion E; subst.
    apply lookupBloodType_some in Hfind as [b [Hb [_ Hid]]].
    apply validRef_in. now exists b.
  - destruct Hs as [Hpos Hnorm Hlab Hdn Hrc].
    split; [constructor|]; simpl.
    + intros b Hb. apply in_app_or in Hb as [Hb | [<- | []]]; [now apply Hpos|].
      simpl. apply nextID_above_zero.
    + intros b Hb. apply in_app_or in Hb as [Hb | [<- | []]]; [now apply Hnorm|].
      simpl. split; [apply normalizeBloodType_fixed|now apply isEmpty_false].
    + rewrite map_app. simpl. apply NoDup_snoc; [exact Hlab|].
      now apply lookupBloodType_none.
    + intros n Hn. apply validRef_grows. now apply Hdn.
    + intros c Hc. apply validRef_grows. now apply Hrc.
    + split; [reflexivity|]. split; [reflexivity|].
      intros id E. inversion E; subst. unfold validRef. simpl.
      rewrite existsb_app. simpl. now rewrite Z.eqb_refl, orb_true_r.
Qed.

Lemma Registered_frame s s' :
  blood_types s' = blood_types s -> donors s' = donors s ->
  recipients s' = recipients s -> Registered s -> Registered s'.
Proof.
  intros Hb Hd Hr [Hpos Hnorm Hlab Hdn Hrc].
  constructor; unfold validRef in *; rewrite ?Hb, ?Hd, ?Hr; assumption.
Qed.

(** The ledger operations write the inventory and nothing else. *)
Lemma consumeInventoryByTypeID_frame s t u :
  snd (consumeInventoryByTypeID s t u) =
  setInventory s (inventory (snd (consumeInventoryByTypeID s t u))).
Proof.
  unfold consumeInventoryByTypeID.
  destruct (activeBalance s t) as [c|]; [destruct (c <? u)|]; simpl; now destruct s.
Qed.

Lemma upsertInventoryByTypeID_frame s t u :
  snd (upsertInventoryByTypeID s t u) =
  setInventory s (inventory (snd (upsertInventoryByTypeID s t u))).
Proof.
  unfold upsertInventoryByTypeID.
  destruct (rowsAffected s t); [destruct (validRef s t)|]; simpl; now destruct s.
Qed.

Ltac ledger_frames :=
  repeat match goal with
    | |- context [match consumeInventoryByTypeID ?s ?t ?u with _ => _ end] =>
        let F := fresh "F" in
        pose proof (consumeInventoryByTypeID_frame s t u) as F;
        destruct (consumeInventoryByTypeID s t u) as [[|] ?]; simpl in F; rewrite F
    | |- context [match upsertInventoryByTypeID ?s ?t ?u with _ => _ end] =>
        let F := fresh "F" in
        pose proof (upsertInventoryByTypeID_frame s t u) as F;
        destruct (upsertInventoryByTypeID s t u) as [[?|] ?]; simpl in F; rewrite F
    end.

Lemma serve_Registered today p s : Registered s -> Registered (snd (serve today p s)).
Proof.
  intros Hs.
  assert (Hframe : forall s', blood_types s' = blood_types s -> donors s' = donors s ->
                              recipients s' = recipients s -> Registered s')
    by (intros s' ? ? ?; now apply (Registered_frame s)).
  destruct p; simpl.
  - unfold handleDonors. destruct (_ || _); [exact Hs|].
    destruct (getOrCreateBloodTypeID s _) as [[id|e] s1] eqn:E;
      destruct (getOrCreateBloodTypeID_Registered _ _ _ _ E Hs) as [H1 [Hd [Hr Hid]]];
      [|exact H1].
    destruct H1 as [Hpos Hnorm Hlab Hdn Hrc]. constructor; try assumption. simpl.
    intros n Hn. apply in_app_or in Hn as [Hn | [<- | []]]; [now apply Hdn|].
    now apply Hid.
  - unfold handleRecipients. destruct (_ || _); [exact Hs|].
    destruct (getOrCreateBloodTypeID s _) as [[id|e] s1] eqn:E;
      destruct (getOrCreateBloodTypeID_Registered _ _ _ _ E Hs) as [H1 [Hd [Hr Hid]]];
      [|exact H1].
    destruct H1 as [Hpos Hnorm Hlab Hdn Hrc]. constructor; try assumption. simpl.
    intros c Hc. apply in_app_or in Hc as [Hc | [<- | []]]; [now apply Hrc|].
    now apply Hid.
  - unfold handleDonations. destruct (_ || _); [exact Hs|].
    destruct (getDonorBloodTypeID s donor_id); [|exact Hs].
    ledger_frames; now apply Hframe.
  - unfold handleDonationsDelete. destruct (id =? 0); [exact Hs|].
    destruct (donationJoin s _) as [|[t u] rest]; [exact Hs|].
    ledger_frames; now apply Hframe.
  - unfold handleRequests. destruct (_ || _); [exact Hs|].
    destruct (getRecipientBloodTypeID s recipient_id); [|exact Hs]. now apply Hframe.
  - unfold handleDonorsUpdate. destruct (_ || _); [exact Hs|].
    destruct (getOrCreateBloodTypeID s _) as [[t|e] s1] eqn:E;
      destruct (getOrCreateBloodTypeID_Registered _ _ _ _ E Hs) as [H1 [Hd [Hr Hid]]];
      [|exact H1].
    destruct H1 as [Hpos Hnorm Hlab Hdn Hrc]. constructor; try assumption. simpl.
    intros n Hn. apply in_map_iff in Hn as [m [<- Hm]].
    change (validRef s1 (dn_blood_type_id (updateDonorRow id (Text.TrimSpace name) t
              (Text.TrimSpace phone) (Text.TrimSpace city) m)) = true).
    unfold updateDonorRow.
    destruct (dn_id m =? id); simpl; [now apply Hid|now apply Hdn].
  - unfold handleDonorsDelete. destruct (id =? 0); [exact Hs|].
    destruct Hs as [Hpos Hnorm Hlab Hdn Hrc]. constructor; try assumption. simpl.
    intros n Hn. apply in_map_iff in Hn as [m [<- Hm]].
    change (validRef s (dn_blood_type_id (deleteDonorRow today id m)) = true).
    unfold deleteDonorRow.
    destruct (dn_id m =? id); simpl; now apply Hdn.
  - unfold handleRecipientsUpdate. destruct (_ || _); [exact Hs|].
    destruct (getOrCreateBloodTypeID s _) as [[t|e] s1] eqn:E;
      destruct (getOrCreateBloodTypeID_Registered _ _ _ _ E Hs) as [H1 [Hd [Hr Hid]]];
      [|exact H1].
    destruct H1 as [Hpos Hnorm Hlab Hdn Hrc]. constructor; try assumption. simpl.
    intros c Hc. apply in_map_iff in Hc as [m [<- Hm]].
    change (validRef s1 (rc_blood_type_id (updateRecipientRow id (Text.TrimSpace name) t
              (Text.TrimSpace phone) (Text.TrimSpace hospital) m)) = true).
    unfold updateRecipientRow.
    destruct (rc_id m =? id); simpl; [now apply Hid|now apply Hrc].
  - unfold handleRecipientsDelete. destruct (id =? 0); [exact Hs|].
    destruct Hs as [Hpos Hnorm Hlab Hdn Hrc]. constructor; try assumption. simpl.
    intros c Hc. apply in_map_iff in Hc as [m [<- Hm]].
    change (validRef s (rc_blood_type_id (deleteRecipientRow today id m)) = true).
    unfold deleteRecipientRow.
    destruct (rc_id m =? id); simpl; now apply Hrc.
  - unfold handleFulfill. destruct (id =? 0); [exact Hs|].
    destruct (requestJoin s _) as [|[t u] rest]; [exact Hs|].
    ledger_frames; now apply Hframe.
  - unfold handleRequestsUpdate. destruct (_ || _); [exact Hs|].
    destruct (activeRequest s id) as [old|]; [|exact Hs].
    destruct (String.eqb (rq_status old) "Fulfilled" && _); [exact Hs|].
    destruct (negb _ && _); [|now apply Hframe].
    destruct (getRequestBloodTypeID s id) as [t|e]; [|exact Hs].
    ledger_frames; now apply Hframe.
  - unfold handleRequestsDelete. destruct (id =? 0); [exact Hs|].
    destruct (activeRequest s id) as [old|]; [|exact Hs].
    destruct (String.eqb _ _); [exact Hs|]. now apply Hframe.
Qed.

Lemma emptyStore_Registered : Registered emptyStore.
Proof. constructor; simpl; try (intros ? []). constructor. Qed.

Lemma run_Registered posts s : Registered s -> Registered (run posts s).
Proof.
  revert s. induction posts as [|[today p] posts IH]; simpl; intros s Hs; [exact Hs|].
  apply IH. now apply serve_Registered.
Qed.

(** The blood type a form carries. *)
Definition labelOf (p : Post) : option string :=
  match p with
  | PostDonors _ b _ _ | PostRecipients _ b _ _
  | PostDonorsUpdate _ _ b _ _ | PostRecipientsUpdate _ _ b _ _ => Some b
  | _ => None
  end.

Lemma getOrCreateBloodTypeID_registry s b :
  blood_types (snd (getOrCreateBloodTypeID s (normalizeBloodType b))) = blood_types s \/
  exists id,
    blood_types (snd (getOrCreateBloodTypeID s (normalizeBloodType b))) =
    blood_types s ++ [mkBloodType id (normalizeBloodType b)].
Proof.
  unfold getOrCreateBloodTypeID. rewrite normalizeBloodType_fixed.
  destruct (Text.isEmpty _); [now left|].
  destruct (lookupBloodType s _); [now left|]. right. eexists. reflexivity.
Qed.

Lemma serve_registry today p s :
  blood_types (snd (serve today p s)) = blood_types s \/
  exists b id,
    labelOf p = Some b /\
    blood_types (snd (serve today p s)) =
    blood_types s ++ [mkBloodType id (normalizeBloodType b)].
Proof.
  destruct p; simpl;
    cbv beta delta [handleDonors handleRecipients handleDonations
      handleDonationsDelete handleRequests handleDonorsUpdate handleDonorsDelete
      handleRecipientsUpdate handleRecipientsDelete handleFulfill
      handleRequestsUpdate handleRequestsDelete] zeta;
    try match goal with
      | |- context [getOrCreateBloodTypeID ?s (normalizeBloodType ?b)] =>
          first [destruct (_ || _ || _) | destruct (_ || _)]; [now left|];
          destruct (getOrCreateBloodTypeID_registry s b) as [H | [ref H]];
          destruct (getOrCreateBloodTypeID s (normalizeBloodType b)) as [[?|?] ?];
          simpl in *; first [ now left | right; exists b, ref; now split ]
      end;
    left;
    repeat match goal with
      | |- context [if ?c then _ else _] => destruct c
      | |- context [match getDonorBloodTypeID ?s ?b with _ => _ end] =>
          destruct (getDonorBloodTypeID s b)
      | |- context [match getRecipientBloodTypeID ?s ?b with _ => _ end] =>
          destruct (getRecipientBloodTypeID s b)
      | |- context [match getRequestBloodTypeID ?s ?b with _ => _ end] =>
          destruct (getRequestBloodTypeID s b)
      | |- context [match activeRequest ?s ?b with _ => _ end] =>
          destruct (activeRequest s b)
      | |- context [match donationJoin ?s ?b with _ => _ end] =>
          destruct (donationJoin s b) as [|[? ?] ?]
      | |- context [match requestJoin ?s ?b with _ => _ end] =>
          destruct (requestJoin s b) as [|[? ?] ?]
      | _ => progress ledger_frames
      end;
    reflexivity.
Qed.

Lemma asciiPost_label p b : asciiPost p = true -> labelOf p = Some b -> Text.isASCII b = true.
Proof.
  destruct p; simpl; try discriminate; intros H E; inversion E; subst;
    repeat (apply andb_prop in H as [H ?]); assumption.
Qed.

Lemma run_ascii posts s :
  asciiPosts posts = true ->
  (forall b, In b (blood_types s) -> Text.isASCII (bt_type b) = true) ->
  forall b, In b (blood_types (run posts s)) -> Text.isASCII (bt_type b) = true.
Proof.
  revert s. induction posts as [|[today p] posts IH]; simpl; intros s Hp Hs; [exact Hs|].
  apply andb_prop in Hp as [Hp Hrest]. apply IH; [exact Hrest|].
  intros b Hb. destruct (serve_registry today p s) as [E | [l [id [Hl E]]]];
    rewrite E in Hb; [now apply Hs|].
  apply in_app_or in Hb as [Hb | [<- | []]]; [now apply Hs|].
  simpl. apply normalizeBloodType_ascii. now apply (asciiPost_label p).
Qed.

(** X3: on every store a session of ASCII forms reaches from the empty
    store, the labels of the registry are pairwise distinct, and each is
    ASCII, normalized (trimmed, upper case), not empty, with a positive
    reference. *)
Theorem registry_labels (posts : list (string * Post)) :
  asciiPosts posts = true ->
  NoDup (map bt_type (blood_types (run posts emptyStore))) /\
  forall b, In b (blood_types (run posts emptyStore)) ->
    Text.isASCII (bt_type b) = true /\
    normalizeBloodType (bt_type b) = bt_type b /\ bt_type b <> "" /\ 0 < bt_id b.
Proof.
  intros Hascii.
  pose proof (run_Registered posts emptyStore emptyStore_Registered) as [Hpos Hnorm Hlab _ _].
  split; [exact Hlab|]. intros b Hb. split.
  - apply (run_ascii posts emptyStore Hascii); [intros ? []|exact Hb].
  - destruct (Hnorm b Hb). auto.
Qed.

Lemma registry_labels_witness :
  Text.isASCII "O+" = true /\ normalizeBloodType "O+" = "O+" /\ "O+" <> "" /\ 0 < 1.
Proof.
  apply (proj2 (registry_labels
                  [ ("2025-06-01", PostDonors "Asha" " o+ " "555-0101" "Pune") ]
                  eq_refl)
               (mkBloodType 1 "O+")).
  left. reflexivity.
Defined.

Lemma lookupBloodType_injective s label1 label2 id :
  NoDup (map bt_id (blood_types s)) ->
  lookupBloodType s label1 = Some id -> lookupBloodType s label2 = Some id ->
  label1 = label2.
Proof.
  intros Hnd H1 H2.
  apply lookupBloodType_some in H1 as [b1 [Hb1 [<- E1]]].
  apply lookupBloodType_some in H2 as [b2 [Hb2 [<- E2]]].
  f_equal. apply (keyed_row_unique bt_id (blood_types s)); congruence.
Qed.

(** X4: a reference is never shared by two labels.  On every store a session
    of ASCII forms reaches, two calls of the registry that return the same
    reference were given labels with the same normalization (the converse
    of C9); the labels are ASCII. *)
Theorem getOrCreateBloodTypeID_injective (posts : list (string * Post))
  (label1 label2 : string) (id : Z) :
  asciiPosts posts = true ->
  Text.isASCII label1 = true -> Text.isASCII label2 = true ->
  fst (getOrCreateBloodTypeID (run posts emptyStore) label1) = Ok id ->
  fst (getOrCreateBloodTypeID
         (snd (getOrCreateBloodTypeID (run posts emptyStore) label1)) label2) = Ok id ->
  normalizeBloodType label1 = normalizeBloodType label2.
Proof.
  intros _ _ _. set (s := run posts emptyStore).
  destruct (getOrCreateBloodTypeID s label1) as [r1 s1] eqn:E1. simpl. intros -> H2.
  assert (Hk : wellKeyed s1).
  { apply (getOrCreateBloodTypeID_wellKeyed s label1 (Ok id) s1 E1).
    apply run_wellKeyed, emptyStore_wellKeyed. }
  assert (H1 : lookupBloodType s1 (normalizeBloodType label1) = Some id).
  { unfold getOrCreateBloodTypeID in E1.
    destruct (Text.isEmpty _); [discriminate|].
    destruct (lookupBloodType s _) as [id1|] eqn:Hfind; inversion E1; subst; clear E1.
    - exact Hfind.
    - unfold lookupBloodType in *. simpl. rewrite find_app.
      destruct (find _ (blood_types s)); [discriminate|].
      simpl. now rewrite String.eqb_refl. }
  unfold getOrCreateBloodTypeID in H2.
  destruct (Text.isEmpty (normalizeBloodType label2)); [discriminate|].
  destruct (lookupBloodType s1 (normalizeBloodType label2)) as [id2|] eqn:Hfind;
    simpl in H2; inversion H2; subst.
  - apply (lookupBloodType_injective s1 _ _ id); [apply Hk|assumption|assumption].
  - exfalso. apply lookupBloodType_some in H1 as [b [Hb [_ Hid]]].
    apply (nextID_fresh (map bt_id (blood_types s1))). rewrite <- Hid. now apply in_map.
Qed.

Lemma getOrCreateBloodTypeID_injective_witness :
  normalizeBloodType " o+" = normalizeBloodType "O+ ".
Proof.
  apply (getOrCreateBloodTypeID_injective
           [ ("2025-06-01", PostDonors "Asha" "ab-" "555-0101" "Pune") ]
           " o+" "O+ " 2); reflexivity.
Defined.

Lemma join_head_positive s keep t u rest :
  Registered s -> requestJoin s keep = (t, u) :: rest -> 0 < t.
Proof.
  intros Hs Hjoin.
  assert (Hin : In (t, u) (requestJoin s keep)) by (rewrite Hjoin; now left).
  apply (join_in rc_id rc_blood_type_id rq_recipient_id rq_units) in Hin
    as [r [c [_ [_ [Hc [_ [-> _]]]]]]].
  apply (rg_recipients s Hs), validRef_in in Hc as [b [Hb <-]].
  now apply (rg_positive s Hs).
Qed.

(** X5: on every store a session reaches, the three look-ups of a blood type
    (of a donor, of a recipient, of a request) fail only with
    [sql.ErrNoRows]: the [missing blood type] branch is never taken, because
    no reference is [0]; and what they return is a registered reference. *)
Theorem blood_type_lookups (posts : list (string * Post)) (id : Z) :
  let s := run posts emptyStore in
  (forall e, getDonorBloodTypeID s id = Err e -> e = ErrNoRows) /\
  (forall e, getRecipientBloodTypeID s id = Err e -> e = ErrNoRows) /\
  (forall e, getRequestBloodTypeID s id = Err e -> e = ErrNoRows) /\
  (forall t, getDonorBloodTypeID s id = Ok t \/ getRecipientBloodTypeID s id = Ok t \/
             getRequestBloodTypeID s id = Ok t -> validRef s t = true).
Proof.
  intros s.
  pose proof (run_Registered posts emptyStore emptyStore_Registered) as Hs. fold s in Hs.
  assert (Hdonor : forall n, In n (donors s) -> (dn_blood_type_id n =? 0) = false).
  { intros n Hn. apply Z.eqb_neq.
    apply (rg_donors s Hs), validRef_in in Hn as [b [Hb <-]].
    pose proof (rg_positive s Hs b Hb). lia. }
  assert (Hrecipient : forall c, In c (recipients s) -> (rc_blood_type_id c =? 0) = false).
  { intros c Hc. apply Z.eqb_neq.
    apply (rg_recipients s Hs), validRef_in in Hc as [b [Hb <-]].
    pose proof (rg_positive s Hs b Hb). lia. }
  unfold getDonorBloodTypeID, getRecipientBloodTypeID, getRequestBloodTypeID.
  destruct (find _ (donors s)) as [n|] eqn:Fn;
    [apply find_some in Fn as [Hn _]; rewrite (Hdonor n Hn)|];
  (destruct (find _ (recipients s)) as [c|] eqn:Fc;
    [apply find_some in Fc as [Hc _]; rewrite (Hrecipient c Hc)|]);
  (destruct (requestJoin s _) as [|[t0 u0] rest] eqn:Hjoin;
    [|pose proof (join_head_positive s _ t0 u0 rest Hs Hjoin) as Hpos;
      assert ((t0 =? 0) = false) as -> by (apply Z.eqb_neq; lia)]);
  repeat split; try (intros e E; now inversion E);
  intros t [E | [E | E]]; inversion E; subst;
  try (now apply (rg_donors s Hs)); try (now apply (rg_recipients s Hs)).
  all: assert (Hin : In (t, u0) (requestJoin s
         (fun r => (rq_id r =? id) && isNull (rq_deleted_at r))))
         by (rewrite Hjoin; now left);
       apply (join_in rc_id rc_blood_type_id rq_recipient_id rq_units) in Hin
         as [r [c' [_ [_ [Hc' [_ [-> _]]]]]]];
       now apply (rg_recipients s Hs).
Qed.

Lemma blood_type_lookups_witness :
  validRef (run [ ("2025-06-01", PostDonors "Asha" " o+ " "555-0101" "Pune") ] emptyStore) 1
  = true.
Proof.
  apply (proj2 (proj2 (proj2
           (blood_type_lookups
              [ ("2025-06-01", PostDonors "Asha" " o+ " "555-0101" "Pune") ] 1)))).
  left. reflexivity.
Defined.

(** ** The answers of the handlers *)

Lemma getOrCreateBloodTypeID_normalized s value e s1 :
  Text.isEmpty (normalizeBloodType value) = false ->
  getOrCreateBloodTypeID s (normalizeBloodType value) <> (Err e, s1).
Proof.
  intros Hempty. unfold getOrCreateBloodTypeID.
  rewrite normalizeBloodType_fixed, Hempty.
  now destruct (lookupBloodType s _).
Qed.

Lemma upsertInventoryByTypeID_fails s t u e s1 :
  upsertInventoryByTypeID s t u = (Some e, s1) -> validRef s t = false.
Proof.
  unfold upsertInventoryByTypeID.
  destruct (rowsAffected s t); [|discriminate]. now destruct (validRef s t).
Qed.

Lemma getDonorBloodTypeID_in s id t :
  getDonorBloodTypeID s id = Ok t ->
  exists n, In n (donors s) /\ dn_id n = id /\ dn_deleted_at n = None /\
            dn_blood_type_id n = t /\
            find (fun d => (dn_id d =? id) && isNull (dn_deleted_at d)) (donors s) = Some n.
Proof.
  unfold getDonorBloodTypeID.
  destruct (find _ (donors s)) as [n|] eqn:F; [|discriminate].
  destruct (dn_blood_type_id n =? 0); [discriminate|]. intros E. inversion E; subst.
  exists n. pose proof (find_some _ _ F) as [Hn Hp].
  apply andb_prop in Hp as [Hid Hdel]. apply Z.eqb_eq in Hid.
  repeat split; try assumption. now destruct (dn_deleted_at n).
Qed.

(** X6: in a session in range (ASCII forms, 64-bit numbers, no count of the
    inventory past 64 bits) that starts from the empty store, every post
    with an ASCII form and 64-bit numbers is answered by the redirect or by
    one of the business rejections: the answers that report a failed write
    and that the data could cause ([Could not add donor.], [Could not update
    recipient.], [Donation saved, but inventory update failed.], ...) never
    arise, because the handlers pass the registry a label that is not blank
    and credit the ledger with a registered blood type.  The answers a
    handler gives only when the driver fails are not in the model; [Inventory
    update failed.] is one, which takes a balance that [Scan] cannot read as
    an integer, and in range every balance is one. *)
Theorem no_storage_failure (posts : list (string * Post)) (today : string) (p : Post) :
  inRange posts emptyStore = true -> asciiPost p = true -> intPost p = true ->
  fst (serve today p (run posts emptyStore)) = Redirect \/
  isRejection (fst (serve today p (run posts emptyStore))) = true.
Proof.
  intros _ _ _.
  pose proof (run_Registered posts emptyStore emptyStore_Registered) as Hs.
  revert Hs. generalize (run posts emptyStore). intros s Hs.
  destruct p; simpl.
  - unfold handleDonors. destruct (_ || _) eqn:G; [now right|].
    apply orb_false_elim in G as [_ G].
    destruct (getOrCreateBloodTypeID s _) as [[?|e] s1] eqn:E; [now left|].
    now apply getOrCreateBloodTypeID_normalized in E.
  - unfold handleRecipients. destruct (_ || _) eqn:G; [now right|].
    apply orb_false_elim in G as [_ G].
    destruct (getOrCreateBloodTypeID s _) as [[?|e] s1] eqn:E; [now left|].
    now apply getOrCreateBloodTypeID_normalized in E.
  - unfold handleDonations. destruct (_ || _); [now right|].
    destruct (getDonorBloodTypeID s donor_id) as [t|e] eqn:D; [|now right].
    destruct (upsertInventoryByTypeID _ t units) as [[e|] s2] eqn:E; [|now left].
    apply upsertInventoryByTypeID_fails in E.
    apply getDonorBloodTypeID_in in D as [n [Hn [_ [_ [Ht _]]]]].
    apply (rg_donors s Hs) in Hn. rewrite Ht in Hn.
    change (validRef s t = false) in E. congruence.
  - unfold handleDonationsDelete. destruct (id =? 0); [now left|].
    destruct (donationJoin s _) as [|[t u] rest]; [now right|].
    destruct (consumeInventoryByTypeID s t u) as [[|] s1]; [now left|now right].
  - unfold handleRequests. destruct (_ || _); [now right|].
    destruct (getRecipientBloodTypeID s recipient_id); [now left|now right].
  - unfold handleDonorsUpdate. destruct (_ || _) eqn:G; [now right|].
    apply orb_false_elim in G as [_ G].
    destruct (getOrCreateBloodTypeID s _) as [[?|e] s1] eqn:E; [now left|].
    now apply getOrCreateBloodTypeID_normalized in E.
  - unfold handleDonorsDelete. destruct (id =? 0); now left.
  - unfold handleRecipientsUpdate. destruct (_ || _) eqn:G; [now right|].
    apply orb_false_elim in G as [_ G].
    destruct (getOrCreateBloodTypeID s _) as [[?|e] s1] eqn:E; [now left|].
    now apply getOrCreateBloodTypeID_normalized in E.
  - unfold handleRecipientsDelete. destruct (id =? 0); now left.
  - unfold handleFulfill. destruct (id =? 0); [now left|].
    destruct (requestJoin s _) as [|[t u] rest]; [now right|].
    destruct (consumeInventoryByTypeID s t u) as [[|] s1]; [now left|now right].
  - unfold handleRequestsUpdate. destruct (_ || _); [now right|].
    destruct (activeRequest s id) as [old|]; [|now right].
    destruct (String.eqb (rq_status old) "Fulfilled" && _); [now right|].
    destruct (negb _ && _); [|now left].
    destruct (getRequestBloodTypeID s id) as [t|e]; [|now right].
    destruct (consumeInventoryByTypeID s t units) as [[|] s1]; [now left|now right].
  - unfold handleRequestsDelete. destruct (id =? 0); [now left|].
    destruct (activeRequest s id) as [old|]; [|now right].
    destruct (String.eqb _ _); [now right|now left].
Qed.

Lemma no_storage_failure_witness :
  fst (serve "2025-06-05" (PostFulfill 2) scenario) = Redirect \/
  isRejection (fst (serve "2025-06-05" (PostFulfill 2) scenario)) = true.
Proof.
  apply (no_storage_failure
           [ ("2025-06-01", PostDonors "Asha" "o+" "555-0101" "Pune");
             ("2025-06-01", PostRecipients "Ravi" " O+ " "555-0102" "City Hospital");
             ("2025-06-02", PostDonations 1 2 "2025-12-01");
             ("2025-06-03", PostRequests 1 2);
             ("2025-06-03", PostFulfill 1);
             ("2025-06-04", PostRequests 1 1) ]
           "2025-06-05" (PostFulfill 2)); vm_compute; reflexivity.
Defined.

(** ** What a post writes

    Every handler changes the store by at most two writes, one after the
    other, each of them one of the statements below: an [INSERT] at the end
    of a table with the next id, or an [UPDATE] of the rows of one id. *)

Inductive Write (today : string) (s : Store) : Store -> Prop :=
| wr_type label :
    lookupBloodType s label = None ->
    normalizeBloodType label = label -> label <> "" ->
    Write today s
      (setBloodTypes s
         (blood_types s ++ [mkBloodType (nextID (map bt_id (blood_types s))) label]))
| wr_donor name t phone city :
    validRef s t = true ->
    Write today s
      (setDonors s
         (donors s ++
          [mkDonor (nextID (map dn_id (donors s))) name t (Some phone) (Some city)
                   today None]))
| wr_donor_update id name t phone city :
    validRef s t = true ->
    Write today s (setDonors s (map (updateDonorRow id name t phone city) (donors s)))
| wr_donor_delete id :
    Write today s (setDonors s (map (deleteDonorRow today id) (donors s)))
| wr_recipient name t phone hospital :
    validRef s t = true ->
    Write today s
      (setRecipients s
         (recipients s ++
          [mkRecipient (nextID (map rc_id (recipients s))) name t (Some phone)
                       (Some hospital) today None]))
| wr_recipient_update id name t phone hospital :
    validRef s t = true ->
    Write today s
      (setRecipients s (map (updateRecipientRow id name t phone hospital) (recipients s)))
| wr_recipient_delete id :
    Write today s (setRecipients s (map (deleteRecipientRow today id) (recipients s)))
| wr_donation donorID units expiry t :
    getDonorBloodTypeID s donorID = Ok t -> 0 < units -> expiry <> "" ->
    Write today s
      (setDonations s
         (donations s ++
          [mkDonation (nextID (map da_id (donations s))) donorID units today expiry None]))
| wr_retire id :
    Write today s (setDonations s (map (retireRow today id) (donations s)))
| wr_credit t units :
    0 < units -> Write today s (snd (upsertInventoryByTypeID s t units))
| wr_debit t units s1 :
    consumeInventoryByTypeID s t units = (true, s1) -> Write today s s1
| wr_request recipientID units t :
    getRecipientBloodTypeID s recipientID = Ok t -> 0 < units ->
    Write today s
      (setRequests s
         (requests s ++
          [mkRequest (nextID (map rq_id (requests s))) recipientID units "Pending"
                     today None]))
| wr_fulfill id :
    Write today s (setRequests s (map (setStatusRow id "Fulfilled") (requests s)))
| wr_amend id units status old :
    activeRequest s id = Some old -> 0 < units -> status <> "" ->
    Write today s (setRequests s (map (amendRow id units status) (requests s)))
| wr_cancel id old :
    activeRequest s id = Some old -> rq_status old <> "Fulfilled" ->
    Write today s (setRequests s (map (cancelRow today id) (requests s))).

Inductive Writes (today : string) : Store -> Store -> Prop :=
| ws_done s : Writes today s s
| ws_then s s1 s2 : Write today s s1 -> Writes today s1 s2 -> Writes today s s2.

Lemma Writes_one today s s1 : Write today s s1 -> Writes today s s1.
Proof. intros H. apply (ws_then today s s1 s1 H), ws_done. Qed.

Lemma Writes_two today s s1 s2 :
  Writes today s s1 -> Write today s1 s2 -> Writes today s s2.
Proof.
  intros H. induction H as [s|s a b Hw Hws IH]; intros H2.
  - now apply Writes_one.
  - apply (ws_then today s a s2 Hw). now apply IH.
Qed.

Lemma getOrCreateBloodTypeID_Writes today s bloodType r s1 :
  getOrCreateBloodTypeID s bloodType = (r, s1) ->
  Writes today s s1 /\ forall t, r = Ok t -> validRef s1 t = true.
Proof.
  unfold getOrCreateBloodTypeID.
  destruct (Text.isEmpty (normalizeBloodType bloodType)) eqn:Hempty.
  { intros H; inversion H; subst. split; [apply ws_done|discriminate]. }
  destruct (lookupBloodType s _) as [id|] eqn:Hfind; intros H; inversion H; subst; clear H.
  - split; [apply ws_done|]. intros t E. inversion E; subst.
    apply lookupBloodType_some in Hfind as [b [Hb [_ Hid]]].
    apply validRef_in. now exists b.
  - split.
    + apply Writes_one, wr_type; [exact Hfind|apply normalizeBloodType_fixed|].
      now apply isEmpty_false.
    + intros t E. inversion E; subst. unfold validRef. simpl.
      rewrite existsb_app. simpl. now rewrite Z.eqb_refl, orb_true_r.
Qed.

(** Every handler is a sequence of such writes. *)
Lemma serve_Writes today p s : Writes today s (snd (serve today p s)).
Proof.
  destruct p; simpl.
  - unfold handleDonors. destruct (_ || _); [apply ws_done|].
    destruct (getOrCreateBloodTypeID s _) as [[t|e] s1] eqn:E;
      apply (getOrCreateBloodTypeID_Writes today) in E as [Hw Ht]; [|exact Hw].
    apply (Writes_two today s s1 _ Hw). apply wr_donor. now apply Ht.
  - unfold handleRecipients. destruct (_ || _); [apply ws_done|].
    destruct (getOrCreateBloodTypeID s _) as [[t|e] s1] eqn:E;
      apply (getOrCreateBloodTypeID_Writes today) in E as [Hw Ht]; [|exact Hw].
    apply (Writes_two today s s1 _ Hw). apply wr_recipient. now apply Ht.
  - unfold handleDonations.
    destruct ((donor_id =? 0) || (units <=? 0) || _) eqn:G; [apply ws_done|].
    apply orb_false_elim in G as [G Hexp]. apply orb_false_elim in G as [_ G].
    apply Z.leb_gt in G. apply isEmpty_false in Hexp.
    destruct (getDonorBloodTypeID s donor_id) as [t|e] eqn:D; [|apply ws_done].
    set (s1 := setDonations s _).
    assert (H1 : Writes today s s1) by (apply Writes_one; now apply (wr_donation today s _ _ _ t)).
    assert (H2 : Writes today s (snd (upsertInventoryByTypeID s1 t units)))
      by (apply (Writes_two today s s1 _ H1); now apply wr_credit).
    now destruct (upsertInventoryByTypeID s1 t units) as [[e|] s2].
  - unfold handleDonationsDelete. destruct (id =? 0); [apply ws_done|].
    destruct (donationJoin s _) as [|[t u] rest]; [apply ws_done|].
    destruct (consumeInventoryByTypeID s t u) as [[|] s1] eqn:E.
    + apply (ws_then today s s1); [now apply (wr_debit today s t u)|].
      apply Writes_one, wr_retire.
    + apply consumeInventoryByTypeID_false in E. subst. apply ws_done.
  - unfold handleRequests.
    destruct ((recipient_id =? 0) || (units <=? 0)) eqn:G; [apply ws_done|].
    apply orb_false_elim in G as [_ G]. apply Z.leb_gt in G.
    destruct (getRecipientBloodTypeID s recipient_id) as [t|e] eqn:R; [|apply ws_done].
    apply Writes_one. now apply (wr_request today s _ _ t).
  - unfold handleDonorsUpdate. destruct (_ || _); [apply ws_done|].
    destruct (getOrCreateBloodTypeID s _) as [[t|e] s1] eqn:E;
      apply (getOrCreateBloodTypeID_Writes today) in E as [Hw Ht]; [|exact Hw].
    apply (Writes_two today s s1 _ Hw). apply wr_donor_update. now apply Ht.
  - unfold handleDonorsDelete. destruct (id =? 0); [apply ws_done|].
    apply Writes_one, wr_donor_delete.
  - unfold handleRecipientsUpdate. destruct (_ || _); [apply ws_done|].
    destruct (getOrCreateBloodTypeID s _) as [[t|e] s1] eqn:E;
      apply (getOrCreateBloodTypeID_Writes today) in E as [Hw Ht]; [|exact Hw].
    apply (Writes_two today s s1 _ Hw). apply wr_recipient_update. now apply Ht.
  - unfold handleRecipientsDelete. destruct (id =? 0); [apply ws_done|].
    apply Writes_one, wr_recipient_delete.
  - unfold handleFulfill. destruct (id =? 0); [apply ws_done|].
    destruct (requestJoin s _) as [|[t u] rest]; [apply ws_done|].
    destruct (consumeInventoryByTypeID s t u) as [[|] s1] eqn:E.
    + apply (ws_then today s s1); [now apply (wr_debit today s t u)|].
      apply Writes_one, wr_fulfill.
    + apply consumeInventoryByTypeID_false in E. subst. apply ws_done.
  - unfold handleRequestsUpdate.
    destruct ((id =? 0) || (units <=? 0) || _) eqn:G; [apply ws_done|].
    apply orb_false_elim in G as [G Hst]. apply orb_false_elim in G as [_ G].
    apply Z.leb_gt in G. apply isEmpty_false in Hst.
    destruct (activeRequest s id) as [old|] eqn:Hold; [|apply ws_done].
    destruct (String.eqb (rq_status old) "Fulfilled" && _); [apply ws_done|].
    destruct (negb _ && _).
    + destruct (getRequestBloodTypeID s id) as [t|e]; [|apply ws_done].
      destruct (consumeInventoryByTypeID s t units) as [[|] s1] eqn:E.
      * pose proof (balanceOf_consume s t units s1 E) as [-> _].
        apply (ws_then today s _ _ (wr_debit today s t units _ E)).
        apply Writes_one. now apply (wr_amend today _ id units _ old).
      * apply consumeInventoryByTypeID_false in E. subst. apply ws_done.
    + apply Writes_one. now apply (wr_amend today s id units _ old).
  - unfold handleRequestsDelete. destruct (id =? 0); [apply ws_done|].
    destruct (activeRequest s id) as [old|] eqn:Hold; [|apply ws_done].
    destruct (String.eqb (rq_status old) "Fulfilled") eqn:Hst; [apply ws_done|].
    apply Writes_one. apply (wr_cancel today s id old Hold). now apply String.eqb_neq.
Qed.

(** ** The history of a row

    Rows are never removed and never move: after any posts, a table is the
    table it was, each row possibly updated, followed by the rows inserted
    since.  What an update can change in a row is limited, table by table. *)

Section Evolves.

Context {A : Type} (keep : A -> A -> Prop).

Definition evolves (l l' : list A) : Prop :=
  exists f extra, l' = map f l ++ extra /\ forall x, In x l -> keep x (f x).

Hypothesis keep_refl : forall x, keep x x.
Hypothesis keep_trans : forall x y z, keep x y -> keep y z -> keep x z.

Lemma evolves_refl l : evolves l l.
Proof.
  exists (fun x => x), []. split; [|intros x _; apply keep_refl].
  now rewrite map_id, app_nil_r.
Qed.

Lemma evolves_snoc l x : evolves l (l ++ [x]).
Proof.
  exists (fun x => x), [x]. split; [|intros y _; apply keep_refl]. now rewrite map_id.
Qed.

Lemma evolves_map l f : (forall x, keep x (f x)) -> evolves l (map f l).
Proof. intros H. exists f, []. split; [now rewrite app_nil_r|intros x _; apply H]. Qed.

Lemma evolves_trans l1 l2 l3 : evolves l1 l2 -> evolves l2 l3 -> evolves l1 l3.
Proof.
  intros [f [e [-> Hf]]] [g [e' [-> Hg]]].
  exists (fun x => g (f x)), (map g e ++ e'). split.
  - now rewrite map_app, map_map, app_assoc.
  - intros x Hx. apply (keep_trans _ (f x)); [now apply Hf|].
    apply Hg, in_or_app. left. now apply in_map.
Qed.

Lemma evolves_in l l' x :
  evolves l l' -> In x l -> exists y, In y l' /\ keep x y.
Proof.
  intros [f [e [-> Hf]]] Hx. exists (f x). split; [|now apply Hf].
  apply in_or_app. left. now apply in_map.
Qed.

Lemma evolves_keys {K} (key : A -> K) l l' :
  (forall x y, keep x y -> key y = key x) ->
  evolves l l' -> exists extra, map key l' = map key l ++ extra.
Proof.
  intros Hkey [f [e [-> Hf]]]. exists (map key e). rewrite map_app, map_map. f_equal.
  apply map_ext_in. intros x Hx. now apply Hkey, Hf.
Qed.

End Evolves.

(** A label of the registry never changes. *)
Definition keepType (x y : BloodTypeRow) : Prop := y = x.

(** A donor keeps its id and its date of creation, and stays deleted once
    deleted. *)
Definition keepDonor (x y : DonorRow) : Prop :=
  dn_id y = dn_id x /\ dn_created_at y = dn_created_at x /\
  (dn_deleted_at x <> None -> dn_deleted_at y <> None).

Definition keepRecipient (x y : RecipientRow) : Prop :=
  rc_id y = rc_id x /\ rc_created_at y = rc_created_at x /\
  (rc_deleted_at x <> None -> rc_deleted_at y <> None).

(** A donation keeps everything but its date of deletion, and stays deleted
    once deleted. *)
Definition keepDonation (x y : DonationRow) : Prop :=
  da_id y = da_id x /\ da_donor_id y = da_donor_id x /\ da_units y = da_units x /\
  da_donation_date y = da_donation_date x /\ da_expiry_date y = da_expiry_date x /\
  (da_deleted_at x <> None -> da_deleted_at y <> None).

(** An inventory row keeps its id and its blood type. *)
Definition keepInventory (x y : InventoryRow) : Prop :=
  iv_id y = iv_id x /\ iv_blood_type_id y = iv_blood_type_id x.

(** A request keeps its id, its recipient and its date, and stays deleted
    once deleted. *)
Definition keepRequest (x y : RequestRow) : Prop :=
  rq_id y = rq_id x /\ rq_recipient_id y = rq_recipient_id x /\
  rq_request_date y = rq_request_date x /\
  (rq_deleted_at x <> None -> rq_deleted_at y <> None).

Record History (s s' : Store) : Prop := mkHistory {
  hs_blood_types : evolves keepType (blood_types s) (blood_types s');
  hs_donors : evolves keepDonor (donors s) (donors s');
  hs_recipients : evolves keepRecipient (recipients s) (recipients s');
  hs_donations : evolves keepDonation (donations s) (donations s');
  hs_inventory : evolves keepInventory (inventory s) (inventory s');
  hs_requests : evolves keepRequest (requests s) (requests s')
}.

Ltac keep_refl :=
  intros ?x; unfold keepType, keepDonor, keepRecipient, keepDonation, keepInventory,
    keepRequest; repeat split; auto.

Ltac keep_trans :=
  unfold keepType, keepDonor, keepRecipient, keepDonation, keepInventory, keepRequest;
  intros ?x ?y ?z ?H ?H; intuition congruence.

Lemma History_refl s : History s s.
Proof. constructor; apply evolves_refl; keep_refl. Qed.

Lemma History_trans s1 s2 s3 : History s1 s2 -> History s2 s3 -> History s1 s3.
Proof.
  intros [] []. constructor; eapply evolves_trans; try eassumption; keep_trans.
Qed.

Ltac unchanged := apply evolves_refl; keep_refl.

Ltac updated :=
  apply evolves_map; intros ?x;
  unfold keepDonor, keepRecipient, keepDonation, keepInventory, keepRequest,
    updateDonorRow, deleteDonorRow, updateRecipientRow, deleteRecipientRow, retireRow,
    creditRow, debitRow, setStatusRow, amendRow, cancelRow;
  match goal with |- context [if ?c then _ else _] => destruct c end;
  simpl; repeat split; auto; discriminate.

Lemma Write_History today s s' : Write today s s' -> History s s'.
Proof.
  intros W.
  destruct W as [label| | | | | | | | | t units _ | t units s1 E | | | |].
  10: { unfold upsertInventoryByTypeID.
        destruct (rowsAffected s t); [destruct (validRef s t)|]; simpl;
          try apply History_refl;
          constructor; simpl; try unchanged; [apply evolves_snoc; keep_refl|updated]. }
  10: { apply balanceOf_consume in E as [-> _].
        constructor; simpl; try unchanged. updated. }
  all: constructor; simpl; try unchanged;
    first [ apply evolves_snoc; keep_refl | updated ].
Qed.

Lemma serve_History today p s : History s (snd (serve today p s)).
Proof.
  induction (serve_Writes today p s) as [s|s s1 s2 W _ IH]; [apply History_refl|].
  apply (History_trans s s1 s2); [now apply (Write_History today)|exact IH].
Qed.

Lemma run_History posts s : History s (run posts s).
Proof.
  revert s. induction posts as [|[today p] posts IH]; simpl; intros s;
    [apply History_refl|].
  apply (History_trans s (snd (serve today p s))); [apply serve_History|apply IH].
Qed.

(** X7: no post removes, moves or renumbers a row.  After any posts, from
    any store, each table starts with the rows it had, in their order, with
    these columns as they were: a blood type whole; a donor and a recipient
    with id and date of creation; a donation with id, donor, units and both
    dates; an inventory row with id and blood type; a request with id,
    recipient and date. *)
Theorem rows_never_removed (posts : list (string * Post)) (s : Store) :
  (exists extra, blood_types (run posts s) = blood_types s ++ extra) /\
  (exists extra,
     map (fun n => (dn_id n, dn_created_at n)) (donors (run posts s)) =
     map (fun n => (dn_id n, dn_created_at n)) (donors s) ++ extra) /\
  (exists extra,
     map (fun c => (rc_id c, rc_created_at c)) (recipients (run posts s)) =
     map (fun c => (rc_id c, rc_created_at c)) (recipients s) ++ extra) /\
  (exists extra,
     map (fun d => (da_id d, da_donor_id d, da_units d, da_donation_date d,
                    da_expiry_date d)) (donations (run posts s)) =
     map (fun d => (da_id d, da_donor_id d, da_units d, da_donation_date d,
                    da_expiry_date d)) (donations s) ++ extra) /\
  (exists extra,
     map (fun i => (iv_id i, iv_blood_type_id i)) (inventory (run posts s)) =
     map (fun i => (iv_id i, iv_blood_type_id i)) (inventory s) ++ extra) /\
  (exists extra,
     map (fun r => (rq_id r, rq_recipient_id r, rq_request_date r))
         (requests (run posts s)) =
     map (fun r => (rq_id r, rq_recipient_id r, rq_request_date r)) (requests s)
     ++ extra).
Proof.
  destruct (run_History posts s) as [Hb Hdn Hrc Hda Hiv Hrq].
  split; [|repeat split].
  - destruct Hb as [f [extra [-> Hf]]]. exists extra. f_equal.
    rewrite <- (map_id (blood_types s)) at 2. apply map_ext_in. exact Hf.
  - apply (evolves_keys keepDonor); [|exact Hdn].
    intros x y [H1 [H2 _]]. congruence.
  - apply (evolves_keys keepRecipient); [|exact Hrc].
    intros x y [H1 [H2 _]]. congruence.
  - apply (evolves_keys keepDonation); [|exact Hda].
    intros x y [H1 [H2 [H3 [H4 [H5 _]]]]]. congruence.
  - apply (evolves_keys keepInventory); [|exact Hiv].
    intros x y [H1 H2]. congruence.
  - apply (evolves_keys keepRequest); [|exact Hrq].
    intros x y [H1 [H2 [H3 _]]]. congruence.
Qed.

(** ** Soft deletion is final *)

Lemma deleted_stays {A} (keep : A -> A -> Prop) (key : A -> Z) (del : A -> option string)
  (l l' : list A) (x : A) :
  (forall x y, keep x y -> key y = key x /\ (del x <> None -> del y <> None)) ->
  NoDup (map key l') -> evolves keep l l' ->
  In x l -> del x <> None ->
  forall y, In y l' -> (key y =? key x) && isNull (del y) = false.
Proof.
  intros Hkeep Hnd Hev Hx Hdel y Hy.
  destruct (key y =? key x) eqn:E; [|reflexivity]. apply Z.eqb_eq in E. simpl.
  destruct (evolves_in keep l l' x Hev Hx) as [z [Hz Hxz]].
  apply Hkeep in Hxz as [Hkey Hstay].
  assert (y = z) as -> by (apply (keyed_row_unique key l'); congruence).
  specialize (Hstay Hdel). now destruct (del z).
Qed.

Lemma flat_map_none {A B} (keep : A -> bool) (g : A -> list B) (l : list A) :
  (forall x, In x l -> keep x = false) ->
  flat_map (fun x => if keep x then g x else []) l = [].
Proof.
  induction l as [|x l IH]; simpl; intros H; [reflexivity|].
  rewrite (H x) by now left. apply IH. intros y Hy. apply H. now right.
Qed.

(** X8: a soft deletion is final.  From a store with distinct keys, after
    any posts: a deleted donor is not found any more, and a donation in
    their name is refused; a deleted recipient is not found, and a request
    in their name is refused; a retired donation cannot be retired again (so
    it is debited once); a cancelled request is not active, and can be
    neither amended nor cancelled.  Each refusal leaves the store as it is. *)
Theorem soft_delete_permanent (posts : list (string * Post)) (s : Store) :
  wellKeyed s ->
  (forall n, In n (donors s) -> dn_deleted_at n <> None ->
     getDonorBloodTypeID (run posts s) (dn_id n) = Err ErrNoRows /\
     forall today units expiry,
       fst (handleDonations today (dn_id n) units expiry (run posts s)) <> Redirect /\
       snd (handleDonations today (dn_id n) units expiry (run posts s)) = run posts s) /\
  (forall c, In c (recipients s) -> rc_deleted_at c <> None ->
     getRecipientBloodTypeID (run posts s) (rc_id c) = Err ErrNoRows /\
     forall today units,
       fst (handleRequests today (rc_id c) units (run posts s)) <> Redirect /\
       snd (handleRequests today (rc_id c) units (run posts s)) = run posts s) /\
  (forall d, In d (donations s) -> da_deleted_at d <> None ->
     forall today,
       snd (handleDonationsDelete today (da_id d) (run posts s)) = run posts s) /\
  (forall r, In r (requests s) -> rq_deleted_at r <> None ->
     activeRequest (run posts s) (rq_id r) = None /\
     forall today units status,
       snd (handleRequestsUpdate (rq_id r) units status (run posts s)) = run posts s /\
       snd (handleRequestsDelete today (rq_id r) (run posts s)) = run posts s).
Proof.
  intros W. pose proof (run_wellKeyed posts s W) as W'.
  destruct (run_History posts s) as [_ Hdn Hrc Hda _ Hrq].
  set (s' := run posts s) in *.
  split; [|split; [|split]].
  - intros n Hn Hdel.
    assert (E : getDonorBloodTypeID s' (dn_id n) = Err ErrNoRows).
    { unfold getDonorBloodTypeID.
      rewrite (proj2 (find_none_iff _ (donors s'))); [reflexivity|].
      apply (deleted_stays keepDonor dn_id dn_deleted_at (donors s)); try assumption;
        [|apply W'].
      intros x y [H1 [_ H2]]. now split. }
    split; [exact E|]. intros today units expiry. unfold handleDonations.
    destruct (_ || _); [split; [discriminate|reflexivity]|].
    rewrite E. split; [discriminate|reflexivity].
  - intros c Hc Hdel.
    assert (E : getRecipientBloodTypeID s' (rc_id c) = Err ErrNoRows).
    { unfold getRecipientBloodTypeID.
      rewrite (proj2 (find_none_iff _ (recipients s'))); [reflexivity|].
      apply (deleted_stays keepRecipient rc_id rc_deleted_at (recipients s));
        try assumption; [|apply W'].
      intros x y [H1 [_ H2]]. now split. }
    split; [exact E|]. intros today units. unfold handleRequests.
    destruct (_ || _); [split; [discriminate|reflexivity]|].
    rewrite E. split; [discriminate|reflexivity].
  - intros d Hd Hdel today. unfold handleDonationsDelete.
    destruct (da_id d =? 0); [reflexivity|].
    unfold donationJoin. rewrite flat_map_none; [reflexivity|].
    apply (deleted_stays keepDonation da_id da_deleted_at (donations s));
      try assumption; [|apply W'].
    intros x y [H1 [_ [_ [_ [_ H2]]]]]. now split.
  - intros r Hr Hdel.
    assert (E : activeRequest s' (rq_id r) = None).
    { unfold activeRequest. apply find_none_iff.
      apply (deleted_stays keepRequest rq_id rq_deleted_at (requests s));
        try assumption; [|apply W'].
      intros x y [H1 [_ [_ H2]]]. now split. }
    split; [exact E|]. intros today units status. split.
    + unfold handleRequestsUpdate. destruct (_ || _); [reflexivity|]. now rewrite E.
    + unfold handleRequestsDelete. destruct (rq_id r =? 0); [reflexivity|]. now rewrite E.
Qed.

(** A donor registered and deleted, a request made and cancelled. *)
Definition deletedRows : Store :=
  run [ ("2025-06-01", PostDonors "Asha" "O+" "555-0101" "Pune");
        ("2025-06-01", PostRecipients "Ravi" "O+" "555-0102" "City Hospital");
        ("2025-06-02", PostRequests 1 2);
        ("2025-06-03", PostRequestsDelete 1);
        ("2025-06-04", PostDonorsDelete 1) ]
      emptyStore.

Lemma soft_delete_permanent_witness :
  getDonorBloodTypeID
    (run [ ("2025-06-05", PostDonorsUpdate 1 "Asha" "A+" "555-0101" "Pune");
           ("2025-06-05", PostRequestsUpdate 1 2 "Pending") ] deletedRows) 1
  = Err ErrNoRows.
Proof.
  apply (proj1 (soft_delete_permanent
                  [ ("2025-06-05", PostDonorsUpdate 1 "Asha" "A+" "555-0101" "Pune");
                    ("2025-06-05", PostRequestsUpdate 1 2 "Pending") ] deletedRows
                  ltac:(constructor; vm_compute; distinct_keys))
               (mkDonor 1 "Asha" 1 (Some "555-0101") (Some "Pune") "2025-06-01"
                        (Some "2025-06-04"))).
  - vm_compute. left. reflexivity.
  - discriminate.
Defined.

(** ** A donation recorded, then retired *)

Lemma emptyStore_soundInventory : soundInventory emptyStore.
Proof. split; [constructor|intros i []]. Qed.

Lemma run_soundInventory posts s : soundInventory s -> soundInventory (run posts s).
Proof.
  revert s. induction posts as [|[today p] posts IH]; simpl; intros s Hs; [exact Hs|].
  apply IH. now apply serve_soundInventory.
Qed.

Lemma balanceOf_nonnegative s ref : soundInventory s -> 0 <= balanceOf s ref.
Proof.
  intros [_ Hs]. unfold balanceOf, activeBalance.
  destruct (find _ (inventory s)) as [i|] eqn:F; simpl; [|lia].
  apply find_some in F as [Hi _]. now apply Hs.
Qed.

(** X9: recording a donation credits the blood type of its donor with its
    units, and retiring that donation afterwards succeeds and gives every
    balance the value it had before the donation: on any store a session in
    range reaches from the empty store, for a donation in range (an ASCII
    expiry date, 64-bit numbers, a balance that stays within 64 bits). *)
Theorem donation_round_trip (posts : list (string * Post)) (today later : string)
  (donorID units : Z) (expiry : string) :
  inRange posts emptyStore = true ->
  inRange [(today, PostDonations donorID units expiry)] (run posts emptyStore) = true ->
  fst (handleDonations today donorID units expiry (run posts emptyStore)) = Redirect ->
  let s := run posts emptyStore in
  let recorded := snd (handleDonations today donorID units expiry s) in
  let retired :=
    handleDonationsDelete later (nextID (map da_id (donations s))) recorded in
  (exists t,
     getDonorBloodTypeID s donorID = Ok t /\
     forall ref, balanceOf recorded ref = balanceOf s ref + (if ref =? t then units else 0)) /\
  fst retired = Redirect /\
  (forall ref, balanceOf (snd retired) ref = balanceOf s ref).
Proof.
  intros _ _ Hok s.
  pose proof (run_Registered posts emptyStore emptyStore_Registered) as Hreg.
  pose proof (run_wellKeyed posts emptyStore emptyStore_wellKeyed) as Hkeys.
  pose proof (run_soundInventory posts emptyStore emptyStore_soundInventory) as Hsound.
  fold s in Hok, Hreg, Hkeys, Hsound.
  unfold handleDonations in *.
  destruct ((donorID =? 0) || (units <=? 0) || _) eqn:G; [discriminate|].
  destruct (getDonorBloodTypeID s donorID) as [t|e] eqn:D; [|discriminate].
  destruct (getDonorBloodTypeID_in s donorID t D) as [n [Hn [Hid [_ [Ht _]]]]].
  set (row := mkDonation (nextID (map da_id (donations s))) donorID units today
                         (Text.TrimSpace expiry) None) in *.
  set (s1 := setDonations s (donations s ++ [row])) in *.
  assert (Hvalid : validRef s1 t = true).
  { rewrite <- Ht. now apply (rg_donors s Hreg). }
  assert (Hactive : forall i, In i (inventory s1) -> iv_deleted_at i = None).
  { intros i Hi. now apply (proj2 Hsound). }
  destruct (balanceOf_upsert s1 t units Hactive Hvalid) as [s2 [Hrun [Hframe [Hact2 Hbal]]]].
  rewrite Hrun in *. cbn [fst snd].
  assert (Hjoin : donationJoin s2
            (fun d => (da_id d =? nextID (map da_id (donations s))) && isNull (da_deleted_at d))
          = [(t, units)]).
  { rewrite Hframe. unfold donationJoin. simpl. rewrite flat_map_app, flat_map_none.
    - simpl. rewrite Z.eqb_refl. simpl. rewrite app_nil_r.
      rewrite <- Hid, (filter_key dn_id (donors s) n (wk_donors s Hkeys) Hn).
      simpl. now rewrite Ht.
    - intros d Hd. apply andb_false_iff. left. apply Z.eqb_neq. intros E.
      apply (nextID_fresh (map da_id (donations s))). rewrite <- E. now apply in_map. }
  assert (Hnonneg : 0 <= balanceOf s1 t) by (now apply balanceOf_nonnegative).
  assert (Hstock : exists c, activeBalance s2 t = Some c /\ units <= c).
  { destruct (upsertInventoryByTypeID_effect s1 t units Hvalid)
      as [s2' [Hrun' [Hstored [Hsame _]]]].
    assert (s2' = s2) as -> by congruence.
    rewrite Hsame, Hstored. eexists. split; [reflexivity|].
    rewrite (storedUnits_active s1 t Hactive).
    unfold balanceOf in Hnonneg. destruct (activeBalance s1 t); lia. }
  destruct Hstock as [c [Hc Hle]].
  split; [|split].
  - exists t. split; [reflexivity|]. exact Hbal.
  - unfold handleDonationsDelete.
    assert ((nextID (map da_id (donations s)) =? 0) = false) as ->.
    { apply Z.eqb_neq. pose proof (nextID_above_zero (map da_id (donations s))). lia. }
    rewrite Hjoin. unfold consumeInventoryByTypeID. rewrite Hc.
    apply Z.ltb_ge in Hle. now rewrite Hle.
  - intros ref. unfold handleDonationsDelete.
    assert ((nextID (map da_id (donations s)) =? 0) = false) as ->.
    { apply Z.eqb_neq. pose proof (nextID_above_zero (map da_id (donations s))). lia. }
    rewrite Hjoin.
    destruct (consumeInventoryByTypeID s2 t units) as [[|] s3] eqn:E.
    + apply balanceOf_consume in E as [-> [_ E]]. cbn [snd].
      match goal with
      | |- balanceOf (setDonations ?x ?l) ref = _ =>
          change (balanceOf (setDonations x l) ref) with (balanceOf x ref)
      end.
      rewrite E, Hbal. change (balanceOf s1 ref) with (balanceOf s ref).
      destruct (ref =? t); lia.
    + exfalso. unfold consumeInventoryByTypeID in E. rewrite Hc in E.
      apply Z.ltb_ge in Hle. rewrite Hle in E. discriminate.
Qed.

Lemma donation_round_trip_witness :
  fst (handleDonationsDelete "2025-06-04" 2
         (snd (handleDonations "2025-06-03" 1 4 "2025-12-01" usedDonation))) = Redirect.
Proof.
  apply (donation_round_trip
           [ ("2025-06-01", PostDonors "Asha" "O+" "555-0101" "Pune");
             ("2025-06-01", PostRecipients "Ravi" "O+" "555-0102" "City Hospital");
             ("2025-06-02", PostDonations 1 3 "2025-12-01");
             ("2025-06-03", PostRequests 1 2);
             ("2025-06-03", PostFulfill 1) ]
           "2025-06-03" "2025-06-04" 1 4 "2025-12-01"); vm_compute; reflexivity.
Defined.

(** ** Fulfilling a request *)

Lemma requestJoin_found s id r c :
  NoDup (map rq_id (requests s)) -> NoDup (map rc_id (recipients s)) ->
  In r (requests s) -> rq_id r = id ->
  In c (recipients s) -> rc_id c = rq_recipient_id r ->
  requestJoin s (fun r => rq_id r =? id) = [(rc_blood_type_id c, rq_units r)].
Proof.
  intros Hrq Hrc Hr Hid Hc Hkey. unfold requestJoin.
  rewrite (flat_map_key rq_id _ _ (requests s) r Hrq Hr).
  - rewrite <- Hkey. now rewrite (filter_key rc_id (recipients s) c Hrc Hc).
  - now apply Z.eqb_eq.
  - intros y Hy. apply Z.eqb_eq in Hy. congruence.
Qed.

(** X10: the fulfil handler, when the stock suffices.  For a request and its
    recipient, on a store with distinct ids, whatever the status of the
    request: if the balance of the recipient's blood type covers the units,
    the answer is the redirect, the balance is lowered by the units, the
    request is the row it was with status Fulfilled, and no other balance,
    no other request and no other table changes. *)
Theorem handleFulfill_spec (id : Z) (s : Store) (r : RequestRow) (c : RecipientRow)
  (current : Z) :
  id <> 0 ->
  NoDup (map rq_id (requests s)) -> NoDup (map rc_id (recipients s)) ->
  In r (requests s) -> rq_id r = id ->
  In c (recipients s) -> rc_id c = rq_recipient_id r ->
  activeBalance s (rc_blood_type_id c) = Some current -> rq_units r <= current ->
  fst (handleFulfill id s) = Redirect /\
  rowOf (snd (handleFulfill id s)) id =
    Some (mkRequest id (rq_recipient_id r) (rq_units r) "Fulfilled"
                    (rq_request_date r) (rq_deleted_at r)) /\
  (forall other, other <> id ->
     rowOf (snd (handleFulfill id s)) other = rowOf s other) /\
  activeBalance (snd (handleFulfill id s)) (rc_blood_type_id c) =
    Some (current - rq_units r) /\
  (forall ref, ref <> rc_blood_type_id c ->
     activeBalance (snd (handleFulfill id s)) ref = activeBalance s ref) /\
  blood_types (snd (handleFulfill id s)) = blood_types s /\
  donors (snd (handleFulfill id s)) = donors s /\
  recipients (snd (handleFulfill id s)) = recipients s /\
  donations (snd (handleFulfill id s)) = donations s.
Proof.
  intros Hid Hrq Hrc Hr Hrid Hc Hkey Hbal Hle.
  assert (Hrow : rowOf s id = Some r).
  { apply (find_key rq_id); [exact Hrq|exact Hr|now apply Z.eqb_eq|].
    intros y Hy. apply Z.eqb_eq in Hy. congruence. }
  unfold handleFulfill. apply Z.eqb_neq in Hid. rewrite Hid.
  rewrite (requestJoin_found s id r c Hrq Hrc Hr Hrid Hc Hkey).
  unfold consumeInventoryByTypeID. rewrite Hbal.
  apply Z.ltb_ge in Hle. rewrite Hle. cbn [fst snd].
  split; [reflexivity|]. split; [|split; [|split; [|split]]].
  - unfold rowOf at 1. simpl requests.
    rewrite (rowOf_update s id _ (setStatusRow_id id "Fulfilled")), Hrow. simpl.
    unfold setStatusRow. now rewrite Hrid, Z.eqb_refl.
  - intros other Hother.
    unfold rowOf at 1. simpl requests.
    rewrite (rowOf_update s other _ (setStatusRow_id id "Fulfilled")).
    destruct (rowOf s other) as [x|] eqn:Hx; [|reflexivity]. simpl.
    apply rowOf_in in Hx as [_ Hx]. unfold setStatusRow.
    assert ((rq_id x =? id) = false) as -> by (apply Z.eqb_neq; congruence).
    reflexivity.
  - match goal with
    | |- activeBalance (setRequests ?x ?l) ?t = _ =>
        change (activeBalance (setRequests x l) t) with (activeBalance x t)
    end.
    now rewrite activeBalance_debit, Hbal, Z.eqb_refl.
  - intros ref Href.
    match goal with
    | |- activeBalance (setRequests ?x ?l) ?t = _ =>
        change (activeBalance (setRequests x l) t) with (activeBalance x t)
    end.
    rewrite activeBalance_debit.
    assert ((ref =? rc_blood_type_id c) = false) as -> by (now apply Z.eqb_neq).
    now destruct (activeBalance s ref).
  - repeat split; reflexivity.
Qed.

(** Three units of O+ in stock and a pending request of two. *)
Definition pendingRequest : Store :=
  run [ ("2025-06-01", PostDonors "Asha" "O+" "555-0101" "Pune");
        ("2025-06-01", PostRecipients "Ravi" "O+" "555-0102" "City Hospital");
        ("2025-06-02", PostDonations 1 3 "2025-12-01");
        ("2025-06-03", PostRequests 1 2) ]
      emptyStore.

Lemma handleFulfill_spec_witness :
  fst (handleFulfill 1 pendingRequest) = Redirect.
Proof.
  apply (handleFulfill_spec 1 pendingRequest
           (mkRequest 1 1 2 "Pending" "2025-06-03" None)
           (mkRecipient 1 "Ravi" 1 (Some "555-0102") (Some "City Hospital")
                        "2025-06-01" None) 3).
  - lia.
  - vm_compute. distinct_keys.
  - vm_compute. distinct_keys.
  - vm_compute. left. reflexivity.
  - reflexivity.
  - vm_compute. left. reflexivity.
  - reflexivity.
  - reflexivity.
  - simpl. lia.
Defined.

(** ** The tables a post may write *)

Inductive Table :=
| TBloodTypes
| TDonors
| TRecipients
| TDonations
| TInventory
| TRequests.

(** The tables the handler of a post has a statement for. *)
Definition mayWrite (p : Post) (t : Table) : bool :=
  match p, t with
  | PostDonors _ _ _ _, (TBloodTypes | TDonors) => true
  | PostRecipients _ _ _ _, (TBloodTypes | TRecipients) => true
  | PostDonations _ _ _, (TDonations | TInventory) => true
  | PostDonationsDelete _, (TDonations | TInventory) => true
  | PostRequests _ _, TRequests => true
  | PostDonorsUpdate _ _ _ _ _, (TBloodTypes | TDonors) => true
  | PostDonorsDelete _, TDonors => true
  | PostRecipientsUpdate _ _ _ _ _, (TBloodTypes | TRecipients) => true
  | PostRecipientsDelete _, TRecipients => true
  | PostFulfill _, (TInventory | TRequests) => true
  | PostRequestsUpdate _ _ _, TRequests => true
  | PostRequestsUpdate _ _ status, TInventory =>
      String.eqb (Text.TrimSpace status) "Fulfilled"
  | PostRequestsDelete _, TRequests => true
  | _, _ => false
  end.

Definition sameTable (t : Table) (s s' : Store) : Prop :=
  match t with
  | TBloodTypes => blood_types s' = blood_types s
  | TDonors => donors s' = donors s
  | TRecipients => recipients s' = recipients s
  | TDonations => donations s' = donations s
  | TInventory => inventory s' = inventory s
  | TRequests => requests s' = requests s
  end.

Lemma getOrCreateBloodTypeID_frame s bloodType :
  snd (getOrCreateBloodTypeID s bloodType) =
  setBloodTypes s (blood_types (snd (getOrCreateBloodTypeID s bloodType))).
Proof.
  unfold getOrCreateBloodTypeID.
  destruct (Text.isEmpty _); [now destruct s|].
  destruct (lookupBloodType s _); simpl; now destruct s.
Qed.

Ltac registry_frames :=
  repeat match goal with
    | |- context [match getOrCreateBloodTypeID ?s ?b with _ => _ end] =>
        let F := fresh "F" in
        pose proof (getOrCreateBloodTypeID_frame s b) as F;
        destruct (getOrCreateBloodTypeID s b) as [[?|?] ?]; simpl in F; rewrite F
    end.

(** X11: a post writes only the tables its handler has a statement for.
    Registering or updating a donor or a recipient may add a blood type and
    writes its own table; recording or retiring a donation writes the
    donations and the inventory; fulfilling writes the inventory and the
    requests; amending writes the requests, and the inventory only when the
    form says Fulfilled; the deletions and the new request write their own
    table.  Every other table is left as it is.  The form is ASCII, so that
    the status [mayWrite] trims is the status the handler sees. *)
Theorem serve_frame (today : string) (p : Post) (s : Store) (t : Table) :
  asciiPost p = true ->
  mayWrite p t = false -> sameTable t s (snd (serve today p s)).
Proof.
  intros _.
  destruct p, t; simpl; try discriminate; intros Hw;
    cbv beta delta [handleDonors handleRecipients handleDonations
      handleDonationsDelete handleRequests handleDonorsUpdate handleDonorsDelete
      handleRecipientsUpdate handleRecipientsDelete handleFulfill
      handleRequestsUpdate handleRequestsDelete] zeta;
    try rewrite Hw;
    repeat match goal with
      | |- context [_ && false] => rewrite andb_false_r
      | |- context [if ?c then _ else _] => destruct c
      | |- context [match getDonorBloodTypeID ?s ?b with _ => _ end] =>
          destruct (getDonorBloodTypeID s b)
      | |- context [match getRecipientBloodTypeID ?s ?b with _ => _ end] =>
          destruct (getRecipientBloodTypeID s b)
      | |- context [match getRequestBloodTypeID ?s ?b with _ => _ end] =>
          destruct (getRequestBloodTypeID s b)
      | |- context [match activeRequest ?s ?b with _ => _ end] =>
          destruct (activeRequest s b)
      | |- context [match donationJoin ?s ?b with _ => _ end] =>
          destruct (donationJoin s b) as [|[? ?] ?]
      | |- context [match requestJoin ?s ?b with _ => _ end] =>
          destruct (requestJoin s b) as [|[? ?] ?]
      | _ => progress registry_frames
      | _ => progress ledger_frames
      end;
    reflexivity.
Qed.

Lemma serve_frame_witness :
  donations (snd (serve "2025-06-05" (PostFulfill 1) pendingRequest)) =
  donations pendingRequest.
Proof.
  apply (serve_frame "2025-06-05" (PostFulfill 1) pendingRequest TDonations);
    reflexivity.
Defined.

(** ** The invariants of a session *)

(** X12: the handlers never break a key.  On every store a session reaches
    from the empty store the ids of each table are pairwise distinct, and
    the inventory has at most one row for a blood type: the [PRIMARY KEY]
    and [UNIQUE] constraints of the schema cannot fail. *)
Theorem session_keys (posts : list (string * Post)) :
  wellKeyed (run posts emptyStore) /\
  forall t : Z,
    (List.length (filter (fun i => (iv_blood_type_id i =? t)%Z)
                         (inventory (run posts emptyStore))) <= 1)%nat.
Proof.
  pose proof (run_wellKeyed posts emptyStore emptyStore_wellKeyed) as W.
  split; [exact W|]. intros t.
  destruct (find (fun i => iv_blood_type_id i =? t) (inventory (run posts emptyStore)))
    as [i|] eqn:F.
  - apply find_some in F as [Hi F]. apply Z.eqb_eq in F. subst t.
    now rewrite (filter_key iv_blood_type_id _ i (wk_inventory_ref _ W) Hi).
  - apply rowsAffected_zero in F. unfold rowsAffected in F. lia.
Qed.

(** The posts of a session keep the ledger: none rewrites the blood type of
    a donor or of a recipient, none fulfils a request that is Fulfilled. *)
Fixpoint guarded (posts : list (string * Post)) (s : Store) : Prop :=
  match posts with
  | [] => True
  | (today, p) :: rest => keepsLedger s p /\ guarded rest (snd (serve today p s))
  end.

Lemma run_Consistent posts s : Consistent s -> guarded posts s -> Consistent (run posts s).
Proof.
  revert s. induction posts as [|[today p] posts IH]; simpl; intros s Hs Hg; [exact Hs|].
  destruct Hg as [Hp Hg]. apply IH; [|exact Hg]. now apply serve_Consistent.
Qed.

(** X13: the invariant of the ledger holds after every session in range
    (ASCII forms, 64-bit numbers, no count of the inventory past 64 bits)
    from the empty store in which no post rewrites a blood type and no
    fulfil is aimed at a request that is Fulfilled already: each balance is
    the units of the active donations minus the units of the Fulfilled
    requests of its blood type, and is not negative. *)
Theorem guarded_ledgerInvariant (posts : list (string * Post)) :
  inRange posts emptyStore = true ->
  guarded posts emptyStore -> ledgerInvariant (run posts emptyStore).
Proof.
  intros _ Hg.
  pose proof (run_Consistent posts emptyStore emptyStore_Consistent Hg) as Hs.
  intros ref. split; [apply (cs_balance _ Hs)|apply (cs_nonneg _ Hs)].
Qed.

Lemma guarded_ledgerInvariant_witness : ledgerInvariant scenario.
Proof.
  apply (guarded_ledgerInvariant
           [ ("2025-06-01", PostDonors "Asha" "o+" "555-0101" "Pune");
             ("2025-06-01", PostRecipients "Ravi" " O+ " "555-0102" "City Hospital");
             ("2025-06-02", PostDonations 1 2 "2025-12-01");
             ("2025-06-03", PostRequests 1 2);
             ("2025-06-03", PostFulfill 1);
             ("2025-06-04", PostRequests 1 1) ]); [vm_compute; reflexivity|].
  vm_compute. repeat split. discriminate.
Defined.

Lemma inRange_fits posts s :
  fits s = true -> inRange posts s = true -> fits (run posts s) = true.
Proof.
  revert s. induction posts as [|[today p] posts IH]; simpl; intros s Hs H; [exact Hs|].
  apply andb_prop in H as [H Hrest]. apply andb_prop in H as [_ H].
  now apply IH.
Qed.

(** X14: on every store a session in range (ASCII forms, 64-bit numbers, no
    count of the inventory past 64 bits) reaches from the empty store the
    inventory is sound: one row per blood type at most, no row soft-deleted
    (no handler deletes an inventory row), no row with negative units, each
    count an integer of 64 bits; so no balance is negative. *)
Theorem session_inventory (posts : list (string * Post)) :
  inRange posts emptyStore = true ->
  fits (run posts emptyStore) = true /\
  NoDup (map iv_blood_type_id (inventory (run posts emptyStore))) /\
  (forall i, In i (inventory (run posts emptyStore)) ->
     iv_deleted_at i = None /\ 0 <= iv_units i) /\
  (forall ref, 0 <= balanceOf (run posts emptyStore) ref /\
               activeBalance (run posts emptyStore) ref =
               storedUnits (run posts emptyStore) ref).
Proof.
  intros Hrange. split; [now apply inRange_fits|].
  pose proof (run_soundInventory posts emptyStore emptyStore_soundInventory) as Hs.
  destruct Hs as [Hnd Hrows]. split; [exact Hnd|]. split; [exact Hrows|].
  intros ref. split; [now apply balanceOf_nonnegative|].
  symmetry. apply storedUnits_active. intros i Hi. now apply Hrows.
Qed.

Lemma session_inventory_witness :
  iv_deleted_at (mkInventory 1 1 0 None) = None /\ 0 <= iv_units (mkInventory 1 1 0 None).
Proof.
  apply (proj1 (proj2 (proj2 (session_inventory
           [ ("2025-06-01", PostDonors "Asha" "o+" "555-0101" "Pune");
             ("2025-06-01", PostRecipients "Ravi" " O+ " "555-0102" "City Hospital");
             ("2025-06-02", PostDonations 1 2 "2025-12-01");
             ("2025-06-03", PostRequests 1 2);
             ("2025-06-03", PostFulfill 1);
             ("2025-06-04", PostRequests 1 1) ]
           ltac:(vm_compute; reflexivity))))).
  vm_compute. left. reflexivity.
Defined.

(** ** The page *)

(** Each row is in order with the next: what [ORDER BY] guarantees. *)
Fixpoint sortedBy {A} (le : A -> A -> bool) (l : list A) : bool :=
  match l with
  | [] => true
  | x :: rest =>
      match rest with
      | [] => true
      | y :: _ => le x y && sortedBy le rest
      end
  end.

Lemma insertBy_in {A} (le : A -> A -> bool) x l y :
  In y (insertBy le x l) <-> y = x \/ In y l.
Proof.
  induction l as [|z l IH]; simpl; [intuition congruence|].
  destruct (le x z); simpl; [intuition congruence|]. rewrite IH. intuition congruence.
Qed.

Lemma orderBy_in {A} (le : A -> A -> bool) l y : In y (orderBy le l) <-> In y l.
Proof.
  unfold orderBy. induction l as [|x l IH]; simpl; [reflexivity|].
  rewrite insertBy_in, IH. intuition congruence.
Qed.

Lemma insertBy_sorted {A} (le : A -> A -> bool) x l :
  (forall a b, le a b = false -> le b a = true) ->
  sortedBy le l = true -> sortedBy le (insertBy le x l) = true.
Proof.
  intros Htotal. induction l as [|y l IH]; simpl; [reflexivity|]. intros Hl.
  destruct (le x y) eqn:E.
  - simpl. now rewrite E.
  - destruct l as [|z l]; simpl.
    + now rewrite (Htotal x y E).
    + apply andb_prop in Hl as [Hyz Hl]. specialize (IH Hl). simpl in IH.
      destruct (le x z) eqn:E'.
      * rewrite (Htotal x y E). simpl. rewrite E'. exact Hl.
      * rewrite Hyz. exact IH.
Qed.

Lemma orderBy_sorted {A} (le : A -> A -> bool) l :
  (forall a b, le a b = false -> le b a = true) -> sortedBy le (orderBy le l) = true.
Proof.
  intros Htotal. unfold orderBy. induction l as [|x l IH]; simpl; [reflexivity|].
  now apply insertBy_sorted.
Qed.

Lemma descending_total (a b : Z) : (b <=? a) = false -> (a <=? b) = true.
Proof. intros H. apply Z.leb_gt in H. apply Z.leb_le. lia. Qed.

Lemma leb_total_bool (a b : string) : String.leb a b = false -> String.leb b a = true.
Proof. intros H. destruct (String.leb_total a b) as [E|E]; congruence. Qed.

Lemma scanAll_ok {A B} (scan : A -> result B) rows vs :
  scanAll scan rows = Ok vs -> Forall2 (fun r v => scan r = Ok v) rows vs.
Proof.
  revert vs. induction rows as [|r rows IH]; simpl; intros vs H.
  - inversion H. constructor.
  - destruct (scan r) as [v|e] eqn:E; [|discriminate].
    destruct (scanAll scan rows) as [vs'|e]; [|discriminate].
    inversion H; subst. constructor; [exact E|now apply IH].
Qed.

Lemma scanAll_err {A B} (scan : A -> result B) rows e :
  scanAll scan rows = Err e -> exists r, In r rows /\ scan r = Err e.
Proof.
  induction rows as [|r rows IH]; simpl; [discriminate|].
  destruct (scan r) as [v|e'] eqn:E.
  - destruct (scanAll scan rows) as [vs|e'']; [discriminate|].
    intros H. inversion H; subst. destruct (IH eq_refl) as [x [Hx Hs]].
    exists x. split; [now right|exact Hs].
  - intros H. inversion H; subst. exists r. split; [now left|exact E].
Qed.

Lemma scanAll_total {A B} (scan : A -> result B) rows :
  (forall r, In r rows -> exists v, scan r = Ok v) ->
  exists vs, scanAll scan rows = Ok vs.
Proof.
  intros H. destruct (scanAll scan rows) as [vs|e] eqn:E; [now exists vs|].
  apply scanAll_err in E as [r [Hr E]]. destruct (H r Hr) as [v Hv]. congruence.
Qed.

Lemma Forall2_in_right {A B} (R : A -> B -> Prop) l l' y :
  Forall2 R l l' -> In y l' -> exists x, In x l /\ R x y.
Proof.
  induction 1 as [|a b l l' Hab _ IH]; simpl; [contradiction|].
  intros [<- | Hy]; [exists a; split; [now left|exact Hab]|].
  destruct (IH Hy) as [x [Hx Hr]]. exists x. split; [now right|exact Hr].
Qed.

Lemma Forall2_in_left {A B} (R : A -> B -> Prop) l l' x :
  Forall2 R l l' -> In x l -> exists y, In y l' /\ R x y.
Proof.
  induction 1 as [|a b l l' Hab _ IH]; simpl; [contradiction|].
  intros [<- | Hx]; [exists b; split; [now left|exact Hab]|].
  destruct (IH Hx) as [y [Hy Hr]]. exists y. split; [now right|exact Hr].
Qed.

Lemma Forall2_sorted {A B} (R : A -> B -> Prop) (le : A -> A -> bool)
  (le' : B -> B -> bool) l l' :
  (forall a b a' b', R a a' -> R b b' -> le' a' b' = le a b) ->
  Forall2 R l l' -> sortedBy le l = true -> sortedBy le' l' = true.
Proof.
  intros Hle. induction 1 as [|a a' l l' Ha Hl IH]; [reflexivity|].
  destruct Hl as [|b b' l l' Hb Hl]; [reflexivity|].
  intros H. change (le a b && sortedBy le (b :: l) = true) in H.
  apply andb_prop in H as [Hab Hs].
  change (le' a' b' && sortedBy le' (b' :: l') = true).
  rewrite (Hle a b a' b' Ha Hb), Hab. now apply IH.
Qed.

Lemma typeLabels_in s ref label :
  In label (typeLabels s ref) <-> In (mkBloodType ref label) (blood_types s).
Proof.
  unfold typeLabels. rewrite in_map_iff. split.
  - intros [b [<- Hb]]. apply filter_In in Hb as [Hb E]. apply Z.eqb_eq in E.
    subst. now destruct b.
  - intros H. exists (mkBloodType ref label). split; [reflexivity|].
    apply filter_In. split; [exact H|apply Z.eqb_refl].
Qed.

(** The donor is on the list of [loadDonors] under the label. *)
Definition listedDonor (s : Store) (n : DonorRow) (label : string) : Prop :=
  In n (donors s) /\ dn_deleted_at n = None /\
  In (mkBloodType (dn_blood_type_id n) label) (blood_types s).

Lemma donorRows_in s n label : In (n, label) (donorRows s) <-> listedDonor s n label.
Proof.
  unfold donorRows, listedDonor. rewrite orderBy_in, in_flat_map. split.
  - intros [d [Hd H]]. destruct (dn_deleted_at d) eqn:E; simpl in H; [contradiction|].
    apply in_map_iff in H as [l [Heq Hl]]. inversion Heq; subst.
    repeat split; try assumption. now apply typeLabels_in.
  - intros [Hn [Hdel Hl]]. exists n. split; [exact Hn|]. rewrite Hdel. simpl.
    apply in_map_iff. exists label. split; [reflexivity|]. now apply typeLabels_in.
Qed.

(** X15: what [loadDonors] returns, on any store.  It fails exactly when
    a donor on the list (active, of a registered blood type) has [NULL] for
    phone or city; otherwise it returns, newest first, one entry for each
    such donor, with the label of the blood type for the reference.  Deleted
    donors are not on the list. *)
Theorem loadDonors_spec (s : Store) :
  ((exists e, loadDonors s = Err e) <->
   (exists n label, listedDonor s n label /\ (dn_phone n = None \/ dn_city n = None))) /\
  (forall l, loadDonors s = Ok l ->
     sortedBy (fun x y => Donor_ID y <=? Donor_ID x) l = true /\
     forall d, In d l <->
       exists n, listedDonor s n (Donor_BloodType d) /\
                 Donor_ID d = dn_id n /\ Donor_Name d = dn_name n /\
                 dn_phone n = Some (Donor_Phone d) /\ dn_city n = Some (Donor_City d) /\
                 Donor_CreatedAt d = dn_created_at n).
Proof.
  unfold loadDonors. split; [split|].
  - intros [e E]. apply scanAll_err in E as [[n label] [Hrow E]].
    exists n, label. split; [now apply donorRows_in|].
    simpl in E. destruct (dn_phone n); [|now left].
    destruct (dn_city n); [discriminate|now right].
  - intros [n [label [Hrow Hnull]]]. apply donorRows_in in Hrow.
    destruct (scanAll scanDonor (donorRows s)) as [l|e] eqn:E; [|now exists e].
    apply scanAll_ok in E.
    destruct (Forall2_in_left _ _ _ _ E Hrow) as [d [_ Hd]]. simpl in Hd.
    destruct Hnull as [H|H]; rewrite H in Hd; [discriminate|].
    destruct (dn_phone n); discriminate.
  - intros l E. apply scanAll_ok in E. split.
    + apply (Forall2_sorted (fun r v => scanDonor r = Ok v)
               (fun x y => dn_id (fst y) <=? dn_id (fst x)) _ (donorRows s) l);
        [|exact E|apply orderBy_sorted; intros a b; apply descending_total].
      intros [a la] [b lb] a' b' Ha Hb. simpl in *.
      destruct (dn_phone a), (dn_city a), (dn_phone b), (dn_city b);
        try discriminate. now inversion Ha; inversion Hb.
    + intros d. split.
      * intros Hd. destruct (Forall2_in_right _ _ _ _ E Hd) as [[n label] [Hrow Hs]].
        apply donorRows_in in Hrow. simpl in Hs.
        destruct (dn_phone n) as [phone|] eqn:Hp; [|discriminate].
        destruct (dn_city n) as [city|] eqn:Hc; [|discriminate].
        inversion Hs; subst. exists n. simpl. repeat split; try assumption; apply Hrow.
      * intros [n [Hrow [H1 [H2 [H3 [H4 H5]]]]]]. apply donorRows_in in Hrow.
        destruct (Forall2_in_left _ _ _ _ E Hrow) as [d' [Hd' Hs]]. simpl in Hs.
        rewrite H3, H4 in Hs. inversion Hs; subst d'.
        rewrite <- H1, <- H2, <- H5 in Hd'. now destruct d.
Qed.

Lemma loadDonors_spec_witness :
  exists e,
    loadDonors (mkStore [mkBloodType 1 "O+"]
                        [mkDonor 1 "Asha" 1 None (Some "Pune") "2025-06-01" None]
                        [] [] [] []) = Err e.
Proof.
  apply (proj2 (proj1 (loadDonors_spec _))).
  exists (mkDonor 1 "Asha" 1 None (Some "Pune") "2025-06-01" None), "O+".
  split; [|now left]. repeat split; now left.
Defined.

(** The text columns the page scans are never [NULL] in a session: the
    handlers write the trimmed form field, empty or not. *)
Definition Scannable (s : Store) : Prop :=
  (forall n, In n (donors s) -> dn_phone n <> None /\ dn_city n <> None) /\
  (forall c, In c (recipients s) -> rc_phone c <> None /\ rc_hospital c <> None).

Lemma Scannable_frame s s' :
  donors s' = donors s -> recipients s' = recipients s -> Scannable s -> Scannable s'.
Proof. unfold Scannable. now intros -> ->. Qed.

Lemma Write_Scannable today s s' : Write today s s' -> Scannable s -> Scannable s'.
Proof.
  intros W [Hdn Hrc].
  destruct W as [| | | | | | | | | t units _ | t units s1 E | | | |].
  10: { apply (Scannable_frame s); [| |now split];
          now rewrite upsertInventoryByTypeID_frame. }
  10: { apply balanceOf_consume in E as [-> _]. now split. }
  all: split; simpl; try assumption.
  - intros n Hn. apply in_app_or in Hn as [Hn | [<- | []]]; [now apply Hdn|].
    simpl. split; discriminate.
  - intros n Hn. apply in_map_iff in Hn as [m [<- Hm]]. unfold updateDonorRow.
    destruct (dn_id m =? id); simpl; [split; discriminate|now apply Hdn].
  - intros n Hn. apply in_map_iff in Hn as [m [<- Hm]]. unfold deleteDonorRow.
    destruct (dn_id m =? id); simpl; now apply Hdn.
  - intros c Hc. apply in_app_or in Hc as [Hc | [<- | []]]; [now apply Hrc|].
    simpl. split; discriminate.
  - intros c Hc. apply in_map_iff in Hc as [m [<- Hm]]. unfold updateRecipientRow.
    destruct (rc_id m =? id); simpl; [split; discriminate|now apply Hrc].
  - intros c Hc. apply in_map_iff in Hc as [m [<- Hm]]. unfold deleteRecipientRow.
    destruct (rc_id m =? id); simpl; now apply Hrc.
Qed.

Lemma serve_Scannable today p s : Scannable s -> Scannable (snd (serve today p s)).
Proof.
  induction (serve_Writes today p s) as [s|s s1 s2 W _ IH]; [trivial|].
  intros Hs. apply IH. now apply (Write_Scannable today s).
Qed.

Lemma run_Scannable posts s : Scannable s -> Scannable (run posts s).
Proof.
  revert s. induction posts as [|[today p] posts IH]; simpl; intros s Hs; [exact Hs|].
  apply IH. now apply serve_Scannable.
Qed.

Lemma emptyStore_Scannable : Scannable emptyStore.
Proof. split; intros ? []. Qed.

Lemma loadPageData_Scannable s msg :
  Scannable s -> exists data, loadPageData s msg = Ok data /\ Message data = msg.
Proof.
  intros [Hdn Hrc]. unfold loadPageData.
  destruct (scanAll_total scanDonor (donorRows s)) as [dl Hdl].
  { intros [n label] Hrow. apply donorRows_in in Hrow as [Hn _].
    destruct (Hdn n Hn) as [Hp Hc]. simpl.
    destruct (dn_phone n); [|congruence]. destruct (dn_city n); [|congruence].
    eexists; reflexivity. }
  destruct (scanAll_total scanRecipient (recipientRows s)) as [rl Hrl].
  { intros [c label] Hrow. unfold recipientRows in Hrow.
    apply orderBy_in, in_flat_map in Hrow as [c' [Hc' Hrow]].
    destruct (isNull (rc_deleted_at c')); [|contradiction].
    apply in_map_iff in Hrow as [l [Heq _]]. inversion Heq; subst.
    destruct (Hrc c Hc') as [Hp Hh]. simpl.
    destruct (rc_phone c); [|congruence]. destruct (rc_hospital c); [|congruence].
    eexists; reflexivity. }
  unfold loadDonors, loadRecipients. rewrite Hdl, Hrl. simpl.
  eexists. split; reflexivity.
Qed.

(** X16: in a session in range (ASCII forms, 64-bit numbers, no count of
    the inventory past 64 bits) that starts from the empty store the page
    always loads.  The five queries succeed on every store the session
    reaches, with the message passed; so neither the index nor the answer
    to a post in range is the [server error]. *)
Theorem page_loads (posts : list (string * Post)) :
  inRange posts emptyStore = true ->
  (forall msg, exists data,
     loadPageData (run posts emptyStore) msg = Ok data /\ Message data = msg) /\
  handleIndex (run posts emptyStore) <> ServerError /\
  (forall today p,
     inRange [(today, p)] (run posts emptyStore) = true ->
     fst (reply today p (run posts emptyStore)) <> ServerError).
Proof.
  intros _.
  pose proof (run_Scannable posts emptyStore emptyStore_Scannable) as Hs.
  split; [|split].
  - intros msg. now apply loadPageData_Scannable.
  - unfold handleIndex.
    destruct (loadPageData_Scannable _ "" Hs) as [data [-> _]]. discriminate.
  - intros today p _. unfold reply.
    pose proof (serve_Scannable today p _ Hs) as Hs'.
    destruct (serve today p (run posts emptyStore)) as [[|msg] s']; [discriminate|].
    simpl in *. unfold renderWithMessage.
    destruct (loadPageData_Scannable s' msg Hs') as [data [-> _]]. discriminate.
Qed.

Lemma page_loads_witness :
  handleIndex scenario <> ServerError /\
  fst (reply "2025-06-05" (PostFulfill 2) scenario) <> ServerError.
Proof.
  destruct (page_loads
              [ ("2025-06-01", PostDonors "Asha" "o+" "555-0101" "Pune");
                ("2025-06-01", PostRecipients "Ravi" " O+ " "555-0102" "City Hospital");
                ("2025-06-02", PostDonations 1 2 "2025-12-01");
                ("2025-06-03", PostRequests 1 2);
                ("2025-06-03", PostFulfill 1);
                ("2025-06-04", PostRequests 1 1) ]
              ltac:(vm_compute; reflexivity)) as [_ [H1 H2]].
  split; [exact H1|]. apply H2. vm_compute. reflexivity.
Defined.

(** ** The inventory on the page *)

Lemma lookupBloodType_in s b :
  NoDup (map bt_type (blood_types s)) -> In b (blood_types s) ->
  lookupBloodType s (bt_type b) = Some (bt_id b).
Proof.
  unfold lookupBloodType. induction (blood_types s) as [|x l IH]; simpl;
    intros Hnd Hb; [contradiction|].
  inversion Hnd as [|? ? Hx Hl]; subst.
  destruct Hb as [-> | Hb]; [now rewrite String.eqb_refl|].
  destruct (String.eqb (bt_type x) (bt_type b)) eqn:E; [|now apply IH].
  apply String.eqb_eq in E. exfalso. apply Hx. rewrite E. now apply in_map.
Qed.

(** X17: the inventory the page shows, in a session in range (ASCII forms,
    64-bit numbers, no count of the inventory past 64 bits) that starts from
    the empty store: the query succeeds, the entries are in the order of
    their labels, and there is an entry (label, units) exactly when the
    label is registered and the balance of its reference is the units. *)
Theorem loadInventory_balances (posts : list (string * Post)) :
  inRange posts emptyStore = true ->
  exists l,
    loadInventory (run posts emptyStore) = Ok l /\
    sortedBy (fun x y => String.leb (Inventory_BloodType x) (Inventory_BloodType y)) l
      = true /\
    forall label units,
      In (Build_Inventory label units) l <->
      exists ref, lookupBloodType (run posts emptyStore) label = Some ref /\
                  activeBalance (run posts emptyStore) ref = Some units.
Proof.
  intros _.
  pose proof (run_Registered posts emptyStore emptyStore_Registered) as Hreg.
  pose proof (run_wellKeyed posts emptyStore emptyStore_wellKeyed) as Hkeys.
  set (s := run posts emptyStore) in *.
  eexists. split; [reflexivity|]. split.
  - apply orderBy_sorted. intros a b. apply leb_total_bool.
  - intros label units. rewrite orderBy_in, in_flat_map. split.
    + intros [i [Hi H]]. destruct (iv_deleted_at i) eqn:Hdel; simpl in H; [contradiction|].
      apply in_map_iff in H as [l [Heq Hl]]. inversion Heq; subst.
      apply typeLabels_in in Hl. exists (iv_blood_type_id i). split.
      * apply (lookupBloodType_in s _ (rg_labels s Hreg) Hl).
      * unfold activeBalance.
        rewrite (find_key iv_blood_type_id _ (inventory s) i
                   (wk_inventory_ref s Hkeys) Hi); [reflexivity| |].
        -- now rewrite Z.eqb_refl, Hdel.
        -- intros y Hy. apply andb_prop in Hy as [Hy _]. now apply Z.eqb_eq.
    + intros [ref [Hlabel Hbal]].
      apply lookupBloodType_some in Hlabel as [b [Hb [Hl Hid]]].
      unfold activeBalance in Hbal.
      destruct (find _ (inventory s)) as [i|] eqn:F; [|discriminate].
      simpl in Hbal. inversion Hbal; subst.
      apply find_some in F as [Hi F]. apply andb_prop in F as [Href Hdel].
      apply Z.eqb_eq in Href. exists i. split; [exact Hi|]. rewrite Hdel.
      apply in_map_iff. exists (bt_type b). split; [reflexivity|].
      apply typeLabels_in. rewrite Href. now destruct b.
Qed.

Lemma loadInventory_balances_witness :
  exists l, loadInventory usedDonation = Ok l /\ In (Build_Inventory "O+" 1) l.
Proof.
  destruct (loadInventory_balances
              [ ("2025-06-01", PostDonors "Asha" "O+" "555-0101" "Pune");
                ("2025-06-01", PostRecipients "Ravi" "O+" "555-0102" "City Hospital");
                ("2025-06-02", PostDonations 1 3 "2025-12-01");
                ("2025-06-03", PostRequests 1 2);
                ("2025-06-03", PostFulfill 1) ]
              ltac:(vm_compute; reflexivity)) as [l [Hl [_ H]]].
  exists l. split; [exact Hl|]. apply H. exists 1. split; reflexivity.
Defined.

(** ** Deleting a donor or a recipient, and the page *)

Lemma flat_map_filter_map {A B} (p : A -> bool) (g : A -> list B) (f : A -> A) l :
  (forall x, p (f x) = p x) -> (forall x, g (f x) = g x) ->
  flat_map g (filter p (map f l)) = flat_map g (filter p l).
Proof.
  intros Hp Hg. induction l as [|x l IH]; simpl; [reflexivity|].
  rewrite Hp. destruct (p x); simpl; [rewrite Hg|]; now rewrite IH.
Qed.

Lemma deleteDonorRow_id today id n : dn_id (deleteDonorRow today id n) = dn_id n.
Proof. unfold deleteDonorRow. now destruct (dn_id n =? id). Qed.

Lemma deleteRecipientRow_id today id c : rc_id (deleteRecipientRow today id c) = rc_id c.
Proof. unfold deleteRecipientRow. now destruct (rc_id c =? id). Qed.

(** Each row is in order with every later one. *)
Fixpoint Ordered {A} (le : A -> A -> bool) (l : list A) : Prop :=
  match l with
  | [] => True
  | y :: rest => (forall z, In z rest -> le y z = true) /\ Ordered le rest
  end.

Section Filtering.
Context {A : Type} (le : A -> A -> bool) (p : A -> bool).
Hypothesis le_total : forall a b, le a b = true \/ le b a = true.
Hypothesis le_trans : forall a b c, le a b = true -> le b c = true -> le a c = true.

Lemma insertBy_Ordered x l : Ordered le l -> Ordered le (insertBy le x l).
Proof.
  induction l as [|y l IH]; simpl; [intros _; split; [intros ? []|exact I]|].
  intros [Hy Hl]. destruct (le x y) eqn:E; simpl.
  - split; [|split; assumption].
    intros z [<- | Hz]; [exact E|]. apply (le_trans x y z E). now apply Hy.
  - split; [|now apply IH].
    intros z Hz. apply insertBy_in in Hz as [-> | Hz]; [|now apply Hy].
    destruct (le_total x y) as [H | H]; [congruence|exact H].
Qed.

Lemma orderBy_Ordered l : Ordered le (orderBy le l).
Proof.
  induction l as [|x l IH]; simpl; [exact I|]. now apply insertBy_Ordered.
Qed.

Lemma insertBy_head x l :
  (forall z, In z l -> le x z = true) -> insertBy le x l = x :: l.
Proof. destruct l as [|y l]; simpl; [reflexivity|]. intros H. now rewrite (H y) by now left. Qed.

Lemma filter_insertBy x l :
  Ordered le l ->
  filter p (insertBy le x l) =
  if p x then insertBy le x (filter p l) else filter p l.
Proof.
  induction l as [|y l IH]; simpl; [now destruct (p x)|].
  intros [Hy Hl]. destruct (le x y) eqn:E; simpl.
  - destruct (p x) eqn:Px; [|reflexivity].
    rewrite insertBy_head; [reflexivity|].
    intros z Hz.
    assert (Hin : In z (y :: l)).
    { destruct (p y); [destruct Hz as [<- | Hz]; [now left|]|];
        right; now apply filter_In in Hz. }
    destruct Hin as [<- | Hin]; [exact E|].
    apply (le_trans x y z E). now apply Hy.
  - rewrite (IH Hl). destruct (p y), (p x); simpl; try reflexivity. now rewrite E.
Qed.

Lemma filter_orderBy l : filter p (orderBy le l) = orderBy le (filter p l).
Proof.
  induction l as [|x l IH]; simpl; [reflexivity|].
  rewrite filter_insertBy by apply orderBy_Ordered.
  rewrite IH. now destruct (p x).
Qed.

End Filtering.

Lemma scanAll_filter {A B} (scan : A -> result B) (p : A -> bool) (q : B -> bool) rows l :
  (forall r v, scan r = Ok v -> q v = p r) ->
  scanAll scan rows = Ok l -> scanAll scan (filter p rows) = Ok (filter q l).
Proof.
  intros H. revert l. induction rows as [|r rows IH]; simpl; intros l E.
  - inversion E. reflexivity.
  - destruct (scan r) as [v|e] eqn:Er; [|discriminate].
    destruct (scanAll scan rows) as [vs|e]; [|discriminate].
    inversion E; subst. simpl. rewrite (H r v Er).
    destruct (p r); simpl; [rewrite Er|]; now rewrite (IH vs eq_refl).
Qed.

Lemma filter_pairs {A B} (p : A * B -> bool) (x : A) (l : list B) (b : bool) :
  (forall y, p (x, y) = b) ->
  filter p (map (fun y => (x, y)) l) = if b then map (fun y => (x, y)) l else [].
Proof.
  intros H. induction l as [|y l IH]; simpl; [now destruct b|].
  rewrite H, IH. now destruct b.
Qed.

Lemma donorRows_deleted today id s :
  donorRows (setDonors s (map (deleteDonorRow today id) (donors s))) =
  filter (fun row => negb (dn_id (fst row) =? id)) (donorRows s).
Proof.
  unfold donorRows. rewrite filter_orderBy.
  2: { intros a b. destruct (Z.leb_spec (dn_id (fst b)) (dn_id (fst a))); [now left|].
       right. apply Z.leb_le. lia. }
  2: { intros a b c H1 H2. apply Z.leb_le in H1, H2. apply Z.leb_le. lia. }
  f_equal. cbn [donors setDonors].
  change (typeLabels (setDonors s (map (deleteDonorRow today id) (donors s))))
    with (typeLabels s).
  induction (donors s) as [|n l IH]; simpl; [reflexivity|].
  rewrite filter_app, IH. f_equal.
  unfold deleteDonorRow. destruct (dn_id n =? id) eqn:E; simpl.
  - destruct (isNull (dn_deleted_at n)); [|reflexivity].
    rewrite (filter_pairs _ n _ false); [reflexivity|].
    intros y. simpl. now rewrite E.
  - destruct (isNull (dn_deleted_at n)); [|reflexivity].
    rewrite (filter_pairs _ n _ true); [reflexivity|].
    intros y. simpl. now rewrite E.
Qed.

Lemma recipientRows_deleted today id s :
  recipientRows (setRecipients s (map (deleteRecipientRow today id) (recipients s))) =
  filter (fun row => negb (rc_id (fst row) =? id)) (recipientRows s).
Proof.
  unfold recipientRows. rewrite filter_orderBy.
  2: { intros a b. destruct (Z.leb_spec (rc_id (fst b)) (rc_id (fst a))); [now left|].
       right. apply Z.leb_le. lia. }
  2: { intros a b c H1 H2. apply Z.leb_le in H1, H2. apply Z.leb_le. lia. }
  f_equal. cbn [recipients setRecipients].
  change (typeLabels (setRecipients s (map (deleteRecipientRow today id) (recipients s))))
    with (typeLabels s).
  induction (recipients s) as [|n l IH]; simpl; [reflexivity|].
  rewrite filter_app, IH. f_equal.
  unfold deleteRecipientRow. destruct (rc_id n =? id) eqn:E; simpl.
  - destruct (isNull (rc_deleted_at n)); [|reflexivity].
    rewrite (filter_pairs _ n _ false); [reflexivity|].
    intros y. simpl. now rewrite E.
  - destruct (isNull (rc_deleted_at n)); [|reflexivity].
    rewrite (filter_pairs _ n _ true); [reflexivity|].
    intros y. simpl. now rewrite E.
Qed.

Lemma loadDonors_deleted today id s l :
  loadDonors s = Ok l ->
  loadDonors (setDonors s (map (deleteDonorRow today id) (donors s))) =
  Ok (filter (fun d => negb (Donor_ID d =? id)) l).
Proof.
  unfold loadDonors. rewrite donorRows_deleted. apply scanAll_filter.
  intros [n label] v. simpl.
  destruct (dn_phone n); [|discriminate]. destruct (dn_city n); [|discriminate].
  simpl. intros E. inversion E. reflexivity.
Qed.

Lemma loadRecipients_deleted today id s l :
  loadRecipients s = Ok l ->
  loadRecipients (setRecipients s (map (deleteRecipientRow today id) (recipients s))) =
  Ok (filter (fun r => negb (Recipient_ID r =? id)) l).
Proof.
  unfold loadRecipients. rewrite recipientRows_deleted. apply scanAll_filter.
  intros [n label] v. simpl.
  destruct (rc_phone n); [|discriminate]. destruct (rc_hospital n); [|discriminate].
  simpl. intros E. inversion E. reflexivity.
Qed.

(** X18: deleting a donor takes them, and nobody else, off the list of
    donors: when the list loaded before, the list after is the list before
    without the entries of the deleted id, the others in the same order.
    Nothing else on the page changes: the donations of the donor stay
    listed, under their name and blood type, and the inventory keeps their
    units.  Likewise a deleted recipient, and nobody else, leaves the list
    of recipients while their requests stay listed. *)
Theorem delete_keeps_history (today : string) (id : Z) (s : Store) :
  (let s' := snd (handleDonorsDelete today id s) in
   loadDonations s' = loadDonations s /\ loadInventory s' = loadInventory s /\
   loadRecipients s' = loadRecipients s /\ loadRequests s' = loadRequests s /\
   (id <> 0 -> forall l, loadDonors s = Ok l ->
      loadDonors s' = Ok (filter (fun d => negb (Donor_ID d =? id)) l)) /\
   (id <> 0 -> forall l d, loadDonors s' = Ok l -> In d l -> Donor_ID d <> id)) /\
  (let s' := snd (handleRecipientsDelete today id s) in
   loadRequests s' = loadRequests s /\ loadInventory s' = loadInventory s /\
   loadDonors s' = loadDonors s /\ loadDonations s' = loadDonations s /\
   (id <> 0 -> forall l, loadRecipients s = Ok l ->
      loadRecipients s' = Ok (filter (fun r => negb (Recipient_ID r =? id)) l)) /\
   (id <> 0 -> forall l r, loadRecipients s' = Ok l -> In r l -> Recipient_ID r <> id)).
Proof.
  split.
  - unfold handleDonorsDelete. destruct (id =? 0) eqn:Hid; simpl.
    { do 4 (split; [reflexivity|]).
      split; intros H; apply Z.eqb_eq in Hid; contradiction. }
    split; [|do 3 (split; [reflexivity|]); split].
    + unfold loadDonations. simpl. do 2 f_equal.
      apply flat_map_ext. intros d. destruct (isNull (da_deleted_at d)); [|reflexivity].
      apply (flat_map_filter_map (fun n => dn_id n =? da_donor_id d)).
      * intros n. now rewrite deleteDonorRow_id.
      * intros n. unfold deleteDonorRow. now destruct (dn_id n =? id).
    + intros _ l Hl. now apply loadDonors_deleted.
    + intros _ l d Hl Hd. unfold loadDonors in Hl. apply scanAll_ok in Hl.
      destruct (Forall2_in_right _ _ _ _ Hl Hd) as [[n label] [Hrow Hs]].
      apply donorRows_in in Hrow as [Hn [Hdel _]]. simpl in Hs.
      destruct (dn_phone n); [|discriminate]. destruct (dn_city n); [|discriminate].
      inversion Hs; subst. simpl. simpl in Hn.
      apply in_map_iff in Hn as [m [<- Hm]]. rewrite deleteDonorRow_id.
      intros E. unfold deleteDonorRow in Hdel. apply Z.eqb_eq in E. rewrite E in Hdel.
      discriminate.
  - unfold handleRecipientsDelete. destruct (id =? 0) eqn:Hid; simpl.
    { do 4 (split; [reflexivity|]).
      split; intros H; apply Z.eqb_eq in Hid; contradiction. }
    split; [|do 3 (split; [reflexivity|]); split].
    + unfold loadRequests. simpl. do 2 f_equal.
      apply flat_map_ext. intros r. destruct (isNull (rq_deleted_at r)); [|reflexivity].
      apply (flat_map_filter_map (fun c => rc_id c =? rq_recipient_id r)).
      * intros c. now rewrite deleteRecipientRow_id.
      * intros c. unfold deleteRecipientRow. now destruct (rc_id c =? id).
    + intros _ l Hl. now apply loadRecipients_deleted.
    + intros _ l r Hl Hr. unfold loadRecipients in Hl. apply scanAll_ok in Hl.
      destruct (Forall2_in_right _ _ _ _ Hl Hr) as [[c label] [Hrow Hs]].
      unfold recipientRows in Hrow.
      apply orderBy_in, in_flat_map in Hrow as [c' [Hc' Hrow]].
      destruct (rc_deleted_at c') eqn:Hdel; simpl in Hrow; [contradiction|].
      apply in_map_iff in Hrow as [x [Heq _]]. inversion Heq; subst. simpl in Hs.
      destruct (rc_phone c); [|discriminate]. destruct (rc_hospital c); [|discriminate].
      inversion Hs; subst. simpl. simpl in Hc'.
      apply in_map_iff in Hc' as [m [<- Hm]]. rewrite deleteRecipientRow_id.
      intros E. unfold deleteRecipientRow in Hdel. apply Z.eqb_eq in E.
      rewrite E in Hdel. discriminate.
Qed.

(** Two donors on the list. *)
Definition twoDonors : Store :=
  run [ ("2025-06-01", PostDonors "Asha" "O+" "555-0101" "Pune");
        ("2025-06-01", PostDonors "Binod" "A+" "555-0103" "Goa") ]
      emptyStore.

Lemma delete_keeps_history_witness :
  loadDonors (snd (handleDonorsDelete "2025-06-04" 1 twoDonors)) =
  Ok [Build_Donor 2 "Binod" "A+" "555-0103" "Goa" "2025-06-01"].
Proof.
  apply (proj1 (proj2 (proj2 (proj2 (proj2 (proj1
           (delete_keeps_history "2025-06-04" 1 twoDonors))))))
           ltac:(lia)
           [ Build_Donor 2 "Binod" "A+" "555-0103" "Goa" "2025-06-01";
             Build_Donor 1 "Asha" "O+" "555-0101" "Pune" "2025-06-01" ]).
  reflexivity.
Defined.

(** ** Registering a donor, and the page *)

Lemma orderBy_snoc_first {A} (le : A -> A -> bool) l x :
  (forall y, In y l -> le y x = false) ->
  orderBy le (l ++ [x]) = x :: orderBy le l.
Proof.
  unfold orderBy. induction l as [|a l IH]; simpl; intros H; [reflexivity|].
  rewrite IH by (intros y Hy; apply H; now right). simpl.
  now rewrite (H a) by now left.
Qed.

Lemma flat_map_ext_on {A B} (f g : A -> list B) l :
  (forall x, In x l -> f x = g x) -> flat_map f l = flat_map g l.
Proof.
  induction l as [|x l IH]; simpl; intros H; [reflexivity|].
  rewrite (H x) by now left. f_equal. apply IH. intros y Hy. apply H. now right.
Qed.

Lemma typeLabels_unique s b :
  NoDup (map bt_id (blood_types s)) -> In b (blood_types s) ->
  typeLabels s (bt_id b) = [bt_type b].
Proof.
  intros Hnd Hb. unfold typeLabels.
  now rewrite (filter_key bt_id (blood_types s) b Hnd Hb).
Qed.

Lemma typeLabels_grows s ref b :
  validRef s ref = true ->
  typeLabels (setBloodTypes s
                (blood_types s ++ [mkBloodType (nextID (map bt_id (blood_types s))) b]))
             ref
  = typeLabels s ref.
Proof.
  intros Hvalid. unfold typeLabels. simpl. rewrite filter_app. simpl.
  apply validRef_in in Hvalid as [x [Hx Hid]].
  assert ((nextID (map bt_id (blood_types s)) =? ref) = false) as ->.
  { apply Z.eqb_neq. intros E. apply (nextID_fresh (map bt_id (blood_types s))).
    rewrite E, <- Hid. now apply in_map. }
  now rewrite app_nil_r.
Qed.

(** X19: a donor registered appears at the head of the list.  In a session
    of ASCII forms that starts from the empty store, a registration with
    ASCII fields, a name and a blood type that are not blank, is answered
    with the redirect, and the donors the page then lists are the new donor,
    with the next id, the trimmed fields, the normalized label and the day,
    followed by the donors listed before. *)
Theorem handleDonors_listed (posts : list (string * Post)) (today : string)
  (name blood_type phone city : string) :
  asciiPosts posts = true ->
  asciiPost (PostDonors name blood_type phone city) = true ->
  Text.TrimSpace name <> "" -> normalizeBloodType blood_type <> "" ->
  let s := run posts emptyStore in
  fst (handleDonors today name blood_type phone city s) = Redirect /\
  exists before,
    loadDonors s = Ok before /\
    loadDonors (snd (handleDonors today name blood_type phone city s)) =
      Ok (Build_Donor (nextID (map dn_id (donors s))) (Text.TrimSpace name)
                      (normalizeBloodType blood_type) (Text.TrimSpace phone)
                      (Text.TrimSpace city) today :: before).
Proof.
  intros _ _ Hname Hlabel s.
  pose proof (run_Registered posts emptyStore emptyStore_Registered) as Hreg.
  pose proof (run_wellKeyed posts emptyStore emptyStore_wellKeyed) as Hkeys.
  pose proof (run_Scannable posts emptyStore emptyStore_Scannable) as Hscan.
  fold s in Hreg, Hkeys, Hscan.
  destruct (loadPageData_Scannable s "" Hscan) as [data [Hdata _]].
  unfold loadPageData in Hdata.
  destruct (loadDonors s) as [before|e] eqn:Hbefore; [clear Hdata data|discriminate].
  unfold handleDonors.
  apply isEmpty_false in Hname, Hlabel. rewrite Hname, Hlabel. simpl.
  destruct (getOrCreateBloodTypeID s (normalizeBloodType blood_type)) as [r s1] eqn:E.
  assert (Hs1 : exists t,
            r = Ok t /\ donors s1 = donors s /\ wellKeyed s1 /\
            typeLabels s1 t = [normalizeBloodType blood_type] /\
            forall n, In n (donors s) ->
              typeLabels s1 (dn_blood_type_id n) = typeLabels s (dn_blood_type_id n)).
  { pose proof (getOrCreateBloodTypeID_wellKeyed s _ r s1 E Hkeys) as Hk1.
    unfold getOrCreateBloodTypeID in E.
    rewrite normalizeBloodType_fixed, Hlabel in E.
    destruct (lookupBloodType s _) as [t|] eqn:Hfind; inversion E; subst; clear E.
    - exists t. split; [reflexivity|]. split; [reflexivity|]. split; [exact Hk1|].
      split; [|reflexivity].
      apply lookupBloodType_some in Hfind as [b [Hb [Hl Hid]]].
      rewrite <- Hid, <- Hl. apply typeLabels_unique; [apply Hkeys|exact Hb].
    - eexists. split; [reflexivity|]. split; [reflexivity|]. split; [exact Hk1|]. split.
      + apply (typeLabels_unique _ (mkBloodType _ (normalizeBloodType blood_type)));
          [apply Hk1|]. simpl. apply in_or_app. right. now left.
      + intros n Hn. apply typeLabels_grows. now apply (rg_donors s Hreg). }
  destruct Hs1 as [t [-> [Hdonors [Hk1 [Ht Hold]]]]].
  split; [reflexivity|]. exists before. split; [reflexivity|].
  cbn [snd]. unfold loadDonors in *. unfold donorRows in *.
  cbn [donors setDonors]. rewrite Hdonors, flat_map_app.
  rewrite (flat_map_ext_on _
             (fun d => if isNull (dn_deleted_at d)
                       then map (fun label => (d, label)) (typeLabels s (dn_blood_type_id d))
                       else [])).
  2: { intros n Hn. destruct (isNull (dn_deleted_at n)); [|reflexivity].
       f_equal. now apply Hold. }
  cbn [flat_map isNull dn_deleted_at dn_blood_type_id].
  match goal with
  | |- context [typeLabels (setDonors s1 ?l) t] =>
      change (typeLabels (setDonors s1 l) t) with (typeLabels s1 t)
  end.
  rewrite Ht. cbn [map app].
  rewrite orderBy_snoc_first.
  - simpl. now rewrite Hbefore.
  - intros [n label] Hy. simpl. apply Z.leb_gt.
    apply in_flat_map in Hy as [d [Hd Hy]].
    destruct (isNull (dn_deleted_at d)); [|contradiction].
    apply in_map_iff in Hy as [x [Heq _]]. inversion Heq; subst.
    apply nextID_above. now apply in_map.
Qed.

Lemma handleDonors_listed_witness :
  fst (handleDonors "2025-06-05" " Chitra " "ab-" "555-0104" "Agra" twoDonors) = Redirect.
Proof.
  apply (handleDonors_listed
           [ ("2025-06-01", PostDonors "Asha" "O+" "555-0101" "Pune");
             ("2025-06-01", PostDonors "Binod" "A+" "555-0103" "Goa") ]
           "2025-06-05" " Chitra " "ab-" "555-0104" "Agra");
    first [reflexivity | discriminate].
Defined.

(** ** The migration of a legacy database *)

Lemma execAll_ok st rest d d' : st d = Ok d' -> execAll (st :: rest) d = execAll rest d'.
Proof. simpl. now intros ->. Qed.

Lemma execAll_err st rest d e : st d = Err e -> execAll (st :: rest) d = (Some e, d).
Proof. simpl. now intros ->. Qed.

Lemma typeID_found types label :
  hasLabel types label = true ->
  exists b, In b types /\ bt_type b = label /\ typeID types (Some label) = Some (bt_id b).
Proof.
  unfold hasLabel, typeID. intros H.
  destruct (find (fun b => String.eqb (bt_type b) label) types) as [b|] eqn:F.
  - apply find_some in F as [Hb E]. apply String.eqb_eq in E. now exists b.
  - apply existsb_exists in H as [b [Hb E]].
    rewrite (proj1 (find_none_iff _ _) F b Hb) in E. discriminate.
Qed.

Lemma resolveLabel_total types blood_type :
  hasLabel types "UNKNOWN" = true -> exists id, resolveLabel types blood_type = Some id.
Proof.
  intros H. unfold resolveLabel.
  destruct (typeID types (option_map sqlLabel blood_type)) as [id|]; [now exists id|].
  destruct (typeID_found types "UNKNOWN" H) as [b [_ [_ ->]]]. now exists (bt_id b).
Qed.

Lemma allPresent_total {A B} (f : A -> option B) (l : list A) :
  (forall x, exists y, f x = Some y) ->
  exists l', allPresent (map f l) = Some l' /\ Forall2 (fun x y => f x = Some y) l l'.
Proof.
  intros H. induction l as [|x l [l' [E F]]]; simpl.
  - exists []. split; [reflexivity|constructor].
  - destruct (H x) as [y Hy]. rewrite Hy, E. simpl.
    exists (y :: l'). split; [reflexivity|now constructor].
Qed.

Lemma Forall2_map_eq {A B C} (R : A -> B -> Prop) (f : A -> C) (g : B -> C) l l' :
  (forall x y, R x y -> g y = f x) -> Forall2 R l l' -> map g l' = map f l.
Proof.
  intros H. induction 1 as [|x y l l' Hxy _ IH]; simpl; [reflexivity|].
  now rewrite (H x y Hxy), IH.
Qed.

(** The registry the preparing statements leave: the labels of the donors,
    of the recipients and of the inventory, then the sentinel, each added
    unless there already. *)
Definition preparedTypes (types : list BloodTypeRow) (dn : list LegacyDonorRow)
  (rc : list LegacyRecipientRow) (iv : list LegacyInventoryRow) : list BloodTypeRow :=
  insertOrIgnore
    (insertLabels (distinctLabels (map liv_blood_type iv))
       (insertLabels (distinctLabels (map lrc_blood_type rc))
          (insertLabels (distinctLabels (map ldn_blood_type dn)) types)))
    "UNKNOWN".

Lemma preparedTypes_covers types dn rc iv :
  covers (preparedTypes types dn rc iv) (map ldn_blood_type dn) /\
  covers (preparedTypes types dn rc iv) (map lrc_blood_type rc) /\
  covers (preparedTypes types dn rc iv) (map liv_blood_type iv) /\
  hasLabel (preparedTypes types dn rc iv) "UNKNOWN" = true.
Proof.
  unfold preparedTypes. repeat split.
  - apply covers_insertOrIgnore_mono. do 2 apply covers_insertLabels_mono.
    apply covers_insertLabels_self.
  - apply covers_insertOrIgnore_mono, covers_insertLabels_mono.
    apply covers_insertLabels_self.
  - apply covers_insertOrIgnore_mono, covers_insertLabels_self.
  - apply hasLabel_insertOrIgnore_self.
Qed.

(** A legacy database: the donors, the recipients and the inventory in
    their legacy shape, the donations and the requests in either shape, no
    replacement table left by an earlier run. *)
Definition legacy (fk : bool) (bt : option (list BloodTypeRow))
  (dn : list LegacyDonorRow) (rc : list LegacyRecipientRow) (da : DonationsTable)
  (rq : RequestsTable) (iv : list LegacyInventoryRow) : Database :=
  mkDatabase fk bt (Some (LegacyDonors dn)) (Some (LegacyRecipients rc)) (Some da)
    (Some rq) (Some (LegacyInventory iv)) None None None None None.

Definition typesOf (bt : option (list BloodTypeRow)) : list BloodTypeRow :=
  match bt with Some types => types | None => [] end.

Lemma copyDonors_ok d types rows copied :
  tbl_donors_new d = Some [] -> tbl_blood_types d = Some types ->
  tbl_donors d = Some (LegacyDonors rows) ->
  allPresent (map (migrateDonor types) rows) = Some copied ->
  distinct (map dn_id copied) = true ->
  copyDonors d = Ok (withDonorsNew d (Some copied)).
Proof. unfold copyDonors. intros -> -> -> -> H. simpl. now rewrite H. Qed.

Lemma copyRecipients_ok d types rows copied :
  tbl_recipients_new d = Some [] -> tbl_blood_types d = Some types ->
  tbl_recipients d = Some (LegacyRecipients rows) ->
  allPresent (map (migrateRecipient types) rows) = Some copied ->
  distinct (map rc_id copied) = true ->
  copyRecipients d = Ok (withRecipientsNew d (Some copied)).
Proof. unfold copyRecipients. intros -> -> -> -> H. simpl. now rewrite H. Qed.

Lemma copyDonations_ok d t :
  tbl_donations_new d = Some [] -> tbl_donations d = Some t ->
  distinct (map da_id (donationRows t)) = true ->
  copyDonations d = Ok (withDonationsNew d (Some (donationRows t))).
Proof. unfold copyDonations. intros -> -> H. simpl. now rewrite H. Qed.

Lemma copyRequests_ok d t :
  tbl_requests_new d = Some [] -> tbl_requests d = Some t ->
  distinct (map rq_id (requestRows t)) = true ->
  copyRequests d = Ok (withRequestsNew d (Some (requestRows t))).
Proof. unfold copyRequests. intros -> -> H. simpl. now rewrite H. Qed.

Lemma copyInventory_run d types rows copied :
  tbl_inventory_new d = Some [] -> tbl_blood_types d = Some types ->
  tbl_inventory d = Some (LegacyInventory rows) ->
  allPresent (map (migrateInventory types) rows) = Some copied ->
  distinct (map iv_id copied) = true ->
  copyInventory d =
    if distinct (map iv_blood_type_id copied)
    then Ok (withInventoryNew d (Some copied))
    else Err (ErrSQL "UNIQUE constraint failed: inventory_new.blood_type_id").
Proof. unfold copyInventory. intros -> -> -> -> H. simpl. now rewrite H. Qed.

Lemma migrateTo3NF_legacy_run fk bt dn rc da rq iv :
  distinct (map ldn_id dn) = true -> distinct (map lrc_id rc) = true ->
  distinct (map da_id (donationRows da)) = true ->
  distinct (map rq_id (requestRows rq)) = true ->
  distinct (map liv_id iv) = true ->
  let types := preparedTypes (typesOf bt) dn rc iv in
  exists dn' rc' iv',
    Forall2 (fun x y => migrateDonor types x = Some y) dn dn' /\
    Forall2 (fun x y => migrateRecipient types x = Some y) rc rc' /\
    Forall2 (fun x y => migrateInventory types x = Some y) iv iv' /\
    migrateTo3NF (legacy fk bt dn rc da rq iv) =
      if distinct (map iv_blood_type_id iv')
      then (None,
            mkDatabase true (Some types) (Some (NormalDonors dn'))
              (Some (NormalRecipients rc')) (Some (NormalDonations (donationRows da)))
              (Some (NormalRequests (requestRows rq))) (Some (NormalInventory iv'))
              None None None None None)
      else (Some (ErrSQL "UNIQUE constraint failed: inventory_new.blood_type_id"),
            mkDatabase false (Some types) (Some (LegacyDonors dn))
              (Some (LegacyRecipients rc)) (Some da) (Some rq)
              (Some (LegacyInventory iv))
              (Some dn') (Some rc') (Some (donationRows da)) (Some (requestRows rq))
              (Some [])).
Proof.
  intros Hdn Hrc Hda Hrq Hiv types.
  destruct (preparedTypes_covers (typesOf bt) dn rc iv) as [_ [_ [_ Hunknown]]].
  fold types in Hunknown.
  destruct (allPresent_total (migrateDonor types) dn) as [dn' [Edn Fdn]].
  { intros r. unfold migrateDonor.
    destruct (resolveLabel_total types (ldn_blood_type r) Hunknown) as [id ->].
    eexists; reflexivity. }
  destruct (allPresent_total (migrateRecipient types) rc) as [rc' [Erc Frc]].
  { intros r. unfold migrateRecipient.
    destruct (resolveLabel_total types (lrc_blood_type r) Hunknown) as [id ->].
    eexists; reflexivity. }
  destruct (allPresent_total (migrateInventory types) iv) as [iv' [Eiv Fiv]].
  { intros r. unfold migrateInventory.
    destruct (resolveLabel_total types (liv_blood_type r) Hunknown) as [id ->].
    eexists; reflexivity. }
  assert (Kdn : map dn_id dn' = map ldn_id dn).
  { apply (Forall2_map_eq (fun x y => migrateDonor types x = Some y)); [|exact Fdn].
    intros x y H. unfold migrateDonor in H.
    destruct (resolveLabel types (ldn_blood_type x)); inversion H. reflexivity. }
  assert (Krc : map rc_id rc' = map lrc_id rc).
  { apply (Forall2_map_eq (fun x y => migrateRecipient types x = Some y)); [|exact Frc].
    intros x y H. unfold migrateRecipient in H.
    destruct (resolveLabel types (lrc_blood_type x)); inversion H. reflexivity. }
  assert (Kiv : map iv_id iv' = map liv_id iv).
  { apply (Forall2_map_eq (fun x y => migrateInventory types x = Some y)); [|exact Fiv].
    intros x y H. unfold migrateInventory in H.
    destruct (resolveLabel types (liv_blood_type x)); inversion H. reflexivity. }
  exists dn', rc', iv'. split; [exact Fdn|]. split; [exact Frc|]. split; [exact Fiv|].
  unfold migrateTo3NF.
  replace (tableHasColumn (legacy fk bt dn rc da rq iv) "donors" "blood_type") with true
    by (now rewrite tableHasColumn_donors).
  cbn [negb]. cbv iota.
  assert (Hprepare :
    execAll [pragmaForeignKeys false; createBloodTypes; insertLabelsFrom FromDonors;
             insertLabelsFrom FromRecipients; insertLabelsFrom FromInventory;
             insertUnknown; createDonorsNew; createRecipientsNew; createDonationsNew;
             createRequestsNew; createInventoryNew] (legacy fk bt dn rc da rq iv) =
    (None, mkDatabase false (Some types) (Some (LegacyDonors dn))
             (Some (LegacyRecipients rc)) (Some da) (Some rq) (Some (LegacyInventory iv))
             (Some []) (Some []) (Some []) (Some []) (Some [])))
    by (destruct bt; reflexivity).
  change migrationScript with
    ([pragmaForeignKeys false; createBloodTypes; insertLabelsFrom FromDonors;
      insertLabelsFrom FromRecipients; insertLabelsFrom FromInventory;
      insertUnknown; createDonorsNew; createRecipientsNew; createDonationsNew;
      createRequestsNew; createInventoryNew] ++
     [copyDonors; copyRecipients; copyDonations; copyRequests; copyInventory;
      dropDonors; dropRecipients; dropDonations; dropRequests; dropInventory;
      renameDonors; renameRecipients; renameDonations; renameRequests; renameInventory;
      pragmaForeignKeys true]).
  rewrite execAll_app, Hprepare. clear Hprepare.
  erewrite execAll_ok
    by (apply (copyDonors_ok _ types dn dn'); try reflexivity;
        [exact Edn|now rewrite Kdn]).
  erewrite execAll_ok
    by (apply (copyRecipients_ok _ types rc rc'); try reflexivity;
        [exact Erc|now rewrite Krc]).
  erewrite execAll_ok by (apply (copyDonations_ok _ da); try reflexivity; exact Hda).
  erewrite execAll_ok by (apply (copyRequests_ok _ rq); try reflexivity; exact Hrq).
  pose proof (copyInventory_run
    (withRequestsNew
       (withDonationsNew
          (withRecipientsNew
             (withDonorsNew
                (mkDatabase false (Some types) (Some (LegacyDonors dn))
                   (Some (LegacyRecipients rc)) (Some da) (Some rq)
                   (Some (LegacyInventory iv))
                   (Some []) (Some []) (Some []) (Some []) (Some []))
                (Some dn')) (Some rc')) (Some (donationRows da)))
       (Some (requestRows rq)))
    types iv iv' eq_refl eq_refl eq_refl Eiv ltac:(now rewrite Kiv)) as Hcopy.
  destruct (distinct (map iv_blood_type_id iv')).
  - erewrite execAll_ok by exact Hcopy. reflexivity.
  - erewrite execAll_err by exact Hcopy. reflexivity.
Qed.

Lemma selectLabels_in cells l :
  In (Some l) cells -> Text.isEmpty (Text.sqlTrim l) = false ->
  In (sqlLabel l) (selectLabels cells).
Proof.
  intros Hin Hl. induction cells as [|c cells IH]; simpl in *; [contradiction|].
  destruct Hin as [-> | Hin].
  - rewrite Hl. now left.
  - destruct c as [x|]; [|now apply IH].
    destruct (Text.isEmpty (Text.sqlTrim x)); [now apply IH|right; now apply IH].
Qed.

(** The reference a legacy cell is given: that of its label, upper case and
    trimmed; that of the sentinel for [NULL]; for a blank cell that of the
    empty label if the registry has one, else that of the sentinel. *)
Definition resolved (types : list BloodTypeRow) (cell : option string) (ref : Z) : Prop :=
  match cell with
  | None => typeID types (Some "UNKNOWN") = Some ref
  | Some l =>
      if Text.isEmpty (Text.sqlTrim l)
      then typeID types (Some "") = Some ref \/ typeID types (Some "UNKNOWN") = Some ref
      else typeID types (Some (sqlLabel l)) = Some ref
  end.

Lemma resolveLabel_resolved types cells cell ref :
  covers types cells -> In cell cells ->
  resolveLabel types cell = Some ref -> resolved types cell ref.
Proof.
  intros Hcov Hin. unfold resolveLabel, resolved. destruct cell as [l|]; simpl.
  - destruct (Text.isEmpty (Text.sqlTrim l)) eqn:Hl.
    + apply isEmpty_true in Hl. unfold sqlLabel. rewrite Hl.
      change (Text.sqlUpper "") with "".
      destruct (find _ types); simpl; [now left|now right].
    + assert (H : hasLabel types (sqlLabel l) = true).
      { apply Hcov. unfold distinctLabels. apply nodup_In.
        now apply selectLabels_in. }
      destruct (typeID_found types (sqlLabel l) H) as [b [_ [_ E]]].
      simpl in E. now rewrite E.
  - trivial.
Qed.

Lemma Forall2_impl_in {A B} (R R' : A -> B -> Prop) l l' :
  (forall x y, In x l -> R x y -> R' x y) -> Forall2 R l l' -> Forall2 R' l l'.
Proof.
  intros H F. induction F as [|x y l l' Hxy _ IH]; constructor.
  - apply H; [now left|exact Hxy].
  - apply IH. intros a b Ha. apply H. now right.
Qed.

Lemma distinct_NoDup l : distinct l = true <-> NoDup l.
Proof.
  induction l as [|x l IH]; simpl; [split; [constructor|reflexivity]|].
  rewrite andb_true_iff, negb_true_iff, IH. split.
  - intros [Hx Hl]. constructor; [|exact Hl]. intros Hin.
    assert (existsb (Z.eqb x) l = true); [|congruence].
    apply existsb_exists. exists x. split; [exact Hin|apply Z.eqb_refl].
  - intros H. inversion H as [|? ? Hx Hl]; subst. split; [|exact Hl].
    destruct (existsb (Z.eqb x) l) eqn:E; [|reflexivity].
    apply existsb_exists in E as [y [Hy E]]. apply Z.eqb_eq in E. now subst.
Qed.

Lemma NoDup_map_Some {A} (l : list A) : NoDup l -> NoDup (map Some l).
Proof.
  induction 1 as [|x l Hx _ IH]; simpl; constructor; [|exact IH].
  intros H. apply in_map_iff in H as [y [E Hy]]. inversion E; subst. contradiction.
Qed.

Lemma insertOrIgnore_keeps types label b : In b types -> In b (insertOrIgnore types label).
Proof.
  unfold insertOrIgnore. destruct (hasLabel types label); [trivial|].
  intros H. apply in_or_app. now left.
Qed.

Lemma insertOrIgnore_in types label b :
  In b (insertOrIgnore types label) -> In b types \/ bt_type b = label.
Proof.
  unfold insertOrIgnore. destruct (hasLabel types label); [now left|].
  intros H. apply in_app_or in H as [H | [<- | []]]; [now left|now right].
Qed.

Lemma insertLabels_keeps labels types b : In b types -> In b (insertLabels labels types).
Proof.
  unfold insertLabels. revert types.
  induction labels as [|l labels IH]; simpl; intros types H; [exact H|].
  apply IH. now apply insertOrIgnore_keeps.
Qed.

Lemma insertLabels_in labels types b :
  In b (insertLabels labels types) -> In b types \/ In (bt_type b) labels.
Proof.
  unfold insertLabels. revert types.
  induction labels as [|l labels IH]; simpl; intros types H; [now left|].
  apply IH in H as [H | H]; [|now right; right].
  apply insertOrIgnore_in in H as [H | H]; [now left|right; left; now symmetry].
Qed.

Lemma selectLabels_from cells x :
  In x (selectLabels cells) ->
  exists l, In (Some l) cells /\ Text.isEmpty (Text.sqlTrim l) = false /\ x = sqlLabel l.
Proof.
  induction cells as [|c cells IH]; simpl; [contradiction|].
  destruct c as [l|].
  - destruct (Text.isEmpty (Text.sqlTrim l)) eqn:E.
    + intros H. destruct (IH H) as [l' [H1 H2]]. exists l'. split; [now right|exact H2].
    + intros [<- | H].
      * exists l. split; [now left|]. split; [exact E|reflexivity].
      * destruct (IH H) as [l' [H1 H2]]. exists l'. split; [now right|exact H2].
  - intros H. destruct (IH H) as [l' [H1 H2]]. exists l'. split; [now right|exact H2].
Qed.

(** The label of a row the preparing statements have added. *)
Definition legacyLabel (dn : list LegacyDonorRow) (rc : list LegacyRecipientRow)
  (iv : list LegacyInventoryRow) (label : string) : Prop :=
  label = "UNKNOWN" \/
  exists l,
    In (Some l) (map ldn_blood_type dn ++ map lrc_blood_type rc ++ map liv_blood_type iv) /\
    Text.isEmpty (Text.sqlTrim l) = false /\ label = sqlLabel l.

Lemma preparedTypes_rows types dn rc iv :
  (forall b, In b types -> In b (preparedTypes types dn rc iv)) /\
  (forall b, In b (preparedTypes types dn rc iv) ->
     In b types \/ legacyLabel dn rc iv (bt_type b)) /\
  (forall label, legacyLabel dn rc iv label ->
     hasLabel (preparedTypes types dn rc iv) label = true).
Proof.
  split; [|split].
  - intros b H. unfold preparedTypes.
    now apply insertOrIgnore_keeps, insertLabels_keeps, insertLabels_keeps,
      insertLabels_keeps.
  - intros b H. unfold preparedTypes in H.
    assert (Hfrom : forall cells,
              In (bt_type b) (distinctLabels cells) ->
              exists l, In (Some l) cells /\ Text.isEmpty (Text.sqlTrim l) = false /\
                        bt_type b = sqlLabel l).
    { intros cells Hc. unfold distinctLabels in Hc. apply nodup_In in Hc.
      now apply selectLabels_from. }
    apply insertOrIgnore_in in H as [H | H]; [|right; now left].
    apply insertLabels_in in H as [H | H].
    + apply insertLabels_in in H as [H | H].
      * apply insertLabels_in in H as [H | H]; [now left|].
        right; right. destruct (Hfrom _ H) as [l [H1 H2]]. exists l.
        split; [|exact H2]. apply in_or_app. now left.
      * right; right. destruct (Hfrom _ H) as [l [H1 H2]]. exists l.
        split; [|exact H2]. apply in_or_app. right. apply in_or_app. now left.
    + right; right. destruct (Hfrom _ H) as [l [H1 H2]]. exists l.
      split; [|exact H2]. apply in_or_app. right. apply in_or_app. now right.
  - destruct (preparedTypes_covers types dn rc iv) as [Cdn [Crc [Civ Hu]]].
    intros label [-> | [l [Hin [Hl ->]]]]; [exact Hu|].
    apply in_app_or in Hin as [Hin | Hin]; [|apply in_app_or in Hin as [Hin | Hin]].
    + apply Cdn. unfold distinctLabels. apply nodup_In. now apply selectLabels_in.
    + apply Crc. unfold distinctLabels. apply nodup_In. now apply selectLabels_in.
    + apply Civ. unfold distinctLabels. apply nodup_In. now apply selectLabels_in.
Qed.

(** X20: what a finished migration leaves.  On a legacy database (the
    donors, the recipients and the inventory with their text label, no
    replacement table left behind, ids distinct), when [migrateTo3NF] returns
    no error: every table is normalized and foreign keys are on; the
    registry keeps the rows it had and has, beside them, a row for the
    sentinel [UNKNOWN] and for each legacy label, in upper case and trimmed,
    and no other; every row is there, in its place, with its id and every
    column it had but the label; the reference that replaces the label is
    the one the registry has for the label in upper case and trimmed, or for
    the sentinel [UNKNOWN] when the label is [NULL]; and no blood type has
    two inventory rows.  The ids of the new rows of the registry are not
    named. *)
Theorem migrateTo3NF_legacy (fk : bool) (bt : option (list BloodTypeRow))
  (dn : list LegacyDonorRow) (rc : list LegacyRecipientRow) (da : DonationsTable)
  (rq : RequestsTable) (iv : list LegacyInventoryRow) :
  distinct (map ldn_id dn) = true -> distinct (map lrc_id rc) = true ->
  distinct (map da_id (donationRows da)) = true ->
  distinct (map rq_id (requestRows rq)) = true ->
  distinct (map liv_id iv) = true ->
  fst (migrateTo3NF (legacy fk bt dn rc da rq iv)) = None ->
  exists s,
    storeOf (snd (migrateTo3NF (legacy fk bt dn rc da rq iv))) = Some s /\
    foreign_keys (snd (migrateTo3NF (legacy fk bt dn rc da rq iv))) = true /\
    (forall b, In b (typesOf bt) -> In b (blood_types s)) /\
    (forall b, In b (blood_types s) ->
       In b (typesOf bt) \/ legacyLabel dn rc iv (bt_type b)) /\
    (forall label, legacyLabel dn rc iv label ->
       hasLabel (blood_types s) label = true) /\
    Forall2 (fun r n =>
               n = mkDonor (ldn_id r) (ldn_name r) (dn_blood_type_id n) (ldn_phone r)
                           (ldn_city r) (ldn_created_at r) (ldn_deleted_at r) /\
               resolved (blood_types s) (ldn_blood_type r) (dn_blood_type_id n))
            dn (donors s) /\
    Forall2 (fun r c =>
               c = mkRecipient (lrc_id r) (lrc_name r) (rc_blood_type_id c) (lrc_phone r)
                               (lrc_hospital r) (lrc_created_at r) (lrc_deleted_at r) /\
               resolved (blood_types s) (lrc_blood_type r) (rc_blood_type_id c))
            rc (recipients s) /\
    donations s = donationRows da /\
    requests s = requestRows rq /\
    Forall2 (fun r i =>
               i = mkInventory (liv_id r) (iv_blood_type_id i) (liv_units r)
                               (liv_deleted_at r) /\
               resolved (blood_types s) (liv_blood_type r) (iv_blood_type_id i))
            iv (inventory s) /\
    NoDup (map iv_blood_type_id (inventory s)).
Proof.
  intros Hdn Hrc Hda Hrq Hiv Hok.
  destruct (migrateTo3NF_legacy_run fk bt dn rc da rq iv Hdn Hrc Hda Hrq Hiv)
    as [dn' [rc' [iv' [Fdn [Frc [Fiv Hrun]]]]]].
  destruct (preparedTypes_covers (typesOf bt) dn rc iv) as [Cdn [Crc [Civ _]]].
  destruct (preparedTypes_rows (typesOf bt) dn rc iv) as [Rkeep [Rfrom Rhas]].
  rewrite Hrun in *. clear Hrun.
  destruct (distinct (map iv_blood_type_id iv')) eqn:Hdistinct; [|discriminate].
  eexists. split; [reflexivity|]. split; [reflexivity|].
  cbn [blood_types donors recipients donations requests inventory snd].
  split; [exact Rkeep|]. split; [exact Rfrom|]. split; [exact Rhas|].
  split; [|split; [|split; [|split; [|split]]]]; try reflexivity.
  - refine (Forall2_impl_in _ _ _ _ _ Fdn). intros r n Hr H.
    unfold migrateDonor in H.
    destruct (resolveLabel _ (ldn_blood_type r)) as [id|] eqn:E; inversion H; subst.
    split; [reflexivity|].
    apply (resolveLabel_resolved _ (map ldn_blood_type dn)); [exact Cdn| |exact E].
    now apply in_map.
  - refine (Forall2_impl_in _ _ _ _ _ Frc). intros r c Hr H.
    unfold migrateRecipient in H.
    destruct (resolveLabel _ (lrc_blood_type r)) as [id|] eqn:E; inversion H; subst.
    split; [reflexivity|].
    apply (resolveLabel_resolved _ (map lrc_blood_type rc)); [exact Crc| |exact E].
    now apply in_map.
  - refine (Forall2_impl_in _ _ _ _ _ Fiv). intros r i Hr H.
    unfold migrateInventory in H.
    destruct (resolveLabel _ (liv_blood_type r)) as [id|] eqn:E; inversion H; subst.
    split; [reflexivity|].
    apply (resolveLabel_resolved _ (map liv_blood_type iv)); [exact Civ| |exact E].
    now apply in_map.
  - now apply distinct_NoDup.
Qed.

Lemma migrateTo3NF_legacy_witness :
  exists s, storeOf (snd (migrateTo3NF legacyDatabase)) = Some s.
Proof.
  destruct (migrateTo3NF_legacy true (Some [])
       [ mkLegacyDonor 1 "Asha" (Some " o+ ") (Some "555-0101") (Some "Pune")
                       "2024-11-02" None;
         mkLegacyDonor 2 "Kiran" (Some "  ") None None "2024-11-05" None ]
       [ mkLegacyRecipient 1 "Ravi" (Some "ab-") None (Some "City Hospital")
                           "2024-11-03" None ]
       (LegacyDonations
          [ mkLegacyDonation 1 1 (Some "O+") 3 "2024-11-02" "2025-01-02" None ])
       (LegacyRequests
          [ mkLegacyRequest 1 1 (Some "AB-") 1 "Pending" "2024-11-04" None ])
       [ mkLegacyInventory 1 (Some "O+") 3 None ]
       eq_refl eq_refl eq_refl eq_refl eq_refl eq_refl) as [s [Hs _]].
  exists s. exact Hs.
Defined.

(** X21: a migration stopped by the inventory stays stopped.  On a legacy
    database as above, [migrateTo3NF] returns an error exactly when two
    inventory rows are given the same reference (their labels differ only
    by case or spaces, or both are blank or [NULL]); the error is the
    [UNIQUE] failure of [inventory_new]; the legacy tables are all there
    still, with their rows, beside the replacement tables (the one of the
    inventory empty), and foreign keys are off; and every later run fails at
    once, on [CREATE TABLE donors_new], and changes nothing. *)
Theorem migrateTo3NF_stopped (fk : bool) (bt : option (list BloodTypeRow))
  (dn : list LegacyDonorRow) (rc : list LegacyRecipientRow) (da : DonationsTable)
  (rq : RequestsTable) (iv : list LegacyInventoryRow) :
  distinct (map ldn_id dn) = true -> distinct (map lrc_id rc) = true ->
  distinct (map da_id (donationRows da)) = true ->
  distinct (map rq_id (requestRows rq)) = true ->
  distinct (map liv_id iv) = true ->
  let types := preparedTypes (typesOf bt) dn rc iv in
  let stopped := snd (migrateTo3NF (legacy fk bt dn rc da rq iv)) in
  (fst (migrateTo3NF (legacy fk bt dn rc da rq iv)) <> None <->
   ~ NoDup (map (fun r => resolveLabel types (liv_blood_type r)) iv)) /\
  (fst (migrateTo3NF (legacy fk bt dn rc da rq iv)) <> None ->
   fst (migrateTo3NF (legacy fk bt dn rc da rq iv)) =
     Some (ErrSQL "UNIQUE constraint failed: inventory_new.blood_type_id") /\
   foreign_keys stopped = false /\
   tbl_donors stopped = Some (LegacyDonors dn) /\
   tbl_recipients stopped = Some (LegacyRecipients rc) /\
   tbl_donations stopped = Some da /\ tbl_requests stopped = Some rq /\
   tbl_inventory stopped = Some (LegacyInventory iv) /\
   tbl_inventory_new stopped = Some [] /\
   storeOf stopped = None /\
   migrateTo3NF stopped = (Some (ErrSQL "table donors_new already exists"), stopped)).
Proof.
  intros Hdn Hrc Hda Hrq Hiv types stopped. unfold stopped. clear stopped.
  destruct (migrateTo3NF_legacy_run fk bt dn rc da rq iv Hdn Hrc Hda Hrq Hiv)
    as [dn' [rc' [iv' [Fdn [Frc [Fiv Hrun]]]]]].
  fold types in Fdn, Frc, Fiv, Hrun.
  assert (Hrefs : map (fun r => resolveLabel types (liv_blood_type r)) iv =
                  map (fun i => Some (iv_blood_type_id i)) iv').
  { symmetry. apply (Forall2_map_eq (fun x y => migrateInventory types x = Some y));
      [|exact Fiv].
    intros x y H. unfold migrateInventory in H.
    destruct (resolveLabel types (liv_blood_type x)); inversion H. reflexivity. }
  assert (Hnodup : NoDup (map (fun r => resolveLabel types (liv_blood_type r)) iv) <->
                   distinct (map iv_blood_type_id iv') = true).
  { rewrite Hrefs, distinct_NoDup, <- (map_map iv_blood_type_id Some). split.
    - apply NoDup_map_inv.
    - apply NoDup_map_Some. }
  rewrite Hrun. destruct (distinct (map iv_blood_type_id iv')) eqn:Hdistinct.
  - split; [|intros H; now destruct H]. split; [intros H; now destruct H|].
    intros H. destruct H. now apply Hnodup.
  - split.
    + split; [|discriminate]. intros _ H. apply Hnodup in H. discriminate.
    + intros _. cbn [fst snd foreign_keys tbl_donors tbl_recipients tbl_donations
                     tbl_requests tbl_inventory tbl_inventory_new].
      repeat (split; [reflexivity|]).
      unfold migrateTo3NF. rewrite tableHasColumn_donors. cbn [tbl_donors negb].
      cbv iota. rewrite migrationScript_phases, execAll_app, Prepared_absorbed.
      * reflexivity.
      * destruct (preparedTypes_covers (typesOf bt) dn rc iv) as [Cdn [Crc [Civ Hu]]].
        split; [reflexivity|]. exists types, dn, rc, iv. now repeat split.
Qed.

(** A legacy inventory with the same label written in two ways. *)
Definition collidingDatabase : Database :=
  legacy true (Some [])
    [ mkLegacyDonor 1 "Asha" (Some "O+") (Some "555-0101") (Some "Pune")
                    "2024-11-02" None ]
    [] (LegacyDonations []) (LegacyRequests [])
    [ mkLegacyInventory 1 (Some "O+") 3 None; mkLegacyInventory 2 (Some "o+ ") 1 None ].

Lemma migrateTo3NF_stopped_witness :
  migrateTo3NF (snd (migrateTo3NF collidingDatabase)) =
    (Some (ErrSQL "table donors_new already exists"), snd (migrateTo3NF collidingDatabase)).
Proof.
  apply (migrateTo3NF_stopped true (Some [])
    [ mkLegacyDonor 1 "Asha" (Some "O+") (Some "555-0101") (Some "Pune")
                    "2024-11-02" None ]
    [] (LegacyDonations []) (LegacyRequests [])
    [ mkLegacyInventory 1 (Some "O+") 3 None; mkLegacyInventory 2 (Some "o+ ") 1 None ]
    eq_refl eq_refl eq_refl eq_refl eq_refl).
  discriminate.
Defined.

(** ** Start-up *)

Import Startup.

(** No table of the database is in its legacy shape. *)
Definition normalizedOrAbsent (d : Database) : bool :=
  match tbl_donors d with Some (LegacyDonors _) => false | _ => true end &&
  match tbl_recipients d with Some (LegacyRecipients _) => false | _ => true end &&
  match tbl_donations d with Some (LegacyDonations _) => false | _ => true end &&
  match tbl_requests d with Some (LegacyRequests _) => false | _ => true end &&
  match tbl_inventory d with Some (LegacyInventory _) => false | _ => true end.

(** The rows of the normalized tables, none for a table that is absent. *)
Definition readyStore (d : Database) : Store :=
  mkStore
    (typesOf (tbl_blood_types d))
    match tbl_donors d with Some (NormalDonors rows) => rows | _ => [] end
    match tbl_recipients d with Some (NormalRecipients rows) => rows | _ => [] end
    match tbl_donations d with Some (NormalDonations rows) => rows | _ => [] end
    match tbl_inventory d with Some (NormalInventory rows) => rows | _ => [] end
    match tbl_requests d with Some (NormalRequests rows) => rows | _ => [] end.

(** The database [initDB] leaves when it returns no error: the rows of
    [readyStore], foreign keys on, the replacement tables as they were. *)
Definition ready (d : Database) : Database :=
  mkDatabase true
    (Some (blood_types (readyStore d)))
    (Some (NormalDonors (donors (readyStore d))))
    (Some (NormalRecipients (recipients (readyStore d))))
    (Some (NormalDonations (donations (readyStore d))))
    (Some (NormalRequests (requests (readyStore d))))
    (Some (NormalInventory (inventory (readyStore d))))
    (tbl_donors_new d) (tbl_recipients_new d) (tbl_donations_new d)
    (tbl_requests_new d) (tbl_inventory_new d).

Lemma schema_run d : normalizedOrAbsent d = true -> execAll schema d = (None, ready d).
Proof.
  destruct d as [fk bt dn rc da rq iv dnn rcn dan rqn ivn].
  unfold normalizedOrAbsent. simpl.
  destruct dn as [[dn|dn]|]; try discriminate;
  destruct rc as [[rc|rc]|]; try discriminate;
  destruct da as [[da|da]|]; try discriminate;
  destruct rq as [[rq|rq]|]; try discriminate;
  destruct iv as [[iv|iv]|]; try discriminate;
  destruct bt as [bt|]; reflexivity.
Qed.

Lemma initDB_normalized fk bt dn rc da rq iv dnn rcn dan rqn ivn :
  initDB (mkDatabase fk (Some bt) (Some (NormalDonors dn)) (Some (NormalRecipients rc))
            (Some (NormalDonations da)) (Some (NormalRequests rq))
            (Some (NormalInventory iv)) dnn rcn dan rqn ivn) =
  Some (if distinct (map iv_blood_type_id iv)
        then None
        else Some (ErrSQL "UNIQUE constraint failed: inventory.blood_type_id"),
        mkDatabase true (Some bt) (Some (NormalDonors dn)) (Some (NormalRecipients rc))
          (Some (NormalDonations da)) (Some (NormalRequests rq))
          (Some (NormalInventory iv)) dnn rcn dan rqn ivn).
Proof.
  unfold initDB. cbn. now destruct (distinct (map iv_blood_type_id iv)).
Qed.

(** X22: start-up on a database without legacy tables (a first start, with
    no table at all, among them).  [initDB] creates the tables that are
    missing, empty, and keeps the rows of the others; it turns foreign keys
    on; it returns no error unless two inventory rows have the same blood
    type, in which case it returns the failure of the unique index; and it
    does the same, and changes nothing, when run again on what it left. *)
Theorem initDB_ready (d : Database) :
  normalizedOrAbsent d = true ->
  initDB d =
    Some (if distinct (map iv_blood_type_id (inventory (readyStore d)))
          then None
          else Some (ErrSQL "UNIQUE constraint failed: inventory.blood_type_id"),
          ready d) /\
  storeOf (ready d) = Some (readyStore d) /\
  initDB (ready d) = initDB d.
Proof.
  intros H.
  assert (Hsame : initDB d = initDB (ready d)).
  { unfold initDB. rewrite (schema_run d H), (schema_run (ready d) eq_refl).
    reflexivity. }
  split; [|split; [reflexivity|now symmetry]].
  rewrite Hsame. apply initDB_normalized.
Qed.

Lemma initDB_ready_witness :
  initDB emptyDatabase = Some (None, ready emptyDatabase) /\
  storeOf (ready emptyDatabase) = Some emptyStore /\
  initDB (ready emptyDatabase) = initDB emptyDatabase.
Proof. apply (initDB_ready emptyDatabase). reflexivity. Defined.

Lemma schema_legacy fk bt dn rc da rq iv :
  execAll schema (legacy fk bt dn rc da rq iv) =
  (None, legacy true (Some (typesOf bt)) dn rc da rq iv).
Proof. destruct bt; reflexivity. Qed.

(** X23: start-up on a legacy database is its migration.  With distinct
    ids, [initDB] returns what [migrateTo3NF] returns on the database with
    foreign keys on and the registry created; when that is no error, the
    tables are normalized, the unique index on the inventory is built, and
    a restart returns no error and changes nothing. *)
Theorem initDB_upgrade (fk : bool) (bt : option (list BloodTypeRow))
  (dn : list LegacyDonorRow) (rc : list LegacyRecipientRow) (da : DonationsTable)
  (rq : RequestsTable) (iv : list LegacyInventoryRow) :
  distinct (map ldn_id dn) = true -> distinct (map lrc_id rc) = true ->
  distinct (map da_id (donationRows da)) = true ->
  distinct (map rq_id (requestRows rq)) = true ->
  distinct (map liv_id iv) = true ->
  let migrated := migrateTo3NF (legacy true (Some (typesOf bt)) dn rc da rq iv) in
  initDB (legacy fk bt dn rc da rq iv) = Some migrated /\
  (fst migrated = None ->
   (exists s, storeOf (snd migrated) = Some s) /\
   initDB (snd migrated) = Some (None, snd migrated)).
Proof.
  intros Hdn Hrc Hda Hrq Hiv migrated. unfold migrated. clear migrated.
  destruct (migrateTo3NF_legacy_run true (Some (typesOf bt)) dn rc da rq iv
              Hdn Hrc Hda Hrq Hiv) as [dn' [rc' [iv' [_ [_ [_ Hrun]]]]]].
  unfold initDB at 1. rewrite schema_legacy, Hrun.
  destruct (distinct (map iv_blood_type_id iv')) eqn:Hdistinct.
  - split.
    + cbn. now rewrite Hdistinct.
    + intros _. cbn [snd]. split; [eexists; reflexivity|].
      rewrite initDB_normalized. now rewrite Hdistinct.
  - split; [reflexivity|discriminate].
Qed.

Lemma initDB_upgrade_witness :
  initDB legacyDatabase = Some (migrateTo3NF legacyDatabase).
Proof.
  exact (proj1 (initDB_upgrade true (Some [])
       [ mkLegacyDonor 1 "Asha" (Some " o+ ") (Some "555-0101") (Some "Pune")
                       "2024-11-02" None;
         mkLegacyDonor 2 "Kiran" (Some "  ") None None "2024-11-05" None ]
       [ mkLegacyRecipient 1 "Ravi" (Some "ab-") None (Some "City Hospital")
                           "2024-11-03" None ]
       (LegacyDonations
          [ mkLegacyDonation 1 1 (Some "O+") 3 "2024-11-02" "2025-01-02" None ])
       (LegacyRequests
          [ mkLegacyRequest 1 1 (Some "AB-") 1 "Pending" "2024-11-04" None ])
       [ mkLegacyInventory 1 (Some "O+") 3 None ]
       eq_refl eq_refl eq_refl eq_refl eq_refl)).
Defined.

(** ** Amending and cancelling a request *)

Lemma requestJoin_one s keep r c :
  NoDup (map rq_id (requests s)) -> NoDup (map rc_id (recipients s)) ->
  In r (requests s) -> keep r = true ->
  (forall y, keep y = true -> rq_id y = rq_id r) ->
  In c (recipients s) -> rc_id c = rq_recipient_id r ->
  requestJoin s keep = [(rc_blood_type_id c, rq_units r)].
Proof.
  intros Hrq Hrc Hr Hkeep Hkey Hc Hlink. unfold requestJoin.
  rewrite (flat_map_key rq_id keep _ (requests s) r Hrq Hr Hkeep Hkey).
  rewrite <- Hlink. now rewrite (filter_key rc_id (recipients s) c Hrc Hc).
Qed.

Lemma rowOf_amended s id units status r :
  NoDup (map rq_id (requests s)) -> In r (requests s) -> rq_id r = id ->
  rowOf (setRequests s (map (amendRow id units status) (requests s))) id =
  Some (mkRequest id (rq_recipient_id r) units status (rq_request_date r)
                  (rq_deleted_at r)).
Proof.
  intros Hnd Hr Hid. unfold rowOf at 1. simpl requests.
  rewrite (rowOf_update s id _ (amendRow_id id units status)).
  assert (rowOf s id = Some r) as ->.
  { apply (find_key rq_id); [exact Hnd|exact Hr|now apply Z.eqb_eq|].
    intros y Hy. apply Z.eqb_eq in Hy. congruence. }
  simpl. unfold amendRow. now rewrite Hid, Z.eqb_refl.
Qed.

(** X25: amending a request that is active and not Fulfilled, with a valid
    form whose status is ASCII, on a store with distinct ids.  With a status
    other than Fulfilled
    the request gets the units and the (trimmed) status of the form and the
    inventory is not touched.  With the status Fulfilled the ledger is
    debited, for the blood type of the recipient, by the units of the form
    (not by the units the request had): when the balance covers them the
    request gets these units and the status Fulfilled, and the balance is
    lowered by them; when it does not the answer is the rejection and the
    store is unchanged. *)
Theorem handleRequestsUpdate_amend (id units : Z) (status : string) (s : Store)
  (r : RequestRow) (c : RecipientRow) :
  Text.isASCII status = true ->
  id <> 0 -> 0 < units -> Text.TrimSpace status <> "" ->
  NoDup (map rq_id (requests s)) -> NoDup (map rc_id (recipients s)) ->
  In r (requests s) -> rq_id r = id -> rq_deleted_at r = None ->
  rq_status r <> "Fulfilled" ->
  In c (recipients s) -> rc_id c = rq_recipient_id r -> rc_blood_type_id c <> 0 ->
  let answer := handleRequestsUpdate id units status s in
  let amended :=
    mkRequest id (rq_recipient_id r) units (Text.TrimSpace status) (rq_request_date r)
              None in
  (Text.TrimSpace status <> "Fulfilled" ->
   fst answer = Redirect /\ rowOf (snd answer) id = Some amended /\
   inventory (snd answer) = inventory s) /\
  (Text.TrimSpace status = "Fulfilled" ->
   (forall current,
      activeBalance s (rc_blood_type_id c) = Some current -> units <= current ->
      fst answer = Redirect /\ rowOf (snd answer) id = Some amended /\
      activeBalance (snd answer) (rc_blood_type_id c) = Some (current - units)) /\
   (activeBalance s (rc_blood_type_id c) = None \/
    (exists current,
       activeBalance s (rc_blood_type_id c) = Some current /\ current < units) ->
    answer = (Render "Not enough inventory to fulfill request.", s))).
Proof.
  intros _ Hid Hunits Hstatus Hrq Hrc Hr Hrid Hlive Hopen Hc Hlink Htype answer amended.
  unfold answer, handleRequestsUpdate. clear answer.
  apply Z.eqb_neq in Hid. rewrite Hid.
  assert ((units <=? 0) = false) as -> by (apply Z.leb_gt; lia).
  apply isEmpty_false in Hstatus. rewrite Hstatus. cbn [orb].
  assert (Hactive : activeRequest s id = Some r).
  { apply (find_key rq_id); [exact Hrq|exact Hr| |].
    - now rewrite Hrid, Z.eqb_refl, Hlive.
    - intros y Hy. apply andb_prop in Hy as [Hy _]. apply Z.eqb_eq in Hy. congruence. }
  rewrite Hactive. apply String.eqb_neq in Hopen. rewrite Hopen. cbn [andb negb].
  assert (Hrow : forall s1, requests s1 = requests s ->
            rowOf (setRequests s1 (map (amendRow id units (Text.TrimSpace status))
                                       (requests s1))) id = Some amended).
  { intros s1 E. unfold amended. rewrite <- Hlive.
    apply rowOf_amended; rewrite ?E; assumption. }
  split.
  - intros Hne. apply String.eqb_neq in Hne. rewrite Hne. cbn [fst snd].
    split; [reflexivity|]. split; [now apply Hrow|reflexivity].
  - intros He. rewrite He in *. cbn [String.eqb Ascii.eqb Bool.eqb].
    change (String.eqb "Fulfilled" "Fulfilled") with true. cbv iota.
    assert (Hjoin : getRequestBloodTypeID s id = Ok (rc_blood_type_id c)).
    { unfold getRequestBloodTypeID.
      rewrite (requestJoin_one s _ r c Hrq Hrc Hr); try assumption.
      - apply Z.eqb_neq in Htype. now rewrite Htype.
      - now rewrite Hrid, Z.eqb_refl, Hlive.
      - intros y Hy. apply andb_prop in Hy as [Hy _]. apply Z.eqb_eq in Hy. congruence. }
    rewrite Hjoin. split.
    + intros current Hbal Hle. unfold consumeInventoryByTypeID. rewrite Hbal.
      apply Z.ltb_ge in Hle. rewrite Hle. cbn [fst snd].
      split; [reflexivity|]. split; [now apply Hrow|].
      match goal with
      | |- activeBalance (setRequests ?x ?l) ?t = _ =>
          change (activeBalance (setRequests x l) t) with (activeBalance x t)
      end.
      now rewrite activeBalance_debit, Hbal, Z.eqb_refl.
    + intros Hlow.
      now rewrite (consumeInventoryByTypeID_insufficient s _ units Hlow).
Qed.

Lemma handleRequestsUpdate_amend_witness :
  fst (handleRequestsUpdate 1 3 " Fulfilled " pendingRequest) = Redirect /\
  activeBalance (snd (handleRequestsUpdate 1 3 " Fulfilled " pendingRequest)) 1 = Some 0.
Proof.
  destruct (handleRequestsUpdate_amend 1 3 " Fulfilled " pendingRequest
              (mkRequest 1 1 2 "Pending" "2025-06-03" None)
              (mkRecipient 1 "Ravi" 1 (Some "555-0102") (Some "City Hospital")
                           "2025-06-01" None)) as [_ H].
  - reflexivity.
  - lia.
  - lia.
  - discriminate.
  - vm_compute. distinct_keys.
  - vm_compute. distinct_keys.
  - vm_compute. left. reflexivity.
  - reflexivity.
  - reflexivity.
  - discriminate.
  - vm_compute. left. reflexivity.
  - reflexivity.
  - simpl. lia.
  - destruct (H eq_refl) as [Hok _].
    destruct (Hok 3 eq_refl ltac:(lia)) as [H1 [_ H3]]. split; [exact H1|exact H3].
Defined.

(** X26: cancelling an active request, on a store with distinct request
    ids.  A Fulfilled request is refused and the store is unchanged; any
    other gets the status Cancelled and the day as its deletion date, keeps
    its units, and is no longer active; the inventory is not touched (a
    pending request holds no stock), nor is any other table. *)
Theorem handleRequestsDelete_spec (today : string) (id : Z) (s : Store) (r : RequestRow) :
  id <> 0 -> NoDup (map rq_id (requests s)) ->
  In r (requests s) -> rq_id r = id -> rq_deleted_at r = None ->
  let answer := handleRequestsDelete today id s in
  (rq_status r = "Fulfilled" ->
   answer = (Render "Cannot delete a fulfilled request.", s)) /\
  (rq_status r <> "Fulfilled" ->
   fst answer = Redirect /\
   rowOf (snd answer) id =
     Some (mkRequest id (rq_recipient_id r) (rq_units r) "Cancelled"
                     (rq_request_date r) (Some today)) /\
   activeRequest (snd answer) id = None /\
   snd answer = setRequests s (requests (snd answer))).
Proof.
  intros Hid Hrq Hr Hrid Hlive answer. unfold answer, handleRequestsDelete.
  apply Z.eqb_neq in Hid. rewrite Hid.
  assert (Hactive : activeRequest s id = Some r).
  { apply (find_key rq_id); [exact Hrq|exact Hr| |].
    - now rewrite Hrid, Z.eqb_refl, Hlive.
    - intros y Hy. apply andb_prop in Hy as [Hy _]. apply Z.eqb_eq in Hy. congruence. }
  assert (Hrow : rowOf s id = Some r).
  { apply (find_key rq_id); [exact Hrq|exact Hr|now apply Z.eqb_eq|].
    intros y Hy. apply Z.eqb_eq in Hy. congruence. }
  rewrite Hactive. split.
  - intros ->. reflexivity.
  - intros Hopen. apply String.eqb_neq in Hopen. rewrite Hopen. cbn [fst snd].
    split; [reflexivity|]. split; [|split; [|reflexivity]].
    + unfold rowOf at 1. simpl requests.
      rewrite (rowOf_update s id _ (cancelRow_id today id)), Hrow. simpl.
      unfold cancelRow. now rewrite Hrid, Z.eqb_refl.
    + unfold activeRequest. simpl requests. apply find_none_iff.
      intros y Hy. apply in_map_iff in Hy as [x [<- Hx]]. unfold cancelRow.
      destruct (rq_id x =? id) eqn:E; simpl; [now rewrite E|now rewrite E].
Qed.

Lemma handleRequestsDelete_spec_witness :
  fst (handleRequestsDelete "2025-06-04" 1 pendingRequest) = Redirect.
Proof.
  destruct (handleRequestsDelete_spec "2025-06-04" 1 pendingRequest
              (mkRequest 1 1 2 "Pending" "2025-06-03" None)) as [_ H].
  - lia.
  - vm_compute. distinct_keys.
  - vm_compute. left. reflexivity.
  - reflexivity.
  - reflexivity.
  - apply H. discriminate.
Defined.

(** ** Updating a donor *)

(** X27: the update of a donor, with ASCII fields, an id, a name and a
    blood type that are not blank, is always answered with the redirect.  The blood type
    gets its reference first, a new one when the label is not registered
    yet; then every donor row with the id, deleted or not, gets the trimmed
    name, phone and city and that reference, and keeps its dates.  When no
    donor has the id the donors are unchanged, and the label stays
    registered all the same. *)
Theorem handleDonorsUpdate_spec (id : Z) (name blood_type phone city : string)
  (s : Store) :
  asciiPost (PostDonorsUpdate id name blood_type phone city) = true ->
  id <> 0 -> Text.TrimSpace name <> "" -> normalizeBloodType blood_type <> "" ->
  let answer := handleDonorsUpdate id name blood_type phone city s in
  exists t,
    fst answer = Redirect /\
    lookupBloodType (snd answer) (normalizeBloodType blood_type) = Some t /\
    (lookupBloodType s (normalizeBloodType blood_type) = Some t /\
     blood_types (snd answer) = blood_types s \/
     lookupBloodType s (normalizeBloodType blood_type) = None /\
     blood_types (snd answer) =
       blood_types s ++ [mkBloodType t (normalizeBloodType blood_type)]) /\
    donors (snd answer) =
      map (updateDonorRow id (Text.TrimSpace name) t (Text.TrimSpace phone)
                          (Text.TrimSpace city)) (donors s) /\
    ((forall n, In n (donors s) -> dn_id n <> id) -> donors (snd answer) = donors s) /\
    (forall n, In n (donors s) -> dn_id n = id ->
       In (mkDonor id (Text.TrimSpace name) t (Some (Text.TrimSpace phone))
                   (Some (Text.TrimSpace city)) (dn_created_at n) (dn_deleted_at n))
          (donors (snd answer))).
Proof.
  intros _ Hid Hname Hlabel answer. unfold answer, handleDonorsUpdate. clear answer.
  apply Z.eqb_neq in Hid. apply isEmpty_false in Hname, Hlabel.
  rewrite Hid, Hname, Hlabel. cbn [orb].
  unfold getOrCreateBloodTypeID. rewrite normalizeBloodType_fixed, Hlabel.
  set (label := normalizeBloodType blood_type).
  set (update t := updateDonorRow id (Text.TrimSpace name) t (Text.TrimSpace phone)
                                  (Text.TrimSpace city)).
  assert (Hnone : forall t, (forall n, In n (donors s) -> dn_id n <> id) ->
                            map (update t) (donors s) = donors s).
  { intros t H. apply map_id_on. intros n Hn. unfold update, updateDonorRow.
    assert ((dn_id n =? id) = false) as -> by (apply Z.eqb_neq; now apply H).
    reflexivity. }
  assert (Hrow : forall t n, In n (donors s) -> dn_id n = id ->
            In (mkDonor id (Text.TrimSpace name) t (Some (Text.TrimSpace phone))
                        (Some (Text.TrimSpace city)) (dn_created_at n) (dn_deleted_at n))
               (map (update t) (donors s))).
  { intros t n Hn E. apply in_map_iff. exists n. split; [|exact Hn].
    unfold update, updateDonorRow. now rewrite E, Z.eqb_refl. }
  destruct (lookupBloodType s label) as [t|] eqn:Hfind; cbn [fst snd].
  - exists t. split; [reflexivity|]. split; [exact Hfind|]. split; [now left|].
    split; [reflexivity|]. split; [apply Hnone|apply Hrow].
  - exists (nextID (map bt_id (blood_types s))). split; [reflexivity|]. split.
    + unfold lookupBloodType in *. simpl. rewrite find_app.
      destruct (find _ (blood_types s)); [discriminate|]. simpl.
      now rewrite String.eqb_refl.
    + split; [now right|]. split; [reflexivity|]. split; [apply Hnone|apply Hrow].
Qed.

Lemma handleDonorsUpdate_spec_witness :
  exists t, fst (handleDonorsUpdate 7 "Asha" "b-" "" "" twoDonors) = Redirect /\
            lookupBloodType (snd (handleDonorsUpdate 7 "Asha" "b-" "" "" twoDonors)) "B-"
            = Some t.
Proof.
  destruct (handleDonorsUpdate_spec 7 "Asha" "b-" "" "" twoDonors) as [t [H1 [H2 _]]];
    first [reflexivity | discriminate | idtac].
  exists t. split; [exact H1|exact H2].
Defined.
